(** * The PBF output of Osmium: block accumulation, string interning,
      delta encoding and framing

    A shallow embedding of [Osmium::Output::PBF]
    (include/osmium/output/pbf.hpp) and of the collaborators it drives,
    followed by the properties of the writer.

    The class is a stateful object; here every member function is a function
    from the object's state to a [result]: either the new state, or the
    exception it throws, or a marker that the call left defined behaviour.
    Machine integers are [Z] with the wrap-around written out where the
    source fixes a width. Doubles are the kernel's binary64 floats. *)

From Stdlib Require Import ZArith String Ascii List Lia.
From Stdlib Require PrimFloat FloatOps SpecFloat Uint63.
From stdpp Require Import base option list gmap strings sorting.

Open Scope Z_scope.

(** ** Fixed-width integers *)

Definition to_uint16 (z : Z) : Z := z mod 2 ^ 16.
Definition to_uint32 (z : Z) : Z := z mod 2 ^ 32.
Definition to_int32 (z : Z) : Z := (z + 2 ^ 31) mod 2 ^ 32 - 2 ^ 31.
Definition to_int64 (z : Z) : Z := (z + 2 ^ 63) mod 2 ^ 64 - 2 ^ 63.

Definition is_int64 (z : Z) : Prop := - 2 ^ 63 <= z < 2 ^ 63.

(** ** Outcomes of a member function *)

Inductive failure : Type :=
  | runtime_error (what : string)
      (* throw std::runtime_error(what) *)
  | invalid_string_id (interim_id : Z)
      (* map_string_id called on an id the map does not bind *)
  | undefined_conversion
      (* a double that is NaN, infinite or out of range converted to int64_t *)
  | dangling_group.
      (* a PrimitiveGroup pointer used while NULL, or an index past the end *)

Inductive result (A : Type) : Type :=
  | Ok (a : A)
  | Err (e : failure).
Arguments Ok {A} a.
Arguments Err {A} e.

Global Instance result_ret : MRet result := fun _ a => Ok a.
Global Instance result_bind : MBind result := fun _ _ f m =>
  match m with
  | Ok a => f a
  | Err e => Err e
  end.

Definition is_ok {A} (r : result A) : Prop :=
  match r with Ok _ => True | Err _ => False end.

(** ** Doubles *)

Module Double.

Definition of_nonneg (z : Z) : PrimFloat.float :=
  if z <? 2 ^ 63 then PrimFloat.of_uint63 (Uint63.of_Z z)
  else PrimFloat.mul (PrimFloat.of_uint63 (Uint63.of_Z (z / 2)))
                     (PrimFloat.of_uint63 (Uint63.of_Z 2)).

(** Conversion of an integer in the int64_t range to double. *)
Definition of_int (z : Z) : PrimFloat.float :=
  if z <? 0 then PrimFloat.opp (of_nonneg (- z)) else of_nonneg z.

(** [round(x)] of <cmath>, half away from zero, read as an integer.
    [None] for NaN and the infinities. *)
Definition round (x : PrimFloat.float) : option Z :=
  match FloatOps.Prim2SF x with
  | SpecFloat.S754_zero _ => Some 0
  | SpecFloat.S754_finite sign m e =>
      let magnitude :=
        if 0 <=? e then Z.pos m * 2 ^ e
        else
          let d := 2 ^ (- e) in
          let q := Z.pos m / d in
          let r := Z.pos m mod d in
          if d <=? 2 * r then q + 1 else q in
      Some (if sign then - magnitude else magnitude)
  | _ => None
  end.

(** Truncation toward zero, the conversion double -> integer of C++. *)
Definition trunc (x : PrimFloat.float) : option Z :=
  match FloatOps.Prim2SF x with
  | SpecFloat.S754_zero _ => Some 0
  | SpecFloat.S754_finite sign m e =>
      let magnitude :=
        if 0 <=? e then Z.pos m * 2 ^ e else Z.pos m / 2 ^ (- e) in
      Some (if sign then - magnitude else magnitude)
  | _ => None
  end.

(** The implicit conversion to int64_t: defined only inside the range. *)
Definition to_int64_t (v : option Z) : result Z :=
  match v with
  | Some z =>
      if (- 2 ^ 63 <=? z) && (z <? 2 ^ 63) then Ok z
      else Err undefined_conversion
  | None => Err undefined_conversion
  end.

End Double.

(** ** Delta *)

(** Modelled from the spec: osmium/utils/delta.hpp is not among the sources.
    Section 4.1: [update(v)] returns [v - prev] and sets [prev := v];
    [clear()] sets [prev := 0]; the integer width [T] is that of the column.
    The argument is passed as a [T], the difference is computed in [T]. *)
Record Delta : Type := { prev : Z }.

Definition Delta_init : Delta := {| prev := 0 |}.

Definition Delta_update (T : Z -> Z) (new_value : Z) (d : Delta) : Z * Delta :=
  (T (T new_value - prev d), {| prev := T new_value |}).

Definition Delta_clear (d : Delta) : Delta := {| prev := 0 |}.

(** ** StringTable *)

(** Modelled from the spec: osmium/utils/stringtable.hpp is not among the
    sources. Section 3 and 4.2: a mapping from string to interim id, ids
    allocated from 1 upwards, a usage count per string, and a second
    structure, built at flush time, from interim id to final id. *)
Record string_info : Type := { interim_id : Z; count : Z }.

Record StringTable : Type := {
  m_strings : gmap string string_info;
  m_size : Z;
  m_id2id_map : gmap Z Z
}.

Definition StringTable_init : StringTable :=
  {| m_strings := ∅; m_size := 0; m_id2id_map := ∅ |}.

(** Modelled from the spec: [record(s)]. "If s is empty, returns 0 without
    recording; otherwise returns the existing interim id for s, or allocates
    the next interim id (starting at 1) and stores the string. Increments
    per-string usage count." *)
Definition record_string (s : string) (t : StringTable) : Z * StringTable :=
  if decide (s = EmptyString) then (0, t)
  else
    match m_strings t !! s with
    | Some i =>
        (interim_id i,
         {| m_strings :=
              <[s := {| interim_id := interim_id i; count := count i + 1 |}]>
                (m_strings t);
            m_size := m_size t;
            m_id2id_map := m_id2id_map t |})
    | None =>
        (m_size t + 1,
         {| m_strings :=
              <[s := {| interim_id := m_size t + 1; count := 1 |}]>
                (m_strings t);
            m_size := m_size t + 1;
            m_id2id_map := m_id2id_map t |})
    end.

(** "Sorts interim strings by descending usage count, ties by ascending
    string comparison." *)
Definition entry_leb (a b : string * string_info) : bool :=
  (count b.2 <? count a.2)
  || ((count a.2 =? count b.2) && String.leb a.1 b.1).

Definition entry_le (a b : string * string_info) : Prop :=
  entry_leb a b = true.

Global Instance entry_le_dec a b : Decision (entry_le a b) :=
  bool_eq_dec _ _.

(** The interim id of the [k]-th string of the sorted table is bound to the
    final id [k], counted from [n + 1]. *)
Fixpoint assign_final_ids (n : Z) (l : list (string * string_info))
    (m : gmap Z Z) : gmap Z Z :=
  match l with
  | [] => m
  | e :: l' => assign_final_ids (n + 1) l' (<[interim_id e.2 := n + 1]> m)
  end.

Definition sorted_strings (t : StringTable) : list (string * string_info) :=
  merge_sort entry_le (map_to_list (m_strings t)).

(** Modelled from the spec: [finalize_table(out)]. "Emits them into out at
    indices 1..N; index 0 is set to the empty string. Builds the
    interim->final map." Section 3 has that map hold "a permutation:
    interim id -> final id", "with final id 0 bound to the empty string":
    the id 0 that [record] returns for the empty string is bound to the
    final id 0, the row of the empty string. *)
Definition store_stringtable (t : StringTable) : list string * StringTable :=
  let sorted := sorted_strings t in
  (EmptyString :: map fst sorted,
   {| m_strings := m_strings t;
      m_size := m_size t;
      m_id2id_map := assign_final_ids 0 sorted {[ 0 := 0 ]} |}).

(** Modelled from the spec: [map(interim_id)]. "Valid only after
    finalize_table has been called on this block; returns the precomputed
    final id. Input 0 is invalid." The precomputed map is all the function
    reads: before [finalize_table] no id is bound; after it 0, which is the
    interim id of no recorded string, is answered with the row of the empty
    string, as scenario S5 has it for an empty role. *)
Definition map_string_id (t : StringTable) (interim : Z) : result Z :=
  match m_id2id_map t !! interim with
  | Some final => Ok final
  | None => Err (invalid_string_id interim)
  end.

Definition StringTable_clear (t : StringTable) : StringTable :=
  StringTable_init.

(** ** The OSM object model consumed by the writer *)

(** Modelled from the spec: osmium/osm/*.hpp are not among the sources.
    Section 6: an entity exposes id, tags, version, timestamp (epoch
    seconds), changeset, uid, user, visible; a node lon/lat, a way its node
    references, a relation its members (kind tag, ref id, role). *)
Module OSM.

Record Object : Type := {
  id : Z;
  tags : list (string * string);
  version : Z;
  timestamp : Z;
  changeset : Z;
  uid : Z;
  user : string;
  visible : bool
}.

Record Node : Type := {
  node_object : Object;
  lon : PrimFloat.float;
  lat : PrimFloat.float
}.

Record Way : Type := {
  way_object : Object;
  nodes : list Z
}.

Record RelationMember : Type := {
  type : ascii;
  ref : Z;
  role : string
}.

Record Relation : Type := {
  relation_object : Object;
  members : list RelationMember
}.

Record Bounds : Type := {
  bottom_left_lon : PrimFloat.float;
  bottom_left_lat : PrimFloat.float;
  top_right_lon : PrimFloat.float;
  top_right_lat : PrimFloat.float
}.

(** [bounds] is [None] when the bounding box is not defined. *)
Record Meta : Type := { bounds : option Bounds }.

End OSM.

(** ** The protobuf messages of OSMPBF *)

(** Modelled from the spec: osmpbf.h is generated code outside the sources.
    Section 6 lists the wire structures; a message is the record of its
    fields, a repeated field a list, an optional field an option. *)
Module OSMPBF.

Definition lonlat_resolution : Z := 1000 * 1000 * 1000.

(** "Constant from format spec, typically 32 MiB." *)
Definition max_uncompressed_blob_size : Z := 32 * 1024 * 1024.

Record Info : Type := {
  info_version : Z;
  info_timestamp : Z;
  info_changeset : Z;
  info_uid : Z;
  info_user_sid : Z;
  info_visible : option bool
}.

(** The fields Node, Way and Relation have in common: what the templates
    [apply_common_info] and [map_common_string_ids] touch. *)
Record Common : Type := {
  id : Z;
  keys : list Z;
  vals : list Z;
  info : option Info
}.

Record Node : Type := { node_common : Common; lat : Z; lon : Z }.

Record DenseInfo : Type := {
  di_version : list Z;
  di_timestamp : list Z;
  di_changeset : list Z;
  di_uid : list Z;
  di_user_sid : list Z;
  di_visible : list bool
}.

Record DenseNodes : Type := {
  dense_id : list Z;
  denseinfo : option DenseInfo;
  dense_lat : list Z;
  dense_lon : list Z;
  keys_vals : list Z
}.

Record Way : Type := { way_common : Common; refs : list Z }.

Inductive MemberType : Type := NODE | WAY | RELATION.

Record Relation : Type := {
  relation_common : Common;
  roles_sid : list Z;
  memids : list Z;
  types : list MemberType
}.

Record PrimitiveGroup : Type := {
  nodes : list Node;
  dense : option DenseNodes;
  ways : list Way;
  relations : list Relation
}.

Record PrimitiveBlock : Type := {
  stringtable : list string;
  primitivegroup : list PrimitiveGroup;
  granularity : Z;
  date_granularity : Z
}.

Record HeaderBBox : Type := { left : Z; right : Z; top : Z; bottom : Z }.

Record HeaderBlock : Type := {
  bbox : option HeaderBBox;
  required_features : list string;
  optional_features : list string;
  writingprogram : option string
}.

Record Blob : Type := {
  raw : option (list Z);
  raw_size : option Z;
  zlib_data : option (list Z)
}.

Record BlobHeader : Type := { blob_type : string; datasize : Z }.

(** A freshly constructed or cleared message. *)
Definition DenseInfo_init : DenseInfo :=
  {| di_version := []; di_timestamp := []; di_changeset := [];
     di_uid := []; di_user_sid := []; di_visible := [] |}.

Definition DenseNodes_init : DenseNodes :=
  {| dense_id := []; denseinfo := None; dense_lat := []; dense_lon := [];
     keys_vals := [] |}.

Definition PrimitiveGroup_init : PrimitiveGroup :=
  {| nodes := []; dense := None; ways := []; relations := [] |}.

Definition PrimitiveBlock_init : PrimitiveBlock :=
  {| stringtable := []; primitivegroup := []; granularity := 100;
     date_granularity := 1000 |}.

Definition HeaderBlock_init : HeaderBlock :=
  {| bbox := None; required_features := []; optional_features := [];
     writingprogram := None |}.

(** What [store_blob] receives as [const MessageLite&]. *)
Inductive Message : Type :=
  | HeaderMessage (h : HeaderBlock)
  | PrimitiveMessage (b : PrimitiveBlock).

End OSMPBF.

(** ** The output file and its descriptor *)

(** Modelled from the spec: osmium/osmfile.hpp is not among the sources.
    Section 6: the file provides "an underlying descriptor, a file-variant
    tag (history vs. non-history), and a close operation". *)
Inductive FileType : Type := FileType_OSM | FileType_History.

(** What one call of write(2) does: fail with -1, or accept at most [n]
    bytes of the buffer. *)
Inductive write_outcome : Type :=
  | write_fails
  | write_accepts (n : nat).

(** [fd_written] is what reached the descriptor so far; [fd_pending] scripts
    the outcomes of the coming calls of write(2), every call after the
    script being complete. *)
Record OSMFile : Type := {
  file_type : FileType;
  fd_written : list Z;
  fd_pending : list write_outcome;
  file_closed : bool
}.

Definition has_multiple_object_versions (f : OSMFile) : bool :=
  match file_type f with
  | FileType_History => true
  | FileType_OSM => false
  end.

Definition sys_write (buf : list Z) (f : OSMFile) : Z * OSMFile :=
  match fd_pending f with
  | [] =>
      (Z.of_nat (length buf),
       {| file_type := file_type f; fd_written := fd_written f ++ buf;
          fd_pending := []; file_closed := file_closed f |})
  | write_fails :: rest =>
      (-1,
       {| file_type := file_type f; fd_written := fd_written f;
          fd_pending := rest; file_closed := file_closed f |})
  | write_accepts n :: rest =>
      (Z.of_nat (length (take n buf)),
       {| file_type := file_type f; fd_written := fd_written f ++ take n buf;
          fd_pending := rest; file_closed := file_closed f |})
  end.

Definition OSMFile_close (f : OSMFile) : OSMFile :=
  {| file_type := file_type f; fd_written := fd_written f;
     fd_pending := fd_pending f; file_closed := true |}.

(** The four bytes of [htonl(n)] as they lie in memory. *)
Definition htonl (n : Z) : list Z :=
  let v := to_uint32 n in
  [v / 2 ^ 24 mod 256; v / 2 ^ 16 mod 256; v / 2 ^ 8 mod 256; v mod 256].

(** ** The libraries the writer calls *)

(** protobuf-lite: serialization and [ByteSize] of the generated messages. *)
Class Protobuf : Type := {
  SerializeToString : OSMPBF.Message -> list Z;
  Blob_SerializeToString : OSMPBF.Blob -> list Z;
  BlobHeader_SerializeToString : OSMPBF.BlobHeader -> list Z;
  Way_ByteSize : OSMPBF.Way -> Z;
  Relation_ByteSize : OSMPBF.Relation -> Z
}.

(** zlib: what the three calls deflateInit, deflate(Z_FINISH), deflateEnd
    come to on an input. *)
Inductive deflate_outcome : Type :=
  | deflateInit_not_ok
  | deflate_not_stream_end
  | deflateEnd_not_ok
  | deflated (out : list Z).

Class Zlib : Type := { zlib_deflate : list Z -> deflate_outcome }.

(** ** The state of a PBF object *)

(** The data members of [class PBF], with [m_file] and [m_generator] of its
    base class. A group pointer is the index of its group in
    [pbf_primitive_block], [None] for NULL. [pbf_blob] and [pbf_blob_header]
    are filled and cleared inside [store_blob] and [m_compression_buffer] is
    scratch space of [zlib_compress]; they carry nothing between calls.

    [stored] is a history variable, not a member of the class: the type and
    message of every completed call of [store_blob], oldest first. No
    function reads it. *)
Record PBF : Type := Build_PBF {
  pbf_header_block : OSMPBF.HeaderBlock;
  pbf_primitive_block : OSMPBF.PrimitiveBlock;
  pbf_nodes : option nat;
  pbf_ways : option nat;
  pbf_relations : option nat;
  m_location_granularity : Z;
  m_date_granularity : Z;
  m_use_dense_format : bool;
  m_use_compression : bool;
  m_should_add_metadata : bool;
  m_add_visible : bool;
  primitive_block_contents : Z;
  primitive_block_size : Z;
  string_table : StringTable;
  m_delta_id : Delta;
  m_delta_lat : Delta;
  m_delta_lon : Delta;
  m_delta_timestamp : Delta;
  m_delta_changeset : Delta;
  m_delta_uid : Delta;
  m_delta_user_sid : Delta;
  m_file : OSMFile;
  m_generator : string;
  stored : list (string * OSMPBF.Message)
}.

(** The constructor [PBF(const OSMFile& file)]. *)
Definition PBF_new (file : OSMFile) (generator : string) : PBF :=
  {| pbf_header_block := OSMPBF.HeaderBlock_init;
     pbf_primitive_block := OSMPBF.PrimitiveBlock_init;
     pbf_nodes := None;
     pbf_ways := None;
     pbf_relations := None;
     m_location_granularity := OSMPBF.granularity OSMPBF.PrimitiveBlock_init;
     m_date_granularity := OSMPBF.date_granularity OSMPBF.PrimitiveBlock_init;
     m_use_dense_format := true;
     m_use_compression := true;
     m_should_add_metadata := true;
     m_add_visible := has_multiple_object_versions file;
     primitive_block_contents := 0;
     primitive_block_size := 0;
     string_table := StringTable_init;
     m_delta_id := Delta_init;
     m_delta_lat := Delta_init;
     m_delta_lon := Delta_init;
     m_delta_timestamp := Delta_init;
     m_delta_changeset := Delta_init;
     m_delta_uid := Delta_init;
     m_delta_user_sid := Delta_init;
     m_file := file;
     m_generator := generator;
     stored := [] |}.

(** Assignments to single members. *)
Definition set_pbf_header_block (v : OSMPBF.HeaderBlock) (s : PBF) : PBF :=
  Build_PBF v (pbf_primitive_block s) (pbf_nodes s) (pbf_ways s)
    (pbf_relations s) (m_location_granularity s) (m_date_granularity s)
    (m_use_dense_format s) (m_use_compression s) (m_should_add_metadata s)
    (m_add_visible s) (primitive_block_contents s) (primitive_block_size s)
    (string_table s) (m_delta_id s) (m_delta_lat s) (m_delta_lon s)
    (m_delta_timestamp s) (m_delta_changeset s) (m_delta_uid s)
    (m_delta_user_sid s) (m_file s) (m_generator s) (stored s).

Definition set_pbf_primitive_block (v : OSMPBF.PrimitiveBlock) (s : PBF) : PBF :=
  Build_PBF (pbf_header_block s) v (pbf_nodes s) (pbf_ways s) (pbf_relations
    s) (m_location_granularity s) (m_date_granularity s) (m_use_dense_format
    s) (m_use_compression s) (m_should_add_metadata s) (m_add_visible s)
    (primitive_block_contents s) (primitive_block_size s) (string_table s)
    (m_delta_id s) (m_delta_lat s) (m_delta_lon s) (m_delta_timestamp s)
    (m_delta_changeset s) (m_delta_uid s) (m_delta_user_sid s) (m_file s)
    (m_generator s) (stored s).

Definition set_pbf_nodes (v : option nat) (s : PBF) : PBF :=
  Build_PBF (pbf_header_block s) (pbf_primitive_block s) v (pbf_ways s)
    (pbf_relations s) (m_location_granularity s) (m_date_granularity s)
    (m_use_dense_format s) (m_use_compression s) (m_should_add_metadata s)
    (m_add_visible s) (primitive_block_contents s) (primitive_block_size s)
    (string_table s) (m_delta_id s) (m_delta_lat s) (m_delta_lon s)
    (m_delta_timestamp s) (m_delta_changeset s) (m_delta_uid s)
    (m_delta_user_sid s) (m_file s) (m_generator s) (stored s).

Definition set_pbf_ways (v : option nat) (s : PBF) : PBF :=
  Build_PBF (pbf_header_block s) (pbf_primitive_block s) (pbf_nodes s) v
    (pbf_relations s) (m_location_granularity s) (m_date_granularity s)
    (m_use_dense_format s) (m_use_compression s) (m_should_add_metadata s)
    (m_add_visible s) (primitive_block_contents s) (primitive_block_size s)
    (string_table s) (m_delta_id s) (m_delta_lat s) (m_delta_lon s)
    (m_delta_timestamp s) (m_delta_changeset s) (m_delta_uid s)
    (m_delta_user_sid s) (m_file s) (m_generator s) (stored s).

Definition set_pbf_relations (v : option nat) (s : PBF) : PBF :=
  Build_PBF (pbf_header_block s) (pbf_primitive_block s) (pbf_nodes s)
    (pbf_ways s) v (m_location_granularity s) (m_date_granularity s)
    (m_use_dense_format s) (m_use_compression s) (m_should_add_metadata s)
    (m_add_visible s) (primitive_block_contents s) (primitive_block_size s)
    (string_table s) (m_delta_id s) (m_delta_lat s) (m_delta_lon s)
    (m_delta_timestamp s) (m_delta_changeset s) (m_delta_uid s)
    (m_delta_user_sid s) (m_file s) (m_generator s) (stored s).

Definition set_m_use_dense_format (v : bool) (s : PBF) : PBF :=
  Build_PBF (pbf_header_block s) (pbf_primitive_block s) (pbf_nodes s)
    (pbf_ways s) (pbf_relations s) (m_location_granularity s)
    (m_date_granularity s) v (m_use_compression s) (m_should_add_metadata s)
    (m_add_visible s) (primitive_block_contents s) (primitive_block_size s)
    (string_table s) (m_delta_id s) (m_delta_lat s) (m_delta_lon s)
    (m_delta_timestamp s) (m_delta_changeset s) (m_delta_uid s)
    (m_delta_user_sid s) (m_file s) (m_generator s) (stored s).

Definition set_m_use_compression (v : bool) (s : PBF) : PBF :=
  Build_PBF (pbf_header_block s) (pbf_primitive_block s) (pbf_nodes s)
    (pbf_ways s) (pbf_relations s) (m_location_granularity s)
    (m_date_granularity s) (m_use_dense_format s) v (m_should_add_metadata
    s) (m_add_visible s) (primitive_block_contents s) (primitive_block_size
    s) (string_table s) (m_delta_id s) (m_delta_lat s) (m_delta_lon s)
    (m_delta_timestamp s) (m_delta_changeset s) (m_delta_uid s)
    (m_delta_user_sid s) (m_file s) (m_generator s) (stored s).

Definition set_m_should_add_metadata (v : bool) (s : PBF) : PBF :=
  Build_PBF (pbf_header_block s) (pbf_primitive_block s) (pbf_nodes s)
    (pbf_ways s) (pbf_relations s) (m_location_granularity s)
    (m_date_granularity s) (m_use_dense_format s) (m_use_compression s) v
    (m_add_visible s) (primitive_block_contents s) (primitive_block_size s)
    (string_table s) (m_delta_id s) (m_delta_lat s) (m_delta_lon s)
    (m_delta_timestamp s) (m_delta_changeset s) (m_delta_uid s)
    (m_delta_user_sid s) (m_file s) (m_generator s) (stored s).

Definition set_primitive_block_contents (v : Z) (s : PBF) : PBF :=
  Build_PBF (pbf_header_block s) (pbf_primitive_block s) (pbf_nodes s)
    (pbf_ways s) (pbf_relations s) (m_location_granularity s)
    (m_date_granularity s) (m_use_dense_format s) (m_use_compression s)
    (m_should_add_metadata s) (m_add_visible s) v (primitive_block_size s)
    (string_table s) (m_delta_id s) (m_delta_lat s) (m_delta_lon s)
    (m_delta_timestamp s) (m_delta_changeset s) (m_delta_uid s)
    (m_delta_user_sid s) (m_file s) (m_generator s) (stored s).

Definition set_primitive_block_size (v : Z) (s : PBF) : PBF :=
  Build_PBF (pbf_header_block s) (pbf_primitive_block s) (pbf_nodes s)
    (pbf_ways s) (pbf_relations s) (m_location_granularity s)
    (m_date_granularity s) (m_use_dense_format s) (m_use_compression s)
    (m_should_add_metadata s) (m_add_visible s) (primitive_block_contents s)
    v (string_table s) (m_delta_id s) (m_delta_lat s) (m_delta_lon s)
    (m_delta_timestamp s) (m_delta_changeset s) (m_delta_uid s)
    (m_delta_user_sid s) (m_file s) (m_generator s) (stored s).

Definition set_string_table (v : StringTable) (s : PBF) : PBF :=
  Build_PBF (pbf_header_block s) (pbf_primitive_block s) (pbf_nodes s)
    (pbf_ways s) (pbf_relations s) (m_location_granularity s)
    (m_date_granularity s) (m_use_dense_format s) (m_use_compression s)
    (m_should_add_metadata s) (m_add_visible s) (primitive_block_contents s)
    (primitive_block_size s) v (m_delta_id s) (m_delta_lat s) (m_delta_lon
    s) (m_delta_timestamp s) (m_delta_changeset s) (m_delta_uid s)
    (m_delta_user_sid s) (m_file s) (m_generator s) (stored s).

Definition set_m_delta_id (v : Delta) (s : PBF) : PBF :=
  Build_PBF (pbf_header_block s) (pbf_primitive_block s) (pbf_nodes s)
    (pbf_ways s) (pbf_relations s) (m_location_granularity s)
    (m_date_granularity s) (m_use_dense_format s) (m_use_compression s)
    (m_should_add_metadata s) (m_add_visible s) (primitive_block_contents s)
    (primitive_block_size s) (string_table s) v (m_delta_lat s) (m_delta_lon
    s) (m_delta_timestamp s) (m_delta_changeset s) (m_delta_uid s)
    (m_delta_user_sid s) (m_file s) (m_generator s) (stored s).

Definition set_m_delta_lat (v : Delta) (s : PBF) : PBF :=
  Build_PBF (pbf_header_block s) (pbf_primitive_block s) (pbf_nodes s)
    (pbf_ways s) (pbf_relations s) (m_location_granularity s)
    (m_date_granularity s) (m_use_dense_format s) (m_use_compression s)
    (m_should_add_metadata s) (m_add_visible s) (primitive_block_contents s)
    (primitive_block_size s) (string_table s) (m_delta_id s) v (m_delta_lon
    s) (m_delta_timestamp s) (m_delta_changeset s) (m_delta_uid s)
    (m_delta_user_sid s) (m_file s) (m_generator s) (stored s).

Definition set_m_delta_lon (v : Delta) (s : PBF) : PBF :=
  Build_PBF (pbf_header_block s) (pbf_primitive_block s) (pbf_nodes s)
    (pbf_ways s) (pbf_relations s) (m_location_granularity s)
    (m_date_granularity s) (m_use_dense_format s) (m_use_compression s)
    (m_should_add_metadata s) (m_add_visible s) (primitive_block_contents s)
    (primitive_block_size s) (string_table s) (m_delta_id s) (m_delta_lat s)
    v (m_delta_timestamp s) (m_delta_changeset s) (m_delta_uid s)
    (m_delta_user_sid s) (m_file s) (m_generator s) (stored s).

Definition set_m_delta_timestamp (v : Delta) (s : PBF) : PBF :=
  Build_PBF (pbf_header_block s) (pbf_primitive_block s) (pbf_nodes s)
    (pbf_ways s) (pbf_relations s) (m_location_granularity s)
    (m_date_granularity s) (m_use_dense_format s) (m_use_compression s)
    (m_should_add_metadata s) (m_add_visible s) (primitive_block_contents s)
    (primitive_block_size s) (string_table s) (m_delta_id s) (m_delta_lat s)
    (m_delta_lon s) v (m_delta_changeset s) (m_delta_uid s)
    (m_delta_user_sid s) (m_file s) (m_generator s) (stored s).

Definition set_m_delta_changeset (v : Delta) (s : PBF) : PBF :=
  Build_PBF (pbf_header_block s) (pbf_primitive_block s) (pbf_nodes s)
    (pbf_ways s) (pbf_relations s) (m_location_granularity s)
    (m_date_granularity s) (m_use_dense_format s) (m_use_compression s)
    (m_should_add_metadata s) (m_add_visible s) (primitive_block_contents s)
    (primitive_block_size s) (string_table s) (m_delta_id s) (m_delta_lat s)
    (m_delta_lon s) (m_delta_timestamp s) v (m_delta_uid s)
    (m_delta_user_sid s) (m_file s) (m_generator s) (stored s).

Definition set_m_delta_uid (v : Delta) (s : PBF) : PBF :=
  Build_PBF (pbf_header_block s) (pbf_primitive_block s) (pbf_nodes s)
    (pbf_ways s) (pbf_relations s) (m_location_granularity s)
    (m_date_granularity s) (m_use_dense_format s) (m_use_compression s)
    (m_should_add_metadata s) (m_add_visible s) (primitive_block_contents s)
    (primitive_block_size s) (string_table s) (m_delta_id s) (m_delta_lat s)
    (m_delta_lon s) (m_delta_timestamp s) (m_delta_changeset s) v
    (m_delta_user_sid s) (m_file s) (m_generator s) (stored s).

Definition set_m_delta_user_sid (v : Delta) (s : PBF) : PBF :=
  Build_PBF (pbf_header_block s) (pbf_primitive_block s) (pbf_nodes s)
    (pbf_ways s) (pbf_relations s) (m_location_granularity s)
    (m_date_granularity s) (m_use_dense_format s) (m_use_compression s)
    (m_should_add_metadata s) (m_add_visible s) (primitive_block_contents s)
    (primitive_block_size s) (string_table s) (m_delta_id s) (m_delta_lat s)
    (m_delta_lon s) (m_delta_timestamp s) (m_delta_changeset s) (m_delta_uid
    s) v (m_file s) (m_generator s) (stored s).

Definition set_m_file (v : OSMFile) (s : PBF) : PBF :=
  Build_PBF (pbf_header_block s) (pbf_primitive_block s) (pbf_nodes s)
    (pbf_ways s) (pbf_relations s) (m_location_granularity s)
    (m_date_granularity s) (m_use_dense_format s) (m_use_compression s)
    (m_should_add_metadata s) (m_add_visible s) (primitive_block_contents s)
    (primitive_block_size s) (string_table s) (m_delta_id s) (m_delta_lat s)
    (m_delta_lon s) (m_delta_timestamp s) (m_delta_changeset s) (m_delta_uid
    s) (m_delta_user_sid s) v (m_generator s) (stored s).

Definition set_stored (v : list (string * OSMPBF.Message)) (s : PBF) : PBF :=
  Build_PBF (pbf_header_block s) (pbf_primitive_block s) (pbf_nodes s)
    (pbf_ways s) (pbf_relations s) (m_location_granularity s)
    (m_date_granularity s) (m_use_dense_format s) (m_use_compression s)
    (m_should_add_metadata s) (m_add_visible s) (primitive_block_contents s)
    (primitive_block_size s) (string_table s) (m_delta_id s) (m_delta_lat s)
    (m_delta_lon s) (m_delta_timestamp s) (m_delta_changeset s) (m_delta_uid
    s) (m_delta_user_sid s) (m_file s) (m_generator s) v.

(** The fluent setters of the public interface. *)
Definition use_dense_format (flag : bool) (s : PBF) : PBF :=
  set_m_use_dense_format flag s.
Definition use_compression (flag : bool) (s : PBF) : PBF :=
  set_m_use_compression flag s.
Definition should_add_metadata (flag : bool) (s : PBF) : PBF :=
  set_m_should_add_metadata flag s.



(** ** Small helpers on messages and lists *)

Fixpoint for_each {A B} (f : A -> result B) (l : list A) : result (list B) :=
  match l with
  | [] => Ok []
  | a :: l' => b ← f a; bs ← for_each f l'; Ok (b :: bs)
  end.

Definition with_primitivegroup (gs : list OSMPBF.PrimitiveGroup)
    (b : OSMPBF.PrimitiveBlock) : OSMPBF.PrimitiveBlock :=
  {| OSMPBF.stringtable := OSMPBF.stringtable b;
     OSMPBF.primitivegroup := gs;
     OSMPBF.granularity := OSMPBF.granularity b;
     OSMPBF.date_granularity := OSMPBF.date_granularity b |}.

(** [*ptr] for a group pointer. *)
Definition group_at (p : option nat) (s : PBF) : result (nat * OSMPBF.PrimitiveGroup) :=
  match p with
  | Some i =>
      match OSMPBF.primitivegroup (pbf_primitive_block s) !! i with
      | Some g => Ok (i, g)
      | None => Err dangling_group
      end
  | None => Err dangling_group
  end.

Definition put_group (i : nat) (g : OSMPBF.PrimitiveGroup) (s : PBF) : PBF :=
  set_pbf_primitive_block
    (with_primitivegroup
       (<[i := g]> (OSMPBF.primitivegroup (pbf_primitive_block s)))
       (pbf_primitive_block s)) s.

(** [pbf_primitive_block.add_primitivegroup()]: the new group's index. *)
Definition add_primitivegroup (s : PBF) : nat * PBF :=
  let gs := OSMPBF.primitivegroup (pbf_primitive_block s) in
  (length gs,
   set_pbf_primitive_block
     (with_primitivegroup (gs ++ [OSMPBF.PrimitiveGroup_init])
        (pbf_primitive_block s)) s).

(** A run of values through one tracker, as the loops over way nodes and
    relation members do. *)
Fixpoint delta_encode (T : Z -> Z) (d : Delta) (vs : list Z) : list Z :=
  match vs with
  | [] => []
  | v :: vs' =>
      let '(x, d') := Delta_update T v d in x :: delta_encode T d' vs'
  end.

Definition max_block_contents : Z := 8000.
Definition buffer_fill_percent : Z := 95.

(** ** The member functions of [class PBF] *)

Section Writer.
Context {PB : Protobuf} {ZL : Zlib}.

(** *** Blob writing *)

Definition zlib_compress (data : list Z) : result (list Z) :=
  match zlib_deflate data with
  | deflateInit_not_ok => Err (runtime_error "failed to init zlib stream")
  | deflate_not_stream_end => Err (runtime_error "failed to deflate zlib stream")
  | deflateEnd_not_ok => Err (runtime_error "failed to deinit zlib stream")
  | deflated out => Ok out
  end.

Definition store_blob (type : string) (msg : OSMPBF.Message) (s : PBF) : result PBF :=
  let data := SerializeToString msg in
  pbf_blob ←
    (if m_use_compression s then
       out ← zlib_compress data;
       Ok {| OSMPBF.raw := None;
             OSMPBF.raw_size := Some (Z.of_nat (length data));
             OSMPBF.zlib_data := Some out |}
     else
       Ok {| OSMPBF.raw := Some data;
             OSMPBF.raw_size := Some (Z.of_nat (length data));
             OSMPBF.zlib_data := None |});
  let data := Blob_SerializeToString pbf_blob in
  let pbf_blob_header :=
    {| OSMPBF.blob_type := type;
       OSMPBF.datasize := Z.of_nat (length data) |} in
  let blobhead := BlobHeader_SerializeToString pbf_blob_header in
  let sz := htonl (Z.of_nat (length blobhead)) in
  let '(r1, f1) := sys_write sz (m_file s) in
  if r1 <? 0 then Err (runtime_error "file error")
  else
    let '(r2, f2) := sys_write blobhead f1 in
    if r2 <? 0 then Err (runtime_error "file error")
    else
      let '(r3, f3) := sys_write data f2 in
      if r3 <? 0 then Err (runtime_error "file error")
      else Ok (set_stored (stored s ++ [(type, msg)]) (set_m_file f3 s)).

(** *** Mapping interim string ids to final ones *)

Definition map_info (t : StringTable) (i : OSMPBF.Info) : result OSMPBF.Info :=
  u ← map_string_id t (OSMPBF.info_user_sid i);
  Ok {| OSMPBF.info_version := OSMPBF.info_version i;
        OSMPBF.info_timestamp := OSMPBF.info_timestamp i;
        OSMPBF.info_changeset := OSMPBF.info_changeset i;
        OSMPBF.info_uid := OSMPBF.info_uid i;
        OSMPBF.info_user_sid := u;
        OSMPBF.info_visible := OSMPBF.info_visible i |}.

(** The loop over [keys_size()]: [keys(i)] then [vals(i)], index by index. *)
Fixpoint map_tags (t : StringTable) (ks vs : list Z) : result (list Z * list Z) :=
  match ks, vs with
  | [], _ => Ok ([], vs)
  | _ :: _, [] => Err dangling_group
  | k :: ks', v :: vs' =>
      k' ← map_string_id t k;
      v' ← map_string_id t v;
      '(ks'', vs'') ← map_tags t ks' vs';
      Ok (k' :: ks'', v' :: vs'')
  end.

Definition map_common_string_ids (t : StringTable) (c : OSMPBF.Common) : result OSMPBF.Common :=
  i ← match OSMPBF.info c with
      | Some i => i' ← map_info t i; Ok (Some i')
      | None => Ok None
      end;
  '(ks, vs) ← map_tags t (OSMPBF.keys c) (OSMPBF.vals c);
  Ok {| OSMPBF.id := OSMPBF.id c; OSMPBF.keys := ks; OSMPBF.vals := vs;
        OSMPBF.info := i |}.

(** One step of the loop over [keys_vals]: [uint16_t sid = keys_vals(i)]. *)
Definition map_keys_vals_entry (t : StringTable) (entry : Z) : result Z :=
  let sid := to_uint16 entry in
  if 0 <? sid then map_string_id t sid else Ok entry.

(** The loop over [denseinfo->user_sid]:
    [uint16_t user_sid = map_string_id(user_sid(i))], then the tracker, a
    [Delta<uint32_t>], whose result [set_user_sid] stores in the sint32 field
    of the schema: as an int32. *)
Fixpoint map_dense_user_sid (t : StringTable) (us : list Z) (d : Delta) : result (list Z * Delta) :=
  match us with
  | [] => Ok ([], d)
  | u :: us' =>
      final ← map_string_id t u;
      let user_sid := to_uint16 final in
      let '(x, d') := Delta_update to_uint32 user_sid d in
      '(xs, d'') ← map_dense_user_sid t us' d';
      Ok (to_int32 x :: xs, d'')
  end.

Definition map_node (t : StringTable) (n : OSMPBF.Node) : result OSMPBF.Node :=
  c ← map_common_string_ids t (OSMPBF.node_common n);
  Ok {| OSMPBF.node_common := c; OSMPBF.lat := OSMPBF.lat n;
        OSMPBF.lon := OSMPBF.lon n |}.

Definition map_way (t : StringTable) (w : OSMPBF.Way) : result OSMPBF.Way :=
  c ← map_common_string_ids t (OSMPBF.way_common w);
  Ok {| OSMPBF.way_common := c; OSMPBF.refs := OSMPBF.refs w |}.

Definition map_relation (t : StringTable) (r : OSMPBF.Relation) : result OSMPBF.Relation :=
  c ← map_common_string_ids t (OSMPBF.relation_common r);
  roles ← for_each (map_string_id t) (OSMPBF.roles_sid r);
  Ok {| OSMPBF.relation_common := c; OSMPBF.roles_sid := roles;
        OSMPBF.memids := OSMPBF.memids r; OSMPBF.types := OSMPBF.types r |}.

Definition map_dense (t : StringTable) (dense : OSMPBF.DenseNodes) (d : Delta) : result (OSMPBF.DenseNodes * Delta) :=
  kv ← for_each (map_keys_vals_entry t) (OSMPBF.keys_vals dense);
  '(di, d') ←
    match OSMPBF.denseinfo dense with
    | Some di =>
        '(us, d') ← map_dense_user_sid t (OSMPBF.di_user_sid di) d;
        Ok (Some {| OSMPBF.di_version := OSMPBF.di_version di;
                    OSMPBF.di_timestamp := OSMPBF.di_timestamp di;
                    OSMPBF.di_changeset := OSMPBF.di_changeset di;
                    OSMPBF.di_uid := OSMPBF.di_uid di;
                    OSMPBF.di_user_sid := us;
                    OSMPBF.di_visible := OSMPBF.di_visible di |}, d')
    | None => Ok (None, d)
    end;
  Ok ({| OSMPBF.dense_id := OSMPBF.dense_id dense;
         OSMPBF.denseinfo := di;
         OSMPBF.dense_lat := OSMPBF.dense_lat dense;
         OSMPBF.dense_lon := OSMPBF.dense_lon dense;
         OSMPBF.keys_vals := kv |}, d').

Definition map_string_ids (s : PBF) : result PBF :=
  let t := string_table s in
  s1 ←
    match pbf_nodes s with
    | Some _ =>
        '(i, g) ← group_at (pbf_nodes s) s;
        ns ← for_each (map_node t) (OSMPBF.nodes g);
        '(dense, d) ←
          match OSMPBF.dense g with
          | Some dense =>
              '(dense', d) ← map_dense t dense (m_delta_user_sid s);
              Ok (Some dense', d)
          | None => Ok (None, m_delta_user_sid s)
          end;
        Ok (set_m_delta_user_sid d
              (put_group i
                 {| OSMPBF.nodes := ns; OSMPBF.dense := dense;
                    OSMPBF.ways := OSMPBF.ways g;
                    OSMPBF.relations := OSMPBF.relations g |} s))
    | None => Ok s
    end;
  s2 ←
    match pbf_ways s1 with
    | Some _ =>
        '(i, g) ← group_at (pbf_ways s1) s1;
        ws ← for_each (map_way t) (OSMPBF.ways g);
        Ok (put_group i
              {| OSMPBF.nodes := OSMPBF.nodes g; OSMPBF.dense := OSMPBF.dense g;
                 OSMPBF.ways := ws;
                 OSMPBF.relations := OSMPBF.relations g |} s1)
    | None => Ok s1
    end;
  match pbf_relations s2 with
  | Some _ =>
      '(i, g) ← group_at (pbf_relations s2) s2;
      rs ← for_each (map_relation t) (OSMPBF.relations g);
      Ok (put_group i
            {| OSMPBF.nodes := OSMPBF.nodes g; OSMPBF.dense := OSMPBF.dense g;
               OSMPBF.ways := OSMPBF.ways g;
               OSMPBF.relations := rs |} s2)
  | None => Ok s2
  end.

(** *** MetaData helper *)

Definition lonlat2int (s : PBF) (lonlat : PrimFloat.float) : result Z :=
  Double.to_int64_t
    (Double.round
       (PrimFloat.div
          (PrimFloat.mul lonlat (Double.of_int OSMPBF.lonlat_resolution))
          (Double.of_int (m_location_granularity s)))).

Definition timestamp2int (s : PBF) (timestamp : Z) : result Z :=
  Double.to_int64_t
    (Double.round
       (PrimFloat.mul (Double.of_int timestamp)
          (PrimFloat.div (Double.of_int 1000)
             (Double.of_int (m_date_granularity s))))).

(** The loop over the tags of an object: key then value, tag by tag. *)
Fixpoint record_tags (tags : list (string * string)) (t : StringTable) : list Z * list Z * StringTable :=
  match tags with
  | [] => ([], [], t)
  | (k, v) :: rest =>
      let '(ki, t1) := record_string k t in
      let '(vi, t2) := record_string v t1 in
      let '(ks, vs, t3) := record_tags rest t2 in
      (ki :: ks, vi :: vs, t3)
  end.

Definition apply_common_info (obj : OSM.Object) (s : PBF) : result (OSMPBF.Common * PBF) :=
  let '(ks, vs, t) := record_tags (OSM.tags obj) (string_table s) in
  if m_should_add_metadata s then
    ts ← timestamp2int s (OSM.timestamp obj);
    let '(u, t') := record_string (OSM.user obj) t in
    Ok ({| OSMPBF.id := OSM.id obj; OSMPBF.keys := ks; OSMPBF.vals := vs;
           OSMPBF.info :=
             Some {| OSMPBF.info_version := OSM.version obj;
                     OSMPBF.info_timestamp := ts;
                     OSMPBF.info_changeset := OSM.changeset obj;
                     OSMPBF.info_uid := OSM.uid obj;
                     OSMPBF.info_user_sid := u;
                     OSMPBF.info_visible :=
                       if m_add_visible s then Some (OSM.visible obj)
                       else None |} |},
        set_string_table t' s)
  else
    Ok ({| OSMPBF.id := OSM.id obj; OSMPBF.keys := ks; OSMPBF.vals := vs;
           OSMPBF.info := None |},
        set_string_table t s).

(** *** High-level block writing *)

Definition store_header_block (s : PBF) : result PBF :=
  s1 ← store_blob "OSMHeader" (OSMPBF.HeaderMessage (pbf_header_block s)) s;
  Ok (set_pbf_header_block OSMPBF.HeaderBlock_init s1).

(** What the tail of [store_primitive_block] resets. *)
Definition clear_primitive_block (s : PBF) : PBF :=
  set_pbf_relations None
    (set_pbf_ways None
       (set_pbf_nodes None
          (set_primitive_block_size 0
             (set_primitive_block_contents 0
                (set_m_delta_user_sid (Delta_clear (m_delta_user_sid s))
                   (set_m_delta_uid (Delta_clear (m_delta_uid s))
                      (set_m_delta_changeset (Delta_clear (m_delta_changeset s))
                         (set_m_delta_timestamp (Delta_clear (m_delta_timestamp s))
                            (set_m_delta_lon (Delta_clear (m_delta_lon s))
                               (set_m_delta_lat (Delta_clear (m_delta_lat s))
                                  (set_m_delta_id (Delta_clear (m_delta_id s))
                                     (set_string_table
                                        (StringTable_clear (string_table s))
                                        (set_pbf_primitive_block
                                           OSMPBF.PrimitiveBlock_init
                                           s))))))))))))).

(** The block as it stands before [map_string_ids]: granularities set,
    string table stored. *)
Definition prepare_primitive_block (s : PBF) : PBF :=
  let '(out, t) := store_stringtable (string_table s) in
  set_string_table t
    (set_pbf_primitive_block
       {| OSMPBF.stringtable := out;
          OSMPBF.primitivegroup :=
            OSMPBF.primitivegroup (pbf_primitive_block s);
          OSMPBF.granularity := m_location_granularity s;
          OSMPBF.date_granularity := m_date_granularity s |} s).

Definition store_primitive_block (s : PBF) : result PBF :=
  s1 ← map_string_ids (prepare_primitive_block s);
  s2 ← store_blob "OSMData" (OSMPBF.PrimitiveMessage (pbf_primitive_block s1)) s1;
  Ok (clear_primitive_block s2).

(** The right-hand side of the size test, computed in uint32_t. *)
Definition block_size_limit : Z :=
  to_uint32 (to_uint32 OSMPBF.max_uncompressed_blob_size * buffer_fill_percent)
  / 100.

Definition check_block_contents_counter (s : PBF) : result PBF :=
  s1 ←
    (if max_block_contents <=? primitive_block_contents s then
       store_primitive_block s
     else if block_size_limit <? primitive_block_size s then
       store_primitive_block s
     else Ok s);
  Ok (set_primitive_block_contents
        (to_uint16 (primitive_block_contents s1 + 1)) s1).

(** *** Block content writing *)

Definition write_node (node : OSM.Node) (s : PBF) : result PBF :=
  '(i, g) ← group_at (pbf_nodes s) s;
  '(c, s1) ← apply_common_info (OSM.node_object node) s;
  lon ← lonlat2int s1 (OSM.lon node);
  lat ← lonlat2int s1 (OSM.lat node);
  Ok (put_group i
        {| OSMPBF.nodes :=
             OSMPBF.nodes g
             ++ [{| OSMPBF.node_common := c; OSMPBF.lat := lat;
                    OSMPBF.lon := lon |}];
           OSMPBF.dense := OSMPBF.dense g;
           OSMPBF.ways := OSMPBF.ways g;
           OSMPBF.relations := OSMPBF.relations g |} s1).

(** The tags of a dense node: key, value, ..., then the separator. *)
Fixpoint record_keys_vals (tags : list (string * string)) (t : StringTable) : list Z * StringTable :=
  match tags with
  | [] => ([0], t)
  | (k, v) :: rest =>
      let '(ki, t1) := record_string k t in
      let '(vi, t2) := record_string v t1 in
      let '(kv, t3) := record_keys_vals rest t2 in
      (ki :: vi :: kv, t3)
  end.

Definition write_dense_node (node : OSM.Node) (s : PBF) : result PBF :=
  '(i, g) ← group_at (pbf_nodes s) s;
  let obj := OSM.node_object node in
  let dense := default OSMPBF.DenseNodes_init (OSMPBF.dense g) in
  let '(id, delta_id) := Delta_update to_int64 (OSM.id obj) (m_delta_id s) in
  lon ← lonlat2int s (OSM.lon node);
  let '(lon, delta_lon) := Delta_update to_int64 lon (m_delta_lon s) in
  lat ← lonlat2int s (OSM.lat node);
  let '(lat, delta_lat) := Delta_update to_int64 lat (m_delta_lat s) in
  let '(kv, t) := record_keys_vals (OSM.tags obj) (string_table s) in
  let s1 :=
    set_string_table t
      (set_m_delta_lat delta_lat
         (set_m_delta_lon delta_lon (set_m_delta_id delta_id s))) in
  '(di, s2) ←
    (if m_should_add_metadata s then
       let denseinfo := default OSMPBF.DenseInfo_init (OSMPBF.denseinfo dense) in
       ts ← timestamp2int s (OSM.timestamp obj);
       let '(ts, delta_timestamp) :=
         Delta_update to_int64 ts (m_delta_timestamp s) in
       let '(cs, delta_changeset) :=
         Delta_update to_int64 (OSM.changeset obj) (m_delta_changeset s) in
       let '(uid, delta_uid) :=
         Delta_update to_int64 (OSM.uid obj) (m_delta_uid s) in
       let '(user_sid, t') := record_string (OSM.user obj) t in
       Ok (Some {| OSMPBF.di_version :=
                     OSMPBF.di_version denseinfo ++ [OSM.version obj];
                   OSMPBF.di_timestamp := OSMPBF.di_timestamp denseinfo ++ [ts];
                   OSMPBF.di_changeset := OSMPBF.di_changeset denseinfo ++ [cs];
                   OSMPBF.di_uid := OSMPBF.di_uid denseinfo ++ [uid];
                   OSMPBF.di_user_sid :=
                     OSMPBF.di_user_sid denseinfo ++ [user_sid];
                   OSMPBF.di_visible :=
                     if m_add_visible s then
                       OSMPBF.di_visible denseinfo ++ [OSM.visible obj]
                     else OSMPBF.di_visible denseinfo |},
           set_string_table t'
             (set_m_delta_uid delta_uid
                (set_m_delta_changeset delta_changeset
                   (set_m_delta_timestamp delta_timestamp s1))))
     else Ok (OSMPBF.denseinfo dense, s1));
  Ok (put_group i
        {| OSMPBF.nodes := OSMPBF.nodes g;
           OSMPBF.dense :=
             Some {| OSMPBF.dense_id := OSMPBF.dense_id dense ++ [id];
                     OSMPBF.denseinfo := di;
                     OSMPBF.dense_lat := OSMPBF.dense_lat dense ++ [lat];
                     OSMPBF.dense_lon := OSMPBF.dense_lon dense ++ [lon];
                     OSMPBF.keys_vals := OSMPBF.keys_vals dense ++ kv |};
           OSMPBF.ways := OSMPBF.ways g;
           OSMPBF.relations := OSMPBF.relations g |} s2).

Definition write_way (way : OSM.Way) (s : PBF) : result PBF :=
  '(i, g) ← group_at (pbf_ways s) s;
  '(c, s1) ← apply_common_info (OSM.way_object way) s;
  let pbf_way :=
    {| OSMPBF.way_common := c;
       OSMPBF.refs := delta_encode to_int64 Delta_init (OSM.nodes way) |} in
  Ok (set_primitive_block_size
        (to_uint32 (primitive_block_size s1 + Way_ByteSize pbf_way))
        (put_group i
           {| OSMPBF.nodes := OSMPBF.nodes g; OSMPBF.dense := OSMPBF.dense g;
              OSMPBF.ways := OSMPBF.ways g ++ [pbf_way];
              OSMPBF.relations := OSMPBF.relations g |} s1)).

(** The [switch] on [mem->type()]. *)
Definition member_type (c : ascii) : result OSMPBF.MemberType :=
  if Ascii.eqb c "n" then Ok OSMPBF.NODE
  else if Ascii.eqb c "w" then Ok OSMPBF.WAY
  else if Ascii.eqb c "r" then Ok OSMPBF.RELATION
  else Err (runtime_error "Unknown relation member type").

(** The loop over the members: role, member id, member type, one member
    after the other. *)
Fixpoint write_members (ms : list OSM.RelationMember) (t : StringTable) (d : Delta) : result (list Z * list Z * list OSMPBF.MemberType * StringTable) :=
  match ms with
  | [] => Ok ([], [], [], t)
  | mem :: ms' =>
      let '(role, t1) := record_string (OSM.role mem) t in
      let '(memid, d1) := Delta_update to_int64 (OSM.ref mem) d in
      ty ← member_type (OSM.type mem);
      '(roles, memids, tys, t2) ← write_members ms' t1 d1;
      Ok (role :: roles, memid :: memids, ty :: tys, t2)
  end.

Definition write_relation (relation : OSM.Relation) (s : PBF) : result PBF :=
  '(i, g) ← group_at (pbf_relations s) s;
  '(c, s1) ← apply_common_info (OSM.relation_object relation) s;
  '(roles, memids, tys, t) ←
    write_members (OSM.members relation) (string_table s1) Delta_init;
  let pbf_relation :=
    {| OSMPBF.relation_common := c; OSMPBF.roles_sid := roles;
       OSMPBF.memids := memids; OSMPBF.types := tys |} in
  let s2 := set_string_table t s1 in
  Ok (set_primitive_block_size
        (to_uint32 (primitive_block_size s2 + Relation_ByteSize pbf_relation))
        (put_group i
           {| OSMPBF.nodes := OSMPBF.nodes g; OSMPBF.dense := OSMPBF.dense g;
              OSMPBF.ways := OSMPBF.ways g;
              OSMPBF.relations := OSMPBF.relations g ++ [pbf_relation] |} s2)).

(** *** The public interface *)

Definition bbox_edge (x : PrimFloat.float) : result Z :=
  Double.to_int64_t
    (Double.trunc (PrimFloat.mul x (Double.of_int OSMPBF.lonlat_resolution))).

Definition init (meta : OSM.Meta) (s : PBF) : result PBF :=
  let h := pbf_header_block s in
  let features :=
    OSMPBF.required_features h ++ ["OsmSchema-V0.6"%string]
    ++ (if m_use_dense_format s then ["DenseNodes"%string] else [])
    ++ (match file_type (m_file s) with
        | FileType_History => ["HistoricalInformation"%string]
        | FileType_OSM => []
        end) in
  bbox ←
    match OSM.bounds meta with
    | Some b =>
        l ← bbox_edge (OSM.bottom_left_lon b);
        bo ← bbox_edge (OSM.bottom_left_lat b);
        r ← bbox_edge (OSM.top_right_lon b);
        to ← bbox_edge (OSM.top_right_lat b);
        Ok (Some {| OSMPBF.left := l; OSMPBF.right := r; OSMPBF.top := to;
                    OSMPBF.bottom := bo |})
    | None => Ok (OSMPBF.bbox h)
    end;
  store_header_block
    (set_pbf_header_block
       {| OSMPBF.bbox := bbox;
          OSMPBF.required_features := features;
          OSMPBF.optional_features := OSMPBF.optional_features h;
          OSMPBF.writingprogram := Some (m_generator s) |} s).

Definition node (n : OSM.Node) (s : PBF) : result PBF :=
  s1 ← check_block_contents_counter s;
  let s2 :=
    match pbf_nodes s1 with
    | None => let '(i, s') := add_primitivegroup s1 in set_pbf_nodes (Some i) s'
    | Some _ => s1
    end in
  if m_use_dense_format s2 then write_dense_node n s2 else write_node n s2.

Definition way (w : OSM.Way) (s : PBF) : result PBF :=
  s1 ← check_block_contents_counter s;
  let s2 :=
    match pbf_ways s1 with
    | None => let '(i, s') := add_primitivegroup s1 in set_pbf_ways (Some i) s'
    | Some _ => s1
    end in
  write_way w s2.

Definition relation (r : OSM.Relation) (s : PBF) : result PBF :=
  s1 ← check_block_contents_counter s;
  let s2 :=
    match pbf_relations s1 with
    | None =>
        let '(i, s') := add_primitivegroup s1 in set_pbf_relations (Some i) s'
    | Some _ => s1
    end in
  write_relation r s2.

Definition final (s : PBF) : result PBF :=
  s1 ← (if 0 <? primitive_block_contents s then store_primitive_block s
        else Ok s);
  Ok (set_m_file (OSMFile_close (m_file s1)) s1).

(** *** Sessions *)

Inductive Entity : Type :=
  | ENode (n : OSM.Node)
  | EWay (w : OSM.Way)
  | ERelation (r : OSM.Relation).

Definition ingest (e : Entity) (s : PBF) : result PBF :=
  match e with
  | ENode n => node n s
  | EWay w => way w s
  | ERelation r => relation r s
  end.

Fixpoint ingest_all (es : list Entity) (s : PBF) : result PBF :=
  match es with
  | [] => Ok s
  | e :: es' => s' ← ingest e s; ingest_all es' s'
  end.

(** [init], the entities in order, [final]. *)
Definition session (meta : OSM.Meta) (es : list Entity) (s : PBF) : result PBF :=
  s1 ← init meta s;
  s2 ← ingest_all es s1;
  final s2.

End Writer.

Global Arguments store_blob : simpl never.
Global Arguments map_string_ids : simpl never.
Global Arguments store_header_block : simpl never.
Global Arguments store_primitive_block : simpl never.
Global Arguments prepare_primitive_block : simpl never.
Global Arguments check_block_contents_counter : simpl never.
Global Arguments apply_common_info : simpl never.
Global Arguments write_node : simpl never.
Global Arguments write_dense_node : simpl never.
Global Arguments write_way : simpl never.
Global Arguments write_relation : simpl never.
Global Arguments lonlat2int : simpl never.
Global Arguments timestamp2int : simpl never.
Global Arguments init : simpl never.
Global Arguments node : simpl never.
Global Arguments way : simpl never.
Global Arguments relation : simpl never.
Global Arguments final : simpl never.
Global Arguments record_string : simpl never.
Global Arguments store_stringtable : simpl never.
Global Arguments map_string_id : simpl never.
Global Arguments to_uint16 : simpl never.
Global Arguments to_uint32 : simpl never.
Global Arguments to_int32 : simpl never.
Global Arguments to_int64 : simpl never.

(** * Properties *)

(** ** Fixed-width arithmetic *)

Lemma to_int64_spec z : exists k, to_int64 z = z + k * 2 ^ 64.
Proof.
  unfold to_int64.
  exists (- ((z + 2 ^ 63) / 2 ^ 64)).
  pose proof (Z.div_mod (z + 2 ^ 63) (2 ^ 64)) as Hdm. lia.
Qed.

Lemma to_int64_range z : is_int64 (to_int64 z).
Proof.
  unfold is_int64, to_int64.
  pose proof (Z.mod_pos_bound (z + 2 ^ 63) (2 ^ 64)). lia.
Qed.

Lemma to_int64_id z : is_int64 z -> to_int64 z = z.
Proof.
  intros Hz. destruct (to_int64_spec z) as [k Hk].
  pose proof (to_int64_range z) as Hr. unfold is_int64 in *. lia.
Qed.

Lemma to_int64_idem z : to_int64 (to_int64 z) = to_int64 z.
Proof. apply to_int64_id, to_int64_range. Qed.

Lemma to_uint32_range z : 0 <= to_uint32 z < 2 ^ 32.
Proof. unfold to_uint32. apply Z.mod_pos_bound. lia. Qed.

Lemma to_uint32_id z : 0 <= z < 2 ^ 32 -> to_uint32 z = z.
Proof. intros. unfold to_uint32. apply Z.mod_small. lia. Qed.

Lemma to_uint16_range z : 0 <= to_uint16 z < 2 ^ 16.
Proof. unfold to_uint16. apply Z.mod_pos_bound. lia. Qed.

Lemma to_uint16_id z : 0 <= z < 2 ^ 16 -> to_uint16 z = z.
Proof. intros. unfold to_uint16. apply Z.mod_small. lia. Qed.

Lemma to_uint16_le z : 0 <= z -> to_uint16 z <= z.
Proof. intros. unfold to_uint16. apply Z.mod_le; lia. Qed.

Lemma to_uint32_spec z : exists k, to_uint32 z = z + k * 2 ^ 32.
Proof.
  unfold to_uint32. exists (- (z / 2 ^ 32)).
  pose proof (Z.div_mod z (2 ^ 32)). lia.
Qed.

(** A width whose tracker can be undone by a running sum. *)
Class Width (T : Z -> Z) : Prop := {
  width_idem : forall z, T (T z) = T z;
  width_undelta : forall a b, T (T a + T (T b - T a)) = T b
}.

Global Instance int64_width : Width to_int64.
Proof.
  split; [apply to_int64_idem |].
  intros a b.
  destruct (to_int64_spec a) as [ka Ha], (to_int64_spec b) as [kb Hb].
  destruct (to_int64_spec (to_int64 b - to_int64 a)) as [kd Hd].
  destruct (to_int64_spec (to_int64 a + to_int64 (to_int64 b - to_int64 a)))
    as [ks Hs].
  pose proof (to_int64_range b) as Rb.
  pose proof (to_int64_range (to_int64 a + to_int64 (to_int64 b - to_int64 a)))
    as Rs.
  unfold is_int64 in *. lia.
Qed.

Global Instance uint32_width : Width to_uint32.
Proof.
  split.
  - intros z. apply to_uint32_id, to_uint32_range.
  - intros a b.
    destruct (to_uint32_spec a) as [ka Ha], (to_uint32_spec b) as [kb Hb].
    destruct (to_uint32_spec (to_uint32 b - to_uint32 a)) as [kd Hd].
    destruct (to_uint32_spec (to_uint32 a + to_uint32 (to_uint32 b - to_uint32 a)))
      as [ks Hs].
    pose proof (to_uint32_range b) as Rb.
    pose proof (to_uint32_range
                  (to_uint32 a + to_uint32 (to_uint32 b - to_uint32 a))) as Rs.
    lia.
Qed.

(** ** Reading a delta-encoded column back *)

(** "Reconstruction by cumulative sum from zero", in the column's width:
    [undelta T 0 ds]. *)
Fixpoint undelta (T : Z -> Z) (acc : Z) (ds : list Z) : list Z :=
  match ds with
  | [] => []
  | d :: ds' => let v := T (acc + d) in v :: undelta T v ds'
  end.

Lemma last_cons_default {A} (x a : A) l :
  List.last (x :: l) a = List.last l x.
Proof.
  revert x a. induction l as [|y l IH]; intros x a; [done|].
  change (List.last (x :: y :: l) a) with (List.last (y :: l) a).
  rewrite !IH. done.
Qed.

Section Undelta.
Context (T : Z -> Z) `{!Width T}.

Lemma undelta_app acc ds1 ds2 :
  undelta T acc (ds1 ++ ds2)
  = undelta T acc ds1 ++ undelta T (List.last (undelta T acc ds1) acc) ds2.
Proof.
  revert acc. induction ds1 as [|d ds1 IH]; intros acc; [done|].
  cbn [undelta app]. rewrite IH, last_cons_default. done.
Qed.

Lemma undelta_delta_encode d vs :
  prev d = T (prev d) ->
  undelta T (prev d) (delta_encode T d vs) = map T vs.
Proof.
  revert d. induction vs as [|v vs IH]; intros d Hd; simpl; [done|].
  rewrite Hd, width_undelta. f_equal.
  specialize (IH {| prev := T v |}). simpl in IH.
  rewrite <- IH by (symmetry; apply width_idem). done.
Qed.

Lemma undelta_last_fixed acc ds :
  acc = T acc ->
  List.last (undelta T acc ds) acc = T (List.last (undelta T acc ds) acc).
Proof.
  revert acc. induction ds as [|x ds IH]; intros acc Hacc; [done|].
  cbn [undelta]. rewrite last_cons_default.
  apply IH. symmetry; apply width_idem.
Qed.

(** One more value through the tracker extends the column read back by that
    value. *)
Lemma undelta_snoc_update acc ds d v :
  prev d = List.last (undelta T acc ds) acc ->
  acc = T acc ->
  undelta T acc (ds ++ [(Delta_update T v d).1])
  = undelta T acc ds ++ [T v]
  /\ prev (Delta_update T v d).2 = List.last (undelta T acc ds ++ [T v]) acc.
Proof.
  intros Hp Hacc. rewrite undelta_app. simpl. rewrite <- Hp.
  assert (Hpd : prev d = T (prev d)).
  { rewrite Hp. by apply undelta_last_fixed. }
  rewrite Hpd, width_undelta. split; [done|].
  rewrite last_last. done.
Qed.

End Undelta.

(** ** The result monad *)

Lemma bind_Ok {A B} (m : result A) (f : A -> result B) b :
  m ≫= f = Ok b <-> exists a, m = Ok a /\ f a = Ok b.
Proof.
  destruct m as [a|e]; simpl.
  - split; [eauto | intros (a' & [= ->] & H); done].
  - split; [done | intros (a' & [=] & _)].
Qed.

Lemma bind_Ok_l {A B} (a : A) (f : A -> result B) : Ok a ≫= f = f a.
Proof. reflexivity. Qed.

(** One step of a computation whose head has returned. *)
Ltac ok_step := rewrite bind_Ok_l; cbn beta iota.

Lemma bind_Err {A B} (m : result A) (f : A -> result B) e :
  m = Err e -> m ≫= f = Err e.
Proof. intros ->. reflexivity. Qed.

(** Splits a hypothesis [m ≫= f = Ok b] into its steps. *)
Ltac inv_ok :=
  repeat match goal with
    | H : _ ≫= _ = Ok _ |- _ =>
        apply bind_Ok in H; destruct H as (? & ? & H)
    | H : Ok _ = Ok _ |- _ => injection H as H
    | H : Err _ = Ok _ |- _ => discriminate H
    | H : (let '(_, _) := ?p in _) = Ok _ |- _ => destruct p eqn:?
    | H : (if ?c then _ else _) = Ok _ |- _ => destruct c eqn:?
    | H : match ?m with Some _ => _ | None => _ end = Ok _ |- _ =>
        destruct m eqn:?
    end.

(** Two states built from the same state by assignments are compared field
    by field. *)
Ltac pbf_eta :=
  repeat match goal with s : PBF |- _ => destruct s end; reflexivity.

Lemma for_each_length {A B} (f : A -> result B) l l' :
  for_each f l = Ok l' -> length l' = length l.
Proof.
  revert l'. induction l as [|a l IH]; intros l' H; simpl in H.
  - by injection H as <-.
  - inv_ok. subst. simpl. f_equal. eauto.
Qed.

Lemma for_each_ok {A B} (f : A -> result B) l :
  Forall (fun a => is_ok (f a)) l -> is_ok (for_each f l).
Proof.
  induction 1 as [|a l Ha _ IH]; simpl; [done|].
  destruct (f a); [|done]. simpl.
  destruct (for_each f l); done.
Qed.

(** The value of a result known to be [Ok]. *)
Definition from_ok {A} (d : A) (r : result A) : A :=
  match r with Ok a => a | Err _ => d end.

Lemma is_ok_from_ok {A} (d : A) (r : result A) :
  is_ok r -> r = Ok (from_ok d r).
Proof. destruct r; [reflexivity|intros []]. Qed.

Lemma is_ok_Ok {A} (r : result A) : is_ok r <-> exists a, r = Ok a.
Proof.
  destruct r; simpl; split; eauto; try done.
  intros [? ?]; discriminate.
Qed.

(** ** The environment a run depends on *)

(** Every call of write(2) still to come is complete. *)
Definition writes_complete (s : PBF) : Prop := fd_pending (m_file s) = [].

(** zlib succeeds whenever the writer compresses. *)
Definition compression_works `{!Zlib} (s : PBF) : Prop :=
  m_use_compression s = true ->
  forall data, exists out, zlib_deflate data = deflated out.

(** A protobuf library and a zlib to instantiate the statements at: every
    message serializes to one byte, every size is zero, deflate stores. *)
Definition sample_protobuf : Protobuf :=
  {| SerializeToString := fun _ => [10];
     Blob_SerializeToString := fun _ => [18];
     BlobHeader_SerializeToString := fun _ => [26];
     Way_ByteSize := fun _ => 0;
     Relation_ByteSize := fun _ => 0 |}.

Definition sample_zlib : Zlib := {| zlib_deflate := fun data => deflated data |}.

Definition sample_file : OSMFile :=
  {| file_type := FileType_OSM; fd_written := []; fd_pending := [];
     file_closed := false |}.

(** ** The frame writer *)

Section Frames.
Context {PB : Protobuf} {ZL : Zlib}.

Lemma sys_write_complete buf f :
  fd_pending f = [] ->
  sys_write buf f
  = (Z.of_nat (length buf),
     {| file_type := file_type f; fd_written := fd_written f ++ buf;
        fd_pending := []; file_closed := file_closed f |}).
Proof. intros Hf. unfold sys_write. rewrite Hf. done. Qed.

Lemma of_nat_ltb_0 n : (Z.of_nat n <? 0) = false.
Proof. apply Z.ltb_ge. lia. Qed.

(** What a completed [store_blob] changed: the file and the history. *)
Lemma store_blob_inv type msg s s' :
  store_blob type msg s = Ok s' ->
  exists f,
    s' = set_stored (stored s ++ [(type, msg)]) (set_m_file f s)
    /\ file_type f = file_type (m_file s).
Proof.
  unfold store_blob. intros H.
  apply bind_Ok in H. destruct H as (blob & _ & H).
  set (data := Blob_SerializeToString blob) in *.
  set (blobhead := BlobHeader_SerializeToString _) in *.
  assert (Hty : forall buf f, file_type (sys_write buf f).2 = file_type f).
  { intros buf f. unfold sys_write.
    destruct (fd_pending f) as [|[|n] ?]; done. }
  destruct (sys_write _ (m_file s)) as [r1 f1] eqn:E1.
  destruct (r1 <? 0); [done|].
  destruct (sys_write blobhead f1) as [r2 f2] eqn:E2.
  destruct (r2 <? 0); [done|].
  destruct (sys_write data f2) as [r3 f3] eqn:E3.
  destruct (r3 <? 0); [done|].
  injection H as <-. exists f3. split; [done|].
  pose proof (Hty data f2) as H3. rewrite E3 in H3.
  pose proof (Hty blobhead f1) as H2. rewrite E2 in H2.
  pose proof (Hty (htonl (Z.of_nat (length blobhead))) (m_file s)) as H1.
  rewrite E1 in H1. simpl in *. congruence.
Qed.

(** With complete writes and a working zlib [store_blob] returns. *)
Lemma store_blob_complete type msg s :
  writes_complete s -> compression_works s ->
  exists f,
    store_blob type msg s
    = Ok (set_stored (stored s ++ [(type, msg)]) (set_m_file f s))
    /\ fd_pending f = []
    /\ file_type f = file_type (m_file s)
    /\ file_closed f = file_closed (m_file s).
Proof.
  intros Hw Hz. unfold store_blob.
  assert (exists blob,
    (if m_use_compression s
     then out ← zlib_compress (SerializeToString msg);
          Ok {| OSMPBF.raw := None;
                OSMPBF.raw_size := Some (Z.of_nat (length (SerializeToString msg)));
                OSMPBF.zlib_data := Some out |}
     else Ok {| OSMPBF.raw := Some (SerializeToString msg);
                OSMPBF.raw_size := Some (Z.of_nat (length (SerializeToString msg)));
                OSMPBF.zlib_data := None |}) = Ok blob) as [blob ->].
  { destruct (m_use_compression s) eqn:Ec; [|eauto].
    destruct (Hz Ec (SerializeToString msg)) as [out Hout].
    unfold zlib_compress. rewrite Hout. simpl. eauto. }
  simpl. unfold writes_complete in Hw.
  rewrite (sys_write_complete _ _ Hw), of_nat_ltb_0.
  rewrite sys_write_complete, of_nat_ltb_0 by done.
  rewrite sys_write_complete, of_nat_ltb_0 by done.
  eexists. split; [reflexivity|]. done.
Qed.

End Frames.

(** A descriptor whose next write(2) accepts two bytes only. *)
Definition short_write_file : OSMFile :=
  {| file_type := FileType_OSM; fd_written := []; fd_pending := [write_accepts 2];
     file_closed := false |}.

(** C8, at a descriptor whose first write is short: [store_blob] returns
    normally although only two of the four bytes of the header length
    reached the file; the short write is neither retried nor reported, and
    the blob header and the blob follow the truncated length. *)
Theorem store_blob_short_write {PB : Protobuf} {ZL : Zlib} (type : string) (msg : OSMPBF.Message) :
  let s := use_compression false (PBF_new short_write_file "osmium") in
  let data :=
    Blob_SerializeToString
      {| OSMPBF.raw := Some (SerializeToString msg);
         OSMPBF.raw_size := Some (Z.of_nat (length (SerializeToString msg)));
         OSMPBF.zlib_data := None |} in
  let blobhead :=
    BlobHeader_SerializeToString
      {| OSMPBF.blob_type := type;
         OSMPBF.datasize := Z.of_nat (length data) |} in
  exists s',
    store_blob type msg s = Ok s'
    /\ fd_written (m_file s')
       = take 2 (htonl (Z.of_nat (length blobhead))) ++ blobhead ++ data
    /\ length (fd_written (m_file s'))
       = (2 + length blobhead + length data)%nat.
Proof.
  intros s data blobhead. unfold store_blob. simpl.
  fold data. fold blobhead.
  rewrite !of_nat_ltb_0.
  eexists. split; [reflexivity|]. simpl. split; [done|].
  rewrite length_app. done.
Qed.

(** ** What a flush leaves behind *)

Section Flush.
Context {PB : Protobuf} {ZL : Zlib}.

(** [map_string_ids] writes the block and the user_sid tracker only. *)
Lemma map_string_ids_frame s s' :
  map_string_ids s = Ok s' ->
  s' = set_m_delta_user_sid (m_delta_user_sid s')
         (set_pbf_primitive_block (pbf_primitive_block s') s).
Proof.
  unfold map_string_ids, group_at, put_group. intros Hm.
  inv_ok; subst; simpl in *; inv_ok; subst; pbf_eta.
Qed.

(** The steps of a completed [store_primitive_block]. *)
Lemma store_primitive_block_inv s s' :
  store_primitive_block s = Ok s' ->
  exists s1 f,
    map_string_ids (prepare_primitive_block s) = Ok s1
    /\ s' = clear_primitive_block
              (set_stored
                 (stored s
                  ++ [("OSMData"%string,
                       OSMPBF.PrimitiveMessage (pbf_primitive_block s1))])
                 (set_m_file f s1))
    /\ file_type f = file_type (m_file s).
Proof.
  unfold store_primitive_block. intros Hf. inv_ok. subst.
  match goal with Hb : store_blob _ _ _ = Ok _ |- _ =>
    apply store_blob_inv in Hb; destruct Hb as (f & -> & Hty) end.
  match goal with Hm : map_string_ids _ = Ok ?s1 |- _ =>
    pose proof (map_string_ids_frame _ _ Hm) as E;
    exists s1, f; split; [exact Hm|] end.
  assert (Es : stored x = stored s /\ m_file x = m_file s).
  { rewrite E. unfold prepare_primitive_block.
    destruct (store_stringtable (string_table s)). done. }
  destruct Es as [-> Ef]. split; [done|]. by rewrite Hty, Ef.
Qed.

(** When [check_block_contents_counter] flushes. *)
Definition flush_due (s : PBF) : bool :=
  (max_block_contents <=? primitive_block_contents s)
  || (block_size_limit <? primitive_block_size s).

Lemma check_block_contents_counter_unfold s :
  check_block_contents_counter s
  = if flush_due s then
      s1 ← store_primitive_block s;
      Ok (set_primitive_block_contents
            (to_uint16 (primitive_block_contents s1 + 1)) s1)
    else
      Ok (set_primitive_block_contents
            (to_uint16 (primitive_block_contents s + 1)) s).
Proof.
  unfold check_block_contents_counter, flush_due.
  destruct (max_block_contents <=? primitive_block_contents s); [done|].
  destruct (block_size_limit <? primitive_block_size s); done.
Qed.

End Flush.

Section FlushShape.
Context {PB : Protobuf} {ZL : Zlib}.

(** A completed flush, seen from the state it started in: the mapped block
    joins the history, the file moves on, and everything the block owned is
    reset. *)
Lemma store_primitive_block_shape s s' :
  store_primitive_block s = Ok s' ->
  exists s1 f,
    map_string_ids (prepare_primitive_block s) = Ok s1
    /\ s' = clear_primitive_block
              (set_stored
                 (stored s
                  ++ [("OSMData"%string,
                       OSMPBF.PrimitiveMessage (pbf_primitive_block s1))])
                 (set_m_file f s))
    /\ file_type f = file_type (m_file s).
Proof.
  intros Hs. apply store_primitive_block_inv in Hs.
  destruct Hs as (s1 & f & Hm & -> & Hf). exists s1, f.
  split; [done|]. split; [|done].
  rewrite (map_string_ids_frame _ _ Hm) at 2.
  unfold prepare_primitive_block.
  destruct (store_stringtable (string_table s)). done.
Qed.

Lemma check_block_contents_counter_inv s s1 :
  check_block_contents_counter s = Ok s1 ->
  (flush_due s = false
   /\ s1 = set_primitive_block_contents
             (to_uint16 (primitive_block_contents s + 1)) s)
  \/ (flush_due s = true
      /\ exists s', store_primitive_block s = Ok s'
                    /\ s1 = set_primitive_block_contents 1 s').
Proof.
  rewrite check_block_contents_counter_unfold.
  destruct (flush_due s); intros Hc.
  - right. split; [done|]. apply bind_Ok in Hc.
    destruct Hc as (s' & Hs & [= <-]). exists s'. split; [done|].
    destruct (store_primitive_block_shape _ _ Hs) as (? & ? & _ & -> & _).
    done.
  - left. by injection Hc as <-.
Qed.

End FlushShape.

(** ** Relation member kinds *)

Definition known_member_type (c : ascii) : Prop :=
  c = "n"%char \/ c = "w"%char \/ c = "r"%char.

Definition unknown_member_type : failure :=
  runtime_error "Unknown relation member type".

Lemma member_type_unknown c :
  ~ known_member_type c -> member_type c = Err unknown_member_type.
Proof.
  intros Hc. unfold member_type, known_member_type in *.
  destruct (Ascii.eqb_spec c "n"); [tauto|].
  destruct (Ascii.eqb_spec c "w"); [tauto|].
  destruct (Ascii.eqb_spec c "r"); [tauto|]. done.
Qed.

Lemma member_type_cases c :
  (c = "n"%char /\ member_type c = Ok OSMPBF.NODE)
  \/ (c = "w"%char /\ member_type c = Ok OSMPBF.WAY)
  \/ (c = "r"%char /\ member_type c = Ok OSMPBF.RELATION)
  \/ (~ known_member_type c /\ member_type c = Err unknown_member_type).
Proof.
  unfold member_type, known_member_type.
  destruct (Ascii.eqb_spec c "n") as [->|?]; [by left|].
  destruct (Ascii.eqb_spec c "w") as [->|?]; [by right; left|].
  destruct (Ascii.eqb_spec c "r") as [->|?]; [by right; right; left|].
  right; right; right. split; [tauto|done].
Qed.

Lemma write_members_unknown ms t d :
  Exists (fun m => ~ known_member_type (OSM.type m)) ms ->
  write_members ms t d = Err unknown_member_type.
Proof.
  revert t d. induction ms as [|m ms IH]; intros t d Hex.
  - by apply Exists_nil in Hex.
  - cbn [write_members].
    destruct (record_string (OSM.role m) t) as [role t1].
    destruct (Delta_update to_int64 (OSM.ref m) d) as [memid d1].
    destruct (member_type_cases (OSM.type m))
      as [[Hk ->]|[[Hk ->]|[[Hk ->]|[_ ->]]]]; [| | |done];
      apply Exists_cons in Hex;
      (destruct Hex as [Hex|Hex];
       [exfalso; apply Hex; unfold known_member_type; rewrite Hk; tauto
       | simpl; by rewrite (IH _ _ Hex)]).
Qed.

Lemma write_members_types ms t d roles memids tys t' :
  write_members ms t d = Ok (roles, memids, tys, t') ->
  for_each member_type (map OSM.type ms) = Ok tys.
Proof.
  revert t d roles memids tys t'.
  induction ms as [|m ms IH]; intros t d roles memids tys t' Hw.
  - simpl in Hw. by injection Hw as <- <- <- <-.
  - cbn [write_members] in Hw.
    destruct (record_string (OSM.role m) t) as [role t1].
    destruct (Delta_update to_int64 (OSM.ref m) d) as [memid d1].
    apply bind_Ok in Hw. destruct Hw as (ty & Hty & Hw).
    apply bind_Ok in Hw. destruct Hw as ([[[rs ids] tys'] t2] & Hrec & Hw).
    injection Hw as <- <- <- <-. simpl. rewrite Hty. simpl.
    by rewrite (IH _ _ _ _ _ _ Hrec).
Qed.

Section RelationMembers.
Context {PB : Protobuf} {ZL : Zlib}.

Lemma timestamp2int_ext s s' ts :
  m_date_granularity s = m_date_granularity s' ->
  timestamp2int s ts = timestamp2int s' ts.
Proof. unfold timestamp2int. by intros ->. Qed.

Lemma lonlat2int_ext s s' x :
  m_location_granularity s = m_location_granularity s' ->
  lonlat2int s x = lonlat2int s' x.
Proof. unfold lonlat2int. by intros ->. Qed.

(** [apply_common_info] returns unless the timestamp cannot be converted,
    and writes the string table only. *)
Lemma apply_common_info_Ok obj s :
  (m_should_add_metadata s = true -> is_ok (timestamp2int s (OSM.timestamp obj))) ->
  exists c t, apply_common_info obj s = Ok (c, set_string_table t s).
Proof.
  intros Hts. unfold apply_common_info.
  destruct (record_tags (OSM.tags obj) (string_table s)) as [[ks vs] t].
  destruct (m_should_add_metadata s); [|eauto].
  specialize (Hts eq_refl). apply is_ok_Ok in Hts. destruct Hts as [ts ->].
  simpl. destruct (record_string (OSM.user obj) t). eauto.
Qed.

Lemma apply_common_info_inv obj s c s' :
  apply_common_info obj s = Ok (c, s') ->
  s' = set_string_table (string_table s') s.
Proof.
  unfold apply_common_info.
  destruct (record_tags (OSM.tags obj) (string_table s)) as [[ks vs] t].
  intros Ha. inv_ok; subst; done.
Qed.

Lemma relation_unknown_member r s :
  Exists (fun m => ~ known_member_type (OSM.type m)) (OSM.members r) ->
  forall s', relation r s <> Ok s'.
Proof.
  intros Hex s' Hr. unfold relation in Hr.
  apply bind_Ok in Hr. destruct Hr as (s1 & _ & Hr).
  unfold write_relation in Hr.
  apply bind_Ok in Hr. destruct Hr as ([i g] & _ & Hr).
  apply bind_Ok in Hr. destruct Hr as ([c s2] & _ & Hr).
  rewrite write_members_unknown in Hr by done. done.
Qed.

End RelationMembers.

(** A relation with a member of another kind makes [relation] throw
    "Unknown relation member type" whenever the flush check at its start
    returns, the relations pointer is valid and the timestamp converts. *)
Lemma relation_unknown_member_error {PB : Protobuf} {ZL : Zlib} r s s1 :
  Exists (fun m => ~ known_member_type (OSM.type m)) (OSM.members r) ->
  check_block_contents_counter s = Ok s1 ->
  (forall i, pbf_relations s = Some i ->
     (i < length (OSMPBF.primitivegroup (pbf_primitive_block s)))%nat) ->
  (m_should_add_metadata s = true ->
     is_ok (timestamp2int s (OSM.timestamp (OSM.relation_object r)))) ->
  relation r s = Err unknown_member_type.
Proof.
  intros Hex Hc Hp Hts. unfold relation. rewrite Hc. simpl.
  set (s2 := match pbf_relations s1 with
             | Some _ => s1
             | None => _
             end).
  assert (Hcfg : m_should_add_metadata s1 = m_should_add_metadata s
                 /\ m_date_granularity s1 = m_date_granularity s).
  { apply check_block_contents_counter_inv in Hc.
    destruct Hc as [[_ ->]|[_ (s' & Hs & ->)]]; [done|].
    apply store_primitive_block_shape in Hs.
    destruct Hs as (? & ? & _ & -> & _). done. }
  assert (Hg : exists i g, group_at (pbf_relations s2) s2 = Ok (i, g)).
  { subst s2. unfold group_at.
    apply check_block_contents_counter_inv in Hc.
    destruct (pbf_relations s1) as [i|] eqn:Ei.
    - destruct Hc as [[_ ->]|[_ (s' & Hs & ->)]].
      + simpl in *. rewrite Ei. cbn iota beta. specialize (Hp _ Ei).
        apply lookup_lt_is_Some_2 in Hp. destruct Hp as [g ->]. eauto.
      + apply store_primitive_block_shape in Hs.
        destruct Hs as (? & ? & _ & -> & _). done.
    - simpl. rewrite lookup_app_r, Nat.sub_diag by done. simpl. eauto. }
  destruct Hg as (i & g & Hg).
  assert (Hcfg2 : m_should_add_metadata s2 = m_should_add_metadata s
                  /\ m_date_granularity s2 = m_date_granularity s).
  { subst s2. destruct (pbf_relations s1); [done|]. exact Hcfg. }
  destruct Hcfg2 as [Hm2 Hd2].
  destruct (apply_common_info_Ok (OSM.relation_object r) s2) as (c & t & Ha).
  { rewrite Hm2, (timestamp2int_ext s2 s) by done. exact Hts. }
  unfold write_relation. rewrite Hg. simpl. rewrite Ha. simpl.
  by rewrite write_members_unknown.
Qed.

(** ** The order of the final string table *)

Lemma ascii_compare_cases (a b : ascii) :
  (Ascii.compare a b = Lt /\ (N_of_ascii a < N_of_ascii b)%N)
  \/ (Ascii.compare a b = Eq /\ N_of_ascii a = N_of_ascii b)
  \/ (Ascii.compare a b = Gt /\ (N_of_ascii b < N_of_ascii a)%N).
Proof.
  unfold Ascii.compare.
  destruct (N.compare_spec (N_of_ascii a) (N_of_ascii b)); auto.
Qed.

Lemma string_compare_trans (a b c : string) :
  String.compare a b <> Gt -> String.compare b c <> Gt ->
  String.compare a c <> Gt.
Proof.
  revert b c. induction a as [|x a IH]; intros [|y b] [|z c]; simpl;
    try congruence.
  destruct (ascii_compare_cases x y) as [[-> Hxy]|[[-> Hxy]|[-> Hxy]]];
    destruct (ascii_compare_cases y z) as [[-> Hyz]|[[-> Hyz]|[-> Hyz]]];
    destruct (ascii_compare_cases x z) as [[-> Hxz]|[[-> Hxz]|[-> Hxz]]];
    try congruence; try lia.
  apply IH.
Qed.

Lemma string_leb_trans (a b c : string) :
  String.leb a b = true -> String.leb b c = true -> String.leb a c = true.
Proof.
  unfold String.leb. intros Hab Hbc.
  pose proof (string_compare_trans a b c) as Ht.
  destruct (String.compare a b), (String.compare b c), (String.compare a c);
    try done; exfalso; apply Ht; congruence.
Qed.

Global Instance entry_le_total : Total entry_le.
Proof.
  intros [s1 i1] [s2 i2]. unfold entry_le, entry_leb. simpl.
  destruct (Z.ltb_spec (count i2) (count i1)); [by left|].
  destruct (Z.ltb_spec (count i1) (count i2)); [by right|].
  assert (count i1 = count i2) as -> by lia.
  rewrite Z.eqb_refl. simpl.
  destruct (String.leb_total s1 s2); auto.
Qed.

Global Instance entry_le_trans : Transitive entry_le.
Proof.
  intros [s1 i1] [s2 i2] [s3 i3]. unfold entry_le, entry_leb. simpl.
  intros H12 H23.
  apply orb_true_iff in H12. apply orb_true_iff in H23. apply orb_true_iff.
  destruct H12 as [H12|H12], H23 as [H23|H23];
    rewrite ?andb_true_iff, ?Z.ltb_lt, ?Z.eqb_eq in *.
  - left. lia.
  - left. lia.
  - left. lia.
  - right. destruct H12 as [E12 L12], H23 as [E23 L23].
    split; [lia|]. eapply string_leb_trans; eassumption.
Qed.

(** Entries of equal rank carry the same string. *)
Lemma entry_le_antisym a b :
  entry_le a b -> entry_le b a -> a.1 = b.1 /\ count a.2 = count b.2.
Proof.
  destruct a as [s1 i1], b as [s2 i2]. unfold entry_le, entry_leb. simpl.
  rewrite !orb_true_iff, !andb_true_iff, !Z.ltb_lt, !Z.eqb_eq.
  intros [H1|[E1 L1]] [H2|[E2 L2]]; try lia.
  split; [by apply String.leb_antisym|done].
Qed.

Lemma sorted_strings_sorted t : StronglySorted entry_le (sorted_strings t).
Proof. apply StronglySorted_merge_sort; apply _. Qed.

Lemma sorted_strings_perm t : sorted_strings t ≡ₚ map_to_list (m_strings t).
Proof. apply merge_sort_Permutation. Qed.

Lemma elem_of_sorted_strings t s i :
  (s, i) ∈ sorted_strings t <-> m_strings t !! s = Some i.
Proof. rewrite sorted_strings_perm. apply elem_of_map_to_list. Qed.

(** ** The interim table and its final ids *)

(** What every table built by [record_string] satisfies: the interim ids
    are exactly 1..[m_size], one string each, and no string is empty. *)
Record table_ok (t : StringTable) : Prop := {
  table_ids : forall s i, m_strings t !! s = Some i ->
                1 <= interim_id i <= m_size t /\ s <> EmptyString /\ 1 <= count i;
  table_all : forall k, 1 <= k <= m_size t ->
                exists s i, m_strings t !! s = Some i /\ interim_id i = k;
  table_inj : forall s1 s2 i1 i2,
                m_strings t !! s1 = Some i1 -> m_strings t !! s2 = Some i2 ->
                interim_id i1 = interim_id i2 -> s1 = s2;
  table_size : 0 <= m_size t
}.

Lemma table_ok_init : table_ok StringTable_init.
Proof.
  split; simpl; try done.
  intros k Hk. lia.
Qed.

Lemma record_string_empty t : record_string EmptyString t = (0, t).
Proof. unfold record_string. by rewrite decide_True. Qed.

Lemma record_string_spec s t :
  table_ok t ->
  let '(id, t') := record_string s t in
  table_ok t'
  /\ m_size t <= m_size t'
  /\ m_id2id_map t' = m_id2id_map t
  /\ (s = EmptyString -> id = 0 /\ t' = t)
  /\ (s <> EmptyString ->
      1 <= id <= m_size t'
      /\ exists i, m_strings t' !! s = Some i /\ interim_id i = id)
  /\ (forall s' i, m_strings t !! s' = Some i ->
        exists i', m_strings t' !! s' = Some i'
                   /\ interim_id i' = interim_id i).
Proof.
  intros Hok. unfold record_string.
  destruct (decide (s = EmptyString)) as [->|Hs].
  { split; [done|]. split; [lia|]. split; [done|]. split; [done|].
    split; [done|]. eauto. }
  destruct (m_strings t !! s) as [i|] eqn:Hl.
  - destruct (table_ids _ Hok _ _ Hl) as (Hid & _ & Hc).
    split; [|simpl; split; [lia|]; split; [done|]; split; [done|];
             split; [intros _; split; [lia|]|]].
    + split; simpl.
      * intros s' i' Hs'. destruct (decide (s = s')) as [<-|Hne].
        -- rewrite lookup_insert_eq in Hs'. injection Hs' as <-. simpl.
           repeat split; try done; lia.
        -- rewrite lookup_insert_ne in Hs' by done.
           by apply (table_ids _ Hok).
      * intros k Hk. destruct (table_all _ Hok k Hk) as (s' & i' & Hs' & Hi').
        destruct (decide (s = s')) as [<-|Hne].
        -- eexists s, _. rewrite lookup_insert_eq. split; [done|]. simpl.
           congruence.
        -- exists s', i'. by rewrite lookup_insert_ne.
      * intros s1 s2 i1 i2 H1 H2 He.
        assert (forall s' i', <[s:={| interim_id := interim_id i; count := count i + 1 |}]> (m_strings t) !! s' = Some i' ->
                  exists i'', m_strings t !! s' = Some i'' /\ interim_id i'' = interim_id i') as Hback.
        { intros s' i' Hs'. destruct (decide (s = s')) as [<-|Hne].
          - rewrite lookup_insert_eq in Hs'. injection Hs' as <-. eauto.
          - rewrite lookup_insert_ne in Hs' by done. eauto. }
        destruct (Hback _ _ H1) as (j1 & Hj1 & E1).
        destruct (Hback _ _ H2) as (j2 & Hj2 & E2).
        eapply (table_inj _ Hok); [exact Hj1|exact Hj2|congruence].
      * apply (table_size _ Hok).
    + eexists. rewrite lookup_insert_eq. done.
    + intros s' i' Hs'. destruct (decide (s = s')) as [<-|Hne].
      * eexists. rewrite lookup_insert_eq. split; [done|]. simpl. congruence.
      * exists i'. by rewrite lookup_insert_ne.
  - pose proof (table_size _ Hok) as Hsz.
    split; [|simpl; split; [lia|]; split; [done|]; split; [done|];
             split; [intros _; split; [lia|]|]].
    + split; simpl.
      * intros s' i' Hs'. destruct (decide (s = s')) as [<-|Hne].
        -- rewrite lookup_insert_eq in Hs'. injection Hs' as <-. simpl.
           repeat split; try done; lia.
        -- rewrite lookup_insert_ne in Hs' by done.
           destruct (table_ids _ Hok _ _ Hs') as (? & ? & ?).
           repeat split; try done; lia.
      * intros k Hk. destruct (decide (k = m_size t + 1)) as [->|Hk'].
        -- eexists s, _. rewrite lookup_insert_eq. done.
        -- destruct (table_all _ Hok k) as (s' & i' & Hs' & Hi'); [lia|].
           exists s', i'. rewrite lookup_insert_ne; [done|]. congruence.
      * intros s1 s2 i1 i2 H1 H2 He.
        destruct (decide (s = s1)) as [<-|Hn1], (decide (s = s2)) as [<-|Hn2];
          try done.
        -- rewrite lookup_insert_eq in H1. injection H1 as <-.
           rewrite lookup_insert_ne in H2 by done.
           destruct (table_ids _ Hok _ _ H2) as (? & _). simpl in He. lia.
        -- rewrite lookup_insert_eq in H2. injection H2 as <-.
           rewrite lookup_insert_ne in H1 by done.
           destruct (table_ids _ Hok _ _ H1) as (? & _). simpl in He. lia.
        -- rewrite lookup_insert_ne in H1, H2 by done.
           by eapply (table_inj _ Hok).
      * lia.
    + eexists. rewrite lookup_insert_eq. done.
    + intros s' i' Hs'. exists i'. rewrite lookup_insert_ne; [done|].
      congruence.
Qed.

Lemma record_string_table_ok s t :
  table_ok t -> table_ok (record_string s t).2.
Proof.
  intros Hok. pose proof (record_string_spec s t Hok) as H.
  destruct (record_string s t). tauto.
Qed.

(** [map_string_id] returns on this id. *)
Definition mappable (t : StringTable) (k : Z) : Prop :=
  is_ok (map_string_id t k).

Lemma mappable_iff t k :
  mappable t k <-> is_Some (m_id2id_map t !! k).
Proof.
  unfold mappable, map_string_id.
  destruct (m_id2id_map t !! k); simpl; split; try tauto.
  - intros _. eauto.
  - intros [? ?]. done.
Qed.

Lemma assign_final_ids_keep n l m k :
  is_Some (m !! k) -> is_Some (assign_final_ids n l m !! k).
Proof.
  revert n m. induction l as [|e l IH]; intros n m Hk; simpl; [done|].
  apply IH. destruct (decide (interim_id e.2 = k)) as [->|Hne].
  - rewrite lookup_insert_eq. eauto.
  - by rewrite lookup_insert_ne.
Qed.

Lemma assign_final_ids_elem n l m e :
  e ∈ l -> is_Some (assign_final_ids n l m !! interim_id e.2).
Proof.
  revert n m. induction l as [|e' l IH]; intros n m He; simpl.
  - by apply elem_of_nil in He.
  - apply elem_of_cons in He. destruct He as [<-|He]; [|by apply IH].
    apply assign_final_ids_keep. rewrite lookup_insert_eq. eauto.
Qed.

(** After [store_stringtable] every interim id handed out maps. *)
Lemma store_stringtable_mappable t k :
  table_ok t -> 1 <= k <= m_size t -> mappable (store_stringtable t).2 k.
Proof.
  intros Hok Hk. apply mappable_iff.
  destruct (table_all _ Hok k Hk) as (s & i & Hs & <-).
  unfold store_stringtable. simpl.
  apply (assign_final_ids_elem 0 _ _ (s, i)).
  by apply elem_of_sorted_strings.
Qed.

Lemma assign_final_ids_notin n l m k :
  k ∉ (fun e : string * string_info => interim_id e.2) <$> l ->
  assign_final_ids n l m !! k = m !! k.
Proof.
  revert n m. induction l as [|x l IH]; intros n m Hk; [done|].
  rewrite fmap_cons in Hk. apply not_elem_of_cons in Hk.
  destruct Hk as [Hne Hk]. cbn [assign_final_ids].
  rewrite IH by done. by rewrite lookup_insert_ne.
Qed.

(** The final id of the [k]-th string of the sorted table. *)
Lemma assign_final_ids_lookup n l m k e :
  NoDup ((fun e : string * string_info => interim_id e.2) <$> l) ->
  l !! k = Some e ->
  assign_final_ids n l m !! interim_id e.2 = Some (n + Z.of_nat k + 1).
Proof.
  revert n m k. induction l as [|e' l IH]; intros n m k Hnd Hl; [done|].
  rewrite fmap_cons in Hnd. apply NoDup_cons in Hnd.
  destruct Hnd as [Hnotin Hnd]. cbn [assign_final_ids].
  destruct k as [|k].
  - injection Hl as ->.
    rewrite assign_final_ids_notin by done.
    rewrite lookup_insert_eq. f_equal. lia.
  - rewrite (IH (n + 1) _ k Hnd Hl). f_equal. lia.
Qed.

Lemma sorted_strings_NoDup_ids t :
  table_ok t ->
  NoDup ((fun e : string * string_info => interim_id e.2) <$> sorted_strings t).
Proof.
  intros Hok.
  assert (Hnd : NoDup (sorted_strings t)).
  { rewrite sorted_strings_perm. apply NoDup_map_to_list. }
  apply NoDup_fmap_2_strong; [|done].
  intros [s1 i1] [s2 i2] H1 H2 He. simpl in He.
  apply elem_of_sorted_strings in H1, H2.
  assert (s1 = s2) as -> by (eapply (table_inj _ Hok); eauto).
  congruence.
Qed.

(** The id 0, which [record_string] returns for the empty string, is bound
    to the final id 0. *)
Lemma store_stringtable_final_0 t :
  table_ok t -> map_string_id (store_stringtable t).2 0 = Ok 0.
Proof.
  intros Hok. unfold map_string_id, store_stringtable. simpl.
  rewrite assign_final_ids_notin; [by rewrite lookup_singleton_eq|].
  intros Hin. apply list_elem_of_fmap in Hin. destruct Hin as ([s i] & E & Hin).
  apply elem_of_sorted_strings in Hin.
  destruct (table_ids _ Hok _ _ Hin) as (Hid & _). simpl in E. lia.
Qed.

(** The string at position [k] of the sorted table has final id [k + 1],
    which is also its index in the emitted string list. *)
Lemma store_stringtable_final t k s i :
  table_ok t ->
  sorted_strings t !! k = Some (s, i) ->
  map_string_id (store_stringtable t).2 (interim_id i) = Ok (Z.of_nat k + 1)
  /\ (store_stringtable t).1 !! S k = Some s.
Proof.
  intros Hok Hk. split.
  - unfold map_string_id, store_stringtable. simpl.
    assert (Hi : m_strings t !! s = Some i).
    { apply elem_of_sorted_strings. eapply list_elem_of_lookup_2. done. }
    rewrite (assign_final_ids_lookup 0 _ _ k (s, i)); try done.
    by apply sorted_strings_NoDup_ids.
  - unfold store_stringtable. simpl. rewrite list_lookup_fmap, Hk. done.
Qed.

(** ** Flushing with complete writes *)

Section Complete.
Context {PB : Protobuf} {ZL : Zlib}.

Lemma clear_primitive_block_mapped l f b d s :
  clear_primitive_block
    (set_stored l
       (set_m_file f
          (set_m_delta_user_sid d
             (set_pbf_primitive_block b (prepare_primitive_block s)))))
  = clear_primitive_block (set_stored l (set_m_file f s)).
Proof.
  unfold prepare_primitive_block.
  destruct (store_stringtable (string_table s)). done.
Qed.

Lemma store_primitive_block_complete s s1 :
  map_string_ids (prepare_primitive_block s) = Ok s1 ->
  writes_complete s -> compression_works s ->
  exists f,
    store_primitive_block s
    = Ok (clear_primitive_block
            (set_stored
               (stored s
                ++ [("OSMData"%string,
                     OSMPBF.PrimitiveMessage (pbf_primitive_block s1))])
               (set_m_file f s)))
    /\ fd_pending f = []
    /\ file_type f = file_type (m_file s)
    /\ file_closed f = file_closed (m_file s).
Proof.
  intros Hm Hw Hz.
  pose proof (map_string_ids_frame _ _ Hm) as E.
  assert (Es : stored s1 = stored s /\ m_file s1 = m_file s
               /\ m_use_compression s1 = m_use_compression s).
  { rewrite E. unfold prepare_primitive_block.
    destruct (store_stringtable (string_table s)). done. }
  destruct Es as (Est & Ef & Ec).
  destruct (store_blob_complete "OSMData"
              (OSMPBF.PrimitiveMessage (pbf_primitive_block s1)) s1)
    as (f & Hb & Hp & Hty & Hcl).
  { unfold writes_complete. by rewrite Ef. }
  { unfold compression_works. by rewrite Ec. }
  exists f. unfold store_primitive_block. rewrite Hm. simpl. rewrite Hb. simpl.
  rewrite Est, <- Ef. split; [|done]. f_equal.
  rewrite E. rewrite <- E at 1. apply clear_primitive_block_mapped.
Qed.

End Complete.

(** ** C5: a single sparse node *)

(** The coordinates of the scenarios, written as double literals. *)
Module Degrees.
Import PrimFloat.
Definition d13_5 : float := 13.5%float.
Definition d52_5 : float := 52.5%float.
Definition d0 : float := 0%float.
End Degrees.

Definition cafe : OSM.Node :=
  {| OSM.node_object :=
       {| OSM.id := 42;
          OSM.tags := [("amenity"%string, "cafe"%string)];
          OSM.version := 1;
          OSM.timestamp := 1000000000;
          OSM.changeset := 7;
          OSM.uid := 3;
          OSM.user := "alice";
          OSM.visible := true |};
     OSM.lon := Degrees.d13_5;
     OSM.lat := Degrees.d52_5 |}.

(** The data block of the scenario, as the code emits it. *)
Definition cafe_block (visible : option bool) : OSMPBF.PrimitiveBlock :=
  {| OSMPBF.stringtable :=
       [""%string; "alice"%string; "amenity"%string; "cafe"%string];
     OSMPBF.primitivegroup :=
       [{| OSMPBF.nodes :=
             [{| OSMPBF.node_common :=
                   {| OSMPBF.id := 42;
                      OSMPBF.keys := [2];
                      OSMPBF.vals := [3];
                      OSMPBF.info :=
                        Some {| OSMPBF.info_version := 1;
                                OSMPBF.info_timestamp := 1000000000;
                                OSMPBF.info_changeset := 7;
                                OSMPBF.info_uid := 3;
                                OSMPBF.info_user_sid := 1;
                                OSMPBF.info_visible := visible |} |};
                 OSMPBF.lat := 525000000;
                 OSMPBF.lon := 135000000 |}];
           OSMPBF.dense := None;
           OSMPBF.ways := [];
           OSMPBF.relations := [] |}];
     OSMPBF.granularity := 100;
     OSMPBF.date_granularity := 1000 |}.

Section Cafe.
Context {PB : Protobuf} {ZL : Zlib}.

(** The state in which the node of the scenario arrives: a new writer with
    dense format off, after [init]. *)
Definition cafe_start (file f : OSMFile) (generator : string) (l : list (string * OSMPBF.Message)) : PBF :=
  set_pbf_header_block OSMPBF.HeaderBlock_init
    (set_stored l (set_m_file f (use_dense_format false (PBF_new file generator)))).

Lemma cafe_encoded file f generator l :
  exists s2 s3,
    node cafe (cafe_start file f generator l) = Ok s2
    /\ map_string_ids (prepare_primitive_block s2) = Ok s3
    /\ pbf_primitive_block s3
       = cafe_block (if has_multiple_object_versions file
                     then Some true else None)
    /\ primitive_block_contents s2 = 1
    /\ m_file s2 = f
    /\ stored s2 = l
    /\ m_use_compression s2 = true.
Proof.
  pose (start := cafe_start file f generator l).
  pose (s2 := from_ok start (node cafe start)).
  pose (s3 := from_ok start (map_string_ids (prepare_primitive_block s2))).
  exists s2, s3.
  split;
    [exact (is_ok_from_ok start (node cafe start)
              ltac:(destruct file as [[|] ? ? ?]; vm_compute; exact I))|].
  split;
    [exact (is_ok_from_ok start
              (map_string_ids (prepare_primitive_block s2))
              ltac:(destruct file as [[|] ? ? ?]; vm_compute; exact I))|].
  split; [destruct file as [[|] ? ? ?]; vm_compute; reflexivity|].
  repeat split; destruct file as [[|] ? ? ?]; vm_compute; reflexivity.
Qed.

End Cafe.

Section CafeSession.
Context {PB : Protobuf} {ZL : Zlib}.

Lemma cafe_init file generator :
  fd_pending file = [] ->
  (forall data, exists out, zlib_deflate data = deflated out) ->
  exists f h,
    init {| OSM.bounds := None |} (use_dense_format false (PBF_new file generator))
    = Ok (cafe_start file f generator
            [("OSMHeader"%string, OSMPBF.HeaderMessage h)])
    /\ fd_pending f = [].
Proof.
  intros Hp Hz. unfold init, store_header_block. simpl.
  match goal with |- context [store_blob ?ty ?msg ?s] =>
    destruct (store_blob_complete ty msg s) as (f & -> & Hf & _ & _);
      [exact Hp | intros _; exact Hz |] end.
  cbn [mbind result_bind]. exists f. eexists. split; [|done]. reflexivity.
Qed.

Lemma cafe_flushed file generator f l :
  fd_pending f = [] ->
  (forall data, exists out, zlib_deflate data = deflated out) ->
  exists s',
    (s2 ← ingest_all [ENode cafe] (cafe_start file f generator l); final s2)
    = Ok s'
    /\ stored s'
       = l ++ [("OSMData"%string,
                OSMPBF.PrimitiveMessage
                  (cafe_block (if has_multiple_object_versions file
                               then Some true else None)))].
Proof.
  intros Hf Hz.
  destruct (cafe_encoded file f generator l)
    as (s2 & s3 & Hn & Hm & Hb & Hc & Hfile & Hst & Hcomp).
  cbn [mbind result_bind ingest_all ingest].
  rewrite Hn. cbn [mbind result_bind]. unfold final. rewrite Hc.
  change (0 <? 1) with true. cbv iota.
  destruct (store_primitive_block_complete s2 s3 Hm) as (f' & -> & _).
  { unfold writes_complete. by rewrite Hfile. }
  { intros _. exact Hz. }
  cbn [mbind result_bind]. eexists. split; [reflexivity|].
  cbn. rewrite Hst, Hb. reflexivity.
Qed.

End CafeSession.

(** C5, as amended. With dense format off, complete writes and a working
    zlib, the session of the one node 42 at (13.5, 52.5) tagged
    amenity=cafe by "alice" returns, having stored the header block and one
    data block. Every string is used once, so the table is in ascending
    string order: ["", "alice", "amenity", "cafe"]; the node has keys = [2],
    vals = [3], info.user_sid = 1, lon = 135000000, lat = 525000000. *)
Theorem single_sparse_node {PB : Protobuf} {ZL : Zlib} (file : OSMFile) (generator : string) :
  fd_pending file = [] ->
  (forall data, exists out, zlib_deflate data = deflated out) ->
  exists s' h,
    session {| OSM.bounds := None |} [ENode cafe]
      (use_dense_format false (PBF_new file generator)) = Ok s'
    /\ stored s'
       = [("OSMHeader"%string, OSMPBF.HeaderMessage h);
          ("OSMData"%string,
           OSMPBF.PrimitiveMessage
             (cafe_block (if has_multiple_object_versions file
                          then Some true else None)))].
Proof.
  intros Hp Hz. unfold session.
  destruct (cafe_init file generator Hp Hz) as (f & h & Hi & Hf).
  rewrite Hi, bind_Ok_l.
  destruct (cafe_flushed file generator f
              [("OSMHeader"%string, OSMPBF.HeaderMessage h)] Hf Hz)
    as (s' & Hs & Hst).
  exists s', h. split; [exact Hs|exact Hst].
Qed.

Lemma single_sparse_node_sample_run :
  exists s' h,
    @session sample_protobuf sample_zlib {| OSM.bounds := None |} [ENode cafe]
      (use_dense_format false (PBF_new sample_file "osmium")) = Ok s'
    /\ stored s'
       = [("OSMHeader"%string, OSMPBF.HeaderMessage h);
          ("OSMData"%string, OSMPBF.PrimitiveMessage (cafe_block None))].
Proof.
  unfold session.
  destruct (@cafe_init sample_protobuf sample_zlib sample_file "osmium")
    as (f & h & Hi & Hf); [reflexivity | intros d; by exists d |].
  rewrite Hi, bind_Ok_l.
  destruct (@cafe_flushed sample_protobuf sample_zlib sample_file "osmium" f
              [("OSMHeader"%string, OSMPBF.HeaderMessage h)] Hf)
    as (s' & Hs & Hst); [intros d; by exists d |].
  exists s', h. split; [exact Hs|exact Hst].
Qed.

(** The scenario of C5 on the sample file and libraries. *)
Lemma single_sparse_node_sample :
  exists s' h,
    @session sample_protobuf sample_zlib {| OSM.bounds := None |} [ENode cafe]
      (use_dense_format false (PBF_new sample_file "osmium")) = Ok s'
    /\ stored s'
       = [("OSMHeader"%string, OSMPBF.HeaderMessage h);
          ("OSMData"%string, OSMPBF.PrimitiveMessage (cafe_block None))].
Proof.
  apply (@single_sparse_node sample_protobuf sample_zlib sample_file "osmium").
  - reflexivity.
  - intros data. exists data. reflexivity.
Defined.

(** C5 as stated does not hold: the string table of the flushed block is not
    ["", "amenity", "cafe", "alice"]. *)
Lemma single_sparse_node_table_as_stated :
  ~ exists s' h b,
      @session sample_protobuf sample_zlib {| OSM.bounds := None |} [ENode cafe]
        (use_dense_format false (PBF_new sample_file "osmium")) = Ok s'
      /\ stored s'
         = [("OSMHeader"%string, OSMPBF.HeaderMessage h);
            ("OSMData"%string, OSMPBF.PrimitiveMessage b)]
      /\ OSMPBF.stringtable b
         = [""%string; "amenity"%string; "cafe"%string; "alice"%string].
Proof.
  intros (s' & h & b & Hs & Hst & Hb).
  destruct single_sparse_node_sample_run as (s0 & h0 & Hs0 & Hst0).
  rewrite Hs0 in Hs. injection Hs as <-. rewrite Hst0 in Hst.
  injection Hst as _ <-. discriminate Hb.
Qed.

(** ** Reading blocks *)

(** The DenseNodes structures of a block, group by group. *)
Definition block_dense (b : OSMPBF.PrimitiveBlock) : list OSMPBF.DenseNodes :=
  omap OSMPBF.dense (OSMPBF.primitivegroup b).

(** The relations of a block, group by group. *)
Definition block_relations (b : OSMPBF.PrimitiveBlock) : list OSMPBF.Relation :=
  concat (map OSMPBF.relations (OSMPBF.primitivegroup b)).

(** How often a value occurs in a list. *)
Definition occurrences (x : Z) (l : list Z) : nat :=
  length (filter (fun y => y = x) l).

(** ** C3: separators in keys_vals *)

(** A dense node 7 whose one tag has an empty value. *)
Definition unnamed_place : OSM.Node :=
  {| OSM.node_object :=
       {| OSM.id := 7;
          OSM.tags := [("name"%string, ""%string)];
          OSM.version := 1;
          OSM.timestamp := 0;
          OSM.changeset := 1;
          OSM.uid := 1;
          OSM.user := "alice";
          OSM.visible := true |};
     OSM.lon := Degrees.d0;
     OSM.lat := Degrees.d0 |}.

(** C3, at a dense node with an empty tag value: the block handed to
    [store_blob] holds one dense node and its keys_vals stream is
    [2; 0; 0], two entries equal to 0; the first of them is the value of the
    tag, recorded as id 0, the second the separator. *)
Theorem keys_vals_empty_value {PB : Protobuf} {ZL : Zlib} :
  exists s1 s2,
    node unnamed_place (PBF_new sample_file "osmium") = Ok s1
    /\ map_string_ids (prepare_primitive_block s1) = Ok s2
    /\ map OSMPBF.dense_id (block_dense (pbf_primitive_block s2)) = [[7]]
    /\ map OSMPBF.keys_vals (block_dense (pbf_primitive_block s2)) = [[2; 0; 0]]
    /\ map (occurrences 0 ∘ OSMPBF.keys_vals)
         (block_dense (pbf_primitive_block s2)) = [2%nat].
Proof.
  pose (start := PBF_new sample_file "osmium").
  pose (s1 := from_ok start (node unnamed_place start)).
  pose (s2 := from_ok start (map_string_ids (prepare_primitive_block s1))).
  exists s1, s2.
  split;
    [exact (is_ok_from_ok start (node unnamed_place start)
              ltac:(vm_compute; exact I))|].
  split;
    [exact (is_ok_from_ok start
              (map_string_ids (prepare_primitive_block s1))
              ltac:(vm_compute; exact I))|].
  repeat split; vm_compute; reflexivity.
Qed.

(** ** A relation with an empty role *)

(** The relation of scenario S5. *)
Definition turn_restriction : OSM.Relation :=
  {| OSM.relation_object :=
       {| OSM.id := 99;
          OSM.tags := [];
          OSM.version := 1;
          OSM.timestamp := 0;
          OSM.changeset := 1;
          OSM.uid := 1;
          OSM.user := "alice";
          OSM.visible := true |};
     OSM.members :=
       [{| OSM.type := "w"; OSM.ref := 10; OSM.role := "outer" |};
        {| OSM.type := "n"; OSM.ref := 5; OSM.role := "via" |};
        {| OSM.type := "r"; OSM.ref := 3; OSM.role := "" |}] |}.

(** ** Blocks whose string references can all be mapped *)

(** The references an unguarded [map_string_id] will meet lie in 1..[N]. *)
Definition ids_in (N : Z) (l : list Z) : Prop :=
  Forall (fun k => 1 <= k <= N) l.

Definition common_valid (N : Z) (c : OSMPBF.Common) : Prop :=
  ids_in N (OSMPBF.keys c)
  /\ ids_in N (OSMPBF.vals c)
  /\ length (OSMPBF.keys c) = length (OSMPBF.vals c)
  /\ forall i, OSMPBF.info c = Some i -> 1 <= OSMPBF.info_user_sid i <= N.

(** The entries of keys_vals are guarded: 0 may occur. *)
Definition dense_valid (N : Z) (d : OSMPBF.DenseNodes) : Prop :=
  Forall (fun e => 0 <= e <= N) (OSMPBF.keys_vals d)
  /\ forall di, OSMPBF.denseinfo d = Some di -> ids_in N (OSMPBF.di_user_sid di).

Definition nodes_group_valid (N : Z) (g : OSMPBF.PrimitiveGroup) : Prop :=
  Forall (fun n => common_valid N (OSMPBF.node_common n)) (OSMPBF.nodes g)
  /\ forall d, OSMPBF.dense g = Some d -> dense_valid N d.

Lemma ids_in_mono N N' l : N <= N' -> ids_in N l -> ids_in N' l.
Proof.
  intros HN Hl. eapply Forall_impl; [exact Hl|]. intros k. simpl. lia.
Qed.

Lemma common_valid_mono N N' c :
  N <= N' -> common_valid N c -> common_valid N' c.
Proof.
  intros HN (Hk & Hv & Hl & Hi). repeat split; eauto using ids_in_mono.
  - specialize (Hi _ H). lia.
  - specialize (Hi _ H). lia.
Qed.

Lemma dense_valid_mono N N' d :
  N <= N' -> dense_valid N d -> dense_valid N' d.
Proof.
  intros HN (Hkv & Hu). split.
  - eapply Forall_impl; [exact Hkv|]. intros e. simpl. lia.
  - intros di Hdi. eauto using ids_in_mono.
Qed.

Lemma nodes_group_valid_mono N N' g :
  N <= N' -> nodes_group_valid N g -> nodes_group_valid N' g.
Proof.
  intros HN (Hn & Hd). split.
  - eapply Forall_impl; [exact Hn|]. intros n. by apply common_valid_mono.
  - intros d Hgd. eauto using dense_valid_mono.
Qed.

Section Mapping.
Context (t : StringTable) (N : Z).
Hypothesis Hmap : forall k, 1 <= k <= N -> mappable t k.

Lemma for_each_map_string_id_ok l :
  ids_in N l -> is_ok (for_each (map_string_id t) l).
Proof. intros Hl. apply for_each_ok. eapply Forall_impl; [exact Hl|]. apply Hmap. Qed.

Lemma map_tags_ok ks vs :
  ids_in N ks -> ids_in N vs -> length ks = length vs ->
  exists ks' vs', map_tags t ks vs = Ok (ks', vs')
                  /\ length ks' = length ks /\ length vs' = length vs.
Proof.
  revert vs. induction ks as [|k ks IH]; intros [|v vs] Hk Hv Hl;
    try discriminate Hl.
  - by exists [], [].
  - apply Forall_cons in Hk. destruct Hk as [Hk Hks].
    apply Forall_cons in Hv. destruct Hv as [Hv Hvs].
    injection Hl as Hl.
    destruct (IH vs Hks Hvs Hl) as (ks' & vs' & E & Lk & Lv).
    pose proof (Hmap _ Hk) as Mk. pose proof (Hmap _ Hv) as Mv.
    apply is_ok_Ok in Mk. destruct Mk as [k' Ek].
    apply is_ok_Ok in Mv. destruct Mv as [v' Ev].
    exists (k' :: ks'), (v' :: vs'). cbn [map_tags].
    rewrite Ek, bind_Ok_l, Ev, bind_Ok_l, E, bind_Ok_l. simpl.
    by rewrite Lk, Lv.
Qed.

Lemma map_common_string_ids_ok c :
  common_valid N c -> is_ok (map_common_string_ids t c).
Proof.
  intros (Hk & Hv & Hl & Hi). unfold map_common_string_ids.
  destruct (map_tags_ok _ _ Hk Hv Hl) as (ks' & vs' & E & _).
  destruct (OSMPBF.info c) as [i|].
  - pose proof (Hmap _ (Hi _ eq_refl)) as Mu.
    apply is_ok_Ok in Mu. destruct Mu as [u Eu].
    unfold map_info. rewrite Eu, !bind_Ok_l, E. done.
  - rewrite bind_Ok_l, E. done.
Qed.

Lemma map_node_ok n :
  common_valid N (OSMPBF.node_common n) -> is_ok (map_node t n).
Proof.
  intros Hc. apply map_common_string_ids_ok in Hc.
  apply is_ok_Ok in Hc. destruct Hc as [c Ec].
  unfold map_node. rewrite Ec. done.
Qed.

Lemma map_keys_vals_entry_ok e :
  0 <= e <= N -> is_ok (map_keys_vals_entry t e).
Proof.
  intros He. unfold map_keys_vals_entry.
  destruct (Z.ltb_spec 0 (to_uint16 e)); [|done].
  apply Hmap. pose proof (to_uint16_le e). lia.
Qed.

Lemma map_dense_user_sid_ok us d :
  ids_in N us ->
  exists xs d', map_dense_user_sid t us d = Ok (xs, d')
                /\ length xs = length us.
Proof.
  revert d. induction us as [|u us IH]; intros d Hu.
  - by exists [], d.
  - apply Forall_cons in Hu. destruct Hu as [Hu Hus].
    pose proof (Hmap _ Hu) as Mu. apply is_ok_Ok in Mu.
    destruct Mu as [f Ef]. cbn [map_dense_user_sid].
    rewrite Ef, bind_Ok_l.
    destruct (Delta_update to_uint32 (to_uint16 f) d) as [x d1].
    destruct (IH d1 Hus) as (xs & d' & E & L).
    exists (to_int32 x :: xs), d'. rewrite E, bind_Ok_l. simpl. by rewrite L.
Qed.

Lemma map_dense_ok dense d :
  dense_valid N dense ->
  exists dense' d',
    map_dense t dense d = Ok (dense', d')
    /\ OSMPBF.dense_id dense' = OSMPBF.dense_id dense.
Proof.
  intros (Hkv & Hu). unfold map_dense.
  assert (Hk : is_ok (for_each (map_keys_vals_entry t) (OSMPBF.keys_vals dense))).
  { apply for_each_ok. eapply Forall_impl; [exact Hkv|].
    apply map_keys_vals_entry_ok. }
  apply is_ok_Ok in Hk. destruct Hk as [kv ->]. rewrite bind_Ok_l.
  destruct (OSMPBF.denseinfo dense) as [di|].
  - destruct (map_dense_user_sid_ok (OSMPBF.di_user_sid di) d (Hu _ eq_refl))
      as (xs & d' & -> & _).
    rewrite !bind_Ok_l. eexists _, _. split; reflexivity.
  - rewrite !bind_Ok_l. eexists _, _. split; reflexivity.
Qed.

End Mapping.

(** ** Recording the strings of an entity *)

Lemma record_string_bounds s t :
  table_ok t ->
  table_ok (record_string s t).2
  /\ m_size t <= m_size (record_string s t).2
  /\ 0 <= (record_string s t).1 <= m_size (record_string s t).2
  /\ (s <> EmptyString -> 1 <= (record_string s t).1).
Proof.
  intros Hok. pose proof (record_string_spec s t Hok) as H.
  destruct (record_string s t) as [id t']. simpl.
  destruct H as (Hok' & Hsz & _ & He & Hne & _).
  split; [done|]. split; [done|].
  destruct (decide (s = EmptyString)) as [Hs|Hs].
  - destruct (He Hs) as [-> ->]. pose proof (table_size _ Hok). split; [lia|done].
  - destruct (Hne Hs) as [Hid _]. split; [lia|]. intros _. lia.
Qed.

Definition tag_strings_nonempty (tags : list (string * string)) : Prop :=
  Forall (fun kv => kv.1 <> EmptyString /\ kv.2 <> EmptyString) tags.

Lemma record_tags_spec tags t :
  table_ok t ->
  table_ok (record_tags tags t).2
  /\ m_size t <= m_size (record_tags tags t).2
  /\ length (record_tags tags t).1.1 = length tags
  /\ length (record_tags tags t).1.2 = length tags
  /\ (tag_strings_nonempty tags ->
      Forall (fun k => 1 <= k <= m_size (record_tags tags t).2)
        (record_tags tags t).1.1
      /\ Forall (fun k => 1 <= k <= m_size (record_tags tags t).2)
           (record_tags tags t).1.2).
Proof.
  revert t. induction tags as [|[k v] tags IH]; intros t Hok.
  - simpl. split; [done|]. split; [lia|]. split; [done|]. split; [done|].
    intros _. split; constructor.
  - cbn [record_tags].
    pose proof (record_string_bounds k t Hok) as (Hok1 & Hs1 & Hb1 & Hn1).
    destruct (record_string k t) as [ki t1]. simpl in *.
    pose proof (record_string_bounds v t1 Hok1) as (Hok2 & Hs2 & Hb2 & Hn2).
    destruct (record_string v t1) as [vi t2]. simpl in *.
    specialize (IH t2 Hok2).
    destruct (record_tags tags t2) as [[ks vs] t3]. simpl in *.
    destruct IH as (Hok3 & Hs3 & Lk & Lv & Hids).
    split; [done|]. split; [lia|]. split; [by rewrite Lk|].
    split; [by rewrite Lv|].
    intros Hne. apply Forall_cons in Hne. destruct Hne as [[Hk Hv] Hne].
    destruct (Hids Hne) as [Hks Hvs].
    split; constructor; try done.
    + specialize (Hn1 Hk). lia.
    + specialize (Hn2 Hv). lia.
Qed.

Lemma record_keys_vals_spec tags t :
  table_ok t ->
  table_ok (record_keys_vals tags t).2
  /\ m_size t <= m_size (record_keys_vals tags t).2
  /\ Forall (fun e => 0 <= e <= m_size (record_keys_vals tags t).2)
       (record_keys_vals tags t).1.
Proof.
  revert t. induction tags as [|[k v] tags IH]; intros t Hok.
  - simpl. pose proof (table_size _ Hok). split; [done|]. split; [lia|].
    constructor; [lia|constructor].
  - cbn [record_keys_vals].
    pose proof (record_string_bounds k t Hok) as (Hok1 & Hs1 & Hb1 & _).
    destruct (record_string k t) as [ki t1]. simpl in *.
    pose proof (record_string_bounds v t1 Hok1) as (Hok2 & Hs2 & Hb2 & _).
    destruct (record_string v t1) as [vi t2]. simpl in *.
    specialize (IH t2 Hok2).
    destruct (record_keys_vals tags t2) as [kv t3]. simpl in *.
    destruct IH as (Hok3 & Hs3 & Hkv).
    split; [done|]. split; [lia|].
    constructor; [lia|]. constructor; [lia|]. done.
Qed.

(** ** Runs of nodes *)

Definition group_node_count (g : OSMPBF.PrimitiveGroup) : nat :=
  length (OSMPBF.nodes g)
  + length (OSMPBF.dense_id (default OSMPBF.DenseNodes_init (OSMPBF.dense g))).

(** The number of nodes, sparse and dense, a block holds. *)
Definition block_node_count (b : OSMPBF.PrimitiveBlock) : nat :=
  sum_list (map group_node_count (OSMPBF.primitivegroup b)).

(** The configuration of a writer: what no member function changes. *)
Definition same_config (s s' : PBF) : Prop :=
  m_location_granularity s' = m_location_granularity s
  /\ m_date_granularity s' = m_date_granularity s
  /\ m_use_dense_format s' = m_use_dense_format s
  /\ m_use_compression s' = m_use_compression s
  /\ m_should_add_metadata s' = m_should_add_metadata s
  /\ m_add_visible s' = m_add_visible s.

Lemma same_config_refl s : same_config s s.
Proof. by repeat split. Qed.

Lemma same_config_trans s1 s2 s3 :
  same_config s1 s2 -> same_config s2 s3 -> same_config s1 s3.
Proof.
  unfold same_config. intros (?&?&?&?&?&?) (?&?&?&?&?&?).
  repeat split; congruence.
Qed.

(** A node the writer can encode and later flush: its coordinates and
    timestamp convert, its user name is not empty when metadata is written,
    and no tag string is empty when the node is written sparse. *)
Definition node_encodable (s : PBF) (n : OSM.Node) : Prop :=
  is_ok (lonlat2int s (OSM.lon n))
  /\ is_ok (lonlat2int s (OSM.lat n))
  /\ (m_should_add_metadata s = true ->
      is_ok (timestamp2int s (OSM.timestamp (OSM.node_object n)))
      /\ OSM.user (OSM.node_object n) <> EmptyString)
  /\ (m_use_dense_format s = false ->
      tag_strings_nonempty (OSM.tags (OSM.node_object n))).

Section NodeConfig.
Context {PB : Protobuf} {ZL : Zlib}.

Lemma node_encodable_config s s' n :
  same_config s s' -> node_encodable s n -> node_encodable s' n.
Proof.
  intros (Hl & Hd & Hdf & _ & Hm & _) (H1 & H2 & H3 & H4).
  unfold node_encodable.
  rewrite !(lonlat2int_ext s' s), (timestamp2int_ext s' s), Hm, Hdf by done.
  done.
Qed.

End NodeConfig.

(** The state of a writer that has taken [k] nodes, and nothing else, into
    the block in flight. *)
Record nodes_run (k : nat) (s : PBF) : Prop := {
  nr_ways : pbf_ways s = None;
  nr_relations : pbf_relations s = None;
  nr_contents : primitive_block_contents s = Z.of_nat k;
  nr_size : primitive_block_size s = 0;
  nr_table : table_ok (string_table s);
  nr_writes : writes_complete s;
  nr_groups :
    match pbf_nodes s with
    | None => k = 0%nat /\ OSMPBF.primitivegroup (pbf_primitive_block s) = []
    | Some i =>
        i = 0%nat
        /\ exists g,
             OSMPBF.primitivegroup (pbf_primitive_block s) = [g]
             /\ group_node_count g = k
             /\ nodes_group_valid (m_size (string_table s)) g
    end
}.

Section NodeRuns.
Context {PB : Protobuf} {ZL : Zlib}.

(** What the two node encoders leave as they found it. *)
Definition encoder_frame (s s' : PBF) : Prop :=
  pbf_nodes s' = pbf_nodes s
  /\ pbf_ways s' = pbf_ways s
  /\ pbf_relations s' = pbf_relations s
  /\ primitive_block_contents s' = primitive_block_contents s
  /\ primitive_block_size s' = primitive_block_size s
  /\ m_file s' = m_file s
  /\ stored s' = stored s
  /\ m_delta_user_sid s' = m_delta_user_sid s
  /\ same_config s s'.

Lemma write_node_step n s g :
  pbf_nodes s = Some 0%nat ->
  OSMPBF.primitivegroup (pbf_primitive_block s) = [g] ->
  table_ok (string_table s) ->
  nodes_group_valid (m_size (string_table s)) g ->
  m_use_dense_format s = false ->
  node_encodable s n ->
  exists s' g',
    write_node n s = Ok s'
    /\ encoder_frame s s'
    /\ table_ok (string_table s')
    /\ OSMPBF.primitivegroup (pbf_primitive_block s') = [g']
    /\ group_node_count g' = S (group_node_count g)
    /\ nodes_group_valid (m_size (string_table s')) g'.
Proof.
  intros Hp Hg Hok Hv Hdf (Hlon & Hlat & Hmeta & Htags).
  specialize (Htags Hdf).
  unfold write_node, group_at. rewrite Hp, Hg. cbn [lookup list_lookup].
  ok_step. unfold apply_common_info.
  pose proof (record_tags_spec (OSM.tags (OSM.node_object n)) (string_table s) Hok)
    as (Hok1 & Hs1 & Lk & Lv & Hids).
  destruct (Hids Htags) as [Hks Hvs]. clear Hids.
  destruct (record_tags (OSM.tags (OSM.node_object n)) (string_table s))
    as [[ks vs] t1]. simpl in Hok1, Hs1, Lk, Lv, Hks, Hvs.
  apply is_ok_Ok in Hlon. destruct Hlon as [lon Elon].
  apply is_ok_Ok in Hlat. destruct Hlat as [lat Elat].
  assert (Elon' : forall t, lonlat2int (set_string_table t s) (OSM.lon n) = Ok lon)
    by (intros; rewrite <- Elon; by apply lonlat2int_ext).
  assert (Elat' : forall t, lonlat2int (set_string_table t s) (OSM.lat n) = Ok lat)
    by (intros; rewrite <- Elat; by apply lonlat2int_ext).
  destruct (m_should_add_metadata s) eqn:Em.
  - destruct (Hmeta eq_refl) as [Hts Hu].
    apply is_ok_Ok in Hts. destruct Hts as [ts Ets]. rewrite Ets. ok_step.
    pose proof (record_string_bounds (OSM.user (OSM.node_object n)) t1 Hok1)
      as (Hok2 & Hs2 & Hb2 & Hn2).
    specialize (Hn2 Hu).
    destruct (record_string (OSM.user (OSM.node_object n)) t1) as [u t2].
    simpl in Hok2, Hs2, Hb2, Hn2. ok_step.
    rewrite Elon'. ok_step. rewrite Elat'. ok_step.
    eexists _, _. split; [reflexivity|].
    split; [unfold encoder_frame, same_config; simpl; tauto|].
    split; [done|]. unfold put_group. simpl. rewrite Hg. simpl.
    split; [reflexivity|].
    split; [unfold group_node_count; simpl; rewrite length_app; simpl; lia|].
    destruct Hv as [Hvn Hvd]. split; simpl.
    + apply Forall_app. split.
      * eapply Forall_impl; [exact Hvn|]. intros x.
        apply common_valid_mono. lia.
      * constructor; [|constructor]. unfold common_valid. simpl.
        split; [eapply ids_in_mono; [|exact Hks]; lia|].
        split; [eapply ids_in_mono; [|exact Hvs]; lia|].
        split; [congruence|]. intros i [= <-]. simpl. lia.
    + intros d Hd. eapply dense_valid_mono; [|by apply Hvd]. lia.
  - ok_step.
    rewrite Elon'. ok_step. rewrite Elat'. ok_step.
    eexists _, _. split; [reflexivity|].
    split; [unfold encoder_frame, same_config; simpl; tauto|].
    split; [done|]. unfold put_group. simpl. rewrite Hg. simpl.
    split; [reflexivity|].
    split; [unfold group_node_count; simpl; rewrite length_app; simpl; lia|].
    destruct Hv as [Hvn Hvd]. split; simpl.
    + apply Forall_app. split.
      * eapply Forall_impl; [exact Hvn|]. intros x.
        apply common_valid_mono. lia.
      * constructor; [|constructor]. unfold common_valid. simpl.
        split; [done|]. split; [done|]. split; [congruence|]. done.
    + intros d Hd. eapply dense_valid_mono; [|by apply Hvd]. lia.
Qed.

Lemma write_dense_node_step n s g :
  pbf_nodes s = Some 0%nat ->
  OSMPBF.primitivegroup (pbf_primitive_block s) = [g] ->
  table_ok (string_table s) ->
  nodes_group_valid (m_size (string_table s)) g ->
  node_encodable s n ->
  exists s' g',
    write_dense_node n s = Ok s'
    /\ encoder_frame s s'
    /\ table_ok (string_table s')
    /\ OSMPBF.primitivegroup (pbf_primitive_block s') = [g']
    /\ group_node_count g' = S (group_node_count g)
    /\ nodes_group_valid (m_size (string_table s')) g'.
Proof.
  intros Hp Hg Hok Hv (Hlon & Hlat & Hmeta & _).
  unfold write_dense_node, group_at. rewrite Hp, Hg. cbn [lookup list_lookup].
  ok_step. unfold Delta_update. cbn beta iota.
  apply is_ok_Ok in Hlon. destruct Hlon as [lon Elon].
  apply is_ok_Ok in Hlat. destruct Hlat as [lat Elat].
  rewrite Elon. ok_step. rewrite Elat. ok_step.
  pose proof (record_keys_vals_spec (OSM.tags (OSM.node_object n))
                (string_table s) Hok) as (Hok1 & Hs1 & Hkv).
  destruct (record_keys_vals (OSM.tags (OSM.node_object n)) (string_table s))
    as [kv t1]. simpl in Hok1, Hs1, Hkv.
  destruct Hv as [Hvn Hvd].
  destruct (m_should_add_metadata s) eqn:Em.
  - destruct (Hmeta eq_refl) as [Hts Hu].
    apply is_ok_Ok in Hts. destruct Hts as [ts Ets]. rewrite Ets. ok_step.
    pose proof (record_string_bounds (OSM.user (OSM.node_object n)) t1 Hok1)
      as (Hok2 & Hs2 & Hb2 & Hn2).
    specialize (Hn2 Hu).
    destruct (record_string (OSM.user (OSM.node_object n)) t1) as [u t2].
    simpl in Hok2, Hs2, Hb2, Hn2. ok_step.
    eexists _, _. split; [reflexivity|].
    split; [unfold encoder_frame, same_config; simpl; tauto|].
    split; [done|]. unfold put_group. simpl. rewrite Hg. simpl.
    split; [reflexivity|].
    split; [unfold group_node_count; simpl; rewrite length_app; simpl; lia|].
    split; simpl.
    + eapply Forall_impl; [exact Hvn|]. intros x.
      apply common_valid_mono. lia.
    + intros d [= <-]. split; simpl.
      * apply Forall_app. split.
        -- destruct (OSMPBF.dense g) as [d0|] eqn:Ed; simpl; [|constructor].
           destruct (Hvd _ eq_refl) as [Hkv0 _].
           eapply Forall_impl; [exact Hkv0|]. intros e. simpl. lia.
        -- eapply Forall_impl; [exact Hkv|]. intros e. simpl. lia.
      * intros di [= <-]. simpl. apply Forall_app. split.
        -- destruct (OSMPBF.dense g) as [d0|] eqn:Ed; simpl; [|constructor].
           destruct (Hvd _ eq_refl) as [_ Hu0].
           destruct (OSMPBF.denseinfo d0) as [di0|] eqn:Edi; simpl;
             [|constructor].
           eapply ids_in_mono; [|by apply Hu0]. lia.
        -- constructor; [lia|constructor].
  - ok_step.
    eexists _, _. split; [reflexivity|].
    split; [unfold encoder_frame, same_config; simpl; tauto|].
    split; [done|]. unfold put_group. simpl. rewrite Hg. simpl.
    split; [reflexivity|].
    split; [unfold group_node_count; simpl; rewrite length_app; simpl; lia|].
    split; simpl.
    + eapply Forall_impl; [exact Hvn|]. intros x.
      apply common_valid_mono. lia.
    + intros d [= <-]. split; simpl.
      * apply Forall_app. split.
        -- destruct (OSMPBF.dense g) as [d0|] eqn:Ed; simpl; [|constructor].
           destruct (Hvd _ eq_refl) as [Hkv0 _].
           eapply Forall_impl; [exact Hkv0|]. intros e. simpl. lia.
        -- done.
      * intros di Hdi.
        destruct (OSMPBF.dense g) as [d0|] eqn:Ed; simpl in Hdi;
          [|discriminate Hdi].
        destruct (Hvd _ eq_refl) as [_ Hu0].
        eapply ids_in_mono; [|by apply Hu0]. lia.
Qed.

(** What [node] does after the flush check. *)
Definition node_body (n : OSM.Node) (s1 : PBF) : result PBF :=
  let s2 :=
    match pbf_nodes s1 with
    | None => let '(i, s') := add_primitivegroup s1 in set_pbf_nodes (Some i) s'
    | Some _ => s1
    end in
  if m_use_dense_format s2 then write_dense_node n s2 else write_node n s2.

Lemma node_unfold n s :
  node n s = check_block_contents_counter s ≫= node_body n.
Proof. reflexivity. Qed.

Lemma compression_works_config s s' :
  same_config s s' -> compression_works s -> compression_works s'.
Proof.
  intros (_ & _ & _ & Hc & _) Hz. unfold compression_works in *.
  rewrite Hc. exact Hz.
Qed.

Lemma node_body_step k s n :
  nodes_run k s -> node_encodable s n ->
  exists s',
    node_body n (set_primitive_block_contents (Z.of_nat (S k)) s) = Ok s'
    /\ nodes_run (S k) s'
    /\ stored s' = stored s
    /\ same_config s s'.
Proof.
  intros [Hw Hr Hc Hsz Hok Hwr Hg] Hn.
  set (s1 := set_primitive_block_contents (Z.of_nat (S k)) s).
  assert (Hn1 : node_encodable s1 n)
    by (eapply node_encodable_config; [|exact Hn]; by repeat split).
  assert (exists s2 g,
            node_body n s1
            = (if m_use_dense_format s2 then write_dense_node n s2
               else write_node n s2)
            /\ pbf_nodes s2 = Some 0%nat
            /\ OSMPBF.primitivegroup (pbf_primitive_block s2) = [g]
            /\ group_node_count g = k
            /\ nodes_group_valid (m_size (string_table s)) g
            /\ string_table s2 = string_table s
            /\ encoder_frame s1 (set_pbf_nodes (pbf_nodes s1) s2))
    as (s2 & g & Hb & Hp2 & Hg2 & Hk2 & Hv2 & Ht2 & Hf2).
  { unfold node_body. change (pbf_nodes s1) with (pbf_nodes s).
    destruct (pbf_nodes s) as [i|] eqn:Ep.
    - destruct Hg as (-> & g & Hg & Hk & Hv).
      exists s1, g. split; [reflexivity|]. subst s1. simpl. rewrite Ep.
      do 5 (split; [done|]). by repeat split.
    - destruct Hg as (-> & Hg).
      exists (set_pbf_nodes (Some 0%nat)
                (set_pbf_primitive_block
                   (with_primitivegroup [OSMPBF.PrimitiveGroup_init]
                      (pbf_primitive_block s1)) s1)),
        OSMPBF.PrimitiveGroup_init.
      split.
      { unfold add_primitivegroup.
        change (OSMPBF.primitivegroup (pbf_primitive_block s1))
          with (OSMPBF.primitivegroup (pbf_primitive_block s)).
        rewrite Hg. reflexivity. }
      subst s1. simpl.
      do 3 (split; [done|]).
      split; [split; [constructor|intros d Hd; discriminate Hd]|].
      split; [done|]. by repeat split. }
  rewrite Hb.
  assert (Hn2 : node_encodable s2 n).
  { eapply node_encodable_config; [|exact Hn1].
    destruct Hf2 as (_ & _ & _ & _ & _ & _ & _ & _ & Hcfg). exact Hcfg. }
  assert (Hok2 : table_ok (string_table s2)) by (by rewrite Ht2).
  assert (Hv2' : nodes_group_valid (m_size (string_table s2)) g)
    by (by rewrite Ht2).
  assert (exists s' g',
            (if m_use_dense_format s2 then write_dense_node n s2
             else write_node n s2) = Ok s'
            /\ encoder_frame s2 s'
            /\ table_ok (string_table s')
            /\ OSMPBF.primitivegroup (pbf_primitive_block s') = [g']
            /\ group_node_count g' = S (group_node_count g)
            /\ nodes_group_valid (m_size (string_table s')) g')
    as (s' & g' & -> & Hf & Hok' & Hg' & Hk' & Hv').
  { destruct (m_use_dense_format s2) eqn:Ed.
    - by apply write_dense_node_step.
    - by apply write_node_step. }
  exists s'. split; [done|].
  destruct Hf as (Fp & Fw & Fr & Fc & Fs & Ff & Fst & _ & Fcfg).
  destruct Hf2 as (_ & Gw & Gr & Gc & Gs & Gf & Gst & _ & Gcfg).
  simpl in Gw, Gr, Gc, Gs, Gf, Gst.
  split; [|split].
  - split.
    + congruence.
    + congruence.
    + rewrite Fc, Gc. done.
    + congruence.
    + done.
    + unfold writes_complete in *. congruence.
    + rewrite Fp, Hp2. split; [done|]. exists g'.
      split; [done|]. split; [congruence|done].
  - congruence.
  - eapply same_config_trans; [|exact Fcfg].
    destruct Gcfg as (?&?&?&?&?&?). simpl in *. by repeat split.
Qed.

Lemma block_size_limit_value : block_size_limit = 31876710.
Proof. reflexivity. Qed.

Lemma flush_due_iff s :
  flush_due s = true
  <-> 8000 <= primitive_block_contents s
      \/ (primitive_block_contents s < 8000
          /\ 31876710 < primitive_block_size s).
Proof.
  unfold flush_due. rewrite block_size_limit_value.
  unfold max_block_contents.
  rewrite orb_true_iff, Z.leb_le, Z.ltb_lt. lia.
Qed.

Lemma nodes_run_no_flush k s :
  nodes_run k s -> Z.of_nat k < 8000 -> flush_due s = false.
Proof.
  intros Hr Hk. apply not_true_is_false. rewrite flush_due_iff.
  rewrite (nr_contents _ _ Hr), (nr_size _ _ Hr). lia.
Qed.

Lemma node_step k s n :
  nodes_run k s -> Z.of_nat k < 8000 -> node_encodable s n ->
  exists s',
    node n s = Ok s'
    /\ nodes_run (S k) s'
    /\ stored s' = stored s
    /\ same_config s s'.
Proof.
  intros Hr Hk Hn. rewrite node_unfold, check_block_contents_counter_unfold.
  rewrite (nodes_run_no_flush k s Hr Hk), bind_Ok_l.
  rewrite (nr_contents _ _ Hr).
  replace (to_uint16 (Z.of_nat k + 1)) with (Z.of_nat (S k))
    by (rewrite to_uint16_id; lia).
  by apply node_body_step.
Qed.

(** A run of nodes that stays below the entity limit never flushes. *)
Lemma nodes_ingest ns : forall k s,
  nodes_run k s -> Z.of_nat (k + length ns) <= 8000 ->
  Forall (node_encodable s) ns ->
  exists s',
    ingest_all (map ENode ns) s = Ok s'
    /\ nodes_run (k + length ns) s'
    /\ stored s' = stored s
    /\ same_config s s'.
Proof.
  induction ns as [|n ns IH]; intros k s Hr Hk Hns.
  - exists s. simpl. rewrite Nat.add_0_r. auto using same_config_refl.
  - apply Forall_cons in Hns. destruct Hns as [Hn Hns]. simpl in Hk.
    destruct (node_step k s n Hr ltac:(lia) Hn) as (s1 & E1 & Hr1 & Hst1 & Hc1).
    destruct (IH (S k) s1 Hr1 ltac:(lia)) as (s' & E' & Hr' & Hst' & Hc').
    { eapply Forall_impl; [exact Hns|]. intros x.
      by apply node_encodable_config. }
    exists s'. cbn [map ingest_all ingest]. rewrite E1, bind_Ok_l.
    split; [exact E'|]. replace (k + length (n :: ns))%nat with (S k + length ns)%nat
      by (simpl; lia).
    split; [done|]. split; [congruence|].
    by eapply same_config_trans.
Qed.

(** Flushing a block of [k] nodes: the flush returns, the block it stores
    holds [k] nodes, and the writer is back at a block start. *)
Lemma nodes_flush k s :
  nodes_run k s -> compression_works s ->
  exists s' b,
    store_primitive_block s = Ok s'
    /\ stored s' = stored s ++ [("OSMData"%string, OSMPBF.PrimitiveMessage b)]
    /\ block_node_count b = k
    /\ nodes_run 0 s'
    /\ same_config s s'.
Proof.
  intros [Hw Hr Hc Hsz Hok Hwr Hg] Hz.
  assert (exists s1,
            map_string_ids (prepare_primitive_block s) = Ok s1
            /\ block_node_count (pbf_primitive_block s1) = k) as (s1 & Hm & Hk).
  { unfold map_string_ids, prepare_primitive_block.
    destruct (store_stringtable (string_table s)) as [out t'] eqn:Est.
    assert (Hmap : forall i, 1 <= i <= m_size (string_table s) -> mappable t' i).
    { intros i Hi. pose proof (store_stringtable_mappable _ i Hok Hi) as M.
      by rewrite Est in M. }
    simpl.
    destruct (pbf_nodes s) as [i|] eqn:Ep.
    - destruct Hg as (-> & g & Hg & Hk & Hvn & Hvd).
      unfold group_at. simpl. rewrite Hg. cbn [lookup list_lookup]. ok_step.
      assert (Hns : is_ok (for_each (map_node t') (OSMPBF.nodes g))).
      { apply for_each_ok. eapply Forall_impl; [exact Hvn|].
        intros n. by apply (map_node_ok t' _ Hmap). }
      apply is_ok_Ok in Hns. destruct Hns as [ns Hns]. rewrite Hns. ok_step.
      pose proof (for_each_length _ _ _ Hns) as Lns.
      destruct (OSMPBF.dense g) as [d|] eqn:Ed.
      + destruct (map_dense_ok t' _ Hmap d (m_delta_user_sid s) (Hvd _ eq_refl))
          as (d' & dl & -> & Hid).
        ok_step. ok_step. ok_step. simpl. rewrite Hw. ok_step.
        simpl. rewrite Hr. eexists. split; [reflexivity|].
        unfold block_node_count, put_group. simpl.
        unfold group_node_count in *. simpl. rewrite Ed in Hk. simpl in Hk.
        rewrite Hid, Lns. lia.
      + ok_step. ok_step. simpl. rewrite Hw. ok_step.
        simpl. rewrite Hr. eexists. split; [reflexivity|].
        unfold block_node_count, put_group. simpl.
        unfold group_node_count in *. simpl. rewrite Ed in Hk. simpl in Hk.
        rewrite Lns. lia.
    - destruct Hg as (-> & Hg). ok_step. simpl. rewrite Hw. ok_step.
      simpl. rewrite Hr. eexists. split; [reflexivity|].
      unfold block_node_count. simpl. by rewrite Hg. }
  destruct (store_primitive_block_complete s s1 Hm Hwr Hz)
    as (f & -> & Hf & Hty & Hcl).
  eexists _, _. split; [reflexivity|]. split; [reflexivity|].
  split; [exact Hk|]. split.
  - split; simpl; try done. apply table_ok_init.
  - by repeat split.
Qed.

(** The node that meets a full block: the block is flushed with the nodes it
    holds, and the node opens the next one. *)
Lemma node_flush_step k s n :
  nodes_run k s -> flush_due s = true -> compression_works s ->
  node_encodable s n ->
  exists s' b,
    node n s = Ok s'
    /\ stored s' = stored s ++ [("OSMData"%string, OSMPBF.PrimitiveMessage b)]
    /\ block_node_count b = k
    /\ nodes_run 1 s'
    /\ same_config s s'.
Proof.
  intros Hr Hd Hz Hn.
  destruct (nodes_flush k s Hr Hz) as (s1 & b & Hf & Hst & Hb & Hr1 & Hc1).
  rewrite node_unfold, check_block_contents_counter_unfold, Hd, Hf.
  rewrite !bind_Ok_l, (nr_contents _ _ Hr1).
  change (to_uint16 (Z.of_nat 0 + 1)) with (Z.of_nat 1).
  destruct (node_body_step 0 s1 n Hr1) as (s' & E' & Hr' & Hst' & Hc').
  { by eapply node_encodable_config. }
  exists s', b. split; [done|]. split; [congruence|]. split; [done|].
  split; [done|]. by eapply same_config_trans.
Qed.

Lemma final_nodes k s :
  nodes_run k s -> (0 < k)%nat -> compression_works s ->
  exists s' b,
    final s = Ok s'
    /\ stored s' = stored s ++ [("OSMData"%string, OSMPBF.PrimitiveMessage b)]
    /\ block_node_count b = k
    /\ file_closed (m_file s') = true.
Proof.
  intros Hr Hk Hz.
  destruct (nodes_flush k s Hr Hz) as (s1 & b & Hf & Hst & Hb & Hr1 & Hc1).
  unfold final. rewrite (nr_contents _ _ Hr).
  replace (0 <? Z.of_nat k) with true by (symmetry; apply Z.ltb_lt; lia).
  rewrite Hf, bind_Ok_l. eexists _, b. split; [reflexivity|]. done.
Qed.

Lemma init_nodes_run meta s :
  OSM.bounds meta = None -> nodes_run 0 s -> compression_works s ->
  exists s' h,
    init meta s = Ok s'
    /\ stored s' = stored s ++ [("OSMHeader"%string, OSMPBF.HeaderMessage h)]
    /\ nodes_run 0 s'
    /\ same_config s s'.
Proof.
  intros Hb [Hw Hr Hc Hsz Hok Hwr Hg] Hz.
  unfold init, store_header_block. rewrite Hb, bind_Ok_l.
  match goal with |- context [store_blob ?ty ?msg ?s0] =>
    destruct (store_blob_complete ty msg s0) as (f & -> & Hf & _ & _);
      [exact Hwr | exact Hz |] end.
  rewrite bind_Ok_l. eexists _, _. split; [reflexivity|].
  split; [reflexivity|]. split; [by split|by repeat split].
Qed.

Lemma ingest_all_app es1 es2 s :
  ingest_all (es1 ++ es2) s = ingest_all es1 s ≫= ingest_all es2.
Proof.
  revert s. induction es1 as [|e es1 IH]; intros s; [done|].
  cbn [app ingest_all]. destruct (ingest e s) as [s1|err]; [|done].
  rewrite !bind_Ok_l. apply IH.
Qed.

Definition way_body (w : OSM.Way) (s1 : PBF) : result PBF :=
  let s2 :=
    match pbf_ways s1 with
    | None => let '(i, s') := add_primitivegroup s1 in set_pbf_ways (Some i) s'
    | Some _ => s1
    end in
  write_way w s2.

Definition relation_body (r : OSM.Relation) (s1 : PBF) : result PBF :=
  let s2 :=
    match pbf_relations s1 with
    | None =>
        let '(i, s') := add_primitivegroup s1 in set_pbf_relations (Some i) s'
    | Some _ => s1
    end in
  write_relation r s2.

(** What an operation does with its entity once the flush check is over. *)
Definition encode (e : Entity) : PBF -> result PBF :=
  match e with
  | ENode n => node_body n
  | EWay w => way_body w
  | ERelation r => relation_body r
  end.

Lemma ingest_unfold e s :
  ingest e s = check_block_contents_counter s ≫= encode e.
Proof. by destruct e. Qed.

(** 8001 nodes: the first 8000 fill a block, the last one flushes it and
    opens a second block, which [final] flushes. *)
Lemma nodes_8001 meta s ns :
  OSM.bounds meta = None -> nodes_run 0 s -> compression_works s ->
  Z.of_nat (length ns) = 8001 ->
  Forall (node_encodable s) ns ->
  exists s' h b1 b2,
    session meta (map ENode ns) s = Ok s'
    /\ stored s'
       = stored s
         ++ [("OSMHeader"%string, OSMPBF.HeaderMessage h);
             ("OSMData"%string, OSMPBF.PrimitiveMessage b1);
             ("OSMData"%string, OSMPBF.PrimitiveMessage b2)]
    /\ Z.of_nat (block_node_count b1) = 8000
    /\ block_node_count b2 = 1%nat
    /\ file_closed (m_file s') = true.
Proof.
  intros Hb Hr Hz Hlen Hns.
  destruct (init_nodes_run meta s Hb Hr Hz) as (s1 & h & Ei & Hst1 & Hr1 & Hc1).
  assert (Hsplit : exists front n, ns = front ++ [n]
                                   /\ Z.of_nat (length front) = 8000).
  { destruct (exists_last (l := ns)) as (front & n & ->).
    - intros ->. simpl in Hlen. lia.
    - exists front, n. split; [done|]. rewrite length_app in Hlen.
      simpl in Hlen. lia. }
  destruct Hsplit as (front & n & -> & Hfront).
  apply Forall_app in Hns. destruct Hns as [Hfr Hn].
  rewrite Forall_singleton in Hn.
  assert (Henc : forall x, node_encodable s x -> node_encodable s1 x)
    by (intros x; by apply node_encodable_config).
  destruct (nodes_ingest front 0 s1 Hr1) as (s2 & E2 & Hr2 & Hst2 & Hc2).
  { simpl. lia. }
  { eapply Forall_impl; [exact Hfr|exact Henc]. }
  simpl in Hr2.
  assert (Hz2 : compression_works s2).
  { eapply compression_works_config; [exact Hc2|].
    eapply compression_works_config; [exact Hc1|exact Hz]. }
  destruct (node_flush_step _ s2 n Hr2) as (s3 & b1 & E3 & Hst3 & Hb1 & Hr3 & Hc3).
  { apply flush_due_iff. left. rewrite (nr_contents _ _ Hr2). lia. }
  { exact Hz2. }
  { eapply node_encodable_config; [exact Hc2|by apply Henc]. }
  destruct (final_nodes 1 s3 Hr3) as (s4 & b2 & E4 & Hst4 & Hb2 & Hcl).
  { lia. }
  { eapply compression_works_config; [exact Hc3|exact Hz2]. }
  exists s4, h, b1, b2. unfold session.
  rewrite Ei, bind_Ok_l, map_app, ingest_all_app, E2, bind_Ok_l.
  cbn [map ingest_all ingest]. rewrite E3, !bind_Ok_l.
  split; [exact E4|]. split.
  { rewrite Hst4, Hst3, Hst2, Hst1, <- !app_assoc. done. }
  split; [lia|]. done.
Qed.

End NodeRuns.

(** ** C1: when a block is flushed *)

(** A new writer with the three switches of its public interface set. *)
Definition configured (dense compression metadata : bool) (file : OSMFile) (generator : string) : PBF :=
  should_add_metadata metadata
    (use_compression compression
       (use_dense_format dense (PBF_new file generator))).

Lemma configured_nodes_run `{!Protobuf, !Zlib} dense compression metadata file generator :
  fd_pending file = [] ->
  nodes_run 0 (configured dense compression metadata file generator).
Proof. intros Hp. split; simpl; try done. apply table_ok_init. Qed.

(** C1. Every operation on an entity is the flush check followed by the
    encoding of the entity. The check flushes exactly when the counter of the
    block in flight is at [max_block_contents] = 8000 or more, or else when
    the estimated size is above [max_uncompressed_blob_size * 95 / 100]; a
    flush stores one more "OSMData" blob and empties the counter, and the
    entity is counted and encoded after it. So a session of 8001 encodable
    nodes, under any setting of the switches, with complete writes and a
    working zlib, returns and has stored the header, a block of 8000 nodes
    and a block of one node. *)
Theorem flush_check_before_encoding {PB : Protobuf} {ZL : Zlib} :
  (forall e s,
      ingest e s
      = s1 ← (if flush_due s then store_primitive_block s else Ok s);
        encode e (set_primitive_block_contents
                    (to_uint16 (primitive_block_contents s1 + 1)) s1))
  /\ (forall s,
        flush_due s = true
        <-> max_block_contents <= primitive_block_contents s
            \/ (primitive_block_contents s < max_block_contents
                /\ OSMPBF.max_uncompressed_blob_size * buffer_fill_percent / 100
                   < primitive_block_size s))
  /\ max_block_contents = 8000
  /\ (forall s s',
        store_primitive_block s = Ok s' ->
        primitive_block_contents s' = 0
        /\ exists b,
             stored s'
             = stored s ++ [("OSMData"%string, OSMPBF.PrimitiveMessage b)])
  /\ (forall dense compression metadata file generator ns,
        fd_pending file = [] ->
        (forall data, exists out, zlib_deflate data = deflated out) ->
        Z.of_nat (length ns) = 8001 ->
        Forall (node_encodable
                  (configured dense compression metadata file generator)) ns ->
        exists s' h b1 b2,
          session {| OSM.bounds := None |} (map ENode ns)
            (configured dense compression metadata file generator) = Ok s'
          /\ stored s'
             = [("OSMHeader"%string, OSMPBF.HeaderMessage h);
                ("OSMData"%string, OSMPBF.PrimitiveMessage b1);
                ("OSMData"%string, OSMPBF.PrimitiveMessage b2)]
          /\ Z.of_nat (block_node_count b1) = 8000
          /\ block_node_count b2 = 1%nat).
Proof.
  split; [|split; [|split; [|split]]].
  - intros e s. rewrite ingest_unfold, check_block_contents_counter_unfold.
    destruct (flush_due s); [|by rewrite !bind_Ok_l].
    destruct (store_primitive_block s); [by rewrite !bind_Ok_l|done].
  - intros s. rewrite flush_due_iff. unfold max_block_contents. done.
  - reflexivity.
  - intros s s' Hs.
    destruct (store_primitive_block_shape _ _ Hs) as (s1 & f & _ & -> & _).
    split; [done|]. eexists. reflexivity.
  - intros dense compression metadata file generator ns Hp Hz Hlen Hns.
    pose proof (configured_nodes_run dense compression metadata file
                  generator Hp) as Hr.
    assert (Hz' : compression_works
                    (configured dense compression metadata file generator))
      by (intros _; exact Hz).
    destruct (nodes_8001 {| OSM.bounds := None |} _ ns eq_refl Hr Hz' Hlen Hns)
      as (s' & h & b1 & b2 & E & Hst & H1 & H2 & _).
    exists s', h, b1, b2. done.
Qed.

(** A node without tags at the origin. *)
Definition plain_node (i : Z) : OSM.Node :=
  {| OSM.node_object :=
       {| OSM.id := i; OSM.tags := []; OSM.version := 1;
          OSM.timestamp := 0; OSM.changeset := 1; OSM.uid := 1;
          OSM.user := "alice"; OSM.visible := true |};
     OSM.lon := Degrees.d0; OSM.lat := Degrees.d0 |}.

(** Nodes 1 to 8001. *)
Definition plain_nodes : list OSM.Node :=
  (fun i => plain_node (Z.of_nat i)) <$> seq 1 (Z.to_nat 8001).

Lemma plain_node_encodable i :
  @node_encodable (PBF_new sample_file "osmium") (plain_node i).
Proof.
  split; [vm_compute; exact I|]. split; [vm_compute; exact I|].
  split; [|intros Hd; discriminate Hd].
  intros _. split; [vm_compute; exact I|done].
Qed.

(** The 8001 nodes of C1 on the sample file and libraries, with the default
    switches. *)
Lemma flush_check_before_encoding_sample :
  exists s' h b1 b2,
    @session sample_protobuf sample_zlib {| OSM.bounds := None |}
      (map ENode plain_nodes) (PBF_new sample_file "osmium") = Ok s'
    /\ stored s'
       = [("OSMHeader"%string, OSMPBF.HeaderMessage h);
          ("OSMData"%string, OSMPBF.PrimitiveMessage b1);
          ("OSMData"%string, OSMPBF.PrimitiveMessage b2)]
    /\ Z.of_nat (block_node_count b1) = 8000
    /\ block_node_count b2 = 1%nat.
Proof.
  apply (proj2 (proj2 (proj2 (proj2
           (@flush_check_before_encoding sample_protobuf sample_zlib))))
           true true true sample_file "osmium"%string plain_nodes).
  - reflexivity.
  - intros data. exists data. reflexivity.
  - unfold plain_nodes. rewrite length_fmap, length_seq. lia.
  - unfold plain_nodes. apply Forall_fmap, Forall_forall.
    intros i _. apply plain_node_encodable.
Defined.

(** ** Strings keep their interim ids *)

(** [t'] knows every string of [t] under the interim id it has in [t]. *)
Definition table_extends (t t' : StringTable) : Prop :=
  forall s i, m_strings t !! s = Some i ->
    exists i', m_strings t' !! s = Some i' /\ interim_id i' = interim_id i.

Lemma table_extends_refl t : table_extends t t.
Proof. intros s i Hs. eauto. Qed.

Lemma table_extends_trans t1 t2 t3 :
  table_extends t1 t2 -> table_extends t2 t3 -> table_extends t1 t3.
Proof.
  intros H12 H23 s i Hs. destruct (H12 _ _ Hs) as (i2 & H2 & E2).
  destruct (H23 _ _ H2) as (i3 & H3 & E3). exists i3. split; [done|congruence].
Qed.

Lemma record_string_extends s t :
  table_ok t ->
  table_ok (record_string s t).2 /\ table_extends t (record_string s t).2.
Proof.
  intros Hok. pose proof (record_string_spec s t Hok) as H.
  destruct (record_string s t) as [id t']. simpl.
  destruct H as (Hok' & _ & _ & _ & _ & Hext). done.
Qed.

(** The interim id [record_string] returns is the one the table holds for the
    string from then on. *)
Lemma record_string_known s t :
  table_ok t -> s <> EmptyString ->
  exists i, m_strings (record_string s t).2 !! s = Some i
            /\ interim_id i = (record_string s t).1.
Proof.
  intros Hok Hs. pose proof (record_string_spec s t Hok) as H.
  destruct (record_string s t) as [id t']. simpl.
  destruct H as (_ & _ & _ & _ & Hne & _). by destruct (Hne Hs).
Qed.

Lemma record_tags_extends tags t :
  table_ok t ->
  table_ok (record_tags tags t).2 /\ table_extends t (record_tags tags t).2.
Proof.
  revert t. induction tags as [|[k v] tags IH]; intros t Hok.
  - split; [done|apply table_extends_refl].
  - cbn [record_tags].
    destruct (record_string_extends k t Hok) as [Hok1 He1].
    destruct (record_string k t) as [ki t1]. simpl in *.
    destruct (record_string_extends v t1 Hok1) as [Hok2 He2].
    destruct (record_string v t1) as [vi t2]. simpl in *.
    destruct (IH t2 Hok2) as [Hok3 He3].
    destruct (record_tags tags t2) as [[ks vs] t3]. simpl in *.
    split; [done|]. eauto using table_extends_trans.
Qed.

Lemma record_keys_vals_extends tags t :
  table_ok t ->
  table_ok (record_keys_vals tags t).2
  /\ table_extends t (record_keys_vals tags t).2.
Proof.
  revert t. induction tags as [|[k v] tags IH]; intros t Hok.
  - split; [done|apply table_extends_refl].
  - cbn [record_keys_vals].
    destruct (record_string_extends k t Hok) as [Hok1 He1].
    destruct (record_string k t) as [ki t1]. simpl in *.
    destruct (record_string_extends v t1 Hok1) as [Hok2 He2].
    destruct (record_string v t1) as [vi t2]. simpl in *.
    destruct (IH t2 Hok2) as [Hok3 He3].
    destruct (record_keys_vals tags t2) as [kv t3]. simpl in *.
    split; [done|]. eauto using table_extends_trans.
Qed.

Lemma write_members_extends ms : forall t d roles memids tys t',
  table_ok t ->
  write_members ms t d = Ok (roles, memids, tys, t') ->
  table_ok t' /\ table_extends t t'.
Proof.
  induction ms as [|m ms IH]; intros t d roles memids tys t' Hok Hw.
  - injection Hw as <- <- <- <-. split; [done|apply table_extends_refl].
  - cbn [write_members] in Hw.
    destruct (record_string_extends (OSM.role m) t Hok) as [Hok1 He1].
    destruct (record_string (OSM.role m) t) as [role t1]. simpl in *.
    unfold Delta_update in Hw. cbn beta iota in Hw.
    apply bind_Ok in Hw. destruct Hw as (ty & _ & Hw).
    apply bind_Ok in Hw. destruct Hw as ([[[roles' memids'] tys'] t2] & Hw & Hr).
    injection Hr as <- <- <- <-.
    destruct (IH _ _ _ _ _ _ Hok1 Hw) as [Hok2 He2].
    split; [done|]. eauto using table_extends_trans.
Qed.

Section CommonInfo.
Context {PB : Protobuf} {ZL : Zlib}.

Lemma apply_common_info_extends obj s c s' :
  table_ok (string_table s) ->
  apply_common_info obj s = Ok (c, s') ->
  table_ok (string_table s')
  /\ table_extends (string_table s) (string_table s')
  /\ s' = set_string_table (string_table s') s.
Proof.
  intros Hok Ha. pose proof (apply_common_info_inv _ _ _ _ Ha) as Hs.
  split; [|split; [|exact Hs]]; revert Ha; unfold apply_common_info;
    destruct (record_tags_extends (OSM.tags obj) (string_table s) Hok)
      as [Hok1 He1];
    destruct (record_tags (OSM.tags obj) (string_table s)) as [[ks vs] t];
    simpl in Hok1, He1;
    destruct (record_string_extends (OSM.user obj) t Hok1) as [Hok2 He2];
    intros Ha; inv_ok; subst; simpl in *; subst;
    eauto using table_extends_trans.
Qed.

End CommonInfo.

(** ** Dense columns of the block in flight *)

Lemma to_int64_t_range v z : Double.to_int64_t v = Ok z -> is_int64 z.
Proof.
  unfold Double.to_int64_t. destruct v as [x|]; [|done].
  destruct (Z.leb_spec (- 2 ^ 63) x), (Z.ltb_spec x (2 ^ 63)); simpl; try done.
  intros [= <-]. unfold is_int64. lia.
Qed.

Lemma for_each_snoc {A B} (f : A -> result B) l x ys y :
  for_each f l = Ok ys -> f x = Ok y -> for_each f (l ++ [x]) = Ok (ys ++ [y]).
Proof.
  revert ys. induction l as [|a l IH]; intros ys Hl Hx; simpl in *.
  - injection Hl as <-. by rewrite Hx.
  - apply bind_Ok in Hl. destruct Hl as (b & -> & Hl).
    apply bind_Ok in Hl. destruct Hl as (bs & Hbs & [= <-]).
    rewrite bind_Ok_l, (IH _ Hbs Hx). done.
Qed.

Definition nodes_of (es : list Entity) : list OSM.Node :=
  omap (fun e => match e with ENode n => Some n | _ => None end) es.

Definition node_id (n : OSM.Node) : Z := OSM.id (OSM.node_object n).
Definition node_timestamp (n : OSM.Node) : Z :=
  OSM.timestamp (OSM.node_object n).
Definition node_changeset (n : OSM.Node) : Z :=
  OSM.changeset (OSM.node_object n).
Definition node_uid (n : OSM.Node) : Z := OSM.uid (OSM.node_object n).
Definition node_user (n : OSM.Node) : string := OSM.user (OSM.node_object n).

(** All seven trackers at zero. *)
Definition trackers_clear (s : PBF) : Prop :=
  prev (m_delta_id s) = 0
  /\ prev (m_delta_lat s) = 0
  /\ prev (m_delta_lon s) = 0
  /\ prev (m_delta_timestamp s) = 0
  /\ prev (m_delta_changeset s) = 0
  /\ prev (m_delta_uid s) = 0
  /\ prev (m_delta_user_sid s) = 0.

(** The writer between two blocks: as the constructor and as a flush leave
    it. *)
Definition block_start (s : PBF) : Prop :=
  trackers_clear s
  /\ pbf_primitive_block s = OSMPBF.PrimitiveBlock_init
  /\ pbf_nodes s = None /\ pbf_ways s = None /\ pbf_relations s = None
  /\ string_table s = StringTable_init
  /\ primitive_block_contents s = 0
  /\ primitive_block_size s = 0.

(** The interim id [i] stands for the user name of [n] in [t]: 0 for the
    empty name, the id the table holds otherwise. *)
Definition user_known (t : StringTable) (n : OSM.Node) (i : Z) : Prop :=
  (node_user n = EmptyString /\ i = 0)
  \/ exists info, m_strings t !! node_user n = Some info
                  /\ interim_id info = i.

Lemma user_known_extends t t' n i :
  table_extends t t' -> user_known t n i -> user_known t' n i.
Proof.
  intros He [H|(info & Hs & Hi)]; [by left|right].
  destruct (He _ _ Hs) as (info' & Hs' & Hi'). exists info'.
  split; [done|congruence].
Qed.

Definition dense_of (od : option OSMPBF.DenseNodes) : OSMPBF.DenseNodes :=
  default OSMPBF.DenseNodes_init od.

Definition info_of (od : option OSMPBF.DenseNodes) : OSMPBF.DenseInfo :=
  default OSMPBF.DenseInfo_init (OSMPBF.denseinfo (dense_of od)).

(** The [dense] field of every group of the block in flight. *)
Definition dense_fields (s : PBF) : list (option OSMPBF.DenseNodes) :=
  OSMPBF.dense <$> OSMPBF.primitivegroup (pbf_primitive_block s).

Section DenseRuns.
Context {PB : Protobuf} {ZL : Zlib}.
Variable s0 : PBF.

(** The nodes that went into the dense columns, and of those the ones that
    went into the DenseInfo columns. *)
Definition dense_nodes (ns : list OSM.Node) : list OSM.Node :=
  if m_use_dense_format s0 then ns else [].

Definition info_nodes (dns : list OSM.Node) : list OSM.Node :=
  if m_should_add_metadata s0 then dns else [].

(** The columns [od] holds read back, by a running sum from zero, as the
    values of the dense nodes [dns]. *)
Record columns (t : StringTable) (dns : list OSM.Node) (od : option OSMPBF.DenseNodes) : Prop := {
  col_none : dns = [] -> od = None;
  col_some : od = None -> dns = [];
  col_id :
    undelta to_int64 0 (OSMPBF.dense_id (dense_of od))
    = (fun n => to_int64 (node_id n)) <$> dns;
  col_first :
    head (OSMPBF.dense_id (dense_of od))
    = (fun n => to_int64 (node_id n)) <$> head dns;
  col_lat :
    for_each (lonlat2int s0) (OSM.lat <$> dns)
    = Ok (undelta to_int64 0 (OSMPBF.dense_lat (dense_of od)));
  col_lon :
    for_each (lonlat2int s0) (OSM.lon <$> dns)
    = Ok (undelta to_int64 0 (OSMPBF.dense_lon (dense_of od)));
  col_info :
    m_should_add_metadata s0 = false -> OSMPBF.denseinfo (dense_of od) = None;
  col_has_info :
    m_should_add_metadata s0 = true -> dns <> [] ->
    is_Some (OSMPBF.denseinfo (dense_of od));
  col_timestamp :
    for_each (timestamp2int s0) (node_timestamp <$> info_nodes dns)
    = Ok (undelta to_int64 0 (OSMPBF.di_timestamp (info_of od)));
  col_changeset :
    undelta to_int64 0 (OSMPBF.di_changeset (info_of od))
    = (fun n => to_int64 (node_changeset n)) <$> info_nodes dns;
  col_uid :
    undelta to_int64 0 (OSMPBF.di_uid (info_of od))
    = (fun n => to_int64 (node_uid n)) <$> info_nodes dns;
  col_user :
    Forall2 (user_known t) (info_nodes dns) (OSMPBF.di_user_sid (info_of od))
}.

(** The state of the writer after the nodes [ns], and any ways and relations,
    went into the block in flight: [od] is the dense data of the block, it
    sits in the group [pbf_nodes] points to and nowhere else, and every
    tracker holds the last value of its column. *)
Record dense_state (ns : list OSM.Node) (s : PBF) (od : option OSMPBF.DenseNodes) : Prop := {
  ds_config : same_config s0 s;
  ds_table : table_ok (string_table s);
  ds_only : forall j d, dense_fields s !! j = Some (Some d) -> pbf_nodes s = Some j;
  ds_at : forall j, pbf_nodes s = Some j -> dense_fields s !! j = Some od;
  ds_null : pbf_nodes s = None -> od = None;
  ds_columns : columns (string_table s) (dense_nodes ns) od;
  ds_id :
    prev (m_delta_id s)
    = List.last (undelta to_int64 0 (OSMPBF.dense_id (dense_of od))) 0;
  ds_lat :
    prev (m_delta_lat s)
    = List.last (undelta to_int64 0 (OSMPBF.dense_lat (dense_of od))) 0;
  ds_lon :
    prev (m_delta_lon s)
    = List.last (undelta to_int64 0 (OSMPBF.dense_lon (dense_of od))) 0;
  ds_timestamp :
    prev (m_delta_timestamp s)
    = List.last (undelta to_int64 0 (OSMPBF.di_timestamp (info_of od))) 0;
  ds_changeset :
    prev (m_delta_changeset s)
    = List.last (undelta to_int64 0 (OSMPBF.di_changeset (info_of od))) 0;
  ds_uid :
    prev (m_delta_uid s)
    = List.last (undelta to_int64 0 (OSMPBF.di_uid (info_of od))) 0;
  ds_user_sid : prev (m_delta_user_sid s) = 0
}.

Lemma columns_extends t t' dns od :
  table_extends t t' -> columns t dns od -> columns t' dns od.
Proof.
  intros He [? ? ? ? ? ? ? ? ? ? ? Hu]. split; try done.
  eapply Forall2_impl; [exact Hu|]. intros n i. by apply user_known_extends.
Qed.

Lemma dense_state_start s :
  block_start s -> same_config s0 s -> dense_state [] s None.
Proof.
  intros ((Hid & Hlat & Hlon & Hts & Hcs & Huid & Hus) & Hb & Hn & _ & _ & Ht & _)
    Hc.
  split; try done.
  - rewrite Ht. apply table_ok_init.
  - intros j d. unfold dense_fields. rewrite Hb. done.
  - intros j. by rewrite Hn.
  - replace (dense_nodes []) with (@nil OSM.Node)
      by (unfold dense_nodes; by destruct (m_use_dense_format s0)).
    split; try done; unfold info_nodes;
      destruct (m_should_add_metadata s0); try done; constructor.
Qed.

(** The seven trackers of a writer. *)
Definition trackers (s : PBF) : Delta * Delta * Delta * Delta * Delta * Delta * Delta :=
  (m_delta_id s, m_delta_lat s, m_delta_lon s, m_delta_timestamp s,
   m_delta_changeset s, m_delta_uid s, m_delta_user_sid s).

(** A step that leaves the dense data and the trackers alone keeps the
    state. *)
Lemma dense_state_frame ns ns' s s' od :
  dense_state ns s od ->
  same_config s s' ->
  table_ok (string_table s') ->
  table_extends (string_table s) (string_table s') ->
  dense_fields s' = dense_fields s ->
  pbf_nodes s' = pbf_nodes s ->
  trackers s' = trackers s ->
  dense_nodes ns' = dense_nodes ns ->
  dense_state ns' s' od.
Proof.
  intros [Hc Hok Ho Ha Hn Hcol ? ? ? ? ? ? ?] Hc' Hok' He Hd Hp Ht Hns.
  injection Ht as E1 E2 E3 E4 E5 E6 E7.
  split; rewrite ?Hd, ?Hp, ?Hns, ?E1, ?E2, ?E3, ?E4, ?E5, ?E6, ?E7; try done.
  - by eapply same_config_trans.
  - by eapply columns_extends.
Qed.

Lemma dense_fields_put_group i g s :
  dense_fields (put_group i g s) = <[i := OSMPBF.dense g]> (dense_fields s).
Proof. unfold dense_fields, put_group. simpl. by rewrite list_fmap_insert. Qed.

Lemma dense_fields_add_primitivegroup s :
  dense_fields (add_primitivegroup s).2 = dense_fields s ++ [None].
Proof. unfold dense_fields, add_primitivegroup. simpl. by rewrite fmap_app. Qed.

(** Writing back a group with the dense data it had changes no dense
    field. *)
Lemma dense_fields_put_same i g g' s :
  OSMPBF.primitivegroup (pbf_primitive_block s) !! i = Some g ->
  OSMPBF.dense g' = OSMPBF.dense g ->
  dense_fields (put_group i g' s) = dense_fields s.
Proof.
  intros Hg Hd. rewrite dense_fields_put_group, Hd.
  apply list_insert_id. unfold dense_fields. by rewrite list_lookup_fmap, Hg.
Qed.

Lemma group_at_inv p s i g :
  group_at p s = Ok (i, g) ->
  p = Some i /\ OSMPBF.primitivegroup (pbf_primitive_block s) !! i = Some g.
Proof.
  unfold group_at. destruct p as [j|]; [|done].
  destruct (_ !! j) as [g'|] eqn:E; [|done]. by intros [= -> ->].
Qed.

Lemma apply_common_info_table obj s c s' :
  table_ok (string_table s) ->
  apply_common_info obj s = Ok (c, s') ->
  exists t, s' = set_string_table t s
            /\ table_ok t /\ table_extends (string_table s) t.
Proof.
  intros Hok Ha.
  destruct (apply_common_info_extends _ _ _ _ Hok Ha) as (Hok' & He & Es).
  exists (string_table s'). done.
Qed.

(** One more value through a tracker: the column read back grows by the
    value, and the tracker holds the last value of the column. *)
Lemma column_push (T : Z -> Z) `{!Width T} ds d v vs :
  T 0 = 0 ->
  prev d = List.last (undelta T 0 ds) 0 ->
  undelta T 0 ds = vs ->
  undelta T 0 (ds ++ [T (T v - prev d)]) = vs ++ [T v]
  /\ T v = List.last (undelta T 0 (ds ++ [T (T v - prev d)])) 0.
Proof.
  intros H0 Hp Hvs.
  destruct (undelta_snoc_update T 0 ds d v Hp (eq_sym H0)) as [Hc Hl].
  unfold Delta_update in Hc, Hl. cbn [fst snd prev] in Hc, Hl.
  rewrite Hc, Hvs. split; [done|]. rewrite last_last. done.
Qed.

Lemma write_node_dense_state n ns s s' od :
  m_use_dense_format s0 = false ->
  dense_state ns s od -> write_node n s = Ok s' ->
  dense_state (ns ++ [n]) s' od /\ stored s' = stored s.
Proof.
  intros Hdf Hs Hw. unfold write_node in Hw.
  apply bind_Ok in Hw. destruct Hw as ([i g] & Hg & Hw).
  apply bind_Ok in Hw. destruct Hw as ([c s1] & Ha & Hw).
  apply bind_Ok in Hw. destruct Hw as (lon & _ & Hw).
  apply bind_Ok in Hw. destruct Hw as (lat & _ & [= <-]).
  apply group_at_inv in Hg. destruct Hg as [Hp Hg].
  destruct (apply_common_info_table _ _ _ _ (ds_table _ _ _ Hs) Ha)
    as (t & -> & Hok1 & He1).
  split; [|done].
  eapply dense_state_frame; [exact Hs|by repeat split|done|done| |done|done|].
  - unfold dense_fields, put_group. simpl. rewrite list_fmap_insert. simpl.
    apply list_insert_id. by rewrite list_lookup_fmap, Hg.
  - unfold dense_nodes. by rewrite Hdf.
Qed.

Lemma write_way_dense_state w ns s s' od :
  dense_state ns s od -> write_way w s = Ok s' ->
  dense_state ns s' od /\ stored s' = stored s.
Proof.
  intros Hs Hw. unfold write_way in Hw.
  apply bind_Ok in Hw. destruct Hw as ([i g] & Hg & Hw).
  apply bind_Ok in Hw. destruct Hw as ([c s1] & Ha & [= <-]).
  apply group_at_inv in Hg. destruct Hg as [Hp Hg].
  destruct (apply_common_info_table _ _ _ _ (ds_table _ _ _ Hs) Ha)
    as (t & -> & Hok1 & He1).
  split; [|done].
  eapply dense_state_frame; [exact Hs|by repeat split|done|done| |done|done|done].
  unfold dense_fields, put_group. simpl. rewrite list_fmap_insert. simpl.
  apply list_insert_id. by rewrite list_lookup_fmap, Hg.
Qed.

Lemma write_relation_dense_state r ns s s' od :
  dense_state ns s od -> write_relation r s = Ok s' ->
  dense_state ns s' od /\ stored s' = stored s.
Proof.
  intros Hs Hw. unfold write_relation in Hw.
  apply bind_Ok in Hw. destruct Hw as ([i g] & Hg & Hw).
  apply bind_Ok in Hw. destruct Hw as ([c s1] & Ha & Hw).
  apply bind_Ok in Hw. destruct Hw as ([[[roles memids] tys] t2] & Hm & [= <-]).
  apply group_at_inv in Hg. destruct Hg as [Hp Hg].
  destruct (apply_common_info_table _ _ _ _ (ds_table _ _ _ Hs) Ha)
    as (t & -> & Hok1 & He1).
  destruct (write_members_extends _ _ _ _ _ _ _ Hok1 Hm) as [Hok2 He2].
  split; [|done].
  eapply dense_state_frame; [exact Hs|by repeat split|done| | |done|done|done].
  - simpl. by eapply table_extends_trans.
  - unfold dense_fields, put_group. simpl. rewrite list_fmap_insert. simpl.
    apply list_insert_id. by rewrite list_lookup_fmap, Hg.
Qed.

Lemma record_string_user_known n t :
  table_ok t ->
  user_known (record_string (node_user n) t).2 n
    (record_string (node_user n) t).1.
Proof.
  intros Hok. destruct (decide (node_user n = EmptyString)) as [He|Hne].
  - left. rewrite He, record_string_empty. done.
  - right. by apply record_string_known.
Qed.

Lemma write_dense_node_dense_state n ns s s' od :
  m_use_dense_format s0 = true ->
  dense_state ns s od -> write_dense_node n s = Ok s' ->
  (exists od', dense_state (ns ++ [n]) s' od') /\ stored s' = stored s.
Proof.
  intros Hdf Hs Hw. unfold write_dense_node in Hw.
  apply bind_Ok in Hw. destruct Hw as ([i g] & Hg & Hw).
  apply group_at_inv in Hg. destruct Hg as [Hp Hg].
  unfold Delta_update in Hw. cbn beta iota zeta in Hw.
  apply bind_Ok in Hw. destruct Hw as (lon & Elon & Hw).
  cbn beta iota zeta in Hw.
  apply bind_Ok in Hw. destruct Hw as (lat & Elat & Hw).
  cbn beta iota zeta in Hw.
  destruct Hs as [Hc Hok Ho Ha Hn Hcol Tid Tlat Tlon Tts Tcs Tuid Tus].
  assert (Hod : OSMPBF.dense g = od).
  { specialize (Ha _ Hp). unfold dense_fields in Ha.
    rewrite list_lookup_fmap, Hg in Ha. by injection Ha. }
  destruct (record_keys_vals_extends (OSM.tags (OSM.node_object n))
              (string_table s) Hok) as [Hok1 He1].
  destruct (record_keys_vals (OSM.tags (OSM.node_object n)) (string_table s))
    as [kv t] eqn:Ekv.
  cbn beta iota zeta in Hw. simpl in Hok1, He1.
  apply bind_Ok in Hw. destruct Hw as ([di s2] & Hdi & [= <-]).
  destruct Hc as (Cl & Cd & Cdf & Cc & Cm & Cv).
  rewrite (lonlat2int_ext s s0) in Elon, Elat by done.
  apply columns_extends with (t' := t) in Hcol; [|done].
  destruct Hcol as [Knone Ksome Kid Kfirst Klat Klon Kinfo Khas Kts Kcs Kuid Kuser].
  rewrite Hod in *. unfold dense_nodes in *. rewrite Hdf in *.
  destruct (column_push to_int64 _ _ (node_id n) _ eq_refl Tid Kid) as [Pid Lid].
  destruct (column_push to_int64 _ _ lon _ eq_refl Tlon eq_refl) as [Plon Llon].
  destruct (column_push to_int64 _ _ lat _ eq_refl Tlat eq_refl) as [Plat Llat].
  assert (Elon' : lonlat2int s0 (OSM.lon n) = Ok (to_int64 lon))
    by (rewrite to_int64_id; [done|eapply to_int64_t_range; exact Elon]).
  assert (Elat' : lonlat2int s0 (OSM.lat n) = Ok (to_int64 lat))
    by (rewrite to_int64_id; [done|eapply to_int64_t_range; exact Elat]).
  assert (Hfirst :
            head (OSMPBF.dense_id (dense_of od)
                  ++ [to_int64 (to_int64 (OSM.id (OSM.node_object n))
                                - prev (m_delta_id s))])
            = (fun n => to_int64 (node_id n)) <$> head (ns ++ [n])).
  { destruct ns as [|n0 ns'].
    - rewrite (Knone eq_refl) in Tid |- *. simpl in Tid |- *.
      rewrite Tid, Z.sub_0_r, to_int64_idem. done.
    - simpl in Kfirst |- *.
      destruct (OSMPBF.dense_id (dense_of od)); [done|exact Kfirst]. }
  pose proof (for_each_snoc _ _ _ _ _ Klon Elon') as Flon.
  pose proof (for_each_snoc _ _ _ _ _ Klat Elat') as Flat.
  rewrite <- Plon in Flon. rewrite <- Plat in Flat.
  destruct (m_should_add_metadata s) eqn:Em.
  - apply bind_Ok in Hdi. destruct Hdi as (ts & Ets & Hdi).
    cbn beta iota zeta in Hdi.
    pose proof (record_string_user_known n t Hok1) as Hu.
    destruct (record_string_extends (node_user n) t Hok1) as [Hok2 He2].
    unfold node_user in Hu, Hok2, He2.
    destruct (record_string (OSM.user (OSM.node_object n)) t) as [u t'] eqn:Eu.
    simpl in Hu, Hok2, He2. injection Hdi as <- <-.
    rewrite (timestamp2int_ext s s0) in Ets by done.
    unfold info_nodes in *. rewrite <- Cm in *.
    destruct (column_push to_int64 _ _ ts _ eq_refl Tts eq_refl) as [Pts Lts].
    destruct (column_push to_int64 _ _ (node_changeset n) _ eq_refl Tcs Kcs)
      as [Pcs Lcs].
    destruct (column_push to_int64 _ _ (node_uid n) _ eq_refl Tuid Kuid)
      as [Puid Luid].
    assert (Ets' : timestamp2int s0 (node_timestamp n) = Ok (to_int64 ts))
      by (rewrite to_int64_id; [done|eapply to_int64_t_range; exact Ets]).
    pose proof (for_each_snoc _ _ _ _ _ Kts Ets') as Fts. rewrite <- Pts in Fts.
    split; [|done]. eexists (Some _). split; simpl.
    + unfold same_config. simpl. repeat split; congruence.
    + done.
    + intros j d. rewrite dense_fields_put_group. simpl.
      destruct (decide (j = i)) as [->|Hne]; [done|].
      rewrite list_lookup_insert_ne by done. apply Ho.
    + intros j. rewrite Hp. intros [= <-]. rewrite dense_fields_put_group.
      simpl. apply list_lookup_insert_eq.
      unfold dense_fields. rewrite length_fmap. by eapply lookup_lt_Some.
    + by rewrite Hp.
    + assert (Hdn : dense_nodes (ns ++ [n]) = ns ++ [n])
        by (unfold dense_nodes; by rewrite Hdf).
      assert (Hin : forall l, info_nodes l = l)
        by (intros l; unfold info_nodes; by rewrite <- Cm).
      split; simpl; rewrite ?Hdn, ?Hin, ?fmap_app; simpl; try done.
      * by destruct ns.
      * by rewrite <- Cm.
      * apply Forall2_app; [|by constructor].
        eapply Forall2_impl; [exact Kuser|]. intros ? ?.
        by apply user_known_extends.
    + done.
    + done.
    + done.
    + done.
    + done.
    + done.
    + done.
  - injection Hdi as <- <-.
    unfold info_nodes in *. rewrite <- Cm in *.
    split; [|done]. eexists (Some _). split; simpl.
    + unfold same_config. simpl. repeat split; congruence.
    + done.
    + intros j d. rewrite dense_fields_put_group. simpl.
      destruct (decide (j = i)) as [->|Hne]; [done|].
      rewrite list_lookup_insert_ne by done. apply Ho.
    + intros j. rewrite Hp. intros [= <-]. rewrite dense_fields_put_group.
      simpl. apply list_lookup_insert_eq.
      unfold dense_fields. rewrite length_fmap. by eapply lookup_lt_Some.
    + by rewrite Hp.
    + assert (Hdn : dense_nodes (ns ++ [n]) = ns ++ [n])
        by (unfold dense_nodes; by rewrite Hdf).
      assert (Hin : forall l, info_nodes l = [])
        by (intros l; unfold info_nodes; by rewrite <- Cm).
      split; simpl; rewrite ?Hdn, ?Hin, ?fmap_app; simpl; try done.
      * by destruct ns.
      * intros _. by apply Kinfo.
      * intros Hmeta. rewrite Hmeta in Cm. discriminate Cm.
    + done.
    + done.
    + done.
    + done.
    + done.
    + done.
    + done.
Qed.

(** A new group holds no dense data. *)
Lemma dense_state_new_group ns s s' od :
  dense_state ns s od ->
  same_config s s' ->
  string_table s' = string_table s ->
  pbf_nodes s' = pbf_nodes s ->
  trackers s' = trackers s ->
  dense_fields s' = dense_fields s ++ [None] ->
  dense_state ns s' od.
Proof.
  intros [Hc Hok Ho Ha Hn Hcol ? ? ? ? ? ? ?] Hc' Ht Hp Htr Hd.
  injection Htr as E1 E2 E3 E4 E5 E6 E7.
  split; rewrite ?Hd, ?Hp, ?Ht, ?E1, ?E2, ?E3, ?E4, ?E5, ?E6, ?E7; try done.
  - by eapply same_config_trans.
  - intros j d Hj. apply (Ho j d).
    apply lookup_app_Some in Hj. destruct Hj as [Hj|[_ Hj]]; [done|].
    apply list_lookup_singleton_Some in Hj. by destruct Hj.
  - intros j Hj. apply lookup_app_l_Some. by apply Ha.
Qed.

Lemma dense_state_new_nodes ns s od :
  dense_state ns s od -> pbf_nodes s = None ->
  dense_state ns
    (set_pbf_nodes (Some (add_primitivegroup s).1) (add_primitivegroup s).2)
    None.
Proof.
  intros Hs Hp. pose proof (ds_null _ _ _ Hs Hp) as ->.
  destruct Hs as [Hc Hok Ho Ha Hn Hcol ? ? ? ? ? ? ?].
  split; try done.
  - intros j d Hj. exfalso.
    change (dense_fields (add_primitivegroup s).2 !! j = Some (Some d)) in Hj.
    rewrite dense_fields_add_primitivegroup in Hj.
    apply lookup_app_Some in Hj. destruct Hj as [Hj|[_ Hj]].
    + specialize (Ho _ _ Hj). congruence.
    + apply list_lookup_singleton_Some in Hj. by destruct Hj.
  - intros j [= <-].
    change (dense_fields (add_primitivegroup s).2
              !! length (OSMPBF.primitivegroup (pbf_primitive_block s))
            = Some None).
    rewrite dense_fields_add_primitivegroup.
    apply list_lookup_middle. unfold dense_fields. by rewrite length_fmap.
Qed.

(** Encoding an entity adds the node, if it is one, to the dense state, and
    stores nothing. *)
Lemma encode_dense_state e ns s s' od :
  dense_state ns s od -> encode e s = Ok s' ->
  (exists od', dense_state (ns ++ nodes_of [e]) s' od')
  /\ stored s' = stored s.
Proof.
  intros Hs He. destruct e as [n|w|r]; simpl in He.
  - unfold node_body in He.
    assert (exists s2 od2,
              (if m_use_dense_format s2 then write_dense_node n s2
               else write_node n s2) = Ok s'
              /\ dense_state ns s2 od2 /\ stored s2 = stored s)
      as (s2 & od2 & Hw & Hs2 & Hst2).
    { destruct (pbf_nodes s) eqn:Ep; [by exists s, od|].
      eexists _, None. split; [exact He|]. split; [|done].
      exact (dense_state_new_nodes _ _ _ Hs Ep). }
    destruct (ds_config _ _ _ Hs2) as (_ & _ & Hdf & _). rewrite Hdf in Hw.
    destruct (m_use_dense_format s0) eqn:Ed.
    + destruct (write_dense_node_dense_state _ _ _ _ _ Ed Hs2 Hw) as [H1 H2].
      split; [exact H1|congruence].
    + destruct (write_node_dense_state _ _ _ _ _ Ed Hs2 Hw) as [H1 H2].
      split; [by exists od2|congruence].
  - unfold way_body in He. rewrite app_nil_r.
    assert (exists s2, write_way w s2 = Ok s'
                       /\ dense_state ns s2 od /\ stored s2 = stored s)
      as (s2 & Hw & Hs2 & Hst2).
    { destruct (pbf_ways s) eqn:Ep; [by exists s|].
      eexists. split; [exact He|]. split; [|done].
      eapply dense_state_new_group;
        [exact Hs|by repeat split|done|done|done|].
      apply dense_fields_add_primitivegroup. }
    destruct (write_way_dense_state _ _ _ _ _ Hs2 Hw) as [H1 H2].
    split; [by exists od|congruence].
  - unfold relation_body in He. rewrite app_nil_r.
    assert (exists s2, write_relation r s2 = Ok s'
                       /\ dense_state ns s2 od /\ stored s2 = stored s)
      as (s2 & Hw & Hs2 & Hst2).
    { destruct (pbf_relations s) eqn:Ep; [by exists s|].
      eexists. split; [exact He|]. split; [|done].
      eapply dense_state_new_group;
        [exact Hs|by repeat split|done|done|done|].
      apply dense_fields_add_primitivegroup. }
    destruct (write_relation_dense_state _ _ _ _ _ Hs2 Hw) as [H1 H2].
    split; [by exists od|congruence].
Qed.

(** The encoders store no blob. *)
Lemma encode_stored e s s' : encode e s = Ok s' -> stored s' = stored s.
Proof.
  assert (Hn : forall n s2, write_node n s2 = Ok s' -> stored s' = stored s2).
  { intros n s2 H. unfold write_node in H.
    apply bind_Ok in H. destruct H as ([i g] & _ & H).
    apply bind_Ok in H. destruct H as ([c s1] & Ha & H).
    apply bind_Ok in H. destruct H as (lon & _ & H).
    apply bind_Ok in H. destruct H as (lat & _ & [= <-]).
    apply apply_common_info_inv in Ha. by rewrite Ha. }
  assert (Hd : forall n s2, write_dense_node n s2 = Ok s' ->
                            stored s' = stored s2).
  { intros n s2 H. unfold write_dense_node in H.
    apply bind_Ok in H. destruct H as ([i g] & _ & H).
    unfold Delta_update in H. cbn beta iota zeta in H.
    apply bind_Ok in H. destruct H as (lon & _ & H). cbn beta iota zeta in H.
    apply bind_Ok in H. destruct H as (lat & _ & H). cbn beta iota zeta in H.
    destruct (record_keys_vals _ _) as [kv t]. cbn beta iota zeta in H.
    apply bind_Ok in H. destruct H as ([di s3] & Hdi & [= <-]).
    destruct (m_should_add_metadata s2).
    - apply bind_Ok in Hdi. destruct Hdi as (ts & _ & Hdi).
      cbn beta iota zeta in Hdi. destruct (record_string _ _).
      by injection Hdi as <- <-.
    - by injection Hdi as <- <-. }
  assert (Hw : forall w s2, write_way w s2 = Ok s' -> stored s' = stored s2).
  { intros w s2 H. unfold write_way in H.
    apply bind_Ok in H. destruct H as ([i g] & _ & H).
    apply bind_Ok in H. destruct H as ([c s1] & Ha & [= <-]).
    apply apply_common_info_inv in Ha. by rewrite Ha. }
  assert (Hr : forall r s2, write_relation r s2 = Ok s' ->
                            stored s' = stored s2).
  { intros r s2 H. unfold write_relation in H.
    apply bind_Ok in H. destruct H as ([i g] & _ & H).
    apply bind_Ok in H. destruct H as ([c s1] & Ha & H).
    apply bind_Ok in H. destruct H as ([[[roles memids] tys] t2] & _ & [= <-]).
    apply apply_common_info_inv in Ha. by rewrite Ha. }
  destruct e as [n|w|r]; simpl.
  - unfold node_body. intros H.
    destruct (pbf_nodes s);
      (destruct (m_use_dense_format _);
       [apply Hd in H|apply Hn in H]; by rewrite H).
  - unfold way_body. intros H. apply Hw in H. rewrite H.
    by destruct (pbf_ways s).
  - unfold relation_body. intros H. apply Hr in H. rewrite H.
    by destruct (pbf_relations s).
Qed.

(** The history of stored blobs only grows. *)
Lemma ingest_stored e s s' :
  ingest e s = Ok s' -> exists l, stored s' = stored s ++ l.
Proof.
  rewrite ingest_unfold. intros H.
  apply bind_Ok in H. destruct H as (s1 & Hc & He).
  apply encode_stored in He. rewrite He.
  apply check_block_contents_counter_inv in Hc.
  destruct Hc as [[_ ->]|[_ (s2 & Hf & ->)]].
  - exists []. by rewrite app_nil_r.
  - destruct (store_primitive_block_shape _ _ Hf) as (? & ? & _ & -> & _).
    eexists. reflexivity.
Qed.

Lemma ingest_all_stored es : forall s s',
  ingest_all es s = Ok s' -> exists l, stored s' = stored s ++ l.
Proof.
  induction es as [|e es IH]; intros s s' H; simpl in H.
  - injection H as <-. exists []. by rewrite app_nil_r.
  - apply bind_Ok in H. destruct H as (s1 & H1 & H2).
    destruct (ingest_stored _ _ _ H1) as [l1 E1].
    destruct (IH _ _ H2) as [l2 E2].
    exists (l1 ++ l2). by rewrite E2, E1, app_assoc.
Qed.

(** An operation that stores nothing did not flush: its entity joined the
    block in flight. *)
Lemma ingest_dense_state e ns s s' od :
  dense_state ns s od -> ingest e s = Ok s' -> stored s' = stored s ->
  exists od', dense_state (ns ++ nodes_of [e]) s' od'.
Proof.
  intros Hs H Hst. rewrite ingest_unfold in H.
  apply bind_Ok in H. destruct H as (s1 & Hc & He).
  pose proof (encode_stored _ _ _ He) as Hst1.
  apply check_block_contents_counter_inv in Hc.
  destruct Hc as [[_ ->]|[_ (s2 & Hf & ->)]].
  - assert (Hs1 : dense_state ns
                    (set_primitive_block_contents
                       (to_uint16 (primitive_block_contents s + 1)) s) od).
    { eapply dense_state_frame;
        [exact Hs|by repeat split|apply (ds_table _ _ _ Hs)
        |apply table_extends_refl|done|done|done|done]. }
    by destruct (encode_dense_state _ _ _ _ _ Hs1 He) as [H1 _].
  - exfalso.
    destruct (store_primitive_block_shape _ _ Hf) as (? & ? & _ & -> & _).
    rewrite Hst1 in Hst. simpl in Hst.
    apply (f_equal length) in Hst. rewrite length_app in Hst.
    simpl in Hst. lia.
Qed.

Lemma nodes_of_cons e es : nodes_of (e :: es) = nodes_of [e] ++ nodes_of es.
Proof. unfold nodes_of. simpl. by destruct e. Qed.

(** A run without a flush: every node met joined the block in flight. *)
Lemma ingest_all_dense_state es : forall ns s s' od,
  dense_state ns s od -> ingest_all es s = Ok s' -> stored s' = stored s ->
  exists od', dense_state (ns ++ nodes_of es) s' od'.
Proof.
  induction es as [|e es IH]; intros ns s s' od Hs H Hst; simpl in H.
  - injection H as <-. exists od. by rewrite app_nil_r.
  - apply bind_Ok in H. destruct H as (s1 & H1 & H2).
    destruct (ingest_stored _ _ _ H1) as [l1 E1].
    destruct (ingest_all_stored _ _ _ H2) as [l2 E2].
    assert (l1 = [] /\ l2 = []) as [-> ->].
    { rewrite E2, E1, <- app_assoc in Hst.
      apply (f_equal length) in Hst. rewrite !length_app in Hst.
      destruct l1, l2; simpl in Hst; try done; lia. }
    rewrite app_nil_r in E1, E2.
    destruct (ingest_dense_state _ _ _ _ _ Hs H1 E1) as [od1 Hs1].
    destruct (IH _ _ _ _ Hs1 H2 E2) as [od' Hs'].
    exists od'. by rewrite nodes_of_cons, app_assoc.
Qed.

(** *** The flush-time rewrite of the dense data *)

(** The user_sid loop maps each interim id, narrows the final id to
    [uint16_t], passes that through the tracker and stores the difference
    as an int32. *)
Lemma map_dense_user_sid_inv t us : forall d xs d',
  map_dense_user_sid t us d = Ok (xs, d') ->
  exists finals,
    for_each (map_string_id t) us = Ok finals
    /\ xs = to_int32 <$> delta_encode to_uint32 d (to_uint16 <$> finals).
Proof.
  induction us as [|u us IH]; intros d xs d' H; simpl in H.
  - injection H as <- <-. by exists [].
  - apply bind_Ok in H. destruct H as (final & Hf & H).
    unfold Delta_update in H. cbn beta iota zeta in H.
    apply bind_Ok in H. destruct H as ([xs' d''] & Hxs & [= <- <-]).
    destruct (IH _ _ _ Hxs) as (finals & Hfs & ->).
    exists (final :: finals). simpl. rewrite Hf, bind_Ok_l, Hfs. done.
Qed.

Lemma map_dense_inv t d dl d' dl' :
  map_dense t d dl = Ok (d', dl') ->
  OSMPBF.dense_id d' = OSMPBF.dense_id d
  /\ OSMPBF.dense_lat d' = OSMPBF.dense_lat d
  /\ OSMPBF.dense_lon d' = OSMPBF.dense_lon d
  /\ for_each (map_keys_vals_entry t) (OSMPBF.keys_vals d)
     = Ok (OSMPBF.keys_vals d')
  /\ match OSMPBF.denseinfo d with
     | None => OSMPBF.denseinfo d' = None
     | Some di =>
         exists di' finals,
           OSMPBF.denseinfo d' = Some di'
           /\ OSMPBF.di_timestamp di' = OSMPBF.di_timestamp di
           /\ OSMPBF.di_changeset di' = OSMPBF.di_changeset di
           /\ OSMPBF.di_uid di' = OSMPBF.di_uid di
           /\ for_each (map_string_id t) (OSMPBF.di_user_sid di) = Ok finals
           /\ OSMPBF.di_user_sid di'
              = to_int32 <$> delta_encode to_uint32 dl (to_uint16 <$> finals)
     end.
Proof.
  unfold map_dense. intros H.
  apply bind_Ok in H. destruct H as (kv & Hkv & H).
  apply bind_Ok in H. destruct H as ([odi dl1] & Hdi & [= <- <-]).
  simpl. do 4 (split; [done|]).
  destruct (OSMPBF.denseinfo d) as [di|].
  - apply bind_Ok in Hdi. destruct Hdi as ([us dl2] & Hus & [= <- <-]).
    destruct (map_dense_user_sid_inv _ _ _ _ _ Hus) as (finals & Hf & ->).
    eexists _, finals. split; [reflexivity|]. done.
  - by injection Hdi as <- <-.
Qed.

(** What [map_string_ids] does to the dense fields and the string list of
    the block. *)
Lemma map_string_ids_dense s s1 :
  map_string_ids s = Ok s1 ->
  OSMPBF.stringtable (pbf_primitive_block s1)
  = OSMPBF.stringtable (pbf_primitive_block s)
  /\ match pbf_nodes s with
     | None => dense_fields s1 = dense_fields s
     | Some i =>
         exists g,
           OSMPBF.primitivegroup (pbf_primitive_block s) !! i = Some g
           /\ match OSMPBF.dense g with
              | None => dense_fields s1 = dense_fields s
              | Some d =>
                  exists d' dl,
                    map_dense (string_table s) d (m_delta_user_sid s)
                    = Ok (d', dl)
                    /\ dense_fields s1 = <[i := Some d']> (dense_fields s)
              end
     end.
Proof.
  unfold map_string_ids. intros H.
  apply bind_Ok in H. destruct H as (sa & Ha & H).
  apply bind_Ok in H. destruct H as (sb & Hb & H).
  assert (Hput : forall p (sx sy : PBF) (f : OSMPBF.PrimitiveGroup -> result OSMPBF.PrimitiveGroup),
            (forall g g', f g = Ok g' -> OSMPBF.dense g' = OSMPBF.dense g) ->
            match p with
            | Some _ =>
                '(i, g) ← group_at p sx; g' ← f g; Ok (put_group i g' sx)
            | None => Ok sx
            end = Ok sy ->
            OSMPBF.stringtable (pbf_primitive_block sy)
            = OSMPBF.stringtable (pbf_primitive_block sx)
            /\ dense_fields sy = dense_fields sx).
  { intros p sx sy f Hf Hp. destruct p as [j|]; [|by injection Hp as <-].
    apply bind_Ok in Hp. destruct Hp as ([i g] & Hg & Hp).
    apply bind_Ok in Hp. destruct Hp as (g' & Hg' & [= <-]).
    apply group_at_inv in Hg. destruct Hg as [_ Hg].
    split; [done|]. apply dense_fields_put_same with g; [done|].
    by apply Hf. }
  assert (Hsb : OSMPBF.stringtable (pbf_primitive_block sb)
                = OSMPBF.stringtable (pbf_primitive_block sa)
                /\ dense_fields sb = dense_fields sa).
  { apply (Hput (pbf_ways sa) sa sb
             (fun g => ws ← for_each (map_way (string_table s)) (OSMPBF.ways g);
                       Ok {| OSMPBF.nodes := OSMPBF.nodes g;
                             OSMPBF.dense := OSMPBF.dense g;
                             OSMPBF.ways := ws;
                             OSMPBF.relations := OSMPBF.relations g |})).
    - intros g g' Hg. apply bind_Ok in Hg.
      by destruct Hg as (ws & _ & [= <-]).
    - rewrite <- Hb. destruct (pbf_ways sa); [|done].
      destruct (group_at _ sa) as [[i g]|]; [|done]. simpl.
      by destruct (for_each _ _). }
  assert (Hs1 : OSMPBF.stringtable (pbf_primitive_block s1)
                = OSMPBF.stringtable (pbf_primitive_block sb)
                /\ dense_fields s1 = dense_fields sb).
  { apply (Hput (pbf_relations sb) sb s1
             (fun g => rs ← for_each (map_relation (string_table s))
                            (OSMPBF.relations g);
                       Ok {| OSMPBF.nodes := OSMPBF.nodes g;
                             OSMPBF.dense := OSMPBF.dense g;
                             OSMPBF.ways := OSMPBF.ways g;
                             OSMPBF.relations := rs |})).
    - intros g g' Hg. apply bind_Ok in Hg.
      by destruct Hg as (rs & _ & [= <-]).
    - rewrite <- H. destruct (pbf_relations sb); [|done].
      destruct (group_at _ sb) as [[i g]|]; [|done]. simpl.
      by destruct (for_each _ _). }
  destruct Hsb as [Hsb1 Hsb2], Hs1 as [Hs11 Hs12].
  rewrite Hs11, Hsb1, Hs12, Hsb2. clear Hput H Hb Hs11 Hsb1 Hs12 Hsb2.
  destruct (pbf_nodes s) as [j|] eqn:Ep; [|by injection Ha as <-].
  apply bind_Ok in Ha. destruct Ha as ([i g] & Hg & Ha).
  apply group_at_inv in Hg. destruct Hg as [[= <-] Hg].
  apply bind_Ok in Ha. destruct Ha as (ns & _ & Ha).
  apply bind_Ok in Ha. destruct Ha as ([dense dl] & Hd & [= <-]).
  split; [done|]. exists g. split; [done|].
  destruct (OSMPBF.dense g) as [d|] eqn:Ed.
  - apply bind_Ok in Hd. destruct Hd as ([d' dl'] & Hd & [= <- <-]).
    exists d', dl'. split; [done|].
    change (dense_fields (put_group j
              {| OSMPBF.nodes := ns; OSMPBF.dense := Some d';
                 OSMPBF.ways := OSMPBF.ways g;
                 OSMPBF.relations := OSMPBF.relations g |} s)
            = <[j := Some d']> (dense_fields s)).
    by rewrite dense_fields_put_group.
  - injection Hd as <- <-.
    change (dense_fields (put_group j
              {| OSMPBF.nodes := ns; OSMPBF.dense := None;
                 OSMPBF.ways := OSMPBF.ways g;
                 OSMPBF.relations := OSMPBF.relations g |} s)
            = dense_fields s).
    by apply dense_fields_put_same with g.
Qed.

Lemma sorted_strings_NoDup_fst t : NoDup ((sorted_strings t).*1).
Proof. rewrite sorted_strings_perm. apply NoDup_fst_map_to_list. Qed.

(** No string occurs twice in the string list of a block. *)
Lemma store_stringtable_NoDup t :
  table_ok t -> NoDup (store_stringtable t).1.
Proof.
  intros Hok. unfold store_stringtable. simpl. apply NoDup_cons.
  split; [|apply sorted_strings_NoDup_fst].
  intros Hin. apply list_elem_of_fmap in Hin.
  destruct Hin as ([s i] & Hs & Hin). simpl in Hs. subst s.
  apply elem_of_sorted_strings in Hin.
  by destruct (table_ids _ Hok _ _ Hin) as (_ & ? & _).
Qed.

(** The final ids the user names are mapped to are their indices in the
    string list of the block. *)
Lemma users_final t ns us :
  table_ok t ->
  Forall2 (user_known t) ns us ->
  forall finals,
    for_each (map_string_id (store_stringtable t).2) us = Ok finals ->
    Forall2 (fun n f => 0 <= f
                        /\ (store_stringtable t).1 !! Z.to_nat f
                           = Some (node_user n)) ns finals.
Proof.
  intros Hok H. induction H as [|n i ns us Hn _ IH]; intros finals Hf.
  - injection Hf as <-. constructor.
  - cbn [for_each] in Hf.
    apply bind_Ok in Hf. destruct Hf as (f & Hf1 & Hf).
    apply bind_Ok in Hf. destruct Hf as (fs & Hfs & [= <-]).
    constructor; [|by apply IH].
    destruct Hn as [[-> ->]|(info & Hs & <-)].
    { rewrite (store_stringtable_final_0 _ Hok) in Hf1. by injection Hf1 as <-. }
    apply elem_of_sorted_strings in Hs. apply list_elem_of_lookup in Hs.
    destruct Hs as [k Hk].
    destruct (store_stringtable_final t k _ _ Hok Hk) as [Hm Ho].
    rewrite Hm in Hf1. injection Hf1 as <-. split; [lia|].
    rewrite <- Ho. f_equal. lia.
Qed.

(** What a reader finds in the dense data [d] of a stored block whose string
    list is [strings]: every tracked column, summed up from zero, gives the
    values of the nodes [ns], scaled as the writer scales them; the user_sid
    column holds, as int32, the tracker's encoding of the indices of the
    user names in [strings], each narrowed to 16 bits. *)
Record reads_back (strings : list string) (ns : list OSM.Node) (d : OSMPBF.DenseNodes) : Prop := {
  rb_id :
    undelta to_int64 0 (OSMPBF.dense_id d)
    = (fun n => to_int64 (node_id n)) <$> ns;
  rb_first :
    head (OSMPBF.dense_id d) = (fun n => to_int64 (node_id n)) <$> head ns;
  rb_lat :
    for_each (lonlat2int s0) (OSM.lat <$> ns)
    = Ok (undelta to_int64 0 (OSMPBF.dense_lat d));
  rb_lon :
    for_each (lonlat2int s0) (OSM.lon <$> ns)
    = Ok (undelta to_int64 0 (OSMPBF.dense_lon d));
  rb_has_info :
    m_should_add_metadata s0 = true -> ns <> [] ->
    is_Some (OSMPBF.denseinfo d);
  rb_info : forall di,
    OSMPBF.denseinfo d = Some di ->
    for_each (timestamp2int s0) (node_timestamp <$> ns)
    = Ok (undelta to_int64 0 (OSMPBF.di_timestamp di))
    /\ undelta to_int64 0 (OSMPBF.di_changeset di)
       = (fun n => to_int64 (node_changeset n)) <$> ns
    /\ undelta to_int64 0 (OSMPBF.di_uid di)
       = (fun n => to_int64 (node_uid n)) <$> ns
    /\ exists finals,
         OSMPBF.di_user_sid di
         = to_int32 <$> delta_encode to_uint32 Delta_init (to_uint16 <$> finals)
         /\ Forall2 (fun n f => 0 <= f
                                /\ strings !! Z.to_nat f = Some (node_user n))
              ns finals
}.

Lemma elem_of_block_dense d s :
  d ∈ block_dense (pbf_primitive_block s)
  <-> exists j, dense_fields s !! j = Some (Some d).
Proof.
  unfold block_dense, dense_fields. rewrite list_elem_of_omap. split.
  - intros (g & Hg & Hd). apply list_elem_of_lookup in Hg.
    destruct Hg as [j Hj]. exists j. by rewrite list_lookup_fmap, Hj, <- Hd.
  - intros [j Hj]. rewrite list_lookup_fmap in Hj.
    destruct (_ !! j) as [g|] eqn:Hg; [|done]. injection Hj as Hj.
    exists g. split; [|done]. by eapply list_elem_of_lookup_2.
Qed.

Lemma block_dense_fields s :
  block_dense (pbf_primitive_block s) = omap id (dense_fields s).
Proof.
  unfold block_dense, dense_fields.
  induction (OSMPBF.primitivegroup (pbf_primitive_block s)) as [|g gs IH];
    [done|].
  cbn [omap list_omap fmap list_fmap]. destruct (OSMPBF.dense g); simpl;
    by rewrite IH.
Qed.

Lemma omap_id_none {A} (L : list (option A)) :
  (forall j y, L !! j <> Some (Some y)) -> omap id L = [].
Proof.
  induction L as [|o L IH]; intros Hn; [done|].
  destruct o as [x|]; [by specialize (Hn 0%nat x)|].
  simpl. apply IH. intros j y. apply (Hn (S j) y).
Qed.

(** A list of optional values with one value holds that value only. *)
Lemma omap_id_single {A} (L : list (option A)) : forall i x,
  L !! i = Some (Some x) ->
  (forall j y, L !! j = Some (Some y) -> j = i) ->
  omap id L = [x].
Proof.
  induction L as [|o L IH]; intros i x Hi Hu; [done|].
  destruct i as [|i].
  - injection Hi as ->. simpl. f_equal. apply omap_id_none.
    intros j y Hj. by specialize (Hu (S j) y Hj).
  - destruct o as [z|]; [by specialize (Hu 0%nat z eq_refl)|].
    simpl. apply (IH i); [done|].
    intros j y Hj. specialize (Hu (S j) y Hj). lia.
Qed.

Lemma Delta_prev_0 d : prev d = 0 -> d = Delta_init.
Proof. destruct d as [p]. simpl. by intros ->. Qed.

(** The flush of a block whose dense state is known: the stored block reads
    back as the nodes of the run, and the writer is at a block start. *)
Lemma dense_state_flush ns s s' od :
  dense_state ns s od -> store_primitive_block s = Ok s' ->
  exists b,
    stored s' = stored s ++ [("OSMData"%string, OSMPBF.PrimitiveMessage b)]
    /\ block_start s'
    /\ same_config s0 s'
    /\ NoDup (OSMPBF.stringtable b)
    /\ OSMPBF.stringtable b = (store_stringtable (string_table s)).1
    /\ (dense_nodes ns <> [] -> exists d, block_dense b = [d])
    /\ forall d, d ∈ block_dense b ->
         m_use_dense_format s0 = true
         /\ reads_back (OSMPBF.stringtable b) ns d.
Proof.
  intros Hs Hf.
  destruct (store_primitive_block_shape _ _ Hf) as (s1 & f & Hm & -> & _).
  exists (pbf_primitive_block s1). split; [done|].
  split; [by repeat split|].
  destruct Hs as [Hc Hok Ho Ha Hn Hcol Tid Tlat Tlon Tts Tcs Tuid Tus].
  split; [destruct Hc as (?&?&?&?&?&?); by repeat split|].
  apply map_string_ids_dense in Hm. destruct Hm as [Hst Hd].
  unfold prepare_primitive_block in Hst, Hd.
  pose proof (store_stringtable_NoDup _ Hok) as Hnd.
  pose proof (users_final (string_table s)) as Hu.
  destruct (store_stringtable (string_table s)) as [out t'] eqn:Est.
  simpl in Hst, Hd, Hnd, Hu. rewrite Hst. split; [done|].
  split; [done|]. split.
  { intros Hne. rewrite block_dense_fields.
    destruct od as [d0|]; [|by destruct Hne; apply (col_some _ _ _ Hcol)].
    destruct (pbf_nodes s) as [i|] eqn:Ep; [|by specialize (Hn eq_refl)].
    destruct Hd as (g & Hg & Hd). specialize (Ha _ eq_refl).
    assert (Hod : OSMPBF.dense g = Some d0).
    { unfold dense_fields in Ha. rewrite list_lookup_fmap, Hg in Ha.
      by injection Ha. }
    rewrite Hod in Hd. destruct Hd as (d' & dl & _ & ->). exists d'.
    apply (omap_id_single _ i).
    - apply list_lookup_insert_eq. by eapply lookup_lt_Some.
    - intros j y Hj. destruct (decide (j = i)) as [->|Hji]; [done|].
      rewrite list_lookup_insert_ne in Hj by done.
      specialize (Ho _ _ Hj). by injection Ho. }
  intros d Hin. apply elem_of_block_dense in Hin. destruct Hin as [j Hj].
  destruct (pbf_nodes s) as [i|] eqn:Ep.
  2: { rewrite Hd in Hj. specialize (Ho _ _ Hj). discriminate Ho. }
  destruct Hd as (g & Hg & Hd).
  assert (Hod : OSMPBF.dense g = od).
  { specialize (Ha _ eq_refl). unfold dense_fields in Ha.
    rewrite list_lookup_fmap, Hg in Ha. by injection Ha. }
  assert (Hi : forall d1, dense_fields s !! j = Some (Some d1) -> j = i).
  { intros d1 H1. specialize (Ho _ _ H1). by injection Ho. }
  destruct (OSMPBF.dense g) as [d0|] eqn:Edg.
  2: { rewrite Hd in Hj. pose proof (Hi _ Hj) as ->.
       change (dense_fields s !! i = Some (Some d)) in Hj.
       specialize (Ha _ eq_refl). rewrite <- Hod in Ha. congruence. }
  destruct Hd as (d' & dl & Hmd & Hd). rewrite Hd in Hj.
  assert (d = d') as ->.
  { destruct (decide (j = i)) as [->|Hne].
    - rewrite list_lookup_insert_eq in Hj; [congruence|].
      eapply lookup_lt_Some. by apply Ha.
    - rewrite list_lookup_insert_ne in Hj by done.
      exfalso. apply Hne. by eapply Hi. }
  subst od. clear Hj Hi.
  apply map_dense_inv in Hmd.
  destruct Hmd as (Eid & Elat & Elon & _ & Hinfo).
  destruct Hcol as [Knone Ksome Kid Kfirst Klat Klon Kinfo Khas Kts Kcs Kuid Kuser].
  unfold dense_of, info_of in *. simpl in *.
  assert (Hdf : m_use_dense_format s0 = true).
  { destruct (m_use_dense_format s0) eqn:E; [done|].
    unfold dense_nodes in Knone. rewrite E in Knone. by specialize (Knone eq_refl). }
  split; [done|]. unfold dense_nodes in *. rewrite Hdf in *.
  split; rewrite ?Eid, ?Elat, ?Elon; try done.
  { intros Hmeta Hne. specialize (Khas Hmeta Hne).
    destruct (OSMPBF.denseinfo d0) as [di0|] eqn:Edi.
    - destruct Hinfo as (di' & finals & -> & _). by eexists.
    - by destruct Khas as [? ?]. }
  intros di Hdi.
  destruct (OSMPBF.denseinfo d0) as [di0|] eqn:Edi; [|congruence].
  destruct Hinfo as (di' & finals & Hdi' & Ets & Ecs & Euid & Hfin & Eus).
  rewrite Hdi in Hdi'. injection Hdi' as <-.
  assert (Hmeta : m_should_add_metadata s0 = true).
  { destruct (m_should_add_metadata s0) eqn:E; [done|].
    by specialize (Kinfo eq_refl). }
  unfold info_nodes in *. rewrite Hmeta in *. simpl in *.
  rewrite Ets, Ecs, Euid. do 3 (split; [done|]).
  exists finals. split.
  - rewrite Eus. do 2 f_equal. by apply Delta_prev_0.
  - eapply Hu; [exact Hok|exact Kuser|exact Hfin].
Qed.

End DenseRuns.

(** ** Blocks *)

Section Blocks.
Context {PB : Protobuf} {ZL : Zlib}.

(** The entities [e :: es] are the block in flight of [s], opened at the
    block start [s0]: [e] was counted and encoded after the flush check, and
    the others were taken without a flush. *)
Definition block_in_flight (s0 : PBF) (e : Entity) (es : list Entity) (s : PBF) : Prop :=
  exists c s1,
    encode e (set_primitive_block_contents c s0) = Ok s1
    /\ ingest_all es s1 = Ok s
    /\ stored s = stored s0.

Lemma block_start_no_flush s : block_start s -> flush_due s = false.
Proof.
  intros (_ & _ & _ & _ & _ & _ & Hc & Hs). unfold flush_due.
  by rewrite Hc, Hs.
Qed.

(** The first block of a run: nothing is flushed before its first entity. *)
Lemma block_in_flight_first s0 e es s :
  block_start s0 -> ingest_all (e :: es) s0 = Ok s -> stored s = stored s0 ->
  block_in_flight s0 e es s.
Proof.
  intros Hb H Hst. cbn [ingest_all] in H.
  apply bind_Ok in H. destruct H as (s1 & H1 & H2).
  rewrite ingest_unfold, check_block_contents_counter_unfold in H1.
  rewrite (block_start_no_flush _ Hb), bind_Ok_l in H1.
  eexists _, s1. split; [exact H1|]. split; [exact H2|exact Hst].
Qed.

Lemma block_start_flushed s s' :
  store_primitive_block s = Ok s' -> block_start s'.
Proof.
  intros Hf.
  destruct (store_primitive_block_shape _ _ Hf) as (s1 & f & _ & -> & _).
  by repeat split.
Qed.

Lemma block_start_init meta s s' :
  init meta s = Ok s' -> block_start s -> block_start s' /\ same_config s s'.
Proof.
  unfold init, store_header_block. intros H Hb.
  apply bind_Ok in H. destruct H as (bbox & _ & H).
  apply bind_Ok in H. destruct H as (s1 & H & [= <-]).
  apply store_blob_inv in H. destruct H as (f & -> & _).
  split; [exact Hb|by repeat split].
Qed.

(** A flushed block reads back as the nodes that went into it. *)
Lemma block_reads_back s0 e es s s' :
  block_start s0 -> block_in_flight s0 e es s ->
  store_primitive_block s = Ok s' ->
  exists b,
    stored s' = stored s0 ++ [("OSMData"%string, OSMPBF.PrimitiveMessage b)]
    /\ NoDup (OSMPBF.stringtable b)
    /\ OSMPBF.stringtable b = (store_stringtable (string_table s)).1
    /\ (dense_nodes s0 (nodes_of (e :: es)) <> [] ->
        exists d, block_dense b = [d])
    /\ forall d, d ∈ block_dense b ->
         m_use_dense_format s0 = true
         /\ reads_back s0 (OSMPBF.stringtable b) (nodes_of (e :: es)) d.
Proof.
  intros Hb (c & s1 & He & Hes & Hst) Hf.
  pose proof (dense_state_start s0 s0 Hb (same_config_refl s0)) as H0.
  assert (Hc : dense_state s0 [] (set_primitive_block_contents c s0) None).
  { eapply dense_state_frame;
      [exact H0|by repeat split|apply (ds_table _ _ _ _ H0)
      |apply table_extends_refl|done|done|done|done]. }
  destruct (encode_dense_state s0 _ _ _ _ _ Hc He) as [[od1 H1] Hst1].
  simpl in Hst1.
  destruct (ingest_all_dense_state s0 es _ _ _ _ H1 Hes) as [od H2];
    [congruence|].
  destruct (dense_state_flush s0 _ _ _ _ H2 Hf)
    as (b & Hstb & _ & _ & Hnd & Htab & Hex & Hrb).
  exists b. rewrite Hstb, Hst. split; [done|]. split; [done|].
  split; [done|]. rewrite nodes_of_cons. simpl in Hex, Hrb. done.
Qed.

(** Between two flushes only the dense encoding of a node assigns to a
    tracker, and it assigns the value of the node. *)
Lemma encode_trackers e s s' :
  encode e s = Ok s' ->
  match e with
  | ENode n =>
      if m_use_dense_format s then
        prev (m_delta_id s') = to_int64 (node_id n)
        /\ m_delta_user_sid s' = m_delta_user_sid s
      else trackers s' = trackers s
  | _ => trackers s' = trackers s
  end.
Proof.
  assert (Hn : forall n s2, write_node n s2 = Ok s' -> trackers s' = trackers s2).
  { intros n s2 H. unfold write_node in H.
    apply bind_Ok in H. destruct H as ([i g] & _ & H).
    apply bind_Ok in H. destruct H as ([c s1] & Ha & H).
    apply bind_Ok in H. destruct H as (lon & _ & H).
    apply bind_Ok in H. destruct H as (lat & _ & [= <-]).
    apply apply_common_info_inv in Ha. by rewrite Ha. }
  assert (Hd : forall n s2, write_dense_node n s2 = Ok s' ->
                            prev (m_delta_id s') = to_int64 (node_id n)
                            /\ m_delta_user_sid s' = m_delta_user_sid s2).
  { intros n s2 H. unfold write_dense_node in H.
    apply bind_Ok in H. destruct H as ([i g] & _ & H).
    unfold Delta_update in H. cbn beta iota zeta in H.
    apply bind_Ok in H. destruct H as (lon & _ & H). cbn beta iota zeta in H.
    apply bind_Ok in H. destruct H as (lat & _ & H). cbn beta iota zeta in H.
    destruct (record_keys_vals _ _) as [kv t]. cbn beta iota zeta in H.
    apply bind_Ok in H. destruct H as ([di s3] & Hdi & [= <-]).
    destruct (m_should_add_metadata s2).
    - apply bind_Ok in Hdi. destruct Hdi as (ts & _ & Hdi).
      cbn beta iota zeta in Hdi. destruct (record_string _ _).
      by injection Hdi as <- <-.
    - by injection Hdi as <- <-. }
  assert (Hw : forall w s2, write_way w s2 = Ok s' -> trackers s' = trackers s2).
  { intros w s2 H. unfold write_way in H.
    apply bind_Ok in H. destruct H as ([i g] & _ & H).
    apply bind_Ok in H. destruct H as ([c s1] & Ha & [= <-]).
    apply apply_common_info_inv in Ha. by rewrite Ha. }
  assert (Hr : forall r s2, write_relation r s2 = Ok s' ->
                            trackers s' = trackers s2).
  { intros r s2 H. unfold write_relation in H.
    apply bind_Ok in H. destruct H as ([i g] & _ & H).
    apply bind_Ok in H. destruct H as ([c s1] & Ha & H).
    apply bind_Ok in H. destruct H as ([[[roles memids] tys] t2] & _ & [= <-]).
    apply apply_common_info_inv in Ha. by rewrite Ha. }
  destruct e as [n|w|r]; simpl.
  - unfold node_body. intros H.
    destruct (pbf_nodes s); simpl in H; destruct (m_use_dense_format s).
    + by apply Hd in H.
    + by apply Hn in H.
    + apply Hd in H. destruct H as [H1 H2]. split; [done|by rewrite H2].
    + apply Hn in H. by rewrite H.
  - unfold way_body. intros H. apply Hw in H. rewrite H.
    by destruct (pbf_ways s).
  - unfold relation_body. intros H. apply Hr in H. rewrite H.
    by destruct (pbf_relations s).
Qed.

Lemma init_trackers meta s s' : init meta s = Ok s' -> trackers s' = trackers s.
Proof.
  unfold init, store_header_block. intros H.
  apply bind_Ok in H. destruct H as (bbox & _ & H).
  apply bind_Ok in H. destruct H as (s1 & H & [= <-]).
  apply store_blob_inv in H. by destruct H as (f & -> & _).
Qed.

End Blocks.

(** ** 8001 dense nodes, column by column *)

Section DenseScenario.
Context {PB : Protobuf} {ZL : Zlib}.

Lemma nodes_of_nodes ns : nodes_of (map ENode ns) = ns.
Proof.
  induction ns as [|n ns IH]; [done|].
  change (map ENode (n :: ns)) with (ENode n :: map ENode ns).
  by rewrite nodes_of_cons, IH.
Qed.

Lemma reads_back_config s s' strings ns d :
  same_config s s' -> reads_back s' strings ns d -> reads_back s strings ns d.
Proof.
  intros (Hl & Hd & _ & _ & Hm & _) [Rid Rfirst Rlat Rlon Rhas Rinfo].
  assert (El : lonlat2int s = lonlat2int s').
  { unfold lonlat2int. by rewrite Hl. }
  assert (Et : timestamp2int s = timestamp2int s').
  { unfold timestamp2int. by rewrite Hd. }
  split; rewrite ?El, ?Et, <- ?Hm; done.
Qed.

Lemma block_start_nodes_run s :
  block_start s -> writes_complete s -> nodes_run 0 s.
Proof.
  intros (_ & Hb & Hn & Hw & Hr & Ht & Hc & Hs) Hwr.
  split; try done.
  - rewrite Ht. apply table_ok_init.
  - rewrite Hn, Hb. done.
Qed.

(** Scenario S3, in any state a writer is in before [init]: the two blocks
    of 8001 dense nodes read back as the first 8000 nodes and as the last
    one. *)
Lemma nodes_8001_columns meta s front n :
  OSM.bounds meta = None -> block_start s -> writes_complete s ->
  compression_works s -> m_use_dense_format s = true ->
  Z.of_nat (length front) = 8000 ->
  Forall (node_encodable s) (front ++ [n]) ->
  exists s' h b1 b2 d1 d2,
    session meta (map ENode (front ++ [n])) s = Ok s'
    /\ stored s'
       = stored s
         ++ [("OSMHeader"%string, OSMPBF.HeaderMessage h);
             ("OSMData"%string, OSMPBF.PrimitiveMessage b1);
             ("OSMData"%string, OSMPBF.PrimitiveMessage b2)]
    /\ block_dense b1 = [d1] /\ block_dense b2 = [d2]
    /\ reads_back s (OSMPBF.stringtable b1) front d1
    /\ reads_back s (OSMPBF.stringtable b2) [n] d2.
Proof.
  intros Hb Hbs Hwr Hz Hdf Hlen Hns.
  apply Forall_app in Hns. destruct Hns as [Hfr Hn].
  rewrite Forall_singleton in Hn.
  pose proof (block_start_nodes_run s Hbs Hwr) as Hr.
  destruct (init_nodes_run meta s Hb Hr Hz) as (s1 & h & Ei & Hst1 & Hr1 & Hc1).
  destruct (block_start_init _ _ _ Ei Hbs) as [Hbs1 _].
  assert (Henc : forall x, node_encodable s x -> node_encodable s1 x)
    by (intros x; by apply node_encodable_config).
  destruct (nodes_ingest front 0 s1 Hr1) as (s2 & E2 & Hr2 & Hst2 & Hc2).
  { simpl. lia. }
  { eapply Forall_impl; [exact Hfr|exact Henc]. }
  simpl in Hr2.
  assert (Hz1 : compression_works s1)
    by (eapply compression_works_config; [exact Hc1|exact Hz]).
  assert (Hz2 : compression_works s2)
    by (eapply compression_works_config; [exact Hc2|exact Hz1]).
  destruct (nodes_flush _ s2 Hr2 Hz2) as (sf & b1 & Ef & Hstf & Hb1 & Hrf & Hcf).
  assert (Hzf : compression_works sf)
    by (eapply compression_works_config; [exact Hcf|exact Hz2]).
  assert (Hc1f : same_config s1 sf) by (by eapply same_config_trans).
  destruct (node_body_step 0 sf n Hrf) as (s3 & E3 & Hr3 & Hst3 & Hc3).
  { eapply node_encodable_config; [exact Hc1f|by apply Henc]. }
  assert (Hz3 : compression_works s3)
    by (eapply compression_works_config; [exact Hc3|exact Hzf]).
  destruct (nodes_flush _ s3 Hr3 Hz3) as (s4 & b2 & E4 & Hst4 & Hb2 & Hr4 & Hc4).
  (* the first block *)
  assert (exists d1, block_dense b1 = [d1]
                     /\ reads_back s1 (OSMPBF.stringtable b1) front d1)
    as (d1 & Hd1 & Hrb1).
  { destruct front as [|n1 rest]; [simpl in Hlen; lia|].
    pose proof (block_in_flight_first s1 (ENode n1) (map ENode rest) s2 Hbs1
                  E2 Hst2) as Hfl.
    destruct (block_reads_back _ _ _ _ _ Hbs1 Hfl Ef)
      as (b & Hstb & _ & _ & Hex & Hrb).
    assert (b = b1) as ->.
    { rewrite Hstf, Hst2 in Hstb. apply app_inv_head in Hstb.
      by injection Hstb. }
    change (ENode n1 :: map ENode rest) with (map ENode (n1 :: rest))
      in Hex, Hrb.
    rewrite nodes_of_nodes in Hex, Hrb.
    destruct Hex as [d1 Hd1].
    { unfold dense_nodes. destruct Hc1 as (_ & _ & -> & _). by rewrite Hdf. }
    exists d1. split; [done|]. apply Hrb. rewrite Hd1. by left. }
  (* the second block *)
  pose proof (block_start_flushed _ _ Ef) as Hbsf.
  assert (exists d2, block_dense b2 = [d2]
                     /\ reads_back sf (OSMPBF.stringtable b2) [n] d2)
    as (d2 & Hd2 & Hrb2).
  { assert (Hfl : block_in_flight sf (ENode n) [] s3).
    { exists (Z.of_nat 1), s3. split; [exact E3|]. split; [done|exact Hst3]. }
    destruct (block_reads_back _ _ _ _ _ Hbsf Hfl E4)
      as (b & Hstb & _ & _ & Hex & Hrb).
    assert (b = b2) as ->.
    { rewrite Hst4, Hst3 in Hstb. apply app_inv_head in Hstb.
      by injection Hstb. }
    change (nodes_of [ENode n]) with [n] in Hex, Hrb.
    destruct Hex as [d2 Hd2].
    { unfold dense_nodes. destruct Hc1f as (_ & _ & -> & _).
      destruct Hc1 as (_ & _ & -> & _). by rewrite Hdf. }
    exists d2. split; [done|]. apply Hrb. rewrite Hd2. by left. }
  exists (set_m_file (OSMFile_close (m_file s4)) s4), h, b1, b2, d1, d2.
  split.
  { unfold session. rewrite Ei, bind_Ok_l, map_app, ingest_all_app, E2.
    rewrite bind_Ok_l. cbn [map ingest_all ingest].
    rewrite node_unfold, check_block_contents_counter_unfold.
    replace (flush_due s2) with true
      by (symmetry; apply flush_due_iff; left;
          rewrite (nr_contents _ _ Hr2); lia).
    rewrite Ef, !bind_Ok_l, (nr_contents _ _ Hrf).
    change (to_uint16 (Z.of_nat 0 + 1)) with (Z.of_nat 1).
    rewrite E3, !bind_Ok_l. cbn [ingest_all]. rewrite ?bind_Ok_l. cbn beta.
    unfold final. rewrite (nr_contents _ _ Hr3).
    change (0 <? Z.of_nat 1) with true. cbv iota. rewrite E4, bind_Ok_l. done. }
  split.
  { simpl. rewrite Hst4, Hst3, Hstf, Hst2, Hst1, <- !app_assoc. done. }
  split; [done|]. split; [done|]. split.
  - by eapply reads_back_config.
  - eapply reads_back_config; [|exact Hrb2]. by eapply same_config_trans.
Qed.

End DenseScenario.

(** ** The dense columns of a stored block *)

Lemma undelta_length T acc ds : length (undelta T acc ds) = length ds.
Proof.
  revert acc. induction ds as [|d ds IH]; intros acc; [done|].
  simpl. by rewrite IH.
Qed.

Lemma to_uint32_to_uint16 z : to_uint32 (to_uint16 z) = to_uint16 z.
Proof. apply to_uint32_id. pose proof (to_uint16_range z). lia. Qed.

Lemma to_int32_id z : - 2 ^ 31 <= z < 2 ^ 31 -> to_int32 z = z.
Proof. intros Hz. unfold to_int32. rewrite Z.mod_small; lia. Qed.

(** The int32 that stands for a uint32. *)
Lemma to_int32_to_uint32 z : - 2 ^ 31 <= z < 2 ^ 31 -> to_int32 (to_uint32 z) = z.
Proof.
  intros Hz. unfold to_int32, to_uint32.
  destruct (Z.le_gt_cases 0 z) as [Hp|Hn].
  - rewrite (Z.mod_small z) by lia. rewrite Z.mod_small; lia.
  - replace (z mod 2 ^ 32) with (z + 2 ^ 32).
    + replace (z + 2 ^ 32 + 2 ^ 31) with (z + 2 ^ 31 + 1 * 2 ^ 32) by lia.
      rewrite Z.mod_add by lia. rewrite Z.mod_small; lia.
    + symmetry. replace z with (z + 2 ^ 32 + (- 1) * 2 ^ 32) at 1 by lia.
      rewrite Z.mod_add by lia. apply Z.mod_small. lia.
Qed.

(** One entry of the user_sid column: the difference of two 16-bit ids. *)
Lemma user_sid_entry u p :
  0 <= u < 2 ^ 16 -> 0 <= p < 2 ^ 16 ->
  to_int32 (to_uint32 (to_uint32 u - p)) = u - p.
Proof.
  intros Hu Hp. rewrite (to_uint32_id u) by lia.
  apply to_int32_to_uint32. lia.
Qed.

(** The user_sid column read back by a running sum of its int32 entries:
    the final ids, each narrowed to 16 bits. *)
Lemma undelta_user_sid finals : forall d,
  0 <= prev d < 2 ^ 16 ->
  undelta to_int32 (prev d)
    (to_int32 <$> delta_encode to_uint32 d (to_uint16 <$> finals))
  = to_uint16 <$> finals.
Proof.
  induction finals as [|f fs IH]; intros d Hd; [done|].
  pose proof (to_uint16_range f) as Hf.
  cbn [fmap list_fmap delta_encode undelta]. unfold Delta_update.
  cbn [fmap list_fmap undelta].
  rewrite user_sid_entry by done.
  replace (prev d + (to_uint16 f - prev d)) with (to_uint16 f) by lia.
  rewrite (to_int32_id (to_uint16 f)) by lia. f_equal.
  rewrite to_uint32_to_uint16.
  apply (IH {| prev := to_uint16 f |}). simpl. lia.
Qed.

(** The trackers and the columns, block by block. The seven trackers are at
    zero in a new writer and after every flush; [init] keeps them, and
    between two flushes only the dense encoding of a node assigns to a
    tracker, the value of the node (the user_sid tracker is used by the flush
    alone). For a block opened at a block start, filled with the entities
    [e :: es] and flushed, each int64 column of its dense data, summed up
    from zero, gives the values of the nodes among [e :: es]: the ids, the
    scaled latitudes and longitudes, and under DenseInfo the scaled
    timestamps, the changesets and the uids; the first entry of the id column
    is the first id itself. The user_sid column sums up to the rows of the
    user names in the string table of the block, each narrowed to 16 bits. *)
Lemma dense_block_columns {PB : Protobuf} {ZL : Zlib} :
  (forall file generator, trackers_clear (PBF_new file generator))
  /\ (forall s s', store_primitive_block s = Ok s' -> trackers_clear s')
  /\ (forall meta s s', init meta s = Ok s' -> trackers s' = trackers s)
  /\ (forall e s s',
        encode e s = Ok s' ->
        match e with
        | ENode n =>
            if m_use_dense_format s then
              prev (m_delta_id s') = to_int64 (node_id n)
              /\ m_delta_user_sid s' = m_delta_user_sid s
            else trackers s' = trackers s
        | _ => trackers s' = trackers s
        end)
  /\ (forall s0 e es s s',
        block_start s0 -> block_in_flight s0 e es s ->
        store_primitive_block s = Ok s' ->
        exists b,
          stored s' = stored s0 ++ [("OSMData"%string, OSMPBF.PrimitiveMessage b)]
          /\ forall d,
               d ∈ block_dense b ->
               undelta to_int64 0 (OSMPBF.dense_id d)
               = (fun n => to_int64 (node_id n)) <$> nodes_of (e :: es)
               /\ head (OSMPBF.dense_id d)
                  = (fun n => to_int64 (node_id n)) <$> head (nodes_of (e :: es))
               /\ for_each (lonlat2int s0) (OSM.lat <$> nodes_of (e :: es))
                  = Ok (undelta to_int64 0 (OSMPBF.dense_lat d))
               /\ for_each (lonlat2int s0) (OSM.lon <$> nodes_of (e :: es))
                  = Ok (undelta to_int64 0 (OSMPBF.dense_lon d))
               /\ forall di,
                    OSMPBF.denseinfo d = Some di ->
                    for_each (timestamp2int s0)
                      (node_timestamp <$> nodes_of (e :: es))
                    = Ok (undelta to_int64 0 (OSMPBF.di_timestamp di))
                    /\ undelta to_int64 0 (OSMPBF.di_changeset di)
                       = (fun n => to_int64 (node_changeset n))
                           <$> nodes_of (e :: es)
                    /\ undelta to_int64 0 (OSMPBF.di_uid di)
                       = (fun n => to_int64 (node_uid n)) <$> nodes_of (e :: es)
                    /\ exists finals,
                         undelta to_int32 0 (OSMPBF.di_user_sid di)
                         = to_uint16 <$> finals
                         /\ Forall2
                              (fun n f =>
                                 0 <= f
                                 /\ OSMPBF.stringtable b !! Z.to_nat f
                                    = Some (node_user n))
                              (nodes_of (e :: es)) finals)
  /\ (forall file generator front n,
        fd_pending file = [] ->
        (forall data, exists out, zlib_deflate data = deflated out) ->
        Z.of_nat (length front) = 8000 ->
        Forall (node_encodable (PBF_new file generator)) (front ++ [n]) ->
        exists s' h b1 b2 d1 d2,
          session {| OSM.bounds := None |} (map ENode (front ++ [n]))
            (PBF_new file generator) = Ok s'
          /\ stored s'
             = [("OSMHeader"%string, OSMPBF.HeaderMessage h);
                ("OSMData"%string, OSMPBF.PrimitiveMessage b1);
                ("OSMData"%string, OSMPBF.PrimitiveMessage b2)]
          /\ block_dense b1 = [d1] /\ block_dense b2 = [d2]
          /\ undelta to_int64 0 (OSMPBF.dense_id d1)
             = (fun n => to_int64 (node_id n)) <$> front
          /\ head (OSMPBF.dense_id d1)
             = (fun n => to_int64 (node_id n)) <$> head front
          /\ OSMPBF.dense_id d2 = [to_int64 (node_id n)]).
Proof.
  split; [by repeat split|]. split.
  { intros s s' Hf. by destruct (block_start_flushed _ _ Hf). }
  split; [apply init_trackers|]. split; [apply encode_trackers|].
  split.
  - intros s0 e es s s' Hb Hfl Hf.
    destruct (block_reads_back _ _ _ _ _ Hb Hfl Hf)
      as (b & Hst & _ & _ & _ & Hrb).
    exists b. split; [done|]. intros d Hd.
    destruct (Hrb d Hd) as [_ [Rid Rfirst Rlat Rlon _ Rinfo]].
    do 4 (split; [done|]). intros di Hdi.
    destruct (Rinfo di Hdi) as (Rts & Rcs & Ruid & finals & Rus & Rfin).
    do 3 (split; [done|]). exists finals. split; [|done].
    rewrite Rus. by apply (undelta_user_sid finals Delta_init).
  - intros file generator front n Hp Hz Hlen Hns.
    destruct (nodes_8001_columns {| OSM.bounds := None |}
                (PBF_new file generator) front n)
      as (s' & h & b1 & b2 & d1 & d2 & Hs & Hst & Hd1 & Hd2 & R1 & R2);
      [done|by repeat split|done|by intros _|done|done|done|].
    exists s', h, b1, b2, d1, d2. do 4 (split; [done|]).
    destruct R1 as [Rid1 Rfirst1 _ _ _ _], R2 as [Rid2 Rfirst2 _ _ _ _].
    do 2 (split; [done|]).
    pose proof (undelta_length to_int64 0 (OSMPBF.dense_id d2)) as Hl.
    rewrite Rid2 in Hl.
    destruct (OSMPBF.dense_id d2) as [|x [|y l]]; try done.
    simpl in Rfirst2. by injection Rfirst2 as ->.
Qed.

(** Nodes 1 to 8000. *)
Definition plain_front : list OSM.Node :=
  (fun i => plain_node (Z.of_nat i)) <$> seq 1 (Z.to_nat 8000).

(** Scenario S3 on the sample file and libraries: nodes 1 to 8001. *)
Lemma dense_block_columns_sample :
  exists s' h b1 b2 d1 d2,
    @session sample_protobuf sample_zlib {| OSM.bounds := None |}
      (map ENode (plain_front ++ [plain_node 8001]))
      (PBF_new sample_file "osmium") = Ok s'
    /\ stored s'
       = [("OSMHeader"%string, OSMPBF.HeaderMessage h);
          ("OSMData"%string, OSMPBF.PrimitiveMessage b1);
          ("OSMData"%string, OSMPBF.PrimitiveMessage b2)]
    /\ block_dense b1 = [d1] /\ block_dense b2 = [d2]
    /\ undelta to_int64 0 (OSMPBF.dense_id d1)
       = (fun n => to_int64 (node_id n)) <$> plain_front
    /\ head (OSMPBF.dense_id d1) = Some 1
    /\ OSMPBF.dense_id d2 = [8001].
Proof.
  apply (proj2 (proj2 (proj2 (proj2 (proj2
           (@dense_block_columns sample_protobuf sample_zlib)))))
           sample_file "osmium"%string plain_front (plain_node 8001)).
  - reflexivity.
  - intros data. exists data. reflexivity.
  - unfold plain_front. rewrite length_fmap, length_seq. lia.
  - apply Forall_app. split.
    + unfold plain_front. apply Forall_fmap, Forall_forall.
      intros i _. apply plain_node_encodable.
    + apply Forall_singleton, plain_node_encodable.
Defined.

(** ** Where a string lands in the final table *)

(** The table holds as many strings as interim ids were handed out. *)
Lemma sorted_strings_length t :
  table_ok t -> Z.of_nat (length (sorted_strings t)) = m_size t.
Proof.
  intros Hok.
  set (ids := (fun e : string * string_info => interim_id e.2)
                <$> sorted_strings t).
  assert (Hp : ids ≡ₚ seqZ 1 (m_size t)).
  { apply NoDup_Permutation.
    - by apply sorted_strings_NoDup_ids.
    - apply NoDup_seqZ.
    - intros k. rewrite elem_of_seqZ. unfold ids.
      rewrite list_elem_of_fmap. split.
      + intros ([s i] & -> & Hin). apply elem_of_sorted_strings in Hin.
        destruct (table_ids _ Hok _ _ Hin) as (? & _). simpl. lia.
      + intros Hk. destruct (table_all _ Hok k) as (s & i & Hs & Hi); [lia|].
        exists (s, i). split; [done|]. by apply elem_of_sorted_strings. }
  apply Permutation_length in Hp. unfold ids in Hp.
  rewrite length_fmap, length_seqZ in Hp. rewrite Hp.
  pose proof (table_size _ Hok). lia.
Qed.

(** The one string used less often than every other is the last of the
    table. *)
Lemma sorted_strings_least t u iu :
  m_strings t !! u = Some iu ->
  (forall s i, m_strings t !! s = Some i -> s <> u -> count iu < count i) ->
  sorted_strings t !! pred (length (sorted_strings t)) = Some (u, iu).
Proof.
  intros Hu Hleast.
  pose proof (sorted_strings_sorted t) as Hs.
  pose proof (sorted_strings_NoDup_fst t) as Hnd.
  assert (Hin : (u, iu) ∈ sorted_strings t) by (by apply elem_of_sorted_strings).
  apply list_elem_of_split in Hin. destruct Hin as (l1 & l2 & Hl).
  assert (Hall : forall e, e ∈ sorted_strings t <-> m_strings t !! e.1 = Some e.2).
  { intros [s i]. apply elem_of_sorted_strings. }
  rewrite Hl in Hs, Hnd, Hall |- *.
  destruct l2 as [|[s i] l2].
  - rewrite length_app. simpl.
    replace (pred (length l1 + 1)) with (length l1 + 0)%nat by lia.
    by rewrite lookup_app_r, Nat.add_comm, Nat.add_sub by lia.
  - exfalso. apply StronglySorted_app_1_r in Hs.
    apply StronglySorted_cons in Hs. destruct Hs as [Hle _].
    apply Forall_cons in Hle. destruct Hle as [Hle _].
    assert (Hsi : m_strings t !! s = Some i).
    { apply (Hall (s, i)). rewrite elem_of_app, !elem_of_cons. tauto. }
    assert (Hne : s <> u).
    { intros ->. rewrite fmap_app in Hnd. apply NoDup_app in Hnd.
      destruct Hnd as (_ & _ & Hnd). simpl in Hnd.
      apply NoDup_cons in Hnd. destruct Hnd as [Hnd _].
      apply Hnd. by left. }
    specialize (Hleast _ _ Hsi Hne).
    unfold entry_le, entry_leb in Hle. simpl in Hle.
    apply orb_true_iff in Hle. rewrite andb_true_iff in Hle.
    rewrite Z.ltb_lt, Z.eqb_eq in Hle. lia.
Qed.

(** A string that another string strictly precedes is not the first of the
    table. *)
Lemma sorted_strings_not_first t z iz k ik :
  m_strings t !! z = Some iz -> m_strings t !! k = Some ik ->
  entry_leb (z, iz) (k, ik) = false ->
  sorted_strings t !! 0%nat <> Some (z, iz).
Proof.
  intros Hz Hk Hlt H0.
  pose proof (sorted_strings_sorted t) as Hs.
  assert (Hin : (k, ik) ∈ sorted_strings t) by (by apply elem_of_sorted_strings).
  destruct (sorted_strings t) as [|e l]; [done|].
  injection H0 as ->.
  apply StronglySorted_cons in Hs. destruct Hs as [Hle _].
  apply elem_of_cons in Hin. destruct Hin as [Hin|Hin].
  - injection Hin as -> ->.
    destruct (total entry_le (z, iz) (z, iz)) as [H|H];
      unfold entry_le in H; congruence.
  - rewrite Forall_forall in Hle. specialize (Hle _ Hin).
    unfold entry_le in Hle. congruence.
Qed.

(** ** A block with more than 2^16 strings *)

(** Distinct tag strings: "k" followed by the binary digits of a positive
    number, lowest digit first. *)
Fixpoint bits (p : positive) : string :=
  match p with
  | xH => EmptyString
  | xO q => String "0" (bits q)
  | xI q => String "1" (bits q)
  end.

Definition tag_name (p : positive) : string := String "k" (bits p).

Lemma bits_inj p : forall q, bits p = bits q -> p = q.
Proof.
  induction p as [p IH|p IH|]; intros [q|q|] H; simpl in H; try done;
    injection H as H; f_equal; by apply IH.
Qed.

(** 65536 tag strings: "z", recorded first, and 65535 strings "k...". *)
Definition crowded_names : list string :=
  "z"%string :: ((fun i => tag_name (Pos.of_nat i)) <$> seq 1 (Z.to_nat 65535)).

Lemma crowded_names_length : Z.of_nat (length crowded_names) = 65536.
Proof.
  unfold crowded_names. cbn [length]. rewrite length_fmap, length_seq. lia.
Qed.

Lemma crowded_names_NoDup : NoDup crowded_names.
Proof.
  unfold crowded_names. apply NoDup_cons. split.
  - intros Hin. apply list_elem_of_fmap in Hin. by destruct Hin as (i & Hi & _).
  - apply NoDup_fmap_2_strong; [|apply NoDup_seq].
    intros i j Hi Hj H. apply elem_of_seq in Hi, Hj.
    injection H as H. apply bits_inj in H. apply Nat2Pos.inj in H; lia.
Qed.

Lemma crowded_names_shape s :
  s ∈ crowded_names ->
  s <> EmptyString /\ s <> "u"%string
  /\ (s = "z"%string \/ exists p, s = tag_name p).
Proof.
  unfold crowded_names. intros Hin. apply elem_of_cons in Hin.
  destruct Hin as [->|Hin]; [by eauto|].
  apply list_elem_of_fmap in Hin. destruct Hin as (i & -> & _).
  split; [done|]. split; [done|]. eauto.
Qed.

Lemma crowded_names_head : head crowded_names = Some "z"%string.
Proof. reflexivity. Qed.

Lemma crowded_names_k : tag_name 1 ∈ crowded_names.
Proof.
  unfold crowded_names. apply elem_of_cons. right.
  apply (list_elem_of_fmap_2 (fun i => tag_name (Pos.of_nat i)) _ 1%nat).
  apply elem_of_seq. lia.
Qed.

(** Each string is the key and the value of one tag. *)
Definition crowded_tags : list (string * string) :=
  (fun s => (s, s)) <$> crowded_names.

(** One dense node of user "u" with these 65536 tags. *)
Definition crowded_node : OSM.Node :=
  {| OSM.node_object :=
       {| OSM.id := 1; OSM.tags := crowded_tags; OSM.version := 1;
          OSM.timestamp := 0; OSM.changeset := 1; OSM.uid := 1;
          OSM.user := "u"; OSM.visible := true |};
     OSM.lon := Degrees.d0; OSM.lat := Degrees.d0 |}.

(** The interim table once [write_dense_node] has recorded the tags and the
    user of the node in a new block. *)
Definition crowded_tags_table : StringTable :=
  (record_keys_vals crowded_tags StringTable_init).2.

Definition crowded_table : StringTable :=
  (record_string "u" crowded_tags_table).2.

(** A string new to the table, recorded as key and as value. *)
Lemma record_string_twice s t :
  s <> EmptyString -> m_strings t !! s = None ->
  (record_string s (record_string s t).2).2
  = {| m_strings :=
         <[s := {| interim_id := m_size t + 1; count := 2 |}]> (m_strings t);
       m_size := m_size t + 1;
       m_id2id_map := m_id2id_map t |}.
Proof.
  intros Hs Hn. unfold record_string. rewrite !decide_False by done.
  rewrite Hn. simpl. rewrite lookup_insert_eq. simpl.
  by rewrite insert_insert_eq.
Qed.

Lemma record_keys_vals_twice names : forall t,
  NoDup names ->
  Forall (fun s => s <> EmptyString /\ m_strings t !! s = None) names ->
  let t' := (record_keys_vals ((fun s => (s, s)) <$> names) t).2 in
  m_size t' = m_size t + Z.of_nat (length names)
  /\ (forall s, s ∈ names ->
        exists i, m_strings t' !! s = Some i /\ count i = 2)
  /\ (forall s, s ∉ names -> m_strings t' !! s = m_strings t !! s)
  /\ (forall s, head names = Some s ->
        exists i, m_strings t' !! s = Some i
                  /\ interim_id i = m_size t + 1 /\ count i = 2).
Proof.
  induction names as [|s names IH]; intros t Hnd Hfresh.
  - simpl. split; [lia|]. split; [by intros s Hs; apply elem_of_nil in Hs|].
    done.
  - apply NoDup_cons in Hnd. destruct Hnd as [Hs Hnd].
    apply Forall_cons in Hfresh. destruct Hfresh as [[Hne Hnone] Hfresh].
    cbn [fmap list_fmap record_keys_vals].
    pose proof (record_string_twice s t Hne Hnone) as Ht1.
    destruct (record_string s t) as [ki t0]. simpl in Ht1.
    destruct (record_string s t0) as [vi t1]. simpl in Ht1. subst t1.
    match goal with |- context [record_keys_vals _ ?t1] =>
      specialize (IH t1 Hnd) end.
    destruct (record_keys_vals _ _) as [kv t'] eqn:Ekv. simpl in IH |- *.
    destruct IH as (Hsz & Hin & Hout & _).
    { rewrite Forall_forall in Hfresh |- *. intros x Hx.
      destruct (Hfresh x Hx) as [Hxe Hxn]. split; [done|].
      simpl. rewrite lookup_insert_ne; [done|]. by intros ->. }
    simpl in Hsz.
    assert (Hs' : exists i, m_strings t' !! s = Some i
                            /\ interim_id i = m_size t + 1 /\ count i = 2).
    { rewrite (Hout s Hs). simpl. rewrite lookup_insert_eq. eauto. }
    split; [lia|]. split; [|split].
    + intros x Hx. apply elem_of_cons in Hx. destruct Hx as [->|Hx].
      * destruct Hs' as (i & Hi & _ & Hc). eauto.
      * by apply Hin.
    + intros x Hx. apply not_elem_of_cons in Hx. destruct Hx as [Hxs Hx].
      rewrite (Hout x Hx). simpl. by rewrite lookup_insert_ne.
    + by intros x [= <-].
Qed.

Global Opaque crowded_names.

Lemma crowded_tags_table_facts :
  table_ok crowded_tags_table
  /\ m_size crowded_tags_table = 65536
  /\ (forall s, s ∈ crowded_names ->
        exists i, m_strings crowded_tags_table !! s = Some i /\ count i = 2)
  /\ (forall s, s ∉ crowded_names -> m_strings crowded_tags_table !! s = None)
  /\ (exists i, m_strings crowded_tags_table !! "z"%string = Some i
                /\ interim_id i = 1 /\ count i = 2).
Proof.
  split.
  { apply record_keys_vals_extends, table_ok_init. }
  pose proof (record_keys_vals_twice crowded_names StringTable_init
                crowded_names_NoDup) as H.
  cbv zeta in H. fold crowded_tags in H. fold crowded_tags_table in H.
  destruct H as (Hsz & Hin & Hout & Hhead).
  { apply Forall_forall. intros s Hs.
    split; [by apply crowded_names_shape|done]. }
  rewrite crowded_names_length in Hsz.
  split; [exact Hsz|]. split; [exact Hin|]. split.
  - intros s Hs. by rewrite (Hout s Hs).
  - apply Hhead. exact crowded_names_head.
Qed.

Lemma crowded_table_facts :
  table_ok crowded_table
  /\ m_size crowded_table = 65537
  /\ record_string "u" crowded_tags_table = (65537, crowded_table)
  /\ m_strings crowded_table !! "u"%string
     = Some {| interim_id := 65537; count := 1 |}
  /\ (forall s i, m_strings crowded_table !! s = Some i -> s <> "u"%string ->
        count i = 2)
  /\ (exists i, m_strings crowded_table !! "z"%string = Some i
                /\ interim_id i = 1 /\ count i = 2)
  /\ (exists i, m_strings crowded_table !! tag_name 1 = Some i /\ count i = 2).
Proof.
  destruct crowded_tags_table_facts as (Hok & Hsz & Hin & Hout & Hz).
  assert (Hu : m_strings crowded_tags_table !! "u"%string = None).
  { apply Hout. intros Hin'. apply crowded_names_shape in Hin'.
    destruct Hin' as (_ & Hne & _). by apply Hne. }
  assert (Ht : record_string "u" crowded_tags_table
               = (65537,
                  {| m_strings :=
                       <["u"%string := {| interim_id := 65537; count := 1 |}]>
                         (m_strings crowded_tags_table);
                     m_size := 65537;
                     m_id2id_map := m_id2id_map crowded_tags_table |})).
  { unfold record_string. rewrite decide_False by done. rewrite Hu, Hsz. done. }
  assert (Hc : crowded_table
               = {| m_strings :=
                      <["u"%string := {| interim_id := 65537; count := 1 |}]>
                        (m_strings crowded_tags_table);
                    m_size := 65537;
                    m_id2id_map := m_id2id_map crowded_tags_table |}).
  { unfold crowded_table. by rewrite Ht. }
  split.
  { unfold crowded_table. by apply record_string_table_ok. }
  split; [by rewrite Hc|]. split; [by rewrite Hc|].
  rewrite Hc. cbn [m_strings].
  split; [by rewrite lookup_insert_eq|]. split; [|split].
  - intros s i Hs Hne. rewrite lookup_insert_ne in Hs by done.
    destruct (decide (s ∈ crowded_names)) as [Hin'|Hnin].
    + destruct (Hin s Hin') as (i' & Hi' & Hc'). congruence.
    + rewrite (Hout s Hnin) in Hs. done.
  - rewrite lookup_insert_ne by done. exact Hz.
  - rewrite lookup_insert_ne by done. apply Hin. exact crowded_names_k.
Qed.

(** ** One dense node in a block *)

Section SingleNode.
Context {PB : Protobuf} {ZL : Zlib}.

(** The strings [write_dense_node] records with metadata: the tags, then the
    user. *)
Definition node_strings (n : OSM.Node) (t : StringTable) : StringTable :=
  (record_string (node_user n)
     (record_keys_vals (OSM.tags (OSM.node_object n)) t).2).2.

Lemma write_dense_node_table n s s' :
  write_dense_node n s = Ok s' -> m_should_add_metadata s = true ->
  string_table s' = node_strings n (string_table s).
Proof.
  intros H Hm. unfold write_dense_node in H.
  apply bind_Ok in H. destruct H as ([i g] & _ & H).
  unfold Delta_update in H. cbn beta iota zeta in H.
  apply bind_Ok in H. destruct H as (lon & _ & H). cbn beta iota zeta in H.
  apply bind_Ok in H. destruct H as (lat & _ & H). cbn beta iota zeta in H.
  unfold node_strings, node_user.
  destruct (record_keys_vals _ _) as [kv t]. cbn beta iota zeta in H.
  apply bind_Ok in H. destruct H as ([di s3] & Hdi & [= <-]).
  rewrite Hm in Hdi.
  apply bind_Ok in Hdi. destruct Hdi as (ts & _ & Hdi).
  cbn beta iota zeta in Hdi. simpl.
  destruct (record_string _ _) as [u t']. by injection Hdi as <- <-.
Qed.

(** A session of one dense node with metadata: the stored block, its string
    list, and its dense data. *)
Lemma single_dense_node meta s n :
  OSM.bounds meta = None -> block_start s -> writes_complete s ->
  compression_works s -> m_use_dense_format s = true ->
  m_should_add_metadata s = true -> node_encodable s n ->
  exists s' h b d di,
    session meta [ENode n] s = Ok s'
    /\ stored s'
       = stored s
         ++ [("OSMHeader"%string, OSMPBF.HeaderMessage h);
             ("OSMData"%string, OSMPBF.PrimitiveMessage b)]
    /\ OSMPBF.stringtable b
       = (store_stringtable (node_strings n StringTable_init)).1
    /\ NoDup (OSMPBF.stringtable b)
    /\ block_dense b = [d]
    /\ OSMPBF.denseinfo d = Some di
    /\ reads_back s (OSMPBF.stringtable b) [n] d
    /\ trackers_clear s'
    /\ OSMPBF.dense_id d = [to_int64 (node_id n)].
Proof.
  intros Hb Hbs Hwr Hz Hdf Hmeta Hn.
  pose proof (block_start_nodes_run s Hbs Hwr) as Hr.
  destruct (init_nodes_run meta s Hb Hr Hz) as (s1 & h & Ei & Hst1 & Hr1 & Hc1).
  destruct (block_start_init _ _ _ Ei Hbs) as [Hbs1 _].
  assert (Hz1 : compression_works s1)
    by (eapply compression_works_config; [exact Hc1|exact Hz]).
  destruct (node_step 0 s1 n Hr1) as (s2 & E2 & Hr2 & Hst2 & Hc2); [lia| |].
  { by eapply node_encodable_config. }
  assert (Hz2 : compression_works s2)
    by (eapply compression_works_config; [exact Hc2|exact Hz1]).
  destruct (nodes_flush _ s2 Hr2 Hz2) as (s3 & b & E3 & Hst3 & _ & _ & _).
  assert (Hdf1 : m_use_dense_format s1 = true)
    by (destruct Hc1 as (_ & _ & -> & _); exact Hdf).
  assert (Hm1 : m_should_add_metadata s1 = true)
    by (destruct Hc1 as (_ & _ & _ & _ & -> & _); exact Hmeta).
  assert (Ht2 : string_table s2 = node_strings n StringTable_init).
  { pose proof E2 as E. rewrite node_unfold in E.
    rewrite check_block_contents_counter_unfold in E.
    rewrite (block_start_no_flush _ Hbs1), bind_Ok_l in E.
    destruct Hbs1 as (_ & _ & Hp & _ & _ & Ht & _).
    unfold node_body in E. simpl in E. rewrite Hp in E. simpl in E.
    rewrite Hdf1 in E. apply write_dense_node_table in E; [|exact Hm1].
    rewrite E. simpl. by rewrite Ht. }
  assert (Hfl : block_in_flight s1 (ENode n) [] s2).
  { apply block_in_flight_first; [done| |done].
    cbn [ingest_all ingest]. by rewrite E2. }
  destruct (block_reads_back _ _ _ _ _ Hbs1 Hfl E3)
    as (b' & Hstb & Hnd & Htab & Hex & Hrb).
  assert (b' = b) as ->.
  { rewrite Hst3, Hst2 in Hstb. apply app_inv_head in Hstb. by injection Hstb. }
  change (nodes_of [ENode n]) with [n] in Hex, Hrb.
  destruct Hex as [d Hd].
  { unfold dense_nodes. by rewrite Hdf1. }
  destruct (Hrb d) as [_ Rb]; [rewrite Hd; by left|].
  destruct (rb_has_info _ _ _ _ Rb Hm1) as [di Hdi]; [done|].
  exists (set_m_file (OSMFile_close (m_file s3)) s3), h, b, d, di.
  split.
  { unfold session. rewrite Ei, bind_Ok_l. cbn [ingest_all ingest].
    rewrite E2, !bind_Ok_l. unfold final. rewrite (nr_contents _ _ Hr2).
    change (0 <? Z.of_nat 1) with true. cbv iota. by rewrite E3, bind_Ok_l. }
  split.
  { simpl. rewrite Hst3, Hst2, Hst1, <- app_assoc. done. }
  split; [by rewrite Htab, Ht2|]. split; [done|]. split; [done|].
  split; [done|]. split; [by eapply reads_back_config|].
  split; [by destruct (block_start_flushed _ _ E3)|].
  pose proof (rb_id _ _ _ _ Rb) as Rid. pose proof (rb_first _ _ _ _ Rb) as Rf.
  pose proof (undelta_length to_int64 0 (OSMPBF.dense_id d)) as Hl.
  rewrite Rid in Hl.
  destruct (OSMPBF.dense_id d) as [|x [|y l]]; try done.
  simpl in Rf. by injection Rf as ->.
Qed.

End SingleNode.

(** The final ids in the crowded block: the user name, used once, is the
    last string, number 65537; "z", the first string recorded, is neither
    the first nor the last. *)
Lemma crowded_final_ids :
  map_string_id (store_stringtable crowded_table).2 65537 = Ok 65537
  /\ (store_stringtable crowded_table).1 !! Z.to_nat 65537 = Some "u"%string
  /\ exists f, map_string_id (store_stringtable crowded_table).2 1 = Ok f
               /\ 2 <= f <= 65536.
Proof.
  destruct crowded_table_facts
    as (Hok & Hsz & _ & Hu & Hcount & (iz & Hz & Hiz & Hcz) & (ik & Hk & Hck)).
  pose proof (sorted_strings_length _ Hok) as Hlen. rewrite Hsz in Hlen.
  assert (Hlast : sorted_strings crowded_table
                    !! pred (length (sorted_strings crowded_table))
                  = Some ("u"%string, {| interim_id := 65537; count := 1 |})).
  { apply sorted_strings_least; [done|].
    intros s i Hs Hne. rewrite (Hcount s i Hs Hne). simpl. lia. }
  destruct (store_stringtable_final _ _ _ _ Hok Hlast) as [Hm Ho].
  simpl in Hm.
  replace (Z.of_nat (pred (length (sorted_strings crowded_table))) + 1)
    with 65537 in Hm by lia.
  replace (S (pred (length (sorted_strings crowded_table))))
    with (Z.to_nat 65537) in Ho by lia.
  split; [exact Hm|]. split; [exact Ho|].
  assert (Hin : ("z"%string, iz) ∈ sorted_strings crowded_table)
    by (by apply elem_of_sorted_strings).
  apply list_elem_of_lookup in Hin. destruct Hin as [p Hp].
  destruct (store_stringtable_final _ _ _ _ Hok Hp) as [Hmz _].
  rewrite Hiz in Hmz. eexists. split; [exact Hmz|].
  pose proof (lookup_lt_Some _ _ _ Hp) as Hlt.
  assert (p <> 0%nat).
  { intros ->. revert Hp.
    apply (sorted_strings_not_first _ _ _ (tag_name 1) ik); [done|done|].
    unfold entry_leb. simpl. rewrite Hcz, Hck. reflexivity. }
  assert (p <> pred (length (sorted_strings crowded_table))).
  { intros ->. rewrite Hlast in Hp. discriminate Hp. }
  lia.
Qed.

Lemma crowded_node_encodable :
  @node_encodable (PBF_new sample_file "osmium") crowded_node.
Proof.
  unfold node_encodable.
  change (OSM.lon crowded_node) with Degrees.d0.
  change (OSM.lat crowded_node) with Degrees.d0.
  change (OSM.timestamp (OSM.node_object crowded_node)) with 0.
  change (OSM.user (OSM.node_object crowded_node)) with "u"%string.
  split; [vm_compute; exact I|]. split; [vm_compute; exact I|].
  split; [|intros Hd; discriminate Hd].
  intros _. split; [vm_compute; exact I|done].
Qed.

(** The session of the crowded node on the sample file and libraries: the
    string list of the stored block, the user_sid column, whose one entry is
    1, and the id column. *)
Lemma crowded_node_session :
  exists s' h b d di,
    @session sample_protobuf sample_zlib {| OSM.bounds := None |}
      [ENode crowded_node] (PBF_new sample_file "osmium") = Ok s'
    /\ stored s'
       = [("OSMHeader"%string, OSMPBF.HeaderMessage h);
          ("OSMData"%string, OSMPBF.PrimitiveMessage b)]
    /\ OSMPBF.stringtable b = (store_stringtable crowded_table).1
    /\ block_dense b = [d]
    /\ OSMPBF.denseinfo d = Some di
    /\ OSMPBF.di_user_sid di = [1]
    /\ OSMPBF.dense_id d = [node_id crowded_node]
    /\ NoDup (OSMPBF.stringtable b)
    /\ trackers_clear s'.
Proof.
  destruct (@single_dense_node sample_protobuf sample_zlib
              {| OSM.bounds := None |} (PBF_new sample_file "osmium")
              crowded_node)
    as (s' & h & b & d & di & Hs & Hst & Htab & Hnd & Hd & Hdi & Rb & Htr & Hid);
    [reflexivity|by repeat split|reflexivity| |reflexivity|reflexivity
    |exact crowded_node_encodable|].
  { intros _ data. by exists data. }
  change (node_strings crowded_node StringTable_init) with crowded_table in Htab.
  change (to_int64 (node_id crowded_node)) with (node_id crowded_node) in Hid.
  exists s', h, b, d, di.
  split; [exact Hs|]. split; [exact Hst|]. split; [exact Htab|].
  split; [exact Hd|]. split; [exact Hdi|].
  cut (OSMPBF.di_user_sid di = [1]).
  { intros Hus. split; [exact Hus|]. split; [exact Hid|].
    split; [exact Hnd|exact Htr]. }
  destruct (rb_info _ _ _ _ Rb di Hdi) as (_ & _ & _ & finals & Hus & Hfin).
  apply Forall2_cons_inv_l in Hfin.
  destruct Hfin as (f & fs & [Hf1 Hf] & Hnil & ->).
  apply Forall2_nil_inv_l in Hnil. subst fs.
  destruct crowded_final_ids as (_ & Hu & _).
  rewrite Htab in Hnd, Hf.
  change (node_user crowded_node) with "u"%string in Hf.
  pose proof (NoDup_lookup _ _ _ _ Hnd Hf Hu) as He.
  assert (f = 65537) as -> by lia.
  rewrite Hus. reflexivity.
Qed.

(** ** The user_sid column of the dense data *)

Lemma delta_encode_lookup T vs : forall d k v1 v2,
  vs !! k = Some v1 -> vs !! S k = Some v2 ->
  delta_encode T d vs !! S k = Some (T (T v2 - T v1)).
Proof.
  induction vs as [|v vs IH]; intros d k v1 v2 H1 H2; [done|].
  cbn [delta_encode]. unfold Delta_update at 1. cbn beta iota.
  destruct k as [|k].
  - injection H1 as ->. destruct vs as [|v' vs]; [done|].
    injection H2 as ->. reflexivity.
  - apply (IH _ k); done.
Qed.

(** The same user name in two successive nodes: 0 in the column. *)
Lemma same_user_delta_0 strings (ns : list OSM.Node) finals k n1 n2 :
  NoDup strings ->
  Forall2 (fun n f => 0 <= f /\ strings !! Z.to_nat f = Some (node_user n))
    ns finals ->
  ns !! k = Some n1 -> ns !! S k = Some n2 -> node_user n1 = node_user n2 ->
  (to_int32 <$> delta_encode to_uint32 Delta_init (to_uint16 <$> finals)) !! S k
  = Some 0.
Proof.
  intros Hnd Hfin H1 H2 Hu.
  destruct (Forall2_lookup_l _ _ _ _ _ Hfin H1) as (f1 & Hf1 & Hp1 & Hs1).
  destruct (Forall2_lookup_l _ _ _ _ _ Hfin H2) as (f2 & Hf2 & Hp2 & Hs2).
  rewrite Hu in Hs1. pose proof (NoDup_lookup _ _ _ _ Hnd Hs1 Hs2) as He.
  assert (f1 = f2) as -> by lia.
  rewrite list_lookup_fmap.
  rewrite (delta_encode_lookup _ _ _ k (to_uint16 f2) (to_uint16 f2)).
  - by rewrite Z.sub_diag.
  - by rewrite list_lookup_fmap, Hf1.
  - by rewrite list_lookup_fmap, Hf2.
Qed.

(** In a flushed block, two successive dense nodes with the same user name
    give the entry 0 in the user_sid column, whatever the interim ids
    were. *)
Lemma same_user_entry_0 {PB : Protobuf} {ZL : Zlib} s0 e es s s' :
  block_start s0 -> block_in_flight s0 e es s ->
  store_primitive_block s = Ok s' ->
  exists b,
    stored s' = stored s0 ++ [("OSMData"%string, OSMPBF.PrimitiveMessage b)]
    /\ forall d di k n1 n2,
         d ∈ block_dense b -> OSMPBF.denseinfo d = Some di ->
         nodes_of (e :: es) !! k = Some n1 ->
         nodes_of (e :: es) !! S k = Some n2 ->
         node_user n1 = node_user n2 ->
         OSMPBF.di_user_sid di !! S k = Some 0.
Proof.
  intros Hb Hfl Hf.
  destruct (block_reads_back _ _ _ _ _ Hb Hfl Hf)
    as (b & Hst & Hnd & _ & _ & Hrb).
  exists b. split; [done|]. intros d di k n1 n2 Hd Hdi H1 H2 Hu.
  destruct (Hrb d Hd) as [_ Rb].
  destruct (rb_info _ _ _ _ Rb di Hdi) as (_ & _ & _ & finals & Hus & Hfin).
  rewrite Hus. by eapply same_user_delta_0.
Qed.

(** ** C2: user_sid, remapped and then delta-encoded *)

(** C2, at a block of 65537 strings. The session of the crowded node stores
    one block, in whose string table the user name of the node is row 65537;
    the remap gives the recorded id of the name that final id, the tracker
    would pass a first value 65537 on as 65537, and [map_common_string_ids]
    stores 65537 for the same name in an Info; but the final id sits in a
    [uint16_t] between the remap and the tracker, and the one entry of the
    user_sid column is 1. *)
Theorem user_sid_not_final_id :
  exists s' h b d di,
    @session sample_protobuf sample_zlib {| OSM.bounds := None |}
      [ENode crowded_node] (PBF_new sample_file "osmium") = Ok s'
    /\ stored s'
       = [("OSMHeader"%string, OSMPBF.HeaderMessage h);
          ("OSMData"%string, OSMPBF.PrimitiveMessage b)]
    /\ block_dense b = [d]
    /\ OSMPBF.denseinfo d = Some di
    /\ OSMPBF.stringtable b !! Z.to_nat 65537
       = Some (node_user crowded_node)
    /\ record_string (node_user crowded_node) crowded_tags_table
       = (65537, crowded_table)
    /\ map_string_id (store_stringtable crowded_table).2 65537 = Ok 65537
    /\ delta_encode to_uint32 Delta_init [65537] = [65537]
    /\ (forall i,
          OSMPBF.info_user_sid i = 65537 ->
          exists i',
            map_info (store_stringtable crowded_table).2 i = Ok i'
            /\ OSMPBF.info_user_sid i' = 65537)
    /\ OSMPBF.di_user_sid di = [1].
Proof.
  destruct crowded_node_session
    as (s' & h & b & d & di & Hs & Hst & Htab & Hd & Hdi & Hus & _).
  destruct crowded_final_ids as (Hm & Hu & _).
  destruct crowded_table_facts as (_ & _ & Hrec & _).
  exists s', h, b, d, di.
  split; [exact Hs|]. split; [exact Hst|]. split; [exact Hd|].
  split; [exact Hdi|]. split; [rewrite Htab; exact Hu|].
  split; [exact Hrec|]. split; [exact Hm|].
  split; [reflexivity|]. split; [|exact Hus].
  intros i Hi. unfold map_info. rewrite Hi, Hm. eexists. split; reflexivity.
Qed.

(** ** C4: the trackers are reset with every block *)

(** C4, at a block of 65537 strings. The trackers are at zero before the
    session of the crowded node and after it, and the id column of the stored
    block is the id of the node; but the user_sid column, summed up from
    zero, gives row 1 of the string table of the block, which is not the user
    name of the node: that name is row 65537. The column does not give back
    what went in. *)
Theorem user_sid_column_not_read_back :
  exists s' h b d di,
    @session sample_protobuf sample_zlib {| OSM.bounds := None |}
      [ENode crowded_node] (PBF_new sample_file "osmium") = Ok s'
    /\ stored s'
       = [("OSMHeader"%string, OSMPBF.HeaderMessage h);
          ("OSMData"%string, OSMPBF.PrimitiveMessage b)]
    /\ trackers_clear (PBF_new sample_file "osmium")
    /\ trackers_clear s'
    /\ block_dense b = [d]
    /\ OSMPBF.dense_id d = [node_id crowded_node]
    /\ OSMPBF.denseinfo d = Some di
    /\ undelta to_int32 0 (OSMPBF.di_user_sid di) = [1]
    /\ OSMPBF.stringtable b !! Z.to_nat 1 <> Some (node_user crowded_node)
    /\ OSMPBF.stringtable b !! Z.to_nat 65537 = Some (node_user crowded_node).
Proof.
  destruct crowded_node_session
    as (s' & h & b & d & di & Hs & Hst & Htab & Hd & Hdi & Hus & Hid & Hnd & Htr).
  destruct crowded_final_ids as (_ & Hu & _).
  exists s', h, b, d, di.
  split; [exact Hs|]. split; [exact Hst|].
  split; [repeat split; reflexivity|].
  split; [exact Htr|]. split; [exact Hd|]. split; [exact Hid|].
  split; [exact Hdi|]. split; [rewrite Hus; reflexivity|].
  rewrite Htab in Hnd |- *. split; [|exact Hu].
  intros H1. pose proof (NoDup_lookup _ _ _ _ Hnd H1 Hu) as He. lia.
Qed.

(** ** C10: where the 16-bit narrowing sits *)

(** C10 as it is stated, for one user_sid entry: narrowed to [uint16_t]
    before the zero test and the remap, as a keys_vals entry is. *)
Definition user_sid_entry_as_stated (t : StringTable) (entry : Z) : result Z :=
  let sid := to_uint16 entry in
  if 0 <? sid then map_string_id t sid else Ok entry.

Lemma map_dense_user_sid_singleton t u f d :
  map_string_id t u = Ok f ->
  map_dense_user_sid t [u] d
  = Ok ([to_int32 (to_uint32 (to_uint32 (to_uint16 f) - prev d))],
        {| prev := to_uint32 (to_uint16 f) |}).
Proof. intros H. simpl. rewrite H. reflexivity. Qed.

Lemma map_dense_user_sid_length t us : forall d xs d',
  map_dense_user_sid t us d = Ok (xs, d') -> length xs = length us.
Proof.
  intros d xs d' H. apply map_dense_user_sid_inv in H.
  destruct H as (finals & Hf & ->).
  apply for_each_length in Hf.
  assert (Hl : forall T d0 l, length (delta_encode T d0 l) = length l).
  { intros T d0 l. revert d0. induction l as [|x l IH]; intros d0; [done|].
    simpl. by rewrite IH. }
  by rewrite length_fmap, Hl, length_fmap.
Qed.

(** C10, amended. A keys_vals entry is narrowed to [uint16_t] before the
    zero test and the remap: an entry [i] of 2^16 or more is remapped as
    [i mod 2^16], and a positive multiple of 2^16 stays in the stream
    unmapped, as the separator 0 does. A user_sid entry meets no such
    narrowing and no zero test: every entry of the column is handed to the
    remap as it was recorded. Both loops are those of the flush-time rewrite
    of the dense data. *)
Theorem keys_vals_narrowed_before_remap :
  (forall t i,
      2 ^ 16 <= i -> i mod 2 ^ 16 <> 0 ->
      map_keys_vals_entry t i = map_string_id t (i mod 2 ^ 16)
      /\ map_keys_vals_entry t i = map_keys_vals_entry t (i mod 2 ^ 16))
  /\ (forall t k,
        0 <= k ->
        map_keys_vals_entry t (k * 2 ^ 16) = Ok (k * 2 ^ 16))
  /\ (forall t us d xs d',
        map_dense_user_sid t us d = Ok (xs, d') ->
        length xs = length us
        /\ exists finals, for_each (map_string_id t) us = Ok finals)
  /\ (forall t d dl d' dl',
        map_dense t d dl = Ok (d', dl') ->
        for_each (map_keys_vals_entry t) (OSMPBF.keys_vals d)
        = Ok (OSMPBF.keys_vals d')
        /\ forall di,
             OSMPBF.denseinfo d = Some di ->
             exists di' finals,
               OSMPBF.denseinfo d' = Some di'
               /\ length (OSMPBF.di_user_sid di')
                  = length (OSMPBF.di_user_sid di)
               /\ for_each (map_string_id t) (OSMPBF.di_user_sid di)
                  = Ok finals).
Proof.
  split; [|split; [|split]].
  - intros t i Hi Hm. unfold map_keys_vals_entry, to_uint16.
    pose proof (Z.mod_pos_bound i (2 ^ 16) ltac:(lia)) as Hb.
    rewrite Z.mod_mod by lia.
    replace (0 <? i mod 2 ^ 16) with true by (symmetry; apply Z.ltb_lt; lia).
    done.
  - intros t k Hk. unfold map_keys_vals_entry, to_uint16.
    rewrite Z.mod_mul by lia. reflexivity.
  - intros t us d xs d' H. split; [by eapply map_dense_user_sid_length|].
    apply map_dense_user_sid_inv in H. destruct H as (finals & Hf & _).
    by exists finals.
  - intros t d dl d' dl' Hm. apply map_dense_inv in Hm.
    destruct Hm as (_ & _ & _ & Hkv & Hinfo). split; [exact Hkv|].
    intros di Hdi. rewrite Hdi in Hinfo.
    destruct Hinfo as (di' & finals & H1 & _ & _ & _ & H2 & H3).
    exists di', finals. split; [done|]. split; [|done].
    rewrite H3. apply for_each_length in H2.
    assert (Hl : forall T d0 l, length (delta_encode T d0 l) = length l).
    { intros T d0 l. revert d0. induction l as [|x l IH]; intros d0; [done|].
      simpl. by rewrite IH. }
    by rewrite length_fmap, Hl, length_fmap.
Qed.

(** C10 on the final table of the crowded block: the keys_vals entry 65536
    stays unmapped, the keys_vals entry 65537 is remapped as 1, and the
    one-entry user_sid column [65537] is handed to the remap as it is. *)
Lemma keys_vals_narrowed_before_remap_sample :
  map_keys_vals_entry (store_stringtable crowded_table).2 65536 = Ok 65536
  /\ map_keys_vals_entry (store_stringtable crowded_table).2 65537
     = map_string_id (store_stringtable crowded_table).2 1
  /\ exists finals,
       for_each (map_string_id (store_stringtable crowded_table).2) [65537]
       = Ok finals.
Proof.
  split; [|split].
  - apply (proj1 (proj2 keys_vals_narrowed_before_remap) _ 1). lia.
  - apply (proj1 keys_vals_narrowed_before_remap).
    + lia.
    + discriminate.
  - apply (proj1 (proj2 (proj2 keys_vals_narrowed_before_remap))
             (store_stringtable crowded_table).2 [65537] Delta_init
             [1] {| prev := 1 |}).
    destruct crowded_final_ids as (Hu & _).
    rewrite (map_dense_user_sid_singleton _ _ _ _ Hu). reflexivity.
Defined.

(** C10 on the user of the crowded node, recorded under the interim id
    65537: narrowed before the remap, the entry would be remapped as 1, to
    the final id of "z", which lies between 2 and 65536; the writer hands
    65537 to the remap, gets the final id 65537 of the user name, and emits
    1. *)
Lemma user_sid_entry_not_narrowed_first :
  record_string (node_user crowded_node) crowded_tags_table
  = (65537, crowded_table)
  /\ map_string_id (store_stringtable crowded_table).2 65537 = Ok 65537
  /\ map_dense_user_sid (store_stringtable crowded_table).2 [65537] Delta_init
     = Ok ([1], {| prev := 1 |})
  /\ exists f,
       user_sid_entry_as_stated (store_stringtable crowded_table).2 65537 = Ok f
       /\ f <> 65537 /\ f <> 1 /\ to_uint16 f <> 1.
Proof.
  destruct crowded_table_facts as (_ & _ & Hrec & _).
  destruct crowded_final_ids as (Hu & _ & f & Hz & Hf).
  split; [exact Hrec|]. split; [exact Hu|]. split.
  - rewrite (map_dense_user_sid_singleton _ _ _ _ Hu). reflexivity.
  - exists f. split; [exact Hz|]. split; [lia|]. split; [lia|].
    unfold to_uint16. intros H.
    destruct (decide (f = 65536)) as [->|Hne]; [discriminate H|].
    rewrite Z.mod_small in H by lia. lia.
Qed.

(** * Further properties of the writer *)

(** ** The frame on the descriptor *)

(** What a reader computes from the four bytes in front of a frame. *)
Definition ntohl (bytes : list Z) : Z :=
  match bytes with
  | [b3; b2; b1; b0] => ((b3 * 256 + b2) * 256 + b1) * 256 + b0
  | _ => 0
  end.

Lemma ntohl_htonl n : 0 <= n < 2 ^ 32 -> ntohl (htonl n) = n.
Proof.
  intros Hn. unfold htonl, ntohl. rewrite to_uint32_id by done.
  change (2 ^ 24) with (256 * 256 * 256). change (2 ^ 16) with (256 * 256).
  change (2 ^ 8) with 256.
  rewrite (Z.mod_small (n / (256 * 256 * 256)) 256)
    by (split; [apply Z.div_pos; lia|apply Z.div_lt_upper_bound; lia]).
  pose proof (Z.div_mod n 256 ltac:(lia)).
  pose proof (Z.div_mod (n / 256) 256 ltac:(lia)).
  pose proof (Z.div_mod (n / 256 / 256) 256 ltac:(lia)).
  rewrite <- !Z.div_div by lia. lia.
Qed.

(** The zlib failures [zlib_compress] reports. *)
Definition zlib_failures : list failure :=
  [runtime_error "failed to init zlib stream";
   runtime_error "failed to deflate zlib stream";
   runtime_error "failed to deinit zlib stream"].

Section FrameLayout.
Context {PB : Protobuf} {ZL : Zlib}.

(** The Blob [store_blob] builds for a serialized message. *)
Definition blob_of (s : PBF) (data : list Z) : result OSMPBF.Blob :=
  if m_use_compression s then
    out ← zlib_compress data;
    Ok {| OSMPBF.raw := None;
          OSMPBF.raw_size := Some (Z.of_nat (length data));
          OSMPBF.zlib_data := Some out |}
  else
    Ok {| OSMPBF.raw := Some data;
          OSMPBF.raw_size := Some (Z.of_nat (length data));
          OSMPBF.zlib_data := None |}.

Lemma store_blob_unfold type msg s :
  store_blob type msg s
  = pbf_blob ← blob_of s (SerializeToString msg);
    let data := Blob_SerializeToString pbf_blob in
    let blobhead :=
      BlobHeader_SerializeToString
        {| OSMPBF.blob_type := type;
           OSMPBF.datasize := Z.of_nat (length data) |} in
    let '(r1, f1) := sys_write (htonl (Z.of_nat (length blobhead))) (m_file s) in
    if r1 <? 0 then Err (runtime_error "file error")
    else
      let '(r2, f2) := sys_write blobhead f1 in
      if r2 <? 0 then Err (runtime_error "file error")
      else
        let '(r3, f3) := sys_write data f2 in
        if r3 <? 0 then Err (runtime_error "file error")
        else Ok (set_stored (stored s ++ [(type, msg)]) (set_m_file f3 s)).
Proof. reflexivity. Qed.

Lemma blob_of_inv s data blob :
  blob_of s data = Ok blob ->
  OSMPBF.raw_size blob = Some (Z.of_nat (length data))
  /\ if m_use_compression s then
       OSMPBF.raw blob = None
       /\ exists out, zlib_deflate data = deflated out
                      /\ OSMPBF.zlib_data blob = Some out
     else OSMPBF.raw blob = Some data /\ OSMPBF.zlib_data blob = None.
Proof.
  unfold blob_of, zlib_compress. destruct (m_use_compression s).
  - destruct (zlib_deflate data) as [| | |out]; try done.
    intros [= <-]. simpl. eauto.
  - by intros [= <-].
Qed.

Lemma blob_of_ok s data :
  is_ok (blob_of s data)
  <-> (m_use_compression s = true ->
       exists out, zlib_deflate data = deflated out).
Proof.
  unfold blob_of, zlib_compress. destruct (m_use_compression s).
  - destruct (zlib_deflate data) as [| | |out]; simpl; split; try done;
      try (intros H; by destruct (H eq_refl)). eauto.
  - simpl. split; [done|]. done.
Qed.

Lemma blob_of_err s data e :
  blob_of s data = Err e -> m_use_compression s = true /\ e ∈ zlib_failures.
Proof.
  unfold blob_of, zlib_compress, zlib_failures.
  destruct (m_use_compression s); [|done].
  destruct (zlib_deflate data); simpl; intros [= <-]; (split; [done|]);
    set_solver.
Qed.

(** One call of write(2): the sign of what it returns. *)
Lemma sys_write_sign buf f :
  ((sys_write buf f).1 <? 0)
  = match fd_pending f with write_fails :: _ => true | _ => false end.
Proof.
  unfold sys_write. destruct (fd_pending f) as [|[|n] rest]; simpl.
  - by rewrite of_nat_ltb_0.
  - done.
  - by rewrite of_nat_ltb_0.
Qed.

Lemma sys_write_pending buf f :
  fd_pending (sys_write buf f).2 = tail (fd_pending f).
Proof. unfold sys_write. by destruct (fd_pending f) as [|[|n] rest]. Qed.

End FrameLayout.

(** What a completed [store_blob] wrote when every write was complete: the
    four bytes of the BlobHeader's length, the BlobHeader and the Blob. *)
Lemma store_blob_written {PB : Protobuf} {ZL : Zlib} (type : string) (msg : OSMPBF.Message) (s s' : PBF) :
  writes_complete s ->
  store_blob type msg s = Ok s' ->
  exists blob,
    let data := Blob_SerializeToString blob in
    let blobhead :=
      BlobHeader_SerializeToString
        {| OSMPBF.blob_type := type;
           OSMPBF.datasize := Z.of_nat (length data) |} in
    fd_written (m_file s')
    = fd_written (m_file s)
      ++ htonl (Z.of_nat (length blobhead)) ++ blobhead ++ data
    /\ OSMPBF.raw_size blob = Some (Z.of_nat (length (SerializeToString msg)))
    /\ (if m_use_compression s then
          OSMPBF.raw blob = None
          /\ exists out,
               zlib_deflate (SerializeToString msg) = deflated out
               /\ OSMPBF.zlib_data blob = Some out
        else
          OSMPBF.raw blob = Some (SerializeToString msg)
          /\ OSMPBF.zlib_data blob = None)
    /\ writes_complete s'
    /\ stored s' = stored s ++ [(type, msg)]
    /\ file_closed (m_file s') = file_closed (m_file s).
Proof.
  intros Hw Hs. rewrite store_blob_unfold in Hs.
  apply bind_Ok in Hs. destruct Hs as (blob & Hb & Hs). exists blob.
  cbn zeta in *. unfold writes_complete in Hw.
  rewrite (sys_write_complete _ _ Hw), of_nat_ltb_0 in Hs.
  rewrite sys_write_complete, of_nat_ltb_0 in Hs by done.
  rewrite sys_write_complete, of_nat_ltb_0 in Hs by done.
  injection Hs as <-. simpl.
  split; [by rewrite <- !app_assoc|].
  destruct (blob_of_inv _ _ _ Hb) as [Hsz Hc]. done.
Qed.

(** X1. A completed [store_blob] on a descriptor whose writes are complete
    has appended to the file the four bytes of the BlobHeader's length, the
    BlobHeader and the Blob, in this order. The four bytes read in network
    byte order give the length of the BlobHeader when it is below 2^32; the
    BlobHeader carries the type passed in and the length of the serialized
    Blob; the Blob carries the length of the serialized message as raw_size
    and either the message as raw, without compression, or what zlib made of
    it as zlib_data, never both. *)
Theorem store_blob_frame {PB : Protobuf} {ZL : Zlib} (type : string) (msg : OSMPBF.Message) (s s' : PBF) :
  writes_complete s ->
  store_blob type msg s = Ok s' ->
  exists blob,
    let data := Blob_SerializeToString blob in
    let blobhead :=
      BlobHeader_SerializeToString
        {| OSMPBF.blob_type := type;
           OSMPBF.datasize := Z.of_nat (length data) |} in
    fd_written (m_file s')
    = fd_written (m_file s)
      ++ htonl (Z.of_nat (length blobhead)) ++ blobhead ++ data
    /\ length (htonl (Z.of_nat (length blobhead))) = 4%nat
    /\ (Z.of_nat (length blobhead) < 2 ^ 32 ->
        ntohl (htonl (Z.of_nat (length blobhead))) = Z.of_nat (length blobhead))
    /\ OSMPBF.raw_size blob = Some (Z.of_nat (length (SerializeToString msg)))
    /\ (if m_use_compression s then
          OSMPBF.raw blob = None
          /\ exists out,
               zlib_deflate (SerializeToString msg) = deflated out
               /\ OSMPBF.zlib_data blob = Some out
        else
          OSMPBF.raw blob = Some (SerializeToString msg)
          /\ OSMPBF.zlib_data blob = None)
    /\ writes_complete s'.
Proof.
  intros Hw Hs.
  destruct (store_blob_written type msg s s' Hw Hs)
    as (blob & Hf & Hsz & Hc & Hw' & _).
  exists blob. cbn zeta in *.
  split; [exact Hf|]. split; [done|].
  split; [intros Hlt; apply ntohl_htonl; lia|]. done.
Qed.

(** The frame of an empty block on the sample file and libraries. *)
Lemma store_blob_frame_sample :
  exists blob,
    fd_written
      (m_file
         (from_ok (PBF_new sample_file "osmium")
            (@store_blob sample_protobuf sample_zlib "OSMData"
               (OSMPBF.PrimitiveMessage OSMPBF.PrimitiveBlock_init)
               (PBF_new sample_file "osmium"))))
    = [] ++ htonl 1 ++ [26] ++ [18]
    /\ length (htonl 1) = 4%nat
    /\ (1 < 2 ^ 32 -> ntohl (htonl 1) = 1)
    /\ OSMPBF.raw_size blob = Some 1
    /\ (OSMPBF.raw blob = None
        /\ exists out,
             @zlib_deflate sample_zlib [10] = deflated out
             /\ OSMPBF.zlib_data blob = Some out)
    /\ writes_complete
         (from_ok (PBF_new sample_file "osmium")
            (@store_blob sample_protobuf sample_zlib "OSMData"
               (OSMPBF.PrimitiveMessage OSMPBF.PrimitiveBlock_init)
               (PBF_new sample_file "osmium"))).
Proof.
  apply (@store_blob_frame sample_protobuf sample_zlib "OSMData"
           (OSMPBF.PrimitiveMessage OSMPBF.PrimitiveBlock_init)
           (PBF_new sample_file "osmium")).
  - reflexivity.
  - reflexivity.
Defined.

(** X2. [store_blob] returns exactly when zlib, if the writer compresses,
    deflates the serialized message, and none of the three calls of write(2)
    returns -1. What it throws otherwise is "file error" or, with compression
    on, one of the three zlib errors. *)
Theorem store_blob_returns_iff {PB : Protobuf} {ZL : Zlib} (type : string) (msg : OSMPBF.Message) (s : PBF) :
  (is_ok (store_blob type msg s)
   <-> (m_use_compression s = true ->
        exists out, zlib_deflate (SerializeToString msg) = deflated out)
       /\ write_fails ∉ take 3 (fd_pending (m_file s)))
  /\ (forall e,
        store_blob type msg s = Err e ->
        e = runtime_error "file error"
        \/ (m_use_compression s = true /\ e ∈ zlib_failures)).
Proof.
  rewrite store_blob_unfold. rewrite <- blob_of_ok.
  destruct (blob_of s (SerializeToString msg)) as [blob|e0] eqn:Hb.
  2: { split; [simpl; tauto|]. intros e [= <-]. right.
       by eapply blob_of_err. }
  rewrite bind_Ok_l. cbn zeta.
  set (data := Blob_SerializeToString blob).
  set (blobhead := BlobHeader_SerializeToString _).
  set (sz := htonl _).
  pose proof (sys_write_sign sz (m_file s)) as S1.
  pose proof (sys_write_pending sz (m_file s)) as P1.
  destruct (sys_write sz (m_file s)) as [r1 f1]. simpl in S1, P1.
  pose proof (sys_write_sign blobhead f1) as S2.
  pose proof (sys_write_pending blobhead f1) as P2.
  destruct (sys_write blobhead f1) as [r2 f2]. simpl in S2, P2.
  pose proof (sys_write_sign data f2) as S3.
  destruct (sys_write data f2) as [r3 f3]. simpl in S3.
  rewrite S1, S2, S3, P2, P1. clear.
  destruct (fd_pending (m_file s)) as [|[|n1] [|[|n2] [|[|n3] rest]]];
    simpl.
  all: split.
  all: try (intros e [= <-]; by left).
  all: try done.
  all: split.
  all: try done.
  all: try (intros [_ H]; apply H; rewrite !elem_of_cons; tauto).
  all: intros _; split; [done|].
  all: rewrite ?not_elem_of_cons.
  all: repeat split; try discriminate; try apply not_elem_of_nil.

Qed.

(** ** Entities and the objects that stand for them *)

Definition ways_of (es : list Entity) : list OSM.Way :=
  omap (fun e => match e with EWay w => Some w | _ => None end) es.

Definition relations_of (es : list Entity) : list OSM.Relation :=
  omap (fun e => match e with ERelation r => Some r | _ => None end) es.

(** The sparse nodes and the ways of a block, group by group. *)
Definition block_nodes (b : OSMPBF.PrimitiveBlock) : list OSMPBF.Node :=
  concat (map OSMPBF.nodes (OSMPBF.primitivegroup b)).

Definition block_ways (b : OSMPBF.PrimitiveBlock) : list OSMPBF.Way :=
  concat (map OSMPBF.ways (OSMPBF.primitivegroup b)).

(** The number of entities a group and a block hold: sparse nodes, rows of
    the dense columns, ways and relations. *)
Definition group_entity_count (g : OSMPBF.PrimitiveGroup) : nat :=
  group_node_count g + length (OSMPBF.ways g) + length (OSMPBF.relations g).

Definition block_entity_count (b : OSMPBF.PrimitiveBlock) : nat :=
  sum_list (map group_entity_count (OSMPBF.primitivegroup b)).

(** The interim id [i] stands for the string [str] in [t]: 0 for the empty
    string, the id the table holds otherwise. *)
Definition string_known (t : StringTable) (str : string) (i : Z) : Prop :=
  (str = EmptyString /\ i = 0)
  \/ exists info, m_strings t !! str = Some info /\ interim_id info = i.

(** The id [f] is the index of [str] in the string list of a block. *)
Definition string_at (strings : list string) (str : string) (f : Z) : Prop :=
  0 <= f /\ strings !! Z.to_nat f = Some str.

(** The tags of a dense node in the order of keys_vals. *)
Definition flat_tags (tags : list (string * string)) : list string :=
  concat (map (fun kv => [kv.1; kv.2]) tags).

Section Reads.
Variable s0 : PBF.
Variable R : string -> Z -> Prop.

(** What Node, Way and Relation have in common, read against the entity:
    the id, one key and one value per tag, and the Info exactly when the
    writer adds metadata, with the visible flag exactly when the file holds
    several versions of an object. String ids are read through [R]. *)
Record common_reads (obj : OSM.Object) (c : OSMPBF.Common) : Prop := {
  cr_id : OSMPBF.id c = OSM.id obj;
  cr_keys : Forall2 R (OSM.tags obj).*1 (OSMPBF.keys c);
  cr_vals : Forall2 R (OSM.tags obj).*2 (OSMPBF.vals c);
  cr_no_info : m_should_add_metadata s0 = false -> OSMPBF.info c = None;
  cr_info :
    m_should_add_metadata s0 = true ->
    exists i,
      OSMPBF.info c = Some i
      /\ OSMPBF.info_version i = OSM.version obj
      /\ timestamp2int s0 (OSM.timestamp obj) = Ok (OSMPBF.info_timestamp i)
      /\ OSMPBF.info_changeset i = OSM.changeset obj
      /\ OSMPBF.info_uid i = OSM.uid obj
      /\ R (OSM.user obj) (OSMPBF.info_user_sid i)
      /\ OSMPBF.info_visible i
         = if m_add_visible s0 then Some (OSM.visible obj) else None
}.

Record node_reads (n : OSM.Node) (pn : OSMPBF.Node) : Prop := {
  nr_common : common_reads (OSM.node_object n) (OSMPBF.node_common pn);
  nr_lon : lonlat2int s0 (OSM.lon n) = Ok (OSMPBF.lon pn);
  nr_lat : lonlat2int s0 (OSM.lat n) = Ok (OSMPBF.lat pn)
}.

(** The refs of a way are the differences of its node ids, the first one
    taken from zero: summed up they give the node ids. *)
Record way_reads (w : OSM.Way) (pw : OSMPBF.Way) : Prop := {
  wr_common : common_reads (OSM.way_object w) (OSMPBF.way_common pw);
  wr_refs : OSMPBF.refs pw = delta_encode to_int64 Delta_init (OSM.nodes w);
  wr_nodes : undelta to_int64 0 (OSMPBF.refs pw) = to_int64 <$> OSM.nodes w
}.

(** The three arrays of a relation run in parallel, one entry per member. *)
Record relation_reads (r : OSM.Relation) (pr : OSMPBF.Relation) : Prop := {
  rr_common : common_reads (OSM.relation_object r) (OSMPBF.relation_common pr);
  rr_roles : Forall2 R (OSM.role <$> OSM.members r) (OSMPBF.roles_sid pr);
  rr_memids :
    OSMPBF.memids pr
    = delta_encode to_int64 Delta_init (OSM.ref <$> OSM.members r);
  rr_refs :
    undelta to_int64 0 (OSMPBF.memids pr)
    = (fun m => to_int64 (OSM.ref m)) <$> OSM.members r;
  rr_types :
    Forall2 (fun m ty => member_type (OSM.type m) = Ok ty)
      (OSM.members r) (OSMPBF.types pr)
}.

(** keys_vals read against the dense nodes: for every node the ids of its
    keys and values in turn, closed by a 0. *)
Definition dense_tags_read (ns : list OSM.Node) (kv : list Z) : Prop :=
  exists rows,
    kv = concat rows
    /\ Forall2 (fun n row =>
                  exists ids,
                    row = ids ++ [0]
                    /\ Forall2 R (flat_tags (OSM.tags (OSM.node_object n))) ids)
         ns rows.

End Reads.

Arguments cr_id {_ _ _ _}.
Arguments cr_keys {_ _ _ _}.
Arguments cr_vals {_ _ _ _}.
Arguments cr_no_info {_ _ _ _}.
Arguments cr_info {_ _ _ _}.

Lemma string_known_extends t t' str i :
  table_extends t t' -> string_known t str i -> string_known t' str i.
Proof.
  intros He [H|(info & Hs & Hi)]; [by left|right].
  destruct (He _ _ Hs) as (info' & Hs' & Hi'). exists info'.
  split; [done|congruence].
Qed.

Lemma record_string_string_known str t :
  table_ok t ->
  string_known (record_string str t).2 str (record_string str t).1.
Proof.
  intros Hok. destruct (decide (str = EmptyString)) as [->|Hne].
  - left. by rewrite record_string_empty.
  - right. by apply record_string_known.
Qed.

Section ReadsMono.
Variable s0 : PBF.
Variables R R' : string -> Z -> Prop.
Hypothesis HR : forall str i, R str i -> R' str i.

Lemma common_reads_impl obj c :
  common_reads s0 R obj c -> common_reads s0 R' obj c.
Proof.
  intros [Hid Hk Hv Hn Hi]. split; try done.
  - eapply Forall2_impl; [exact Hk|exact HR].
  - eapply Forall2_impl; [exact Hv|exact HR].
  - intros Hm. destruct (Hi Hm) as (i & ? & ? & ? & ? & ? & ? & ?).
    exists i. repeat split; try done. by apply HR.
Qed.

Lemma node_reads_impl n pn : node_reads s0 R n pn -> node_reads s0 R' n pn.
Proof. intros [Hc ? ?]. split; try done. by apply common_reads_impl. Qed.

Lemma way_reads_impl w pw : way_reads s0 R w pw -> way_reads s0 R' w pw.
Proof. intros [Hc ? ?]. split; try done. by apply common_reads_impl. Qed.

Lemma relation_reads_impl r pr :
  relation_reads s0 R r pr -> relation_reads s0 R' r pr.
Proof.
  intros [Hc Hr ? ? ?]. split; try done.
  - by apply common_reads_impl.
  - eapply Forall2_impl; [exact Hr|exact HR].
Qed.

Lemma dense_tags_read_impl ns kv :
  dense_tags_read R ns kv -> dense_tags_read R' ns kv.
Proof.
  intros (rows & -> & H). exists rows. split; [done|].
  eapply Forall2_impl; [exact H|]. intros n row (ids & -> & Hids).
  exists ids. split; [done|]. eapply Forall2_impl; [exact Hids|exact HR].
Qed.

End ReadsMono.

(** ** What the encoders record *)

Lemma record_tags_known tags t :
  table_ok t ->
  Forall2 (string_known (record_tags tags t).2) tags.*1 (record_tags tags t).1.1
  /\ Forall2 (string_known (record_tags tags t).2) tags.*2
       (record_tags tags t).1.2.
Proof.
  revert t. induction tags as [|[k v] tags IH]; intros t Hok.
  - split; constructor.
  - cbn [record_tags].
    pose proof (record_string_string_known k t Hok) as Kk.
    destruct (record_string_extends k t Hok) as [Hok1 He1].
    destruct (record_string k t) as [ki t1]. simpl in *.
    pose proof (record_string_string_known v t1 Hok1) as Kv.
    destruct (record_string_extends v t1 Hok1) as [Hok2 He2].
    destruct (record_string v t1) as [vi t2]. simpl in *.
    destruct (IH t2 Hok2) as [IHk IHv].
    destruct (record_tags_extends tags t2 Hok2) as [Hok3 He3].
    destruct (record_tags tags t2) as [[ks vs] t3]. simpl in *.
    split; constructor; try done.
    + eapply string_known_extends; [|exact Kk].
      eauto using table_extends_trans.
    + by eapply string_known_extends.
Qed.

Lemma record_keys_vals_known tags t :
  table_ok t ->
  exists ids,
    (record_keys_vals tags t).1 = ids ++ [0]
    /\ Forall2 (string_known (record_keys_vals tags t).2) (flat_tags tags) ids.
Proof.
  revert t. induction tags as [|[k v] tags IH]; intros t Hok.
  - exists []. split; [done|constructor].
  - cbn [record_keys_vals].
    pose proof (record_string_string_known k t Hok) as Kk.
    destruct (record_string_extends k t Hok) as [Hok1 He1].
    destruct (record_string k t) as [ki t1]. simpl in *.
    pose proof (record_string_string_known v t1 Hok1) as Kv.
    destruct (record_string_extends v t1 Hok1) as [Hok2 He2].
    destruct (record_string v t1) as [vi t2]. simpl in *.
    destruct (IH t2 Hok2) as (ids & Eids & Hids).
    destruct (record_keys_vals_extends tags t2 Hok2) as [Hok3 He3].
    destruct (record_keys_vals tags t2) as [kv t3]. simpl in *.
    exists (ki :: vi :: ids). split; [by rewrite Eids|].
    unfold flat_tags. cbn [map concat app fst snd].
    constructor; [|constructor; [|done]].
    + eapply string_known_extends; [|exact Kk].
      eauto using table_extends_trans.
    + by eapply string_known_extends.
Qed.

Lemma write_members_known ms : forall t d roles memids tys t',
  table_ok t ->
  write_members ms t d = Ok (roles, memids, tys, t') ->
  Forall2 (string_known t') (OSM.role <$> ms) roles
  /\ memids = delta_encode to_int64 d (OSM.ref <$> ms)
  /\ Forall2 (fun m ty => member_type (OSM.type m) = Ok ty) ms tys.
Proof.
  induction ms as [|m ms IH]; intros t d roles memids tys t' Hok Hw.
  - injection Hw as <- <- <- <-. repeat split; constructor.
  - cbn [write_members] in Hw.
    pose proof (record_string_string_known (OSM.role m) t Hok) as Kr.
    destruct (record_string_extends (OSM.role m) t Hok) as [Hok1 He1].
    destruct (record_string (OSM.role m) t) as [role t1]. simpl in *.
    unfold Delta_update in Hw. cbn beta iota in Hw.
    apply bind_Ok in Hw. destruct Hw as (ty & Hty & Hw).
    apply bind_Ok in Hw. destruct Hw as ([[[roles' memids'] tys'] t2] & Hw & Hr).
    injection Hr as <- <- <- <-.
    destruct (IH _ _ _ _ _ _ Hok1 Hw) as (Hroles & -> & Htys).
    destruct (write_members_extends _ _ _ _ _ _ _ Hok1 Hw) as [Hok2 He2].
    split; [|split].
    + constructor; [|done]. by eapply string_known_extends.
    + done.
    + by constructor.
Qed.

Section CommonReads.
Context {PB : Protobuf} {ZL : Zlib}.
Variable s0 : PBF.

Lemma apply_common_info_reads obj s c s' :
  same_config s0 s ->
  table_ok (string_table s) ->
  apply_common_info obj s = Ok (c, s') ->
  common_reads s0 (string_known (string_table s')) obj c.
Proof.
  intros (_ & Hdg & _ & _ & Hm & Hv) Hok Ha. unfold apply_common_info in Ha.
  destruct (record_tags_known (OSM.tags obj) (string_table s) Hok) as [Kk Kv].
  destruct (record_tags_extends (OSM.tags obj) (string_table s) Hok)
    as [Hok1 He1].
  destruct (record_tags (OSM.tags obj) (string_table s)) as [[ks vs] t].
  simpl in *. rewrite Hm in Ha.
  destruct (m_should_add_metadata s0) eqn:Em.
  - apply bind_Ok in Ha. destruct Ha as (ts & Hts & Ha).
    pose proof (record_string_string_known (OSM.user obj) t Hok1) as Ku.
    destruct (record_string_extends (OSM.user obj) t Hok1) as [Hok2 He2].
    destruct (record_string (OSM.user obj) t) as [u t']. simpl in *.
    injection Ha as <- <-. simpl. split; simpl.
    + done.
    + eapply Forall2_impl; [exact Kk|].
      intros ? ?. by apply string_known_extends.
    + eapply Forall2_impl; [exact Kv|].
      intros ? ?. by apply string_known_extends.
    + intros Hf. congruence.
    + intros _. eexists. split; [reflexivity|]. simpl.
      rewrite (timestamp2int_ext s0 s) by done. by rewrite Hv.
  - injection Ha as <- <-. simpl. split; simpl; try done.
    intros Hf. congruence.
Qed.

End CommonReads.

(** ** The groups of a block *)

Lemma omap_snoc {A B} (f : A -> option B) l x :
  omap f (l ++ [x]) = omap f l ++ match f x with Some y => [y] | None => [] end.
Proof. rewrite omap_app. simpl. by destruct (f x). Qed.

Section Grouped.
Variable s0 : PBF.
Variable R : string -> Z -> Prop.
Variable D : list OSM.Node -> list Z -> Prop.

(** A group of nodes, of ways, of relations, read against the entities that
    went into it. *)
Definition nodes_group (ns : list OSM.Node) (g : OSMPBF.PrimitiveGroup) : Prop :=
  OSMPBF.ways g = [] /\ OSMPBF.relations g = []
  /\ if m_use_dense_format s0 then
       OSMPBF.nodes g = []
       /\ length (OSMPBF.dense_id (dense_of (OSMPBF.dense g))) = length ns
       /\ D ns (OSMPBF.keys_vals (dense_of (OSMPBF.dense g)))
     else
       OSMPBF.dense g = None
       /\ Forall2 (node_reads s0 R) ns (OSMPBF.nodes g).

Definition ways_group (ws : list OSM.Way) (g : OSMPBF.PrimitiveGroup) : Prop :=
  OSMPBF.nodes g = [] /\ OSMPBF.dense g = None /\ OSMPBF.relations g = []
  /\ Forall2 (way_reads s0 R) ws (OSMPBF.ways g).

Definition relations_group (rs : list OSM.Relation) (g : OSMPBF.PrimitiveGroup) : Prop :=
  OSMPBF.nodes g = [] /\ OSMPBF.dense g = None /\ OSMPBF.ways g = []
  /\ Forall2 (relation_reads s0 R) rs (OSMPBF.relations g).

(** The group a pointer stands for satisfies [P]; a NULL pointer stands for
    a group without content. *)
Definition held (gs : list OSMPBF.PrimitiveGroup) (p : option nat) (P : OSMPBF.PrimitiveGroup -> Prop) : Prop :=
  match p with
  | None => P OSMPBF.PrimitiveGroup_init
  | Some i => exists g, gs !! i = Some g /\ P g
  end.

Definition ptr_distinct (p q : option nat) : Prop :=
  forall i, p = Some i -> q <> Some i.

(** The groups [gs] of a block and the three group pointers, read against
    the entities [es] that went into the block: every group belongs to one
    pointer, the pointers differ, and each group holds the entities of its
    kind in the order of their arrival. *)
Record grouped (es : list Entity) (gs : list OSMPBF.PrimitiveGroup) (pn pw pr : option nat) : Prop := {
  gr_nodes : held gs pn (nodes_group (nodes_of es));
  gr_ways : held gs pw (ways_group (ways_of es));
  gr_relations : held gs pr (relations_group (relations_of es));
  gr_cover :
    forall j, (j < length gs)%nat -> pn = Some j \/ pw = Some j \/ pr = Some j;
  gr_nw : ptr_distinct pn pw;
  gr_nr : ptr_distinct pn pr;
  gr_wr : ptr_distinct pw pr
}.

Hypothesis D_nil : D [] [].

Lemma grouped_nil : grouped [] [] None None None.
Proof.
  split; simpl; try done.
  - unfold nodes_group. simpl.
    destruct (m_use_dense_format s0); repeat split; try done; constructor.
  - intros j Hj. lia.
Qed.

Lemma held_Some_lt gs i P : held gs (Some i) P -> (i < length gs)%nat.
Proof. intros (g & Hg & _). by eapply lookup_lt_Some. Qed.

Lemma held_app gs p P g0 : held gs p P -> held (gs ++ [g0]) p P.
Proof.
  destruct p as [i|]; [|done]. intros (g & Hg & HP). exists g.
  split; [|done]. by apply lookup_app_l_Some.
Qed.

Lemma held_new gs P :
  held gs None P -> held (gs ++ [OSMPBF.PrimitiveGroup_init]) (Some (length gs)) P.
Proof.
  intros HP. exists OSMPBF.PrimitiveGroup_init. split; [|done].
  by rewrite list_lookup_middle.
Qed.

Lemma held_insert_ne gs p P i g' :
  p <> Some i -> held gs p P -> held (<[i := g']> gs) p P.
Proof.
  destruct p as [j|]; [|done]. intros Hne (g & Hg & HP). exists g.
  split; [|done]. rewrite list_lookup_insert_ne; [done|]. congruence.
Qed.

Lemma held_insert_eq gs P i g g' :
  gs !! i = Some g -> P g' -> held (<[i := g']> gs) (Some i) P.
Proof.
  intros Hg HP. exists g'. split; [|done].
  apply list_lookup_insert_eq. by eapply lookup_lt_Some.
Qed.

Lemma held_impl gs p (P Q : OSMPBF.PrimitiveGroup -> Prop) :
  (forall g, P g -> Q g) -> held gs p P -> held gs p Q.
Proof.
  intros HPQ. destruct p as [i|]; simpl; [|by apply HPQ].
  intros (g & Hg & HP). eauto.
Qed.

(** A pointer that was NULL gets a new, empty group. *)
Lemma grouped_open_nodes es gs pw pr :
  grouped es gs None pw pr ->
  grouped es (gs ++ [OSMPBF.PrimitiveGroup_init]) (Some (length gs)) pw pr.
Proof.
  intros [Hn Hw Hr Hc Hnw Hnr Hwr]. split.
  - by apply held_new.
  - by apply held_app.
  - by apply held_app.
  - intros j Hj. rewrite length_app in Hj. simpl in Hj.
    destruct (decide (j = length gs)) as [->|Hne]; [by left|].
    destruct (Hc j ltac:(lia)) as [H|H]; [done|by right].
  - intros i [= <-] ->. apply held_Some_lt in Hw. lia.
  - intros i [= <-] ->. apply held_Some_lt in Hr. lia.
  - done.
Qed.

Lemma grouped_open_ways es gs pn pr :
  grouped es gs pn None pr ->
  grouped es (gs ++ [OSMPBF.PrimitiveGroup_init]) pn (Some (length gs)) pr.
Proof.
  intros [Hn Hw Hr Hc Hnw Hnr Hwr]. split.
  - by apply held_app.
  - by apply held_new.
  - by apply held_app.
  - intros j Hj. rewrite length_app in Hj. simpl in Hj.
    destruct (decide (j = length gs)) as [->|Hne]; [right; by left|].
    destruct (Hc j ltac:(lia)) as [H|[H|H]]; [by left|done|right; by right].
  - intros i -> [= <-]. apply held_Some_lt in Hn. lia.
  - done.
  - intros i [= <-] ->. apply held_Some_lt in Hr. lia.
Qed.

Lemma grouped_open_relations es gs pn pw :
  grouped es gs pn pw None ->
  grouped es (gs ++ [OSMPBF.PrimitiveGroup_init]) pn pw (Some (length gs)).
Proof.
  intros [Hn Hw Hr Hc Hnw Hnr Hwr]. split.
  - by apply held_app.
  - by apply held_app.
  - by apply held_new.
  - intros j Hj. rewrite length_app in Hj. simpl in Hj.
    destruct (decide (j = length gs)) as [->|Hne]; [right; by right|].
    destruct (Hc j ltac:(lia)) as [H|[H|H]]; [by left|right; by left|done].
  - done.
  - intros i -> [= <-]. apply held_Some_lt in Hn. lia.
  - intros i -> [= <-]. apply held_Some_lt in Hw. lia.
Qed.

Lemma nodes_of_snoc es e :
  nodes_of (es ++ [e])
  = nodes_of es ++ match e with ENode n => [n] | _ => [] end.
Proof. unfold nodes_of. rewrite omap_snoc. by destruct e. Qed.

Lemma ways_of_snoc es e :
  ways_of (es ++ [e])
  = ways_of es ++ match e with EWay w => [w] | _ => [] end.
Proof. unfold ways_of. rewrite omap_snoc. by destruct e. Qed.

Lemma relations_of_snoc es e :
  relations_of (es ++ [e])
  = relations_of es ++ match e with ERelation r => [r] | _ => [] end.
Proof. unfold relations_of. rewrite omap_snoc. by destruct e. Qed.

(** One more way in the group of the ways. *)
Lemma grouped_put_way es gs pn pr i g w x :
  grouped es gs pn (Some i) pr ->
  gs !! i = Some g ->
  way_reads s0 R w x ->
  grouped (es ++ [EWay w])
    (<[i := {| OSMPBF.nodes := OSMPBF.nodes g; OSMPBF.dense := OSMPBF.dense g;
               OSMPBF.ways := OSMPBF.ways g ++ [x];
               OSMPBF.relations := OSMPBF.relations g |}]> gs)
    pn (Some i) pr.
Proof.
  intros [Hn Hw Hr Hc Hnw Hnr Hwr] Hg Hx.
  rewrite <- (app_nil_r (nodes_of es)) in Hn.
  rewrite <- (app_nil_r (relations_of es)) in Hr.
  split; rewrite ?nodes_of_snoc, ?ways_of_snoc, ?relations_of_snoc,
           ?length_insert; try done.
  - apply held_insert_ne; [|done]. intros ->. by apply (Hnw i).
  - destruct Hw as (g0 & Hg0 & Hn0 & Hd0 & Hr0 & Hws).
    assert (g0 = g) as -> by congruence.
    eapply held_insert_eq; [done|]. repeat split; try done.
    simpl. apply Forall2_app; [done|]. by constructor.
  - apply held_insert_ne; [|done]. intros ->. by apply (Hwr i).
Qed.

Lemma grouped_put_relation es gs pn pw i g r x :
  grouped es gs pn pw (Some i) ->
  gs !! i = Some g ->
  relation_reads s0 R r x ->
  grouped (es ++ [ERelation r])
    (<[i := {| OSMPBF.nodes := OSMPBF.nodes g; OSMPBF.dense := OSMPBF.dense g;
               OSMPBF.ways := OSMPBF.ways g;
               OSMPBF.relations := OSMPBF.relations g ++ [x] |}]> gs)
    pn pw (Some i).
Proof.
  intros [Hn Hw Hr Hc Hnw Hnr Hwr] Hg Hx.
  rewrite <- (app_nil_r (nodes_of es)) in Hn.
  rewrite <- (app_nil_r (ways_of es)) in Hw.
  split; rewrite ?nodes_of_snoc, ?ways_of_snoc, ?relations_of_snoc,
           ?length_insert; try done.
  - apply held_insert_ne; [|done]. intros ->. by apply (Hnr i).
  - apply held_insert_ne; [|done]. intros ->. by apply (Hwr i).
  - destruct Hr as (g0 & Hg0 & Hn0 & Hd0 & Hw0 & Hrs).
    assert (g0 = g) as -> by congruence.
    eapply held_insert_eq; [done|]. repeat split; try done.
    simpl. apply Forall2_app; [done|]. by constructor.
Qed.

Lemma grouped_put_node es gs pw pr i g n x :
  m_use_dense_format s0 = false ->
  grouped es gs (Some i) pw pr ->
  gs !! i = Some g ->
  node_reads s0 R n x ->
  grouped (es ++ [ENode n])
    (<[i := {| OSMPBF.nodes := OSMPBF.nodes g ++ [x];
               OSMPBF.dense := OSMPBF.dense g;
               OSMPBF.ways := OSMPBF.ways g;
               OSMPBF.relations := OSMPBF.relations g |}]> gs)
    (Some i) pw pr.
Proof.
  intros Hdf [Hn Hw Hr Hc Hnw Hnr Hwr] Hg Hx.
  rewrite <- (app_nil_r (ways_of es)) in Hw.
  rewrite <- (app_nil_r (relations_of es)) in Hr.
  split; rewrite ?nodes_of_snoc, ?ways_of_snoc, ?relations_of_snoc,
           ?length_insert; try done.
  - destruct Hn as (g0 & Hg0 & Hw0 & Hr0 & Hns).
    assert (g0 = g) as -> by congruence.
    eapply held_insert_eq; [done|]. unfold nodes_group in *.
    rewrite Hdf in *. destruct Hns as [Hd0 Hns]. repeat split; try done.
    simpl. apply Forall2_app; [done|]. by constructor.
  - apply held_insert_ne; [|done]. intros [= ->]. by apply (Hnw i).
  - apply held_insert_ne; [|done]. intros [= ->]. by apply (Hnr i).
Qed.

Lemma grouped_put_dense es gs pw pr i g n d :
  m_use_dense_format s0 = true ->
  grouped es gs (Some i) pw pr ->
  gs !! i = Some g ->
  length (OSMPBF.dense_id d)
  = S (length (OSMPBF.dense_id (dense_of (OSMPBF.dense g)))) ->
  D (nodes_of es ++ [n]) (OSMPBF.keys_vals d) ->
  grouped (es ++ [ENode n])
    (<[i := {| OSMPBF.nodes := OSMPBF.nodes g;
               OSMPBF.dense := Some d;
               OSMPBF.ways := OSMPBF.ways g;
               OSMPBF.relations := OSMPBF.relations g |}]> gs)
    (Some i) pw pr.
Proof.
  intros Hdf [Hn Hw Hr Hc Hnw Hnr Hwr] Hg Hlen HD.
  rewrite <- (app_nil_r (ways_of es)) in Hw.
  rewrite <- (app_nil_r (relations_of es)) in Hr.
  split; rewrite ?nodes_of_snoc, ?ways_of_snoc, ?relations_of_snoc,
           ?length_insert; try done.
  - destruct Hn as (g0 & Hg0 & Hw0 & Hr0 & Hns).
    assert (g0 = g) as -> by congruence.
    eapply held_insert_eq; [done|]. unfold nodes_group in *.
    rewrite Hdf in *. destruct Hns as (Hn0 & Hl0 & HD0).
    repeat split; try done. simpl. rewrite Hlen, Hl0, length_app. simpl. lia.
  - apply held_insert_ne; [|done]. intros [= ->]. by apply (Hnw i).
  - apply held_insert_ne; [|done]. intros [= ->]. by apply (Hnr i).
Qed.

End Grouped.

Lemma grouped_impl s0 (R R' : string -> Z -> Prop) (D D' : list OSM.Node -> list Z -> Prop) es gs pn pw pr :
  (forall str i, R str i -> R' str i) ->
  (forall ns kv, D ns kv -> D' ns kv) ->
  grouped s0 R D es gs pn pw pr -> grouped s0 R' D' es gs pn pw pr.
Proof.
  intros HR HD [Hn Hw Hr Hc Hnw Hnr Hwr]. split; try done.
  - eapply held_impl; [|exact Hn]. intros g (? & ? & H). split; [done|].
    split; [done|]. destruct (m_use_dense_format s0).
    + destruct H as (? & ? & ?). auto.
    + destruct H as (? & H). split; [done|].
      eapply Forall2_impl; [exact H|]. intros ? ?. by apply node_reads_impl.
  - eapply held_impl; [|exact Hw]. intros g (? & ? & ? & H).
    repeat split; try done.
    eapply Forall2_impl; [exact H|]. intros ? ?. by apply way_reads_impl.
  - eapply held_impl; [|exact Hr]. intros g (? & ? & ? & H).
    repeat split; try done.
    eapply Forall2_impl; [exact H|]. intros ? ?. by apply relation_reads_impl.
Qed.

Lemma dense_tags_read_nil R : dense_tags_read R [] [].
Proof. exists []. split; [done|constructor]. Qed.

Lemma dense_tags_read_snoc R ns kv n ids :
  dense_tags_read R ns kv ->
  Forall2 R (flat_tags (OSM.tags (OSM.node_object n))) ids ->
  dense_tags_read R (ns ++ [n]) (kv ++ ids ++ [0]).
Proof.
  intros (rows & -> & Hrows) Hids. exists (rows ++ [ids ++ [0]]). split.
  - rewrite concat_app. simpl. by rewrite app_nil_r.
  - apply Forall2_app; [done|]. constructor; [|constructor]. by exists ids.
Qed.

(** ** Sums over the groups of a block *)

Definition sum_Z (l : list Z) : Z := foldr Z.add 0 l.

Lemma sum_Z_app l1 l2 : sum_Z (l1 ++ l2) = sum_Z l1 + sum_Z l2.
Proof. induction l1 as [|x l1 IH]; simpl; [done|]. rewrite IH. lia. Qed.

Section Fields.
Context {A : Type} (F : OSMPBF.PrimitiveGroup -> list A).

Lemma concat_map_insert_same gs i g g' :
  gs !! i = Some g -> F g' = F g ->
  concat (map F (<[i := g']> gs)) = concat (map F gs).
Proof.
  intros Hg HF. f_equal. change (map F (<[i := g']> gs)) with (F <$> <[i := g']> gs).
  change (map F gs) with (F <$> gs).
  rewrite list_fmap_insert, HF. apply list_insert_id.
  by rewrite list_lookup_fmap, Hg.
Qed.

Lemma concat_map_insert_snoc gs : forall i g g' x,
  gs !! i = Some g -> F g' = F g ++ [x] ->
  concat (map F (<[i := g']> gs)) ≡ₚ concat (map F gs) ++ [x].
Proof.
  induction gs as [|g0 gs IH]; intros i g g' x Hg HF; [done|].
  destruct i as [|i]; simpl in *.
  - injection Hg as ->. rewrite HF, <- !app_assoc.
    apply Permutation_app_head. apply Permutation_app_comm.
  - rewrite (IH _ _ _ _ Hg HF). by rewrite app_assoc.
Qed.

Lemma concat_map_open gs :
  F OSMPBF.PrimitiveGroup_init = [] ->
  concat (map F (gs ++ [OSMPBF.PrimitiveGroup_init])) = concat (map F gs).
Proof. intros HF. rewrite map_app, concat_app. simpl. by rewrite HF, !app_nil_r. Qed.

(** The one group that holds a field holds all of it. *)
Lemma concat_map_single gs : forall i g,
  gs !! i = Some g ->
  (forall j g', gs !! j = Some g' -> j <> i -> F g' = []) ->
  concat (map F gs) = F g.
Proof.
  induction gs as [|g0 gs IH]; intros i g Hg Hn; [done|].
  assert (Hnil : forall gs', (forall j g', gs' !! j = Some g' -> F g' = []) ->
                             concat (map F gs') = []).
  { clear. induction gs' as [|g1 gs' IH']; intros H; [done|]. simpl.
    rewrite (H 0%nat g1 eq_refl). simpl. apply IH'.
    intros j g' Hj. apply (H (S j) g' Hj). }
  destruct i as [|i]; simpl in *.
  - injection Hg as ->. rewrite Hnil; [by rewrite app_nil_r|].
    intros j g' Hj. by apply (Hn (S j) g' Hj).
  - rewrite (Hn 0%nat g0 eq_refl) by done. simpl.
    apply (IH i); [done|]. intros j g' Hj Hne. apply (Hn (S j) g' Hj). lia.
Qed.

Lemma concat_map_none gs :
  (forall j g', gs !! j = Some g' -> F g' = []) -> concat (map F gs) = [].
Proof.
  induction gs as [|g1 gs IH]; intros H; [done|]. simpl.
  rewrite (H 0%nat g1 eq_refl). simpl. apply IH.
  intros j g' Hj. apply (H (S j) g' Hj).
Qed.

End Fields.

Lemma sum_Z_perm l1 l2 : l1 ≡ₚ l2 -> sum_Z l1 = sum_Z l2.
Proof. induction 1; simpl; lia. Qed.

Lemma sum_list_insert (f : OSMPBF.PrimitiveGroup -> nat) gs : forall i g g',
  gs !! i = Some g ->
  (sum_list (map f (<[i := g']> gs)) + f g = sum_list (map f gs) + f g')%nat.
Proof.
  induction gs as [|g0 gs IH]; intros i g g' Hg; [done|].
  destruct i as [|i]; simpl in *.
  - injection Hg as ->. lia.
  - specialize (IH _ _ g' Hg). lia.
Qed.

Lemma to_uint32_add_l a b : to_uint32 (to_uint32 a + b) = to_uint32 (a + b).
Proof. unfold to_uint32. by rewrite Zplus_mod_idemp_l. Qed.

(** ** The block in flight *)

Definition groups (s : PBF) : list OSMPBF.PrimitiveGroup :=
  OSMPBF.primitivegroup (pbf_primitive_block s).

(** What an encoder leaves as it found it. *)
Definition entity_frame (s s' : PBF) : Prop :=
  primitive_block_contents s' = primitive_block_contents s
  /\ stored s' = stored s
  /\ m_file s' = m_file s
  /\ same_config s s'.

Section Effects.
Context {PB : Protobuf} {ZL : Zlib}.
Variable s0 : PBF.

(** The size the writer estimates for a block: the ByteSize of its ways and
    relations, added up in uint32_t. *)
Definition size_estimate (b : OSMPBF.PrimitiveBlock) : Z :=
  to_uint32 (sum_Z (Way_ByteSize <$> block_ways b)
             + sum_Z (Relation_ByteSize <$> block_relations b)).

Lemma write_way_effect w s s' :
  same_config s0 s -> table_ok (string_table s) ->
  write_way w s = Ok s' ->
  exists i g x,
    pbf_ways s = Some i /\ groups s !! i = Some g
    /\ way_reads s0 (string_known (string_table s')) w x
    /\ groups s'
       = <[i := {| OSMPBF.nodes := OSMPBF.nodes g;
                   OSMPBF.dense := OSMPBF.dense g;
                   OSMPBF.ways := OSMPBF.ways g ++ [x];
                   OSMPBF.relations := OSMPBF.relations g |}]> (groups s)
    /\ primitive_block_size s'
       = to_uint32 (primitive_block_size s + Way_ByteSize x)
    /\ table_ok (string_table s')
    /\ table_extends (string_table s) (string_table s')
    /\ pbf_nodes s' = pbf_nodes s /\ pbf_ways s' = pbf_ways s
    /\ pbf_relations s' = pbf_relations s
    /\ entity_frame s s'.
Proof.
  intros Hc Hok Hw. unfold write_way in Hw.
  apply bind_Ok in Hw. destruct Hw as ([i g] & Hg & Hw).
  apply bind_Ok in Hw. destruct Hw as ([c s1] & Ha & [= <-]).
  apply group_at_inv in Hg. destruct Hg as [Hp Hg].
  pose proof (apply_common_info_reads s0 _ _ _ _ Hc Hok Ha) as Hcr.
  destruct (apply_common_info_extends _ _ _ _ Hok Ha) as (Hok1 & He1 & Es1).
  eexists i, g, _. split; [done|]. split; [done|].
  rewrite Es1. simpl. split; [|repeat (split; [done|]); done].
  split; [done|reflexivity|].
  apply (undelta_delta_encode to_int64 Delta_init).
  reflexivity.
Qed.

Lemma write_relation_effect r s s' :
  same_config s0 s -> table_ok (string_table s) ->
  write_relation r s = Ok s' ->
  exists i g x,
    pbf_relations s = Some i /\ groups s !! i = Some g
    /\ relation_reads s0 (string_known (string_table s')) r x
    /\ groups s'
       = <[i := {| OSMPBF.nodes := OSMPBF.nodes g;
                   OSMPBF.dense := OSMPBF.dense g;
                   OSMPBF.ways := OSMPBF.ways g;
                   OSMPBF.relations := OSMPBF.relations g ++ [x] |}]> (groups s)
    /\ primitive_block_size s'
       = to_uint32 (primitive_block_size s + Relation_ByteSize x)
    /\ table_ok (string_table s')
    /\ table_extends (string_table s) (string_table s')
    /\ pbf_nodes s' = pbf_nodes s /\ pbf_ways s' = pbf_ways s
    /\ pbf_relations s' = pbf_relations s
    /\ entity_frame s s'.
Proof.
  intros Hc Hok Hw. unfold write_relation in Hw.
  apply bind_Ok in Hw. destruct Hw as ([i g] & Hg & Hw).
  apply bind_Ok in Hw. destruct Hw as ([c s1] & Ha & Hw).
  apply bind_Ok in Hw. destruct Hw as ([[[roles memids] tys] t2] & Hm & [= <-]).
  apply group_at_inv in Hg. destruct Hg as [Hp Hg].
  pose proof (apply_common_info_reads s0 _ _ _ _ Hc Hok Ha) as Hcr.
  destruct (apply_common_info_extends _ _ _ _ Hok Ha) as (Hok1 & He1 & Es1).
  destruct (write_members_extends _ _ _ _ _ _ _ Hok1 Hm) as [Hok2 He2].
  destruct (write_members_known _ _ _ _ _ _ _ Hok1 Hm) as (Kr & -> & Kt).
  eexists i, g, _. split; [done|]. split; [done|].
  rewrite Es1. simpl.
  split; [|repeat (split; [by eauto using table_extends_trans|]); done].
  split; simpl.
  - eapply common_reads_impl; [|exact Hcr].
    intros ? ?. by apply string_known_extends.
  - done.
  - reflexivity.
  - rewrite (undelta_delta_encode to_int64 Delta_init) by reflexivity.
    by rewrite <- list_fmap_compose.
  - done.
Qed.

Lemma write_node_effect n s s' :
  same_config s0 s -> table_ok (string_table s) ->
  write_node n s = Ok s' ->
  exists i g x,
    pbf_nodes s = Some i /\ groups s !! i = Some g
    /\ node_reads s0 (string_known (string_table s')) n x
    /\ groups s'
       = <[i := {| OSMPBF.nodes := OSMPBF.nodes g ++ [x];
                   OSMPBF.dense := OSMPBF.dense g;
                   OSMPBF.ways := OSMPBF.ways g;
                   OSMPBF.relations := OSMPBF.relations g |}]> (groups s)
    /\ primitive_block_size s' = primitive_block_size s
    /\ table_ok (string_table s')
    /\ table_extends (string_table s) (string_table s')
    /\ pbf_nodes s' = pbf_nodes s /\ pbf_ways s' = pbf_ways s
    /\ pbf_relations s' = pbf_relations s
    /\ entity_frame s s'.
Proof.
  intros Hc Hok Hw. unfold write_node in Hw.
  apply bind_Ok in Hw. destruct Hw as ([i g] & Hg & Hw).
  apply bind_Ok in Hw. destruct Hw as ([c s1] & Ha & Hw).
  apply bind_Ok in Hw. destruct Hw as (lon & Hlon & Hw).
  apply bind_Ok in Hw. destruct Hw as (lat & Hlat & [= <-]).
  apply group_at_inv in Hg. destruct Hg as [Hp Hg].
  pose proof (apply_common_info_reads s0 _ _ _ _ Hc Hok Ha) as Hcr.
  destruct (apply_common_info_extends _ _ _ _ Hok Ha) as (Hok1 & He1 & Es1).
  assert (Hg1 : m_location_granularity s0 = m_location_granularity s1).
  { rewrite Es1. simpl. by destruct Hc as (-> & _). }
  rewrite <- (lonlat2int_ext s0 s1) in Hlon, Hlat by done.
  eexists i, g, _. split; [done|]. split; [done|].
  rewrite Es1. simpl. split; [|repeat (split; [done|]); done].
  by split.
Qed.

Lemma write_dense_node_effect n s s' :
  same_config s0 s -> table_ok (string_table s) ->
  write_dense_node n s = Ok s' ->
  exists i g d ids,
    pbf_nodes s = Some i /\ groups s !! i = Some g
    /\ groups s'
       = <[i := {| OSMPBF.nodes := OSMPBF.nodes g;
                   OSMPBF.dense := Some d;
                   OSMPBF.ways := OSMPBF.ways g;
                   OSMPBF.relations := OSMPBF.relations g |}]> (groups s)
    /\ length (OSMPBF.dense_id d)
       = S (length (OSMPBF.dense_id (dense_of (OSMPBF.dense g))))
    /\ OSMPBF.keys_vals d
       = OSMPBF.keys_vals (dense_of (OSMPBF.dense g)) ++ ids ++ [0]
    /\ Forall2 (string_known (string_table s'))
         (flat_tags (OSM.tags (OSM.node_object n))) ids
    /\ primitive_block_size s' = primitive_block_size s
    /\ table_ok (string_table s')
    /\ table_extends (string_table s) (string_table s')
    /\ pbf_nodes s' = pbf_nodes s /\ pbf_ways s' = pbf_ways s
    /\ pbf_relations s' = pbf_relations s
    /\ entity_frame s s'.
Proof.
  intros Hc Hok Hw. unfold write_dense_node in Hw.
  apply bind_Ok in Hw. destruct Hw as ([i g] & Hg & Hw).
  apply group_at_inv in Hg. destruct Hg as [Hp Hg].
  unfold Delta_update in Hw. cbn beta iota zeta in Hw.
  apply bind_Ok in Hw. destruct Hw as (lon & _ & Hw). cbn beta iota zeta in Hw.
  apply bind_Ok in Hw. destruct Hw as (lat & _ & Hw). cbn beta iota zeta in Hw.
  destruct (record_keys_vals_known (OSM.tags (OSM.node_object n))
              (string_table s) Hok) as (ids & Eids & Kids).
  destruct (record_keys_vals_extends (OSM.tags (OSM.node_object n))
              (string_table s) Hok) as [Hok1 He1].
  destruct (record_keys_vals _ _) as [kv t]. simpl in Eids, Kids, Hok1, He1.
  cbn beta iota zeta in Hw.
  apply bind_Ok in Hw. destruct Hw as ([di s3] & Hdi & [= <-]).
  unfold dense_of.
  destruct (m_should_add_metadata s).
  - apply bind_Ok in Hdi. destruct Hdi as (ts & _ & Hdi).
    cbn beta iota zeta in Hdi.
    destruct (record_string_extends (OSM.user (OSM.node_object n)) t Hok1)
      as [Hok2 He2].
    destruct (record_string _ _) as [u t']. simpl in Hok2, He2.
    injection Hdi as <- <-.
    exists i, g. eexists _, ids. split; [done|]. split; [done|].
    split; [reflexivity|]. simpl.
    split; [by rewrite length_app, Nat.add_comm|].
    split; [by rewrite Eids|].
    split; [eapply Forall2_impl; [exact Kids|];
            intros ? ?; by apply string_known_extends|].
    repeat (split; [by eauto using table_extends_trans|]); done.
  - injection Hdi as <- <-.
    exists i, g. eexists _, ids. split; [done|]. split; [done|].
    split; [reflexivity|]. simpl.
    split; [by rewrite length_app, Nat.add_comm|].
    split; [by rewrite Eids|].
    repeat (split; [done|]); done.
Qed.

End Effects.

Section Body.
Context {PB : Protobuf} {ZL : Zlib}.
Variable s0 : PBF.

(** The writer with the entities [es] in the block in flight: the string
    table is sound, the size estimate and the number of entities are those
    of the block, and the groups hold the entities under their interim
    string ids. *)
Record block_body (es : list Entity) (s : PBF) : Prop := {
  bb_config : same_config s0 s;
  bb_table : table_ok (string_table s);
  bb_size : primitive_block_size s = size_estimate (pbf_primitive_block s);
  bb_count : block_entity_count (pbf_primitive_block s) = length es;
  bb_grouped :
    grouped s0 (string_known (string_table s))
      (dense_tags_read (string_known (string_table s)))
      es (groups s) (pbf_nodes s) (pbf_ways s) (pbf_relations s)
}.

Lemma block_body_start s :
  block_start s -> same_config s0 s -> block_body [] s.
Proof.
  intros (_ & Hb & Hn & Hw & Hr & Ht & _ & Hs) Hc. split; try done.
  - rewrite Ht. apply table_ok_init.
  - rewrite Hs, Hb. reflexivity.
  - by rewrite Hb.
  - unfold groups. rewrite Hb, Hn, Hw, Hr. simpl.
    apply grouped_nil. apply dense_tags_read_nil.
Qed.

(** A state that differs from [s] in what the invariant does not read. *)
Lemma block_body_ext es s s' :
  block_body es s ->
  same_config s s' ->
  string_table s' = string_table s ->
  primitive_block_size s' = primitive_block_size s ->
  groups s' = groups s ->
  pbf_nodes s' = pbf_nodes s -> pbf_ways s' = pbf_ways s ->
  pbf_relations s' = pbf_relations s ->
  block_body es s'.
Proof.
  intros [Hc Hok Hsz Hcnt Hg] Hc' Et Es Eg En Ew Er.
  unfold groups in Eg.
  split; unfold size_estimate, block_ways, block_relations,
           block_entity_count, groups in *;
    rewrite ?Et, ?Es, ?Eg, ?En, ?Ew, ?Er; try done.
  by eapply same_config_trans.
Qed.

Lemma size_estimate_open b :
  size_estimate
    (with_primitivegroup
       (OSMPBF.primitivegroup b ++ [OSMPBF.PrimitiveGroup_init]) b)
  = size_estimate b.
Proof.
  unfold size_estimate, block_ways, block_relations. simpl.
  by rewrite !concat_map_open.
Qed.

Lemma block_entity_count_open b :
  block_entity_count
    (with_primitivegroup
       (OSMPBF.primitivegroup b ++ [OSMPBF.PrimitiveGroup_init]) b)
  = block_entity_count b.
Proof.
  unfold block_entity_count. simpl. rewrite map_app, sum_list_with_app. simpl.
  unfold group_entity_count, group_node_count. simpl. lia.
Qed.

Lemma open_nodes_body es s :
  block_body es s -> pbf_nodes s = None ->
  block_body es (set_pbf_nodes (Some (length (groups s))) (add_primitivegroup s).2).
Proof.
  intros [Hc Hok Hsz Hcnt Hg] Hp. rewrite Hp in Hg. split; simpl; try done.
  - by rewrite size_estimate_open.
  - by rewrite block_entity_count_open.
  - by apply grouped_open_nodes.
Qed.

Lemma open_ways_body es s :
  block_body es s -> pbf_ways s = None ->
  block_body es (set_pbf_ways (Some (length (groups s))) (add_primitivegroup s).2).
Proof.
  intros [Hc Hok Hsz Hcnt Hg] Hp. rewrite Hp in Hg. split; simpl; try done.
  - by rewrite size_estimate_open.
  - by rewrite block_entity_count_open.
  - by apply grouped_open_ways.
Qed.

Lemma open_relations_body es s :
  block_body es s -> pbf_relations s = None ->
  block_body es
    (set_pbf_relations (Some (length (groups s))) (add_primitivegroup s).2).
Proof.
  intros [Hc Hok Hsz Hcnt Hg] Hp. rewrite Hp in Hg. split; simpl; try done.
  - by rewrite size_estimate_open.
  - by rewrite block_entity_count_open.
  - by apply grouped_open_relations.
Qed.

(** The measures of a block one group of which was written back. *)
Lemma block_entity_count_put s s' i g g' (es : list Entity) :
  groups s !! i = Some g -> groups s' = <[i := g']> (groups s) ->
  group_entity_count g' = S (group_entity_count g) ->
  block_entity_count (pbf_primitive_block s) = length es ->
  forall e, block_entity_count (pbf_primitive_block s') = length (es ++ [e]).
Proof.
  intros Hg Hg' Hc Hcnt e. unfold block_entity_count, groups in *.
  rewrite Hg'. pose proof (sum_list_insert group_entity_count _ _ _ g' Hg).
  rewrite length_app. simpl. lia.
Qed.

Lemma write_way_body w es s s' :
  block_body es s -> write_way w s = Ok s' ->
  block_body (es ++ [EWay w]) s' /\ entity_frame s s'
  /\ pbf_nodes s' = pbf_nodes s /\ pbf_ways s' = pbf_ways s
  /\ pbf_relations s' = pbf_relations s.
Proof.
  intros [Hc Hok Hsz Hcnt Hg] Hw.
  destruct (write_way_effect s0 _ _ _ Hc Hok Hw)
    as (i & g & x & Hp & Hgi & Hx & Eg & Es & Hok' & He & En & Ew & Er & Hf).
  split; [|done]. split.
  - eapply same_config_trans; [exact Hc|]. by destruct Hf as (_ & _ & _ & ?).
  - done.
  - rewrite Es, Hsz. unfold size_estimate, block_ways, block_relations.
    unfold groups in Eg, Hgi. rewrite Eg, to_uint32_add_l. f_equal.
    rewrite (concat_map_insert_same OSMPBF.relations _ _ g) by done.
    rewrite (sum_Z_perm _ _ (fmap_Permutation _ _ _
               (concat_map_insert_snoc OSMPBF.ways _ _ g
                  {| OSMPBF.nodes := OSMPBF.nodes g;
                     OSMPBF.dense := OSMPBF.dense g;
                     OSMPBF.ways := OSMPBF.ways g ++ [x];
                     OSMPBF.relations := OSMPBF.relations g |} x Hgi eq_refl))).
    rewrite fmap_app, sum_Z_app. simpl. lia.
  - eapply block_entity_count_put; [exact Hgi|exact Eg| |exact Hcnt].
    unfold group_entity_count, group_node_count. simpl.
    rewrite length_app. simpl. lia.
  - rewrite Eg, En, Ew, Er, Hp. rewrite Hp in Hg.
    apply grouped_put_way; [|done|done].
    eapply grouped_impl; [| |exact Hg].
    + intros ? ?. by apply string_known_extends.
    + intros ? ?. apply dense_tags_read_impl.
      intros ? ?. by apply string_known_extends.
Qed.

Lemma write_relation_body r es s s' :
  block_body es s -> write_relation r s = Ok s' ->
  block_body (es ++ [ERelation r]) s' /\ entity_frame s s'
  /\ pbf_nodes s' = pbf_nodes s /\ pbf_ways s' = pbf_ways s
  /\ pbf_relations s' = pbf_relations s.
Proof.
  intros [Hc Hok Hsz Hcnt Hg] Hw.
  destruct (write_relation_effect s0 _ _ _ Hc Hok Hw)
    as (i & g & x & Hp & Hgi & Hx & Eg & Es & Hok' & He & En & Ew & Er & Hf).
  split; [|done]. split.
  - eapply same_config_trans; [exact Hc|]. by destruct Hf as (_ & _ & _ & ?).
  - done.
  - rewrite Es, Hsz. unfold size_estimate, block_ways, block_relations.
    unfold groups in Eg, Hgi. rewrite Eg, to_uint32_add_l. f_equal.
    rewrite (concat_map_insert_same OSMPBF.ways _ _ g) by done.
    rewrite (sum_Z_perm _ _ (fmap_Permutation _ _ _
               (concat_map_insert_snoc OSMPBF.relations _ _ g
                  {| OSMPBF.nodes := OSMPBF.nodes g;
                     OSMPBF.dense := OSMPBF.dense g;
                     OSMPBF.ways := OSMPBF.ways g;
                     OSMPBF.relations := OSMPBF.relations g ++ [x] |}
                  x Hgi eq_refl))).
    rewrite fmap_app, sum_Z_app. simpl. lia.
  - eapply block_entity_count_put; [exact Hgi|exact Eg| |exact Hcnt].
    unfold group_entity_count, group_node_count. simpl.
    rewrite length_app. simpl. lia.
  - rewrite Eg, En, Ew, Er, Hp. rewrite Hp in Hg.
    apply grouped_put_relation; [|done|done].
    eapply grouped_impl; [| |exact Hg].
    + intros ? ?. by apply string_known_extends.
    + intros ? ?. apply dense_tags_read_impl.
      intros ? ?. by apply string_known_extends.
Qed.

Lemma write_node_body n es s s' :
  m_use_dense_format s0 = false ->
  block_body es s -> write_node n s = Ok s' ->
  block_body (es ++ [ENode n]) s' /\ entity_frame s s'
  /\ pbf_nodes s' = pbf_nodes s /\ pbf_ways s' = pbf_ways s
  /\ pbf_relations s' = pbf_relations s.
Proof.
  intros Hdf [Hc Hok Hsz Hcnt Hg] Hw.
  destruct (write_node_effect s0 _ _ _ Hc Hok Hw)
    as (i & g & x & Hp & Hgi & Hx & Eg & Es & Hok' & He & En & Ew & Er & Hf).
  split; [|done]. split.
  - eapply same_config_trans; [exact Hc|]. by destruct Hf as (_ & _ & _ & ?).
  - done.
  - rewrite Es, Hsz. unfold size_estimate, block_ways, block_relations.
    unfold groups in Eg, Hgi. rewrite Eg.
    rewrite (concat_map_insert_same OSMPBF.ways _ _ g) by done.
    by rewrite (concat_map_insert_same OSMPBF.relations _ _ g) by done.
  - eapply block_entity_count_put; [exact Hgi|exact Eg| |exact Hcnt].
    unfold group_entity_count, group_node_count. simpl.
    rewrite length_app. simpl. lia.
  - rewrite Eg, En, Ew, Er, Hp. rewrite Hp in Hg.
    apply grouped_put_node; [done| |done|done].
    eapply grouped_impl; [| |exact Hg].
    + intros ? ?. by apply string_known_extends.
    + intros ? ?. apply dense_tags_read_impl.
      intros ? ?. by apply string_known_extends.
Qed.

Lemma write_dense_node_body n es s s' :
  m_use_dense_format s0 = true ->
  block_body es s -> write_dense_node n s = Ok s' ->
  block_body (es ++ [ENode n]) s' /\ entity_frame s s'
  /\ pbf_nodes s' = pbf_nodes s /\ pbf_ways s' = pbf_ways s
  /\ pbf_relations s' = pbf_relations s.
Proof.
  intros Hdf [Hc Hok Hsz Hcnt Hg] Hw.
  destruct (write_dense_node_effect s0 _ _ _ Hc Hok Hw)
    as (i & g & d & ids & Hp & Hgi & Eg & Hlen & Hkv & Hids & Es & Hok' & He
        & En & Ew & Er & Hf).
  split; [|done]. split.
  - eapply same_config_trans; [exact Hc|]. by destruct Hf as (_ & _ & _ & ?).
  - done.
  - rewrite Es, Hsz. unfold size_estimate, block_ways, block_relations.
    unfold groups in Eg, Hgi. rewrite Eg.
    rewrite (concat_map_insert_same OSMPBF.ways _ _ g) by done.
    by rewrite (concat_map_insert_same OSMPBF.relations _ _ g) by done.
  - eapply block_entity_count_put; [exact Hgi|exact Eg| |exact Hcnt].
    unfold group_entity_count, group_node_count. simpl.
    unfold dense_of in Hlen. rewrite Hlen. lia.
  - rewrite Eg, En, Ew, Er, Hp. rewrite Hp in Hg.
    assert (Hg' : grouped s0 (string_known (string_table s'))
                    (dense_tags_read (string_known (string_table s')))
                    es (groups s) (Some i) (pbf_ways s) (pbf_relations s)).
    { eapply grouped_impl; [| |exact Hg].
      + intros ? ?. by apply string_known_extends.
      + intros ? ?. apply dense_tags_read_impl.
        intros ? ?. by apply string_known_extends. }
    apply grouped_put_dense; [done|done|done|done|].
    rewrite Hkv. apply dense_tags_read_snoc; [|done].
    destruct (gr_nodes _ _ _ _ _ _ _ _ Hg') as (g0 & Hg0 & _ & _ & Hn0).
    rewrite Hdf in Hn0. assert (g0 = g) as -> by congruence.
    by destruct Hn0 as (_ & _ & ?).
Qed.

(** The encoding of an entity, with the group it may have to open. *)
Lemma encode_block_body e es s s' :
  block_body es s -> encode e s = Ok s' ->
  block_body (es ++ [e]) s' /\ entity_frame s s'
  /\ match e with
     | ENode _ =>
         pbf_nodes s' <> None
         /\ pbf_ways s' = pbf_ways s /\ pbf_relations s' = pbf_relations s
     | EWay _ =>
         pbf_ways s' <> None
         /\ pbf_nodes s' = pbf_nodes s /\ pbf_relations s' = pbf_relations s
     | ERelation _ =>
         pbf_relations s' <> None
         /\ pbf_nodes s' = pbf_nodes s /\ pbf_ways s' = pbf_ways s
     end.
Proof.
  intros Hb He.
  assert (Hf0 : forall s2, stored s2 = stored s -> m_file s2 = m_file s ->
                  primitive_block_contents s2 = primitive_block_contents s ->
                  same_config s s2 -> forall s3, entity_frame s2 s3 ->
                  entity_frame s s3).
  { intros s2 E1 E2 E3 E4 s3 (F1 & F2 & F3 & F4).
    repeat split; try congruence;
      destruct E4 as (?&?&?&?&?&?), F4 as (?&?&?&?&?&?); congruence. }
  destruct e as [n|w|r]; simpl in He.
  - unfold node_body in He.
    destruct (pbf_nodes s) as [i|] eqn:Ep.
    + assert (Hdf : m_use_dense_format s = m_use_dense_format s0)
        by (by destruct (bb_config _ _ Hb) as (_ & _ & ? & _)).
      rewrite Hdf in He. destruct (m_use_dense_format s0) eqn:Ed.
      * destruct (write_dense_node_body _ _ _ _ Ed Hb He)
          as (Hb' & Hf & En & Ew & Er).
        split; [done|]. split; [done|]. split; [congruence|done].
      * destruct (write_node_body _ _ _ _ Ed Hb He)
          as (Hb' & Hf & En & Ew & Er).
        split; [done|]. split; [done|]. split; [congruence|done].
    + pose proof (open_nodes_body _ _ Hb Ep) as Hb2.
      change (add_primitivegroup s).1 with (length (groups s)) in He.
      destruct (add_primitivegroup s) as [j s2] eqn:Ea.
      injection Ea as <- <-. cbn [snd] in Hb2.
      set (s2 := set_pbf_nodes _ _) in *.
      assert (Hdf : m_use_dense_format s2 = m_use_dense_format s0)
        by (by destruct (bb_config _ _ Hb2) as (_ & _ & ? & _)).
      rewrite Hdf in He. destruct (m_use_dense_format s0) eqn:Ed.
      * destruct (write_dense_node_body _ _ _ _ Ed Hb2 He)
          as (Hb' & Hf & En & Ew & Er).
        split; [done|]. split; [by apply (Hf0 s2)|].
        split; [by rewrite En|done].
      * destruct (write_node_body _ _ _ _ Ed Hb2 He)
          as (Hb' & Hf & En & Ew & Er).
        split; [done|]. split; [by apply (Hf0 s2)|].
        split; [by rewrite En|done].
  - unfold way_body in He.
    destruct (pbf_ways s) as [i|] eqn:Ep.
    + destruct (write_way_body _ _ _ _ Hb He) as (Hb' & Hf & En & Ew & Er).
      split; [done|]. split; [done|]. split; [congruence|done].
    + pose proof (open_ways_body _ _ Hb Ep) as Hb2.
      destruct (add_primitivegroup s) as [j s2] eqn:Ea.
      injection Ea as <- <-. cbn [snd] in Hb2.
      set (s2 := set_pbf_ways _ _) in *.
      destruct (write_way_body _ _ _ _ Hb2 He) as (Hb' & Hf & En & Ew & Er).
      split; [done|]. split; [by apply (Hf0 s2)|].
      split; [by rewrite Ew|done].
  - unfold relation_body in He.
    destruct (pbf_relations s) as [i|] eqn:Ep.
    + destruct (write_relation_body _ _ _ _ Hb He) as (Hb' & Hf & En & Ew & Er).
      split; [done|]. split; [done|]. split; [congruence|done].
    + pose proof (open_relations_body _ _ Hb Ep) as Hb2.
      destruct (add_primitivegroup s) as [j s2] eqn:Ea.
      injection Ea as <- <-. cbn [snd] in Hb2.
      set (s2 := set_pbf_relations _ _) in *.
      destruct (write_relation_body _ _ _ _ Hb2 He)
        as (Hb' & Hf & En & Ew & Er).
      split; [done|]. split; [by apply (Hf0 s2)|].
      split; [by rewrite Er|done].
Qed.

End Body.

(** ** From interim ids to final ids *)

Lemma Forall2_for_each {A B C} (P : A -> B -> Prop) (Q : A -> C -> Prop) (f : B -> result C) xs ys zs :
  (forall x y z, P x y -> f y = Ok z -> Q x z) ->
  Forall2 P xs ys -> for_each f ys = Ok zs -> Forall2 Q xs zs.
Proof.
  intros HPQ H. revert zs. induction H as [|x y xs ys Hxy _ IH]; intros zs Hf.
  - injection Hf as <-. constructor.
  - cbn [for_each] in Hf.
    apply bind_Ok in Hf. destruct Hf as (z & Hz & Hf).
    apply bind_Ok in Hf. destruct Hf as (zs' & Hzs & [= <-]).
    constructor; eauto.
Qed.

(** The final id of a string is its index in the string list the block
    gets: 0 for the empty string. *)
Lemma string_known_final t str i f :
  table_ok t ->
  string_known t str i ->
  map_string_id (store_stringtable t).2 i = Ok f ->
  string_at (store_stringtable t).1 str f.
Proof.
  intros Hok [[-> ->]|(info & Hs & <-)] Hf.
  { rewrite (store_stringtable_final_0 _ Hok) in Hf. by injection Hf as <-. }
  apply elem_of_sorted_strings in Hs. apply list_elem_of_lookup in Hs.
  destruct Hs as [k Hk].
  destruct (store_stringtable_final t k _ _ Hok Hk) as [Hm Ho].
  rewrite Hm in Hf. injection Hf as <-. split; [lia|].
  rewrite <- Ho. f_equal. lia.
Qed.

Section Final.
Context {PB : Protobuf} {ZL : Zlib}.
Variable s0 : PBF.
Variable t : StringTable.
Hypothesis Hok : table_ok t.

Let t' := (store_stringtable t).2.
Let strings := (store_stringtable t).1.

Lemma map_tags_final strs1 strs2 ks vs ks' vs' :
  Forall2 (string_known t) strs1 ks ->
  Forall2 (string_known t) strs2 vs ->
  length strs1 = length strs2 ->
  map_tags t' ks vs = Ok (ks', vs') ->
  Forall2 (string_at strings) strs1 ks'
  /\ Forall2 (string_at strings) strs2 vs'.
Proof.
  intros Hk. revert strs2 vs ks' vs'.
  induction Hk as [|s1 k strs1 ks Hs1 _ IH]; intros strs2 vs ks' vs' Hv Hl Hm.
  - destruct Hv; [|discriminate Hl]. injection Hm as <- <-.
    split; constructor.
  - destruct Hv as [|s2 v strs2 vs Hs2 Hv]; [discriminate Hl|].
    injection Hl as Hl. cbn [map_tags] in Hm.
    apply bind_Ok in Hm. destruct Hm as (k' & Hk' & Hm).
    apply bind_Ok in Hm. destruct Hm as (v' & Hv' & Hm).
    apply bind_Ok in Hm. destruct Hm as ([ks'' vs''] & Hrest & [= <- <-]).
    destruct (IH _ _ _ _ Hv Hl Hrest) as [IHk IHv].
    split; constructor; try done; by eapply string_known_final.
Qed.

Lemma map_common_string_ids_final obj c c' :
  common_reads s0 (string_known t) obj c ->
  map_common_string_ids t' c = Ok c' ->
  common_reads s0 (string_at strings) obj c'.
Proof.
  intros [Hid Hk Hv Hn Hi] Hm. unfold map_common_string_ids in Hm.
  apply bind_Ok in Hm. destruct Hm as (oi & Hoi & Hm).
  apply bind_Ok in Hm. destruct Hm as ([ks vs] & Htags & [= <-]).
  assert (Hl : length (OSM.tags obj).*1 = length (OSM.tags obj).*2)
    by (by rewrite !length_fmap).
  destruct (map_tags_final _ _ _ _ _ _ Hk Hv Hl Htags) as [Hk' Hv'].
  split; simpl; try done.
  - intros Hf. rewrite (Hn Hf) in Hoi. by injection Hoi as <-.
  - intros Ht. destruct (Hi Ht) as (i & Ei & ? & ? & ? & ? & Hu & ?).
    rewrite Ei in Hoi.
    apply bind_Ok in Hoi. destruct Hoi as (i' & Hi' & [= <-]).
    unfold map_info in Hi'.
    apply bind_Ok in Hi'. destruct Hi' as (u & Hu' & [= <-]).
    eexists. split; [reflexivity|]. simpl. do 4 (split; [done|]).
    split; [by eapply string_known_final|done].
Qed.

Lemma map_node_final n pn pn' :
  node_reads s0 (string_known t) n pn -> map_node t' pn = Ok pn' ->
  node_reads s0 (string_at strings) n pn'.
Proof.
  intros [Hc Hlon Hlat] Hm. unfold map_node in Hm.
  apply bind_Ok in Hm. destruct Hm as (c & Hc' & [= <-]).
  split; simpl; try done. by eapply map_common_string_ids_final.
Qed.

Lemma map_way_final w pw pw' :
  way_reads s0 (string_known t) w pw -> map_way t' pw = Ok pw' ->
  way_reads s0 (string_at strings) w pw'.
Proof.
  intros [Hc Hr Hn] Hm. unfold map_way in Hm.
  apply bind_Ok in Hm. destruct Hm as (c & Hc' & [= <-]).
  split; simpl; try done. by eapply map_common_string_ids_final.
Qed.

Lemma map_relation_final r pr pr' :
  relation_reads s0 (string_known t) r pr -> map_relation t' pr = Ok pr' ->
  relation_reads s0 (string_at strings) r pr'.
Proof.
  intros [Hc Hro Hm1 Hm2 Hty] Hm. unfold map_relation in Hm.
  apply bind_Ok in Hm. destruct Hm as (c & Hc' & Hm).
  apply bind_Ok in Hm. destruct Hm as (roles & Hroles & [= <-]).
  split; simpl; try done.
  - by eapply map_common_string_ids_final.
  - eapply Forall2_for_each; [|exact Hro|exact Hroles].
    intros str i f. by apply string_known_final.
Qed.

(** An entry of keys_vals in a block with fewer than 2^16 strings: the
    final id of a string that is not empty, and the separator as it is. *)
Lemma map_keys_vals_entry_final str i f :
  m_size t < 2 ^ 16 ->
  str <> EmptyString ->
  string_known t str i ->
  map_keys_vals_entry t' i = Ok f ->
  string_at strings str f.
Proof.
  intros Hsz Hne Hk Hm. pose proof Hk as [[-> _]|(info & Hs & Hi)]; [done|].
  destruct (table_ids _ Hok _ _ Hs) as (Hid & _).
  unfold map_keys_vals_entry in Hm.
  rewrite to_uint16_id in Hm by lia.
  destruct (Z.ltb_spec 0 i); [|lia].
  by eapply string_known_final.
Qed.

Lemma map_keys_vals_separator : map_keys_vals_entry t' 0 = Ok 0.
Proof. reflexivity. Qed.

Lemma for_each_app {A B} (f : A -> result B) l1 l2 zs :
  for_each f (l1 ++ l2) = Ok zs ->
  exists z1 z2, zs = z1 ++ z2 /\ for_each f l1 = Ok z1 /\ for_each f l2 = Ok z2.
Proof.
  revert zs. induction l1 as [|a l1 IH]; intros zs H; simpl in *.
  - exists [], zs. done.
  - apply bind_Ok in H. destruct H as (b & Hb & H).
    apply bind_Ok in H. destruct H as (bs & Hbs & [= <-]).
    destruct (IH _ Hbs) as (z1 & z2 & -> & H1 & H2).
    exists (b :: z1), z2. rewrite Hb, bind_Ok_l, H1. done.
Qed.

Lemma map_keys_vals_final ns kv kv' :
  m_size t < 2 ^ 16 ->
  Forall (fun n => tag_strings_nonempty (OSM.tags (OSM.node_object n))) ns ->
  dense_tags_read (string_known t) ns kv ->
  for_each (map_keys_vals_entry t') kv = Ok kv' ->
  dense_tags_read (string_at strings) ns kv'.
Proof.
  intros Hsz Hne (rows & -> & Hrows). revert kv' Hne.
  induction Hrows as [|n row ns rows (ids & -> & Hids) _ IH]; intros kv' Hne Hm.
  - injection Hm as <-. apply dense_tags_read_nil.
  - apply Forall_cons in Hne. destruct Hne as [Hn Hne].
    cbn [concat] in Hm. rewrite <- app_assoc in Hm.
    apply for_each_app in Hm. destruct Hm as (ids' & rest & -> & Hids' & Hm).
    change ([0] ++ concat rows) with (0 :: concat rows) in Hm.
    cbn [for_each] in Hm. rewrite map_keys_vals_separator, bind_Ok_l in Hm.
    apply bind_Ok in Hm. destruct Hm as (rest' & Hrest & [= <-]).
    destruct (IH _ Hne Hrest) as (rows' & -> & Hrows').
    exists ((ids' ++ [0]) :: rows'). split.
    + cbn [concat]. by rewrite <- app_assoc.
    + constructor; [|done]. exists ids'. split; [done|].
      assert (Hall : Forall (fun str => str <> EmptyString)
                       (flat_tags (OSM.tags (OSM.node_object n)))).
      { unfold flat_tags. clear -Hn.
        induction Hn as [|[k v] tags [Hk Hv] _ IH']; simpl; [constructor|].
        constructor; [done|]. constructor; [done|]. done. }
      clear -Hids Hids' Hall Hsz Hok. revert ids' Hids' Hall.
      induction Hids as [|str i strs ids Hs _ IH']; intros ids' Hids' Hall.
      * injection Hids' as <-. constructor.
      * apply Forall_cons in Hall. destruct Hall as [Hstr Hall].
        cbn [for_each] in Hids'.
        apply bind_Ok in Hids'. destruct Hids' as (f & Hf & Hids').
        apply bind_Ok in Hids'. destruct Hids' as (fs & Hfs & [= <-]).
        constructor; [by eapply map_keys_vals_entry_final|]. by apply IH'.
Qed.

End Final.

(** ** The three passes of [map_string_ids] *)

(** What [map_string_ids] does to the group of the nodes, of the ways and of
    the relations. *)
Definition map_nodes_group (t : StringTable) (dl : Delta) (g : OSMPBF.PrimitiveGroup) : result OSMPBF.PrimitiveGroup :=
  ns ← for_each (map_node t) (OSMPBF.nodes g);
  od ← match OSMPBF.dense g with
       | Some d => '(d', _) ← map_dense t d dl; Ok (Some d')
       | None => Ok None
       end;
  Ok {| OSMPBF.nodes := ns; OSMPBF.dense := od;
        OSMPBF.ways := OSMPBF.ways g;
        OSMPBF.relations := OSMPBF.relations g |}.

Definition map_ways_group (t : StringTable) (g : OSMPBF.PrimitiveGroup) : result OSMPBF.PrimitiveGroup :=
  ws ← for_each (map_way t) (OSMPBF.ways g);
  Ok {| OSMPBF.nodes := OSMPBF.nodes g; OSMPBF.dense := OSMPBF.dense g;
        OSMPBF.ways := ws; OSMPBF.relations := OSMPBF.relations g |}.

Definition map_relations_group (t : StringTable) (g : OSMPBF.PrimitiveGroup) : result OSMPBF.PrimitiveGroup :=
  rs ← for_each (map_relation t) (OSMPBF.relations g);
  Ok {| OSMPBF.nodes := OSMPBF.nodes g; OSMPBF.dense := OSMPBF.dense g;
        OSMPBF.ways := OSMPBF.ways g; OSMPBF.relations := rs |}.

(** One pass: the group the pointer stands for is rewritten by [f]; a NULL
    pointer leaves the groups alone. *)
Definition pass (p : option nat) (f : OSMPBF.PrimitiveGroup -> result OSMPBF.PrimitiveGroup) (gs gs' : list OSMPBF.PrimitiveGroup) : Prop :=
  match p with
  | None => gs' = gs
  | Some i => exists g g', gs !! i = Some g /\ f g = Ok g' /\ gs' = <[i := g']> gs
  end.

Lemma pass_length p f gs gs' : pass p f gs gs' -> length gs' = length gs.
Proof.
  destruct p as [i|]; simpl; [|by intros ->].
  intros (g & g' & _ & _ & ->). by rewrite length_insert.
Qed.

Lemma pass_held_same p f gs gs' (P P' : OSMPBF.PrimitiveGroup -> Prop) :
  pass p f gs gs' ->
  (forall g g', P g -> f g = Ok g' -> P' g') ->
  (P OSMPBF.PrimitiveGroup_init -> P' OSMPBF.PrimitiveGroup_init) ->
  held gs p P -> held gs' p P'.
Proof.
  destruct p as [i|]; simpl.
  - intros (g & g' & Hg & Hf & ->) HP _ (g0 & Hg0 & HP0).
    assert (g0 = g) as -> by congruence.
    exists g'. split; [|by eapply HP].
    apply list_lookup_insert_eq. by eapply lookup_lt_Some.
  - intros -> _ H. exact H.
Qed.

Lemma pass_held_other p q f gs gs' (P : OSMPBF.PrimitiveGroup -> Prop) :
  pass p f gs gs' ->
  (forall i, p = Some i -> q <> Some i) ->
  held gs q P -> held gs' q P.
Proof.
  destruct p as [i|]; simpl; [|by intros ->].
  intros (g & g' & Hg & Hf & ->) Hd. apply held_insert_ne. by apply Hd.
Qed.

Lemma pass_count p f gs gs' (m : OSMPBF.PrimitiveGroup -> nat) :
  pass p f gs gs' ->
  (forall g g', f g = Ok g' -> m g' = m g) ->
  sum_list (map m gs') = sum_list (map m gs).
Proof.
  destruct p as [i|]; simpl; [|by intros ->].
  intros (g & g' & Hg & Hf & ->) Hm.
  pose proof (sum_list_insert m _ _ _ g' Hg). rewrite (Hm _ _ Hf) in H. lia.
Qed.

Section Passes.
Context {PB : Protobuf} {ZL : Zlib}.

Lemma map_string_ids_passes s s1 :
  map_string_ids s = Ok s1 ->
  exists gsa gsb,
    pass (pbf_nodes s)
      (map_nodes_group (string_table s) (m_delta_user_sid s)) (groups s) gsa
    /\ pass (pbf_ways s) (map_ways_group (string_table s)) gsa gsb
    /\ pass (pbf_relations s) (map_relations_group (string_table s)) gsb
         (groups s1)
    /\ OSMPBF.stringtable (pbf_primitive_block s1)
       = OSMPBF.stringtable (pbf_primitive_block s)
    /\ OSMPBF.granularity (pbf_primitive_block s1)
       = OSMPBF.granularity (pbf_primitive_block s)
    /\ OSMPBF.date_granularity (pbf_primitive_block s1)
       = OSMPBF.date_granularity (pbf_primitive_block s).
Proof.
  unfold map_string_ids. intros H.
  apply bind_Ok in H. destruct H as (sa & Ha & H).
  apply bind_Ok in H. destruct H as (sb & Hb & H).
  exists (groups sa), (groups sb).
  assert (HA : pass (pbf_nodes s)
                 (map_nodes_group (string_table s) (m_delta_user_sid s))
                 (groups s) (groups sa)
               /\ pbf_ways sa = pbf_ways s
               /\ pbf_relations sa = pbf_relations s
               /\ OSMPBF.stringtable (pbf_primitive_block sa)
                  = OSMPBF.stringtable (pbf_primitive_block s)
               /\ OSMPBF.granularity (pbf_primitive_block sa)
                  = OSMPBF.granularity (pbf_primitive_block s)
               /\ OSMPBF.date_granularity (pbf_primitive_block sa)
                  = OSMPBF.date_granularity (pbf_primitive_block s)).
  { destruct (pbf_nodes s) as [j|] eqn:Ep; [|by injection Ha as <-].
    apply bind_Ok in Ha. destruct Ha as ([i g] & Hg & Ha).
    apply group_at_inv in Hg. destruct Hg as [[= <-] Hg].
    apply bind_Ok in Ha. destruct Ha as (ns & Hns & Ha).
    apply bind_Ok in Ha. destruct Ha as ([od dl] & Hd & [= <-]).
    split; [|done]. exists g. eexists. split; [done|]. split; [|reflexivity].
    unfold map_nodes_group. rewrite Hns, bind_Ok_l.
    destruct (OSMPBF.dense g) as [d|].
    - apply bind_Ok in Hd. destruct Hd as ([d' dl'] & -> & [= <- <-]). done.
    - by injection Hd as <- <-. }
  destruct HA as (HA & Ew & Er & E1 & E2 & E3).
  assert (HB : pass (pbf_ways s) (map_ways_group (string_table s))
                 (groups sa) (groups sb)
               /\ pbf_relations sb = pbf_relations sa
               /\ OSMPBF.stringtable (pbf_primitive_block sb)
                  = OSMPBF.stringtable (pbf_primitive_block sa)
               /\ OSMPBF.granularity (pbf_primitive_block sb)
                  = OSMPBF.granularity (pbf_primitive_block sa)
               /\ OSMPBF.date_granularity (pbf_primitive_block sb)
                  = OSMPBF.date_granularity (pbf_primitive_block sa)).
  { rewrite <- Ew. destruct (pbf_ways sa) as [j|] eqn:Ep;
      [|by injection Hb as <-].
    apply bind_Ok in Hb. destruct Hb as ([i g] & Hg & Hb).
    apply group_at_inv in Hg. destruct Hg as [[= <-] Hg].
    apply bind_Ok in Hb. destruct Hb as (ws & Hws & [= <-]).
    split; [|done]. exists g. eexists. split; [done|]. split; [|reflexivity].
    unfold map_ways_group. by rewrite Hws. }
  destruct HB as (HB & Fr & F1 & F2 & F3).
  split; [done|]. split; [done|].
  rewrite <- Er, <- Fr, <- E1, <- F1, <- E2, <- F2, <- E3, <- F3.
  destruct (pbf_relations sb) as [j|] eqn:Ep; [|by injection H as <-].
  apply bind_Ok in H. destruct H as ([i g] & Hg & H).
  apply group_at_inv in Hg. destruct Hg as [[= <-] Hg].
  apply bind_Ok in H. destruct H as (rs & Hrs & [= <-]).
  split; [|done]. exists g. eexists. split; [done|]. split; [|reflexivity].
  unfold map_relations_group. by rewrite Hrs.
Qed.

End Passes.

(** keys_vals of a stored block read against the dense nodes. It reads as
    the tags of the nodes when the string list has at most 2^16 entries and
    no tag of a node has an empty key or value. *)
Definition final_tags (strings : list string) (ns : list OSM.Node) (kv : list Z) : Prop :=
  Z.of_nat (length strings) <= 2 ^ 16 ->
  Forall (fun n => tag_strings_nonempty (OSM.tags (OSM.node_object n))) ns ->
  dense_tags_read (string_at strings) ns kv.

Lemma store_stringtable_length t :
  table_ok t -> Z.of_nat (length (store_stringtable t).1) = m_size t + 1.
Proof.
  intros Hok. unfold store_stringtable. simpl.
  rewrite length_map, <- (sorted_strings_length t Hok). lia.
Qed.

Section FlushGroups.
Context {PB : Protobuf} {ZL : Zlib}.
Variable s0 : PBF.
Variable t : StringTable.
Hypothesis Hok : table_ok t.

Let t' := (store_stringtable t).2.
Let strings := (store_stringtable t).1.

Lemma map_nodes_group_final ns dl g g' :
  nodes_group s0 (string_known t) (dense_tags_read (string_known t)) ns g ->
  map_nodes_group t' dl g = Ok g' ->
  nodes_group s0 (string_at strings) (final_tags strings) ns g'
  /\ group_entity_count g' = group_entity_count g.
Proof.
  intros (Hw & Hr & Hn) Hm. unfold map_nodes_group in Hm.
  apply bind_Ok in Hm. destruct Hm as (ns' & Hns & Hm).
  apply bind_Ok in Hm. destruct Hm as (od & Hod & [= <-]).
  pose proof (for_each_length _ _ _ Hns) as Lns.
  unfold nodes_group, group_entity_count, group_node_count. simpl.
  assert (Hdense :
    length (OSMPBF.dense_id (dense_of od))
    = length (OSMPBF.dense_id (dense_of (OSMPBF.dense g)))
    /\ (OSMPBF.dense g = None -> od = None)
    /\ for_each (map_keys_vals_entry t')
         (OSMPBF.keys_vals (dense_of (OSMPBF.dense g)))
       = Ok (OSMPBF.keys_vals (dense_of od))).
  { destruct (OSMPBF.dense g) as [d|].
    - apply bind_Ok in Hod. destruct Hod as ([d' dl'] & Hd & [= <-]).
      apply map_dense_inv in Hd. destruct Hd as (Hid & _ & _ & Hkv & _).
      simpl. by rewrite Hid.
    - by injection Hod as <-. }
  destruct Hdense as (Hlen & Hnone & Hkv).
  split; [|unfold dense_of in Hlen; rewrite Hlen, Lns; done].
  split; [done|]. split; [done|].
  destruct (m_use_dense_format s0).
  - destruct Hn as (Hn0 & Hl & HD). rewrite Hn0 in Hns. injection Hns as <-.
    split; [done|]. split; [congruence|].
    intros Hsz Hne. eapply map_keys_vals_final; [exact Hok| |exact Hne|exact HD|exact Hkv].
    pose proof (store_stringtable_length t Hok). fold strings in H. lia.
  - destruct Hn as (Hd0 & Hns0). split; [by apply Hnone|].
    eapply Forall2_for_each; [|exact Hns0|exact Hns].
    intros n y z. by apply map_node_final.
Qed.

Lemma map_ways_group_final ws g g' :
  ways_group s0 (string_known t) ws g ->
  map_ways_group t' g = Ok g' ->
  ways_group s0 (string_at strings) ws g'
  /\ group_entity_count g' = group_entity_count g.
Proof.
  intros (Hn & Hd & Hr & Hws) Hm. unfold map_ways_group in Hm.
  apply bind_Ok in Hm. destruct Hm as (ws' & Hws' & [= <-]).
  pose proof (for_each_length _ _ _ Hws') as L.
  unfold ways_group, group_entity_count, group_node_count. simpl.
  split; [|by rewrite L]. repeat split; try done.
  eapply Forall2_for_each; [|exact Hws|exact Hws'].
  intros w y z. by apply map_way_final.
Qed.

Lemma map_relations_group_final rs g g' :
  relations_group s0 (string_known t) rs g ->
  map_relations_group t' g = Ok g' ->
  relations_group s0 (string_at strings) rs g'
  /\ group_entity_count g' = group_entity_count g.
Proof.
  intros (Hn & Hd & Hw & Hrs) Hm. unfold map_relations_group in Hm.
  apply bind_Ok in Hm. destruct Hm as (rs' & Hrs' & [= <-]).
  pose proof (for_each_length _ _ _ Hrs') as L.
  unfold relations_group, group_entity_count, group_node_count. simpl.
  split; [|by rewrite L]. repeat split; try done.
  eapply Forall2_for_each; [|exact Hrs|exact Hrs'].
  intros r y z. by apply map_relation_final.
Qed.

Lemma map_group_count_nodes dl g g' :
  map_nodes_group t' dl g = Ok g' ->
  group_entity_count g' = group_entity_count g.
Proof.
  unfold map_nodes_group. intros Hm.
  apply bind_Ok in Hm. destruct Hm as (ns' & Hns & Hm).
  apply bind_Ok in Hm. destruct Hm as (od & Hod & [= <-]).
  pose proof (for_each_length _ _ _ Hns) as Lns.
  unfold group_entity_count, group_node_count. simpl. rewrite Lns.
  destruct (OSMPBF.dense g) as [d|].
  - apply bind_Ok in Hod. destruct Hod as ([d' dl'] & Hd & [= <-]).
    apply map_dense_inv in Hd. destruct Hd as (Hid & _). simpl.
    by rewrite Hid.
  - by injection Hod as <-.
Qed.

Lemma map_group_count_ways g g' :
  map_ways_group t' g = Ok g' ->
  group_entity_count g' = group_entity_count g.
Proof.
  unfold map_ways_group. intros Hm.
  apply bind_Ok in Hm. destruct Hm as (ws' & Hws' & [= <-]).
  pose proof (for_each_length _ _ _ Hws') as L.
  unfold group_entity_count, group_node_count. simpl. by rewrite L.
Qed.

Lemma map_group_count_relations g g' :
  map_relations_group t' g = Ok g' ->
  group_entity_count g' = group_entity_count g.
Proof.
  unfold map_relations_group. intros Hm.
  apply bind_Ok in Hm. destruct Hm as (rs' & Hrs' & [= <-]).
  pose proof (for_each_length _ _ _ Hrs') as L.
  unfold group_entity_count, group_node_count. simpl. by rewrite L.
Qed.

(** The groups after the three passes hold the same entities under the
    final ids. *)
Lemma grouped_final es gs gsa gsb gs1 pn pw pr dl :
  grouped s0 (string_known t) (dense_tags_read (string_known t))
    es gs pn pw pr ->
  pass pn (map_nodes_group t' dl) gs gsa ->
  pass pw (map_ways_group t') gsa gsb ->
  pass pr (map_relations_group t') gsb gs1 ->
  grouped s0 (string_at strings) (final_tags strings) es gs1 pn pw pr
  /\ sum_list (map group_entity_count gs1)
     = sum_list (map group_entity_count gs).
Proof.
  intros [Hn Hw Hr Hc Hnw Hnr Hwr] PA PB_ PC. split.
  - split; try done.
    + eapply (pass_held_other pr pn); [exact PC| |].
      { intros i -> ->. by apply (Hnr i). }
      eapply (pass_held_other pw pn); [exact PB_| |].
      { intros i -> ->. by apply (Hnw i). }
      eapply (pass_held_same _ _ _ _
                (nodes_group s0 (string_known t)
                   (dense_tags_read (string_known t)) (nodes_of es)));
        [exact PA| | |exact Hn].
      * intros g g' HP Hf. by destruct (map_nodes_group_final _ _ _ _ HP Hf).
      * intros HP. by destruct (map_nodes_group_final _ dl _ _ HP eq_refl).
    + eapply (pass_held_other pr pw); [exact PC| |].
      { intros i -> ->. by apply (Hwr i). }
      eapply (pass_held_same _ _ _ _
                (ways_group s0 (string_known t) (ways_of es)));
        [exact PB_| | |].
      * intros g g' HP Hf. by destruct (map_ways_group_final _ _ _ HP Hf).
      * intros HP. by destruct (map_ways_group_final _ _ _ HP eq_refl).
      * eapply (pass_held_other pn pw); [exact PA|exact Hnw|exact Hw].
    + eapply (pass_held_same _ _ _ _
                (relations_group s0 (string_known t) (relations_of es)));
        [exact PC| | |].
      * intros g g' HP Hf. by destruct (map_relations_group_final _ _ _ HP Hf).
      * intros HP. by destruct (map_relations_group_final _ _ _ HP eq_refl).
      * eapply (pass_held_other pw pr); [exact PB_|exact Hwr|].
        eapply (pass_held_other pn pr); [exact PA|exact Hnr|exact Hr].
    + intros j Hj. apply Hc.
      rewrite (pass_length _ _ _ _ PC), (pass_length _ _ _ _ PB_),
        (pass_length _ _ _ _ PA) in Hj. done.
  - rewrite (pass_count _ _ _ _ _ PC map_group_count_relations).
    rewrite (pass_count _ _ _ _ _ PB_ map_group_count_ways).
    by rewrite (pass_count _ _ _ _ _ PA (map_group_count_nodes dl)).
Qed.

End FlushGroups.

(** ** What the groups of a block come to *)

(** A group holds objects of one kind, and at least one. *)
Definition single_kind (g : OSMPBF.PrimitiveGroup) : Prop :=
  (OSMPBF.nodes g <> [] /\ OSMPBF.dense g = None
   /\ OSMPBF.ways g = [] /\ OSMPBF.relations g = [])
  \/ (OSMPBF.nodes g = [] /\ is_Some (OSMPBF.dense g)
      /\ OSMPBF.ways g = [] /\ OSMPBF.relations g = [])
  \/ (OSMPBF.nodes g = [] /\ OSMPBF.dense g = None
      /\ OSMPBF.ways g <> [] /\ OSMPBF.relations g = [])
  \/ (OSMPBF.nodes g = [] /\ OSMPBF.dense g = None
      /\ OSMPBF.ways g = [] /\ OSMPBF.relations g <> []).

Definition holds_nodes (g : OSMPBF.PrimitiveGroup) : Prop :=
  OSMPBF.nodes g <> [] \/ is_Some (OSMPBF.dense g).

(** No two groups of the block hold objects of the same kind. *)
Definition one_group_per_kind (gs : list OSMPBF.PrimitiveGroup) : Prop :=
  forall i j gi gj,
    gs !! i = Some gi -> gs !! j = Some gj ->
    (holds_nodes gi /\ holds_nodes gj)
    \/ (OSMPBF.ways gi <> [] /\ OSMPBF.ways gj <> [])
    \/ (OSMPBF.relations gi <> [] /\ OSMPBF.relations gj <> []) ->
    i = j.

Record block_shape (b : OSMPBF.PrimitiveBlock) : Prop := {
  shape_kind : Forall single_kind (OSMPBF.primitivegroup b);
  shape_one : one_group_per_kind (OSMPBF.primitivegroup b);
  shape_length : (length (OSMPBF.primitivegroup b) <= 3)%nat
}.

(** A pointer that is set stands for a group that was written to. *)
Definition populated (es : list Entity) (pn pw pr : option nat) : Prop :=
  (pn <> None -> nodes_of es <> [])
  /\ (pw <> None -> ways_of es <> [])
  /\ (pr <> None -> relations_of es <> []).

Section Flatten.
Variable s0 : PBF.
Variable R : string -> Z -> Prop.
Variable D : list OSM.Node -> list Z -> Prop.
Implicit Types (es : list Entity) (gs : list OSMPBF.PrimitiveGroup).
Implicit Types pn pw pr : option nat.

Lemma grouped_kinds es gs pn pw pr j g :
  grouped s0 R D es gs pn pw pr ->
  gs !! j = Some g ->
  (pn = Some j /\ nodes_group s0 R D (nodes_of es) g)
  \/ (pw = Some j /\ ways_group s0 R (ways_of es) g)
  \/ (pr = Some j /\ relations_group s0 R (relations_of es) g).
Proof.
  intros Hg Hj. destruct Hg as [Hn Hw Hr Hc _ _ _].
  destruct (Hc j) as [E|[E|E]]; [by eapply lookup_lt_Some| | |]; subst.
  - left. destruct Hn as (g0 & Hg0 & H). split; [done|]. congruence.
  - right; left. destruct Hw as (g0 & Hg0 & H). split; [done|]. congruence.
  - right; right. destruct Hr as (g0 & Hg0 & H). split; [done|]. congruence.
Qed.

Lemma grouped_block_ways es gs pn pw pr :
  grouped s0 R D es gs pn pw pr ->
  Forall2 (way_reads s0 R) (ways_of es) (concat (map OSMPBF.ways gs)).
Proof.
  intros Hg. pose proof Hg as [Hn Hw Hr Hc Hnw Hnr Hwr].
  destruct pw as [i|] eqn:Ep.
  - destruct Hw as (g & Hgi & _ & _ & _ & H).
    rewrite (concat_map_single OSMPBF.ways gs i g Hgi); [done|].
    intros j g' Hj Hne.
    destruct (grouped_kinds _ _ _ _ _ j g' Hg Hj) as [[_ (? & _)]|[[E _]|[_ (_ & _ & ? & _)]]];
      try done. congruence.
  - destruct Hw as (_ & _ & _ & H). rewrite concat_map_none; [done|].
    intros j g' Hj.
    destruct (grouped_kinds _ _ _ _ _ j g' Hg Hj) as [[_ (? & _)]|[[E _]|[_ (_ & _ & ? & _)]]];
      done.
Qed.

Lemma grouped_block_relations es gs pn pw pr :
  grouped s0 R D es gs pn pw pr ->
  Forall2 (relation_reads s0 R) (relations_of es)
    (concat (map OSMPBF.relations gs)).
Proof.
  intros Hg. pose proof Hg as [Hn Hw Hr Hc Hnw Hnr Hwr].
  destruct pr as [i|] eqn:Ep.
  - destruct Hr as (g & Hgi & _ & _ & _ & H).
    rewrite (concat_map_single OSMPBF.relations gs i g Hgi); [done|].
    intros j g' Hj Hne.
    destruct (grouped_kinds _ _ _ _ _ j g' Hg Hj)
      as [[_ (_ & ? & _)]|[[_ (_ & _ & ? & _)]|[E _]]]; try done. congruence.
  - destruct Hr as (_ & _ & _ & H). rewrite concat_map_none; [done|].
    intros j g' Hj.
    destruct (grouped_kinds _ _ _ _ _ j g' Hg Hj)
      as [[_ (_ & ? & _)]|[[_ (_ & _ & ? & _)]|[E _]]]; done.
Qed.

Lemma grouped_block_nodes es gs pn pw pr :
  grouped s0 R D es gs pn pw pr ->
  Forall2 (node_reads s0 R)
    (if m_use_dense_format s0 then [] else nodes_of es)
    (concat (map OSMPBF.nodes gs)).
Proof.
  intros Hg. pose proof Hg as [Hn Hw Hr Hc Hnw Hnr Hwr].
  assert (Ho : forall j g', gs !! j = Some g' -> pn <> Some j ->
                            OSMPBF.nodes g' = []).
  { intros j g' Hj Hne.
    destruct (grouped_kinds _ _ _ _ _ j g' Hg Hj) as [[E _]|[[_ (? & _)]|[_ (? & _)]]];
      done. }
  destruct pn as [i|] eqn:Ep.
  - destruct Hn as (g & Hgi & _ & _ & H).
    rewrite (concat_map_single OSMPBF.nodes gs i g Hgi).
    + destruct (m_use_dense_format s0).
      * destruct H as (-> & _). constructor.
      * by destruct H.
    + intros j g' Hj Hne. apply (Ho j g' Hj). congruence.
  - rewrite concat_map_none.
    + destruct Hn as (_ & _ & H). destruct (m_use_dense_format s0);
        [constructor|by destruct H].
    + intros j g' Hj. by apply (Ho j g' Hj).
Qed.

Lemma grouped_block_dense es gs pn pw pr d :
  grouped s0 R D es gs pn pw pr ->
  d ∈ omap OSMPBF.dense gs ->
  m_use_dense_format s0 = true
  /\ length (OSMPBF.dense_id d) = length (nodes_of es)
  /\ D (nodes_of es) (OSMPBF.keys_vals d).
Proof.
  intros Hg. rewrite list_elem_of_omap. intros (g & Hin & Hd).
  apply list_elem_of_lookup in Hin. destruct Hin as [j Hj].
  destruct (grouped_kinds _ _ _ _ _ j g Hg Hj)
    as [[_ (_ & _ & H)]|[[_ (_ & ? & _)]|[_ (_ & ? & _)]]]; try congruence.
  destruct (m_use_dense_format s0); [|destruct H; congruence].
  rewrite Hd in H. simpl in H. by destruct H as (_ & ? & ?).
Qed.

Lemma grouped_single_kind es gs pn pw pr :
  grouped s0 R D es gs pn pw pr -> populated es pn pw pr ->
  Forall single_kind gs.
Proof.
  intros Hg Hp.
  apply Forall_forall. intros g Hin.
  apply list_elem_of_lookup in Hin. destruct Hin as [j Hj].
  destruct Hp as (Pn & Pw & Pr).
  destruct (grouped_kinds _ _ _ _ _ j g Hg Hj)
    as [[E (Hw & Hr & H)]|[[E (Hn & Hd & Hr & H)]|[E (Hn & Hd & Hw & H)]]].
  - assert (Hne : nodes_of es <> []) by (apply Pn; congruence).
    destruct (m_use_dense_format s0).
    + right; left. destruct H as (Hn & Hl & _).
      repeat split; try done.
      destruct (OSMPBF.dense g); [by eexists|].
      simpl in Hl. by destruct (nodes_of es).
    + left. destruct H as (Hd & Hf). repeat split; try done.
      intros Hnil. rewrite Hnil in Hf. by inversion Hf.
  - assert (Hne : ways_of es <> []) by (apply Pw; congruence).
    right; right; left. repeat split; try done.
    intros Hnil. rewrite Hnil in H. by inversion H.
  - assert (Hne : relations_of es <> []) by (apply Pr; congruence).
    right; right; right. repeat split; try done.
    intros Hnil. rewrite Hnil in H. by inversion H.
Qed.

Lemma grouped_one_group_per_kind es gs pn pw pr :
  grouped s0 R D es gs pn pw pr -> one_group_per_kind gs.
Proof.
  intros Hg.
  intros i j gi gj Hi Hj H.
  assert (Hnone : forall g : OSMPBF.PrimitiveGroup,
            OSMPBF.dense g = None -> ~ is_Some (OSMPBF.dense g)).
  { intros g -> [? ?]. done. }
  destruct (grouped_kinds _ _ _ _ _ i gi Hg Hi)
    as [[Ei (Hwi & Hri & _)]|[[Ei (Hni & Hdi & Hri & _)]
                             |[Ei (Hni & Hdi & Hwi & _)]]];
    destruct (grouped_kinds _ _ _ _ _ j gj Hg Hj)
      as [[Ej (Hwj & Hrj & _)]|[[Ej (Hnj & Hdj & Hrj & _)]
                               |[Ej (Hnj & Hdj & Hwj & _)]]];
    try congruence; exfalso;
    destruct H as [[[?|?] [?|?]]|[[? ?]|[? ?]]]; try done;
    match goal with
    | Hs : is_Some (OSMPBF.dense ?g), Hd : OSMPBF.dense ?g = None |- _ =>
        by apply (Hnone g Hd)
    end.
Qed.

Lemma grouped_length es gs pn pw pr :
  grouped s0 R D es gs pn pw pr -> (length gs <= 3)%nat.
Proof.
  intros Hg. destruct Hg as [_ _ _ Hc _ _ _].
  destruct (le_lt_dec (length gs) 3) as [|Hlt]; [done|exfalso].
  destruct (Hc 0%nat ltac:(lia)) as [E0|[E0|E0]];
    destruct (Hc 1%nat ltac:(lia)) as [E1|[E1|E1]];
    destruct (Hc 2%nat ltac:(lia)) as [E2|[E2|E2]];
    destruct (Hc 3%nat ltac:(lia)) as [E3|[E3|E3]]; congruence.
Qed.

End Flatten.

(** ** Blocks as they are stored *)

Section StoredBlocks.
Context {PB : Protobuf} {ZL : Zlib}.
Variable s0 : PBF.

(** A stored block read against the entities [es] that went into it. *)
Record block_reads (es : list Entity) (b : OSMPBF.PrimitiveBlock) : Prop := {
  br_some : es <> [];
  br_max : Z.of_nat (length es) <= max_block_contents;
  br_count : block_entity_count b = length es;
  br_granularity :
    OSMPBF.granularity b = m_location_granularity s0
    /\ OSMPBF.date_granularity b = m_date_granularity s0;
  br_strings :
    NoDup (OSMPBF.stringtable b)
    /\ OSMPBF.stringtable b !! 0%nat = Some EmptyString;
  br_shape : block_shape b;
  br_nodes :
    Forall2 (node_reads s0 (string_at (OSMPBF.stringtable b)))
      (if m_use_dense_format s0 then [] else nodes_of es) (block_nodes b);
  br_ways :
    Forall2 (way_reads s0 (string_at (OSMPBF.stringtable b)))
      (ways_of es) (block_ways b);
  br_relations :
    Forall2 (relation_reads s0 (string_at (OSMPBF.stringtable b)))
      (relations_of es) (block_relations b);
  br_dense :
    forall d, d ∈ block_dense b ->
      m_use_dense_format s0 = true
      /\ length (OSMPBF.dense_id d) = length (nodes_of es)
      /\ final_tags (OSMPBF.stringtable b) (nodes_of es) (OSMPBF.keys_vals d)
      /\ reads_back s0 (OSMPBF.stringtable b) (nodes_of es) d;
  br_dense_one :
    m_use_dense_format s0 = true -> nodes_of es <> [] ->
    exists d, block_dense b = [d]
}.

(** The writer between two operations, with the entities [es] in the block
    in flight. *)
Record block_state (es : list Entity) (s : PBF) : Prop := {
  bs_body : block_body s0 es s;
  bs_contents : primitive_block_contents s = Z.of_nat (length es);
  bs_max : Z.of_nat (length es) <= max_block_contents;
  bs_populated : populated es (pbf_nodes s) (pbf_ways s) (pbf_relations s);
  bs_dense : exists od, dense_state s0 (nodes_of es) s od
}.

Lemma block_state_start s :
  block_start s -> same_config s0 s -> block_state [] s.
Proof.
  intros Hb Hc. split.
  - by apply block_body_start.
  - by destruct Hb as (_ & _ & _ & _ & _ & _ & -> & _).
  - unfold max_block_contents. simpl. lia.
  - destruct Hb as (_ & _ & -> & -> & -> & _). by repeat split.
  - exists None. by apply dense_state_start.
Qed.

Lemma prepare_primitive_block_fields s :
  string_table (prepare_primitive_block s)
  = (store_stringtable (string_table s)).2
  /\ groups (prepare_primitive_block s) = groups s
  /\ pbf_nodes (prepare_primitive_block s) = pbf_nodes s
  /\ pbf_ways (prepare_primitive_block s) = pbf_ways s
  /\ pbf_relations (prepare_primitive_block s) = pbf_relations s
  /\ OSMPBF.stringtable (pbf_primitive_block (prepare_primitive_block s))
     = (store_stringtable (string_table s)).1
  /\ OSMPBF.granularity (pbf_primitive_block (prepare_primitive_block s))
     = m_location_granularity s
  /\ OSMPBF.date_granularity (pbf_primitive_block (prepare_primitive_block s))
     = m_date_granularity s.
Proof.
  unfold prepare_primitive_block.
  destruct (store_stringtable (string_table s)). done.
Qed.

Lemma block_body_empty s :
  block_body s0 [] s -> flush_due s = true ->
  8000 <= primitive_block_contents s.
Proof.
  intros [_ _ Hsz _ Hg] Hd. apply flush_due_iff in Hd.
  destruct Hd as [Hd|[_ Hd]]; [done|exfalso].
  pose proof (grouped_block_ways _ _ _ _ _ _ _ _ Hg) as Hw.
  pose proof (grouped_block_relations _ _ _ _ _ _ _ _ Hg) as Hr.
  apply (Forall2_nil_inv_l (way_reads s0 _)) in Hw.
  apply (Forall2_nil_inv_l (relation_reads s0 _)) in Hr.
  unfold size_estimate, block_ways, block_relations in Hsz.
  unfold groups in Hw, Hr. rewrite Hw, Hr in Hsz.
  simpl in Hsz. rewrite Hsz in Hd. done.
Qed.

(** The flush of a block: the stored block reads as the entities of the
    block in flight, and the writer is at a block start. *)
Lemma flush_block_state cur s s' :
  block_state cur s -> cur <> [] -> store_primitive_block s = Ok s' ->
  exists b,
    stored s' = stored s ++ [("OSMData"%string, OSMPBF.PrimitiveMessage b)]
    /\ block_reads cur b
    /\ block_start s'
    /\ same_config s0 s'
    /\ file_closed (m_file s') = file_closed (m_file s).
Proof.
  intros [[Hc Hok Hsz Hcnt Hg] Hk Hmax Hpop [od Hd]] Hne Hf.
  destruct (dense_state_flush s0 _ _ _ _ Hd Hf)
    as (b & Hst & Hbs & Hcfg & Hnd & Htab & Hone & Hrb).
  exists b. split; [done|]. split; [|split; [done|split; [done|]]].
  2: { unfold store_primitive_block in Hf.
       apply bind_Ok in Hf. destruct Hf as (s1 & Hm & Hf).
       apply bind_Ok in Hf. destruct Hf as (s2 & Hb2 & [= <-]).
       unfold store_blob in Hb2.
       apply bind_Ok in Hb2. destruct Hb2 as (blob & _ & Hb2).
       cbn zeta in Hb2.
       assert (Hcl : forall buf f, file_closed (sys_write buf f).2 = file_closed f).
       { intros buf f. unfold sys_write.
         destruct (fd_pending f) as [|[|n] ?]; done. }
       pose proof (map_string_ids_frame _ _ Hm) as E1.
       assert (Ef : m_file s1 = m_file s).
       { rewrite E1. unfold prepare_primitive_block.
         destruct (store_stringtable (string_table s)). done. }
       repeat match type of Hb2 with
              | context [sys_write ?buf ?f] =>
                  pose proof (Hcl buf f);
                  destruct (sys_write buf f) as [? ?]; simpl in *
              | (if ?c then _ else _) = _ => destruct c; [discriminate Hb2|]
              end.
       injection Hb2 as <-. simpl. congruence. }
  destruct (store_primitive_block_shape _ _ Hf) as (s1 & f & Hm & Es' & _).
  rewrite Es' in Hst. simpl in Hst. apply app_inj_tail in Hst.
  destruct Hst as [_ [= <-]].
  destruct (prepare_primitive_block_fields s)
    as (Pt & Pg & Pn & Pw & Pr & Pst & Pgr & Pdg).
  destruct (map_string_ids_passes _ _ Hm)
    as (gsa & gsb & PA & PB_ & PC & Est & Egr & Edg).
  rewrite Pt, Pg, Pn in PA. rewrite Pt, Pw in PB_. rewrite Pt, Pr in PC.
  rewrite Pst in Est. rewrite Pgr in Egr. rewrite Pdg in Edg.
  destruct (grouped_final s0 _ Hok _ _ _ _ _ _ _ _ _ Hg PA PB_ PC)
    as [Hfin Hcount].
  rewrite <- Est in Hfin.
  destruct Hc as (Cl & Cd & _).
  split.
  - done.
  - done.
  - unfold block_entity_count. fold (groups s1). rewrite Hcount. exact Hcnt.
  - split; congruence.
  - split; [done|]. by rewrite Est.
  - split.
    + eapply grouped_single_kind; [exact Hfin|exact Hpop].
    + eapply grouped_one_group_per_kind; exact Hfin.
    + eapply grouped_length; exact Hfin.
  - eapply grouped_block_nodes; exact Hfin.
  - eapply grouped_block_ways; exact Hfin.
  - eapply grouped_block_relations; exact Hfin.
  - intros d Hin.
    destruct (grouped_block_dense _ _ _ _ _ _ _ _ d Hfin Hin) as (? & ? & ?).
    destruct (Hrb d Hin) as [_ ?]. done.
  - intros Hdf Hn. apply Hone. unfold dense_nodes. by rewrite Hdf.
Qed.

End StoredBlocks.

(** ** Runs *)

Section Runs.
Context {PB : Protobuf} {ZL : Zlib}.
Variable s0 : PBF.

(** An entity counted and encoded into the block in flight. *)
Lemma count_encode_block_state e cur s s' :
  block_state s0 cur s ->
  Z.of_nat (length cur) < max_block_contents ->
  encode e (set_primitive_block_contents (Z.of_nat (length cur) + 1) s) = Ok s' ->
  block_state s0 (cur ++ [e]) s'
  /\ stored s' = stored s
  /\ m_file s' = m_file s.
Proof.
  intros [Hb Hk Hmax Hpop [od Hd]] Hlt He.
  set (s1 := set_primitive_block_contents (Z.of_nat (length cur) + 1) s) in *.
  assert (Hb1 : block_body s0 cur s1).
  { eapply block_body_ext; [exact Hb|by repeat split|done..]. }
  destruct (encode_block_body s0 _ _ _ _ Hb1 He) as (Hb' & (Fc & Fs & Ff & _) & Hp).
  assert (Hd1 : dense_state s0 (nodes_of cur) s1 od).
  { eapply dense_state_frame;
      [exact Hd|by repeat split|apply (ds_table _ _ _ _ Hd)
      |apply table_extends_refl|done|done|done|done]. }
  destruct (encode_dense_state s0 _ _ _ _ _ Hd1 He) as [[od' Hd'] _].
  split; [|done]. split.
  - done.
  - rewrite Fc. subst s1. simpl. rewrite length_app. simpl. lia.
  - rewrite length_app. simpl. lia.
  - destruct Hpop as (Pn & Pw & Pr). unfold populated.
    rewrite nodes_of_snoc, ways_of_snoc, relations_of_snoc.
    destruct e as [n|w|r]; destruct Hp as (Hsome & E1 & E2);
      rewrite ?E1, ?E2, ?app_nil_r; subst s1; simpl;
      repeat split; try done; intros _ Hnil; by apply app_eq_nil in Hnil as [_ ?].
  - exists od'. rewrite nodes_of_snoc.
    replace (match e with ENode n => [n] | _ => [] end) with (nodes_of [e])
      by (by destruct e). done.
Qed.

(** One operation: the entity joins the block in flight, or the block in
    flight is stored and the entity opens the next one. *)
Lemma ingest_block_state e cur s s' :
  block_state s0 cur s -> ingest e s = Ok s' ->
  file_closed (m_file s') = file_closed (m_file s)
  /\ ((stored s' = stored s /\ block_state s0 (cur ++ [e]) s')
      \/ exists b,
           stored s'
           = stored s ++ [("OSMData"%string, OSMPBF.PrimitiveMessage b)]
           /\ block_reads s0 cur b
           /\ block_state s0 [e] s').
Proof.
  intros Hs Hi. rewrite ingest_unfold in Hi.
  apply bind_Ok in Hi. destruct Hi as (s1 & Hc & He).
  apply check_block_contents_counter_inv in Hc.
  destruct Hc as [[Hd ->]|[Hd (s2 & Hf & ->)]].
  - assert (Hlt : Z.of_nat (length cur) < max_block_contents).
    { apply not_true_iff_false in Hd. rewrite flush_due_iff in Hd.
      rewrite (bs_contents _ _ _ Hs) in Hd. unfold max_block_contents. lia. }
    rewrite (bs_contents _ _ _ Hs) in He.
    rewrite to_uint16_id in He by (unfold max_block_contents in Hlt; lia).
    destruct (count_encode_block_state _ _ _ _ Hs Hlt He) as (Hs' & Hst & Hfile).
    split; [by rewrite Hfile|]. left. done.
  - assert (Hne : cur <> []).
    { intros ->. pose proof (block_body_empty s0 _ (bs_body _ _ _ Hs) Hd) as H.
      rewrite (bs_contents _ _ _ Hs) in H. simpl in H. lia. }
    destruct (flush_block_state s0 _ _ _ Hs Hne Hf)
      as (b & Hst & Hrb & Hbs & Hcfg & Hcl).
    pose proof (block_state_start s0 _ Hbs Hcfg) as Hs2.
    change 1 with (Z.of_nat (length (@nil Entity)) + 1) in He.
    destruct (count_encode_block_state _ _ _ _ Hs2 ltac:(done) He)
      as (Hs' & Hst' & Hfile).
    split; [by rewrite Hfile|]. right. exists b.
    split; [by rewrite Hst'|]. done.
Qed.

(** The frames of the data blocks [bs]. *)
Definition data_frames (bs : list OSMPBF.PrimitiveBlock) : list (string * OSMPBF.Message) :=
  (fun b => ("OSMData"%string, OSMPBF.PrimitiveMessage b)) <$> bs.

(** A run of operations: the entities are cut into the blocks that were
    stored and the block in flight. *)
Lemma ingest_all_block_state es : forall cur s s',
  block_state s0 cur s -> ingest_all es s = Ok s' ->
  exists chunks bs cur',
    stored s' = stored s ++ data_frames bs
    /\ Forall2 (block_reads s0) chunks bs
    /\ block_state s0 cur' s'
    /\ cur ++ es = concat chunks ++ cur'
    /\ file_closed (m_file s') = file_closed (m_file s).
Proof.
  induction es as [|e es IH]; intros cur s s' Hs Hi; simpl in Hi.
  - injection Hi as <-. exists [], [], cur. simpl.
    rewrite !app_nil_r. repeat (split; [done|]); done.
  - apply bind_Ok in Hi. destruct Hi as (s1 & H1 & H2).
    destruct (ingest_block_state _ _ _ _ Hs H1)
      as [Hcl [[Hst Hs1]|(b & Hst & Hrb & Hs1)]].
    + destruct (IH _ _ _ Hs1 H2) as (chunks & bs & cur' & E & Hall & Hs' & Hcat & Hcl').
      exists chunks, bs, cur'. rewrite E, Hst.
      split; [done|]. split; [done|]. split; [done|].
      split; [by rewrite <- Hcat, <- app_assoc|congruence].
    + destruct (IH _ _ _ Hs1 H2) as (chunks & bs & cur' & E & Hall & Hs' & Hcat & Hcl').
      exists (cur :: chunks), (b :: bs), cur'. rewrite E, Hst.
      split; [by rewrite <- app_assoc|]. split; [by constructor|].
      split; [done|]. split; [|congruence].
      simpl. rewrite <- app_assoc, <- Hcat. done.
Qed.

(** A session: the header, then the entities cut into the blocks that were
    stored, none left behind. *)
Lemma session_blocks meta es s' :
  block_start s0 -> session meta es s0 = Ok s' ->
  exists h chunks bs,
    stored s'
    = stored s0 ++ ("OSMHeader"%string, OSMPBF.HeaderMessage h) :: data_frames bs
    /\ concat chunks = es
    /\ Forall2 (block_reads s0) chunks bs
    /\ file_closed (m_file s') = true
    /\ block_entity_count (pbf_primitive_block s') = 0%nat.
Proof.
  intros Hb Hs. unfold session in Hs.
  apply bind_Ok in Hs. destruct Hs as (s1 & Hi & Hs).
  apply bind_Ok in Hs. destruct Hs as (s2 & Ha & Hf).
  destruct (block_start_init _ _ _ Hi Hb) as [Hb1 Hc1].
  assert (exists h, stored s1
                    = stored s0 ++ [("OSMHeader"%string, OSMPBF.HeaderMessage h)])
    as [h Hst1].
  { unfold init, store_header_block in Hi.
    apply bind_Ok in Hi. destruct Hi as (bbox & _ & Hi).
    apply bind_Ok in Hi. destruct Hi as (sx & Hx & [= <-]).
    apply store_blob_inv in Hx. destruct Hx as (f & -> & _).
    eexists. reflexivity. }
  pose proof (block_state_start s0 _ Hb1 Hc1) as Hs1.
  destruct (ingest_all_block_state _ _ _ _ Hs1 Ha)
    as (chunks & bs & cur & E & Hall & Hs2 & Hcat & _).
  simpl in Hcat. unfold final in Hf.
  apply bind_Ok in Hf. destruct Hf as (s3 & Hfl & [= <-]). simpl.
  rewrite (bs_contents _ _ _ Hs2) in Hfl.
  destruct (Z.ltb_spec 0 (Z.of_nat (length cur))) as [Hpos|Hzero].
  - assert (Hne : cur <> []) by (intros ->; simpl in Hpos; lia).
    destruct (flush_block_state s0 _ _ _ Hs2 Hne Hfl)
      as (b & Hst & Hrb & Hbs & _ & _).
    exists h, (chunks ++ [cur]), (bs ++ [b]).
    split; [|split; [|split; [|split]]].
    + rewrite Hst, E, Hst1. unfold data_frames.
      rewrite fmap_app, <- !app_assoc. done.
    + rewrite concat_app. simpl. by rewrite app_nil_r.
    + apply Forall2_app; [done|]. by constructor.
    + done.
    + destruct Hbs as (_ & Hbi & _). simpl. by rewrite Hbi.
  - injection Hfl as <-. assert (cur = []) as -> by (destruct cur; simpl in *; [done|lia]).
    exists h, chunks, bs. split; [|split; [|split; [|split]]].
    + rewrite E, Hst1, <- app_assoc. done.
    + by rewrite app_nil_r in Hcat.
    + done.
    + done.
    + by destruct (bs_body _ _ _ Hs2) as [_ _ _ Hcnt _].
Qed.

End Runs.

(** ** Operations that return *)

(** What the writer needs of an entity to encode it: coordinates and a
    timestamp that convert to int64_t, and member kinds the switch knows. *)
Definition entity_encodable `{!Protobuf, !Zlib} (s : PBF) (e : Entity) : Prop :=
  match e with
  | ENode n =>
      is_ok (lonlat2int s (OSM.lon n))
      /\ is_ok (lonlat2int s (OSM.lat n))
      /\ (m_should_add_metadata s = true ->
          is_ok (timestamp2int s (OSM.timestamp (OSM.node_object n))))
  | EWay w =>
      m_should_add_metadata s = true ->
      is_ok (timestamp2int s (OSM.timestamp (OSM.way_object w)))
  | ERelation r =>
      (m_should_add_metadata s = true ->
       is_ok (timestamp2int s (OSM.timestamp (OSM.relation_object r))))
      /\ Forall (fun m => known_member_type (OSM.type m)) (OSM.members r)
  end.

(** The bounding box of the header converts. *)
Definition bounds_convertible (meta : OSM.Meta) : Prop :=
  match OSM.bounds meta with
  | None => True
  | Some b =>
      is_ok (bbox_edge (OSM.bottom_left_lon b))
      /\ is_ok (bbox_edge (OSM.bottom_left_lat b))
      /\ is_ok (bbox_edge (OSM.top_right_lon b))
      /\ is_ok (bbox_edge (OSM.top_right_lat b))
  end.

(** *** The flush-time rewrite returns *)

(** Every id that stands for a string is bound once the table is stored. *)
Lemma string_known_mappable t str i :
  table_ok t -> string_known t str i -> mappable (store_stringtable t).2 i.
Proof.
  intros Hok [[_ ->]|(info & Hs & <-)].
  - unfold mappable. by rewrite store_stringtable_final_0.
  - apply store_stringtable_mappable; [done|].
    by destruct (table_ids _ Hok _ _ Hs) as (? & _).
Qed.

Lemma string_known_bounds t str i :
  table_ok t -> string_known t str i -> 0 <= i <= m_size t.
Proof.
  intros Hok [[_ ->]|(info & Hs & <-)].
  - pose proof (table_size _ Hok). lia.
  - destruct (table_ids _ Hok _ _ Hs) as (? & _). lia.
Qed.

Section MappingReturns.
Context {PB : Protobuf} {ZL : Zlib}.
Variable t : StringTable.

Lemma map_tags_returns ks : forall vs,
  Forall (mappable t) ks -> Forall (mappable t) vs -> length ks = length vs ->
  is_ok (map_tags t ks vs).
Proof.
  induction ks as [|k ks IH]; intros [|v vs] Hk Hv Hl; try discriminate Hl;
    [done|].
  apply Forall_cons in Hk. destruct Hk as [Hk Hks].
  apply Forall_cons in Hv. destruct Hv as [Hv Hvs].
  injection Hl as Hl. specialize (IH vs Hks Hvs Hl).
  cbn [map_tags]. unfold mappable in Hk, Hv.
  destruct (map_string_id t k); [|done].
  destruct (map_string_id t v); [|done]. simpl.
  by destruct (map_tags t ks vs) as [[? ?]|].
Qed.

Lemma map_common_string_ids_returns c :
  Forall (mappable t) (OSMPBF.keys c) -> Forall (mappable t) (OSMPBF.vals c) ->
  length (OSMPBF.keys c) = length (OSMPBF.vals c) ->
  (forall i, OSMPBF.info c = Some i -> mappable t (OSMPBF.info_user_sid i)) ->
  is_ok (map_common_string_ids t c).
Proof.
  intros Hk Hv Hl Hi. unfold map_common_string_ids.
  pose proof (map_tags_returns _ _ Hk Hv Hl) as Ht.
  destruct (OSMPBF.info c) as [i|].
  - specialize (Hi i eq_refl). unfold mappable in Hi. unfold map_info.
    destruct (map_string_id t (OSMPBF.info_user_sid i)); [|done]. simpl.
    by destruct (map_tags t _ _) as [[? ?]|].
  - simpl. by destruct (map_tags t _ _) as [[? ?]|].
Qed.

Lemma map_dense_user_sid_returns us : forall d,
  Forall (mappable t) us -> is_ok (map_dense_user_sid t us d).
Proof.
  induction us as [|u us IH]; intros d Hu; [done|].
  apply Forall_cons in Hu. destruct Hu as [Hu Hus].
  cbn [map_dense_user_sid]. unfold mappable in Hu.
  destruct (map_string_id t u); [|done]. simpl.
  specialize (IH {| prev := to_uint32 (to_uint16 a) |} Hus).
  by destruct (map_dense_user_sid t us _) as [[? ?]|].
Qed.

Lemma map_dense_returns d dl :
  Forall (fun e => is_ok (map_keys_vals_entry t e)) (OSMPBF.keys_vals d) ->
  (forall di, OSMPBF.denseinfo d = Some di ->
     Forall (mappable t) (OSMPBF.di_user_sid di)) ->
  is_ok (map_dense t d dl).
Proof.
  intros Hkv Hu. unfold map_dense.
  apply for_each_ok in Hkv.
  destruct (for_each (map_keys_vals_entry t) (OSMPBF.keys_vals d)); [|done].
  simpl. destruct (OSMPBF.denseinfo d) as [di|]; [|done].
  pose proof (map_dense_user_sid_returns _ dl (Hu di eq_refl)) as H.
  by destruct (map_dense_user_sid t _ dl) as [[? ?]|].
Qed.

End MappingReturns.

Section ReadsReturn.
Context {PB : Protobuf} {ZL : Zlib}.
Variable s0 : PBF.
Variable t : StringTable.
Hypothesis Hok : table_ok t.

Let t' := (store_stringtable t).2.

Lemma known_mappable strs ids :
  Forall2 (string_known t) strs ids -> Forall (mappable t') ids.
Proof.
  induction 1 as [|str i strs ids H _ IH]; constructor; [|done].
  by eapply string_known_mappable.
Qed.

Lemma common_reads_returns obj c :
  common_reads s0 (string_known t) obj c -> is_ok (map_common_string_ids t' c).
Proof.
  intros [_ Hk Hv Hno Hi]. apply map_common_string_ids_returns.
  - by eapply known_mappable.
  - by eapply known_mappable.
  - apply Forall2_length in Hk, Hv. rewrite <- Hk, <- Hv.
    by rewrite !length_fmap.
  - intros i Ei. destruct (m_should_add_metadata s0) eqn:Em.
    + destruct (Hi eq_refl) as (i' & Ei' & _ & _ & _ & _ & Hu & _).
      rewrite Ei in Ei'. injection Ei' as <-.
      by eapply string_known_mappable.
    + rewrite (Hno eq_refl) in Ei. done.
Qed.

Lemma node_reads_returns n pn :
  node_reads s0 (string_known t) n pn -> is_ok (map_node t' pn).
Proof.
  intros [Hc _ _]. apply common_reads_returns in Hc. unfold map_node.
  by destruct (map_common_string_ids t' _).
Qed.

Lemma way_reads_returns w pw :
  way_reads s0 (string_known t) w pw -> is_ok (map_way t' pw).
Proof.
  intros [Hc _ _]. apply common_reads_returns in Hc. unfold map_way.
  by destruct (map_common_string_ids t' _).
Qed.

Lemma relation_reads_returns r pr :
  relation_reads s0 (string_known t) r pr -> is_ok (map_relation t' pr).
Proof.
  intros [Hc Hr _ _ _]. apply common_reads_returns in Hc. unfold map_relation.
  destruct (map_common_string_ids t' _); [|done]. simpl.
  apply known_mappable in Hr. apply for_each_ok in Hr.
  by destruct (for_each (map_string_id t') _).
Qed.

Lemma dense_tags_read_returns ns kv :
  dense_tags_read (string_known t) ns kv ->
  Forall (fun e => is_ok (map_keys_vals_entry t' e)) kv.
Proof.
  assert (Hmap : forall k, 1 <= k <= m_size t -> mappable t' k)
    by (intros k Hk; by apply store_stringtable_mappable).
  intros (rows & -> & Hrows).
  induction Hrows as [|n row ns rows (ids & -> & Hids) _ IH]; [constructor|].
  cbn [concat]. apply Forall_app. split; [|done].
  apply Forall_app. split.
  - clear -Hids Hok Hmap. induction Hids as [|str i strs ids H _ IH];
      constructor; [|done].
    apply (map_keys_vals_entry_ok t' (m_size t) Hmap).
    by eapply string_known_bounds.
  - constructor; [done|constructor].
Qed.

End ReadsReturn.

(** *** The three passes return *)

Section PassesReturn.
Context {PB : Protobuf} {ZL : Zlib}.

Lemma groups_put_group i g s : groups (put_group i g s) = <[i := g]> (groups s).
Proof. reflexivity. Qed.

Lemma map_string_ids_returns s :
  held (groups s) (pbf_nodes s)
    (fun g => is_ok (map_nodes_group (string_table s) (m_delta_user_sid s) g)) ->
  held (groups s) (pbf_ways s)
    (fun g => is_ok (map_ways_group (string_table s) g)) ->
  held (groups s) (pbf_relations s)
    (fun g => is_ok (map_relations_group (string_table s) g)) ->
  ptr_distinct (pbf_nodes s) (pbf_ways s) ->
  ptr_distinct (pbf_nodes s) (pbf_relations s) ->
  ptr_distinct (pbf_ways s) (pbf_relations s) ->
  is_ok (map_string_ids s).
Proof.
  intros Hn Hw Hr Dnw Dnr Dwr. unfold map_string_ids.
  set (t := string_table s).
  (* the nodes *)
  assert (exists sa,
    match pbf_nodes s with
    | Some _ =>
        '(i, g) ← group_at (pbf_nodes s) s;
        ns ← for_each (map_node t) (OSMPBF.nodes g);
        '(dense, d) ←
          match OSMPBF.dense g with
          | Some dense =>
              '(dense', d) ← map_dense t dense (m_delta_user_sid s);
              Ok (Some dense', d)
          | None => Ok (None, m_delta_user_sid s)
          end;
        Ok (set_m_delta_user_sid d
              (put_group i
                 {| OSMPBF.nodes := ns; OSMPBF.dense := dense;
                    OSMPBF.ways := OSMPBF.ways g;
                    OSMPBF.relations := OSMPBF.relations g |} s))
    | None => Ok s
    end = Ok sa
    /\ pbf_ways sa = pbf_ways s /\ pbf_relations sa = pbf_relations s
    /\ forall j, pbf_nodes s <> Some j -> groups sa !! j = groups s !! j)
    as (sa & -> & Ew & Er & Ga).
  { destruct (pbf_nodes s) as [i|] eqn:En; [|by exists s].
    destruct Hn as (g & Hg & Hn). unfold group_at. unfold groups in Hg.
    rewrite Hg. simpl. unfold map_nodes_group in Hn. fold t in Hn.
    destruct (for_each (map_node t) (OSMPBF.nodes g)) as [ns|]; [|done].
    simpl in *. destruct (OSMPBF.dense g) as [d|].
    - destruct (map_dense t d (m_delta_user_sid s)) as [[d' dl]|]; [|done].
      simpl. eexists. split; [reflexivity|]. split; [done|]. split; [done|].
      intros j Hj. apply list_lookup_insert_ne. congruence.
    - simpl. eexists. split; [reflexivity|]. split; [done|]. split; [done|].
      intros j Hj. apply list_lookup_insert_ne. congruence. }
  rewrite bind_Ok_l.
  (* the ways *)
  assert (exists sb,
    match pbf_ways sa with
    | Some _ =>
        '(i, g) ← group_at (pbf_ways sa) sa;
        ws ← for_each (map_way t) (OSMPBF.ways g);
        Ok (put_group i
              {| OSMPBF.nodes := OSMPBF.nodes g; OSMPBF.dense := OSMPBF.dense g;
                 OSMPBF.ways := ws;
                 OSMPBF.relations := OSMPBF.relations g |} sa)
    | None => Ok sa
    end = Ok sb
    /\ pbf_relations sb = pbf_relations sa
    /\ forall j, pbf_ways sa <> Some j -> groups sb !! j = groups sa !! j)
    as (sb & -> & Fr & Gb).
  { rewrite Ew. destruct (pbf_ways s) as [i|] eqn:Ep; [|by exists sa].
    destruct Hw as (g & Hg & Hw). unfold group_at.
    assert (Hga : groups sa !! i = Some g).
    { rewrite Ga; [done|]. intros Hni. by apply (Dnw i). }
    unfold groups in Hga. rewrite Hga. simpl.
    unfold map_ways_group in Hw. fold t in Hw.
    destruct (for_each (map_way t) (OSMPBF.ways g)) as [ws|]; [|done].
    simpl. eexists. split; [reflexivity|]. split; [done|].
    intros j Hj. apply list_lookup_insert_ne. congruence. }
  rewrite bind_Ok_l.
  (* the relations *)
  rewrite Fr, Er. destruct (pbf_relations s) as [i|] eqn:Ep; [|done].
  destruct Hr as (g & Hg & Hr). unfold group_at.
  assert (Hgb : groups sb !! i = Some g).
  { rewrite Gb, Ga; [done| |].
    - intros Hni. by apply (Dnr i).
    - rewrite Ew. intros Hwi. by apply (Dwr i). }
  unfold groups in Hgb. rewrite Hgb. simpl.
  unfold map_relations_group in Hr. fold t in Hr.
  by destruct (for_each (map_relation t) (OSMPBF.relations g)).
Qed.

End PassesReturn.

(** *** A flush returns *)

Section FlushReturns.
Context {PB : Protobuf} {ZL : Zlib}.
Variable s0 : PBF.

Lemma prepare_primitive_block_delta s :
  m_delta_user_sid (prepare_primitive_block s) = m_delta_user_sid s.
Proof.
  unfold prepare_primitive_block.
  by destruct (store_stringtable (string_table s)).
Qed.

Lemma map_string_ids_block_state cur s :
  block_state s0 cur s -> is_ok (map_string_ids (prepare_primitive_block s)).
Proof.
  intros [[Hc Hok Hsz Hcnt Hg] Hk Hmax Hpop [od Hd]].
  destruct (prepare_primitive_block_fields s)
    as (Pt & Pg & Pn & Pw & Pr & _).
  destruct Hg as [Gn Gw Gr Gc Dnw Dnr Dwr].
  apply map_string_ids_returns;
    rewrite ?Pt, ?Pg, ?Pn, ?Pw, ?Pr, ?prepare_primitive_block_delta; try done.
  - (* the group of the nodes *)
    destruct (pbf_nodes s) as [i|] eqn:En; [|done].
    destruct Gn as (g & Hgi & Hw0 & Hr0 & Hn). exists g. split; [done|].
    unfold map_nodes_group.
    assert (Hns : is_ok (for_each (map_node (store_stringtable (string_table s)).2)
                           (OSMPBF.nodes g))).
    { destruct (m_use_dense_format s0).
      - destruct Hn as (-> & _). done.
      - destruct Hn as (_ & Hn). apply for_each_ok.
        clear -Hn Hok. induction Hn as [|n pn ns pns H _ IH]; constructor;
          [|done].
        by eapply node_reads_returns. }
    destruct (for_each _ (OSMPBF.nodes g)); [|done]. simpl.
    destruct (OSMPBF.dense g) as [d|] eqn:Ed; [|done].
    assert (Hod : od = Some d).
    { pose proof (ds_at _ _ _ _ Hd i En) as Ha. unfold dense_fields in Ha.
      rewrite list_lookup_fmap in Ha. unfold groups in Hgi.
      rewrite Hgi in Ha. simpl in Ha. congruence. }
    subst od.
    assert (Hmd : is_ok (map_dense (store_stringtable (string_table s)).2 d
                           (m_delta_user_sid s))).
    { apply map_dense_returns.
      - destruct (m_use_dense_format s0).
        + destruct Hn as (_ & _ & Hkv). simpl in Hkv.
          by eapply dense_tags_read_returns.
        + by destruct Hn as (Hnone & _).
      - intros di Hdi.
        pose proof (col_user _ _ _ _ (ds_columns _ _ _ _ Hd)) as Hu.
        unfold info_of, dense_of in Hu. simpl in Hu. rewrite Hdi in Hu.
        simpl in Hu. clear -Hu Hok.
        induction Hu as [|n i ns us H _ IH]; constructor; [|done].
        apply (string_known_mappable _ (node_user n)); [done|exact H]. }
    by destruct (map_dense _ d _) as [[? ?]|].
  - (* the group of the ways *)
    eapply held_impl; [|exact Gw]. intros g (_ & _ & _ & Hws).
    unfold map_ways_group. cut (is_ok (for_each (map_way (store_stringtable (string_table s)).2) (OSMPBF.ways g))).
    { by destruct (for_each _ _). }
    apply for_each_ok. clear -Hws Hok.
    induction Hws as [|w pw ws pws H _ IH]; constructor; [|done].
    by eapply way_reads_returns.
  - (* the group of the relations *)
    eapply held_impl; [|exact Gr]. intros g (_ & _ & _ & Hrs).
    unfold map_relations_group. cut (is_ok (for_each (map_relation (store_stringtable (string_table s)).2) (OSMPBF.relations g))).
    { by destruct (for_each _ _). }
    apply for_each_ok. clear -Hrs Hok.
    induction Hrs as [|r pr rs prs H _ IH]; constructor; [|done].
    by eapply relation_reads_returns.
Qed.

(** With complete writes and a working zlib the flush of a block
    returns. *)
Lemma store_primitive_block_returns cur s :
  block_state s0 cur s -> writes_complete s -> compression_works s ->
  exists s', store_primitive_block s = Ok s' /\ writes_complete s'.
Proof.
  intros Hs Hw Hz. pose proof (map_string_ids_block_state _ _ Hs) as Hm.
  apply is_ok_Ok in Hm. destruct Hm as [s1 Hm].
  destruct (store_primitive_block_complete _ _ Hm Hw Hz)
    as (f & -> & Hf & _).
  eexists. split; [reflexivity|]. exact Hf.
Qed.

End FlushReturns.

(** *** The encoders return *)

Section EncodersReturn.
Context {PB : Protobuf} {ZL : Zlib}.

Lemma write_members_returns ms : forall t d,
  Forall (fun m => known_member_type (OSM.type m)) ms ->
  is_ok (write_members ms t d).
Proof.
  induction ms as [|m ms IH]; intros t d Hk; [done|].
  apply Forall_cons in Hk. destruct Hk as [Hm Hk].
  cbn [write_members].
  destruct (record_string (OSM.role m) t) as [role t1].
  destruct (Delta_update to_int64 (OSM.ref m) d) as [memid d1].
  specialize (IH t1 d1 Hk).
  destruct (member_type_cases (OSM.type m))
    as [[_ ->]|[[_ ->]|[[_ ->]|[Hn _]]]]; [| | |done]; simpl;
    by destruct (write_members ms t1 d1) as [[[[? ?] ?] ?]|].
Qed.

Lemma write_way_returns w s :
  is_ok (group_at (pbf_ways s) s) ->
  (m_should_add_metadata s = true ->
   is_ok (timestamp2int s (OSM.timestamp (OSM.way_object w)))) ->
  is_ok (write_way w s).
Proof.
  intros Hg Hts. unfold write_way.
  destruct (group_at (pbf_ways s) s) as [[i g]|]; [|done]. simpl.
  destruct (apply_common_info_Ok (OSM.way_object w) s Hts) as (c & t & ->).
  done.
Qed.

Lemma write_relation_returns r s :
  is_ok (group_at (pbf_relations s) s) ->
  (m_should_add_metadata s = true ->
   is_ok (timestamp2int s (OSM.timestamp (OSM.relation_object r)))) ->
  Forall (fun m => known_member_type (OSM.type m)) (OSM.members r) ->
  is_ok (write_relation r s).
Proof.
  intros Hg Hts Hk. unfold write_relation.
  destruct (group_at (pbf_relations s) s) as [[i g]|]; [|done]. simpl.
  destruct (apply_common_info_Ok (OSM.relation_object r) s Hts) as (c & t & ->).
  simpl.
  pose proof (write_members_returns (OSM.members r) t Delta_init Hk) as Hm.
  by destruct (write_members _ _ _) as [[[[? ?] ?] ?]|].
Qed.

Lemma write_node_returns n s :
  is_ok (group_at (pbf_nodes s) s) ->
  is_ok (lonlat2int s (OSM.lon n)) -> is_ok (lonlat2int s (OSM.lat n)) ->
  (m_should_add_metadata s = true ->
   is_ok (timestamp2int s (OSM.timestamp (OSM.node_object n)))) ->
  is_ok (write_node n s).
Proof.
  intros Hg Hlon Hlat Hts. unfold write_node.
  destruct (group_at (pbf_nodes s) s) as [[i g]|]; [|done]. simpl.
  destruct (apply_common_info_Ok (OSM.node_object n) s Hts) as (c & t & ->).
  simpl.
  rewrite !(lonlat2int_ext (set_string_table t s) s) by done.
  destruct (lonlat2int s (OSM.lon n)); [|done]. simpl.
  destruct (lonlat2int s (OSM.lat n)); [|done]. exact I.
Qed.

Lemma write_dense_node_returns n s :
  is_ok (group_at (pbf_nodes s) s) ->
  is_ok (lonlat2int s (OSM.lon n)) -> is_ok (lonlat2int s (OSM.lat n)) ->
  (m_should_add_metadata s = true ->
   is_ok (timestamp2int s (OSM.timestamp (OSM.node_object n)))) ->
  is_ok (write_dense_node n s).
Proof.
  intros Hg Hlon Hlat Hts. unfold write_dense_node.
  destruct (group_at (pbf_nodes s) s) as [[i g]|]; [|done]. simpl.
  unfold Delta_update. cbn beta iota zeta.
  destruct (lonlat2int s (OSM.lon n)); [|done]. simpl.
  destruct (lonlat2int s (OSM.lat n)); [|done]. simpl.
  destruct (record_keys_vals _ _) as [kv t]. cbn beta iota zeta.
  destruct (m_should_add_metadata s); [|done].
  specialize (Hts eq_refl).
  destruct (timestamp2int s _); [|done]. simpl.
  by destruct (record_string _ _).
Qed.

(** A pointer that is set stands for a group of the block. *)
Definition pointers_valid (s : PBF) : Prop :=
  forall p i,
    p = pbf_nodes s \/ p = pbf_ways s \/ p = pbf_relations s ->
    p = Some i -> (i < length (groups s))%nat.

Lemma group_at_new s :
  OSMPBF.primitivegroup (pbf_primitive_block (add_primitivegroup s).2)
    !! (add_primitivegroup s).1
  = Some OSMPBF.PrimitiveGroup_init.
Proof.
  simpl. rewrite lookup_app_r, Nat.sub_diag by done. done.
Qed.

Lemma encode_returns s0 e s :
  same_config s0 s -> pointers_valid s -> entity_encodable s0 e ->
  is_ok (encode e s).
Proof.
  intros (Cl & Cd & Cf & _ & Cm & _) Hp He.
  assert (Hts : forall ts,
            (m_should_add_metadata s0 = true -> is_ok (timestamp2int s0 ts)) ->
            forall s2, m_should_add_metadata s2 = m_should_add_metadata s ->
                       m_date_granularity s2 = m_date_granularity s ->
                       m_should_add_metadata s2 = true ->
                       is_ok (timestamp2int s2 ts)).
  { intros ts H s2 E1 E2 Hm.
    rewrite (timestamp2int_ext s2 s0) by congruence. apply H. congruence. }
  assert (Hll : forall x, is_ok (lonlat2int s0 x) ->
            forall s2, m_location_granularity s2 = m_location_granularity s ->
                       is_ok (lonlat2int s2 x)).
  { intros x H s2 E. by rewrite (lonlat2int_ext s2 s0) by congruence. }
  assert (Hat : forall p i, p = pbf_nodes s \/ p = pbf_ways s \/ p = pbf_relations s ->
                  p = Some i -> is_ok (group_at (Some i) s)).
  { intros p i Hin Hpi. specialize (Hp p i Hin Hpi).
    apply lookup_lt_is_Some_2 in Hp. destruct Hp as [g Hg].
    unfold group_at. unfold groups in Hg. by rewrite Hg. }
  destruct e as [n|w|r]; simpl in He |- *.
  - destruct He as (Hlon & Hlat & Ht). unfold node_body.
    destruct (pbf_nodes s) as [i|] eqn:En.
    + destruct (m_use_dense_format s).
      * apply write_dense_node_returns; rewrite ?En; eauto.
      * apply write_node_returns; rewrite ?En; eauto.
    + set (s2 := let '(i, s') := add_primitivegroup s in set_pbf_nodes (Some i) s').
      assert (Hg2 : is_ok (group_at (pbf_nodes s2) s2)).
      { unfold s2, group_at. simpl.
        rewrite lookup_app_r, Nat.sub_diag by done. done. }
      change (m_use_dense_format s2) with (m_use_dense_format s).
      destruct (m_use_dense_format s).
      * apply write_dense_node_returns; eauto.
      * apply write_node_returns; eauto.
  - unfold way_body. destruct (pbf_ways s) as [i|] eqn:En.
    + apply write_way_returns; rewrite ?En; eauto.
    + apply write_way_returns; [|eauto].
      unfold group_at. simpl. rewrite lookup_app_r, Nat.sub_diag by done. done.
  - destruct He as [Ht Hk]. unfold relation_body.
    destruct (pbf_relations s) as [i|] eqn:En.
    + apply write_relation_returns; rewrite ?En; eauto.
    + apply write_relation_returns; [|eauto|done].
      unfold group_at. simpl. rewrite lookup_app_r, Nat.sub_diag by done. done.
Qed.

End EncodersReturn.

(** *** Sessions return *)

Section SessionsReturn.
Context {PB : Protobuf} {ZL : Zlib}.
Variable s0 : PBF.

(** The encoders leave the file alone. *)
Lemma encode_file e s s' : encode e s = Ok s' -> m_file s' = m_file s.
Proof.
  assert (Hn : forall n s2, write_node n s2 = Ok s' -> m_file s' = m_file s2).
  { intros n s2 H. unfold write_node in H.
    apply bind_Ok in H. destruct H as ([i g] & _ & H).
    apply bind_Ok in H. destruct H as ([c s1] & Ha & H).
    apply bind_Ok in H. destruct H as (lon & _ & H).
    apply bind_Ok in H. destruct H as (lat & _ & [= <-]).
    apply apply_common_info_inv in Ha. by rewrite Ha. }
  assert (Hd : forall n s2, write_dense_node n s2 = Ok s' ->
                            m_file s' = m_file s2).
  { intros n s2 H. unfold write_dense_node in H.
    apply bind_Ok in H. destruct H as ([i g] & _ & H).
    unfold Delta_update in H. cbn beta iota zeta in H.
    apply bind_Ok in H. destruct H as (lon & _ & H). cbn beta iota zeta in H.
    apply bind_Ok in H. destruct H as (lat & _ & H). cbn beta iota zeta in H.
    destruct (record_keys_vals _ _) as [kv t]. cbn beta iota zeta in H.
    apply bind_Ok in H. destruct H as ([di s3] & Hdi & [= <-]).
    destruct (m_should_add_metadata s2).
    - apply bind_Ok in Hdi. destruct Hdi as (ts & _ & Hdi).
      cbn beta iota zeta in Hdi. destruct (record_string _ _).
      by injection Hdi as <- <-.
    - by injection Hdi as <- <-. }
  assert (Hw : forall w s2, write_way w s2 = Ok s' -> m_file s' = m_file s2).
  { intros w s2 H. unfold write_way in H.
    apply bind_Ok in H. destruct H as ([i g] & _ & H).
    apply bind_Ok in H. destruct H as ([c s1] & Ha & [= <-]).
    apply apply_common_info_inv in Ha. by rewrite Ha. }
  assert (Hr : forall r s2, write_relation r s2 = Ok s' ->
                            m_file s' = m_file s2).
  { intros r s2 H. unfold write_relation in H.
    apply bind_Ok in H. destruct H as ([i g] & _ & H).
    apply bind_Ok in H. destruct H as ([c s1] & Ha & H).
    apply bind_Ok in H. destruct H as ([[[roles memids] tys] t2] & _ & [= <-]).
    apply apply_common_info_inv in Ha. by rewrite Ha. }
  destruct e as [n|w|r]; simpl.
  - unfold node_body. intros H.
    destruct (pbf_nodes s);
      (destruct (m_use_dense_format _);
       [apply Hd in H|apply Hn in H]; by rewrite H).
  - unfold way_body. intros H. apply Hw in H. rewrite H.
    by destruct (pbf_ways s).
  - unfold relation_body. intros H. apply Hr in H. rewrite H.
    by destruct (pbf_relations s).
Qed.

Lemma block_body_pointers_valid es s :
  block_body s0 es s -> pointers_valid s.
Proof.
  intros [_ _ _ _ [Gn Gw Gr _ _ _ _]] p i [-> | [-> | ->]] Hp.
  - rewrite Hp in Gn. destruct Gn as (g & Hg & _). by eapply lookup_lt_Some.
  - rewrite Hp in Gw. destruct Gw as (g & Hg & _). by eapply lookup_lt_Some.
  - rewrite Hp in Gr. destruct Gr as (g & Hg & _). by eapply lookup_lt_Some.
Qed.

Lemma block_start_pointers_valid s : block_start s -> pointers_valid s.
Proof.
  intros (_ & _ & Hn & Hw & Hr & _) p i [-> | [-> | ->]] Hp; congruence.
Qed.

(** One operation returns, and leaves the descriptor ready. *)
Lemma ingest_returns e cur s :
  block_state s0 cur s -> entity_encodable s0 e ->
  writes_complete s -> compression_works s0 ->
  exists s', ingest e s = Ok s' /\ writes_complete s'.
Proof.
  intros Hs He Hw Hz.
  pose proof (bb_config _ _ _ (bs_body _ _ _ Hs)) as Hc.
  rewrite ingest_unfold, check_block_contents_counter_unfold.
  destruct (flush_due s) eqn:Hd.
  - destruct (store_primitive_block_returns s0 _ _ Hs Hw) as (s1 & Hf & Hw1).
    { by eapply compression_works_config. }
    rewrite Hf, !bind_Ok_l.
    pose proof (block_start_flushed _ _ Hf) as Hb1.
    assert (Hc1 : same_config s0 s1).
    { destruct (store_primitive_block_shape _ _ Hf) as (? & ? & _ & -> & _).
      exact Hc. }
    set (s2 := set_primitive_block_contents _ s1).
    assert (Hok : is_ok (encode e s2)).
    { apply (encode_returns s0); [exact Hc1| |exact He].
      intros p i Hin Hp. by apply (block_start_pointers_valid s1 Hb1 p i). }
    apply is_ok_Ok in Hok. destruct Hok as [s' Hs'].
    exists s'. split; [exact Hs'|].
    unfold writes_complete.
    pose proof (encode_file _ _ _ Hs') as Hf'.
    rewrite Hf'. exact Hw1.
  - rewrite bind_Ok_l.
    set (s2 := set_primitive_block_contents _ s).
    assert (Hok : is_ok (encode e s2)).
    { apply (encode_returns s0); [exact Hc| |exact He].
      intros p i Hin Hp.
      by apply (block_body_pointers_valid _ _ (bs_body _ _ _ Hs) p i). }
    apply is_ok_Ok in Hok. destruct Hok as [s' Hs'].
    exists s'. split; [exact Hs'|].
    unfold writes_complete.
    pose proof (encode_file _ _ _ Hs') as Hf'.
    rewrite Hf'. exact Hw.
Qed.

Lemma ingest_all_returns es : forall cur s,
  block_state s0 cur s -> Forall (entity_encodable s0) es ->
  writes_complete s -> compression_works s0 ->
  exists s' cur',
    ingest_all es s = Ok s' /\ writes_complete s' /\ block_state s0 cur' s'.
Proof.
  induction es as [|e es IH]; intros cur s Hs He Hw Hz.
  - by exists s, cur.
  - apply Forall_cons in He. destruct He as [He Hes].
    destruct (ingest_returns e cur s Hs He Hw Hz) as (s1 & H1 & Hw1).
    cbn [ingest_all]. rewrite H1, bind_Ok_l.
    destruct (ingest_block_state s0 _ _ _ _ Hs H1)
      as [_ [[_ Hs1]|(b & _ & _ & Hs1)]]; by eapply IH.
Qed.

Lemma init_returns meta s :
  bounds_convertible meta -> writes_complete s -> compression_works s ->
  exists s', init meta s = Ok s' /\ writes_complete s'.
Proof.
  intros Hb Hw Hz. unfold init, store_header_block.
  assert (exists bbox,
            match OSM.bounds meta with
            | Some b =>
                l ← bbox_edge (OSM.bottom_left_lon b);
                bo ← bbox_edge (OSM.bottom_left_lat b);
                r ← bbox_edge (OSM.top_right_lon b);
                to ← bbox_edge (OSM.top_right_lat b);
                Ok (Some {| OSMPBF.left := l; OSMPBF.right := r;
                            OSMPBF.top := to; OSMPBF.bottom := bo |})
            | None => Ok (OSMPBF.bbox (pbf_header_block s))
            end = Ok bbox) as [bbox ->].
  { unfold bounds_convertible in Hb. destruct (OSM.bounds meta) as [b|]; [|eauto].
    destruct Hb as (H1 & H2 & H3 & H4).
    destruct (bbox_edge (OSM.bottom_left_lon b)); [|done].
    destruct (bbox_edge (OSM.bottom_left_lat b)); [|done].
    destruct (bbox_edge (OSM.top_right_lon b)); [|done].
    destruct (bbox_edge (OSM.top_right_lat b)); [|done].
    simpl. eauto. }
  rewrite bind_Ok_l.
  match goal with |- context [store_blob ?ty ?msg ?s1] =>
    destruct (store_blob_complete ty msg s1) as (f & -> & Hf & _);
      [exact Hw|exact Hz|] end.
  rewrite bind_Ok_l. eexists. split; [reflexivity|]. exact Hf.
Qed.

Lemma final_returns cur s :
  block_state s0 cur s -> writes_complete s -> compression_works s0 ->
  exists s', final s = Ok s'.
Proof.
  intros Hs Hw Hz. unfold final.
  destruct (0 <? primitive_block_contents s); [|by eexists].
  destruct (store_primitive_block_returns s0 _ _ Hs Hw) as (s1 & -> & _).
  { eapply compression_works_config; [|exact Hz].
    exact (bb_config _ _ _ (bs_body _ _ _ Hs)). }
  by eexists.
Qed.

(** A session returns when its bounding box, coordinates and timestamps
    convert, its relation members are of known kinds, every write is
    complete and zlib works. *)
Lemma session_returns meta es :
  block_start s0 -> writes_complete s0 -> compression_works s0 ->
  bounds_convertible meta -> Forall (entity_encodable s0) es ->
  exists s', session meta es s0 = Ok s'.
Proof.
  intros Hb Hw Hz Hm He. unfold session.
  destruct (init_returns meta s0 Hm Hw Hz) as (s1 & Hi & Hw1).
  rewrite Hi, bind_Ok_l.
  destruct (block_start_init _ _ _ Hi Hb) as [Hb1 Hc1].
  pose proof (block_state_start s0 _ Hb1 Hc1) as Hs1.
  destruct (ingest_all_returns es [] s1 Hs1 He Hw1 Hz)
    as (s2 & cur & Ha & Hw2 & Hs2).
  rewrite Ha, bind_Ok_l. by eapply final_returns.
Qed.

End SessionsReturn.

(** ** C9: the header block *)

(** C9. [init] puts "OsmSchema-V0.6" among the required features, "DenseNodes"
    exactly when the dense format is in use and "HistoricalInformation"
    exactly when the file is of the history variant, the one that carries
    several versions of an object; it names the writing program, and with
    complete writes it appends one frame to the file: the length of a
    BlobHeader in four bytes, the BlobHeader, of type "OSMHeader", and the
    Blob that holds the serialized header block, raw or deflated. [init]
    returns whenever the bounding box converts, every write is complete and
    zlib works. A session on a plain OSM file with the default
    configuration and no entity returns, has written that one frame and
    nothing else, with the features "OsmSchema-V0.6" and "DenseNodes", and
    has closed the file. *)
Theorem init_stores_header_block {PB : Protobuf} {ZL : Zlib} :
  (forall meta s s',
      pbf_header_block s = OSMPBF.HeaderBlock_init ->
      writes_complete s ->
      init meta s = Ok s' ->
      exists h blob,
        let data := Blob_SerializeToString blob in
        let blobhead :=
          BlobHeader_SerializeToString
            {| OSMPBF.blob_type := "OSMHeader";
               OSMPBF.datasize := Z.of_nat (length data) |} in
        In "OsmSchema-V0.6"%string (OSMPBF.required_features h)
        /\ (In "DenseNodes"%string (OSMPBF.required_features h)
            <-> m_use_dense_format s = true)
        /\ (In "HistoricalInformation"%string (OSMPBF.required_features h)
            <-> file_type (m_file s) = FileType_History)
        /\ OSMPBF.writingprogram h = Some (m_generator s)
        /\ OSMPBF.raw_size blob
           = Some (Z.of_nat (length (SerializeToString (OSMPBF.HeaderMessage h))))
        /\ (if m_use_compression s then
              OSMPBF.raw blob = None
              /\ exists out,
                   zlib_deflate (SerializeToString (OSMPBF.HeaderMessage h))
                   = deflated out
                   /\ OSMPBF.zlib_data blob = Some out
            else
              OSMPBF.raw blob = Some (SerializeToString (OSMPBF.HeaderMessage h))
              /\ OSMPBF.zlib_data blob = None)
        /\ fd_written (m_file s')
           = fd_written (m_file s)
             ++ htonl (Z.of_nat (length blobhead)) ++ blobhead ++ data
        /\ stored s' = stored s ++ [("OSMHeader"%string, OSMPBF.HeaderMessage h)])
  /\ (forall meta s,
        bounds_convertible meta -> writes_complete s -> compression_works s ->
        exists s', init meta s = Ok s')
  /\ (forall file generator,
        file_type file = FileType_OSM ->
        fd_pending file = [] ->
        (forall data, exists out, zlib_deflate data = deflated out) ->
        exists s' out,
          let h :=
            {| OSMPBF.bbox := None;
               OSMPBF.required_features :=
                 ["OsmSchema-V0.6"%string; "DenseNodes"%string];
               OSMPBF.optional_features := [];
               OSMPBF.writingprogram := Some generator |} in
          let data :=
            Blob_SerializeToString
              {| OSMPBF.raw := None;
                 OSMPBF.raw_size :=
                   Some (Z.of_nat
                           (length (SerializeToString (OSMPBF.HeaderMessage h))));
                 OSMPBF.zlib_data := Some out |} in
          let blobhead :=
            BlobHeader_SerializeToString
              {| OSMPBF.blob_type := "OSMHeader";
                 OSMPBF.datasize := Z.of_nat (length data) |} in
          session {| OSM.bounds := None |} [] (PBF_new file generator) = Ok s'
          /\ zlib_deflate (SerializeToString (OSMPBF.HeaderMessage h))
             = deflated out
          /\ fd_written (m_file s')
             = fd_written file
               ++ htonl (Z.of_nat (length blobhead)) ++ blobhead ++ data
          /\ stored s' = [("OSMHeader"%string, OSMPBF.HeaderMessage h)]
          /\ file_closed (m_file s') = true).
Proof.
  split; [|split].
  - intros meta s s' Hh Hw Hi. unfold init, store_header_block in Hi.
    rewrite Hh in Hi.
    apply bind_Ok in Hi. destruct Hi as (bbox & _ & Hi).
    apply bind_Ok in Hi. destruct Hi as (s1 & Hb & [= <-]).
    match type of Hb with
    | store_blob _ (OSMPBF.HeaderMessage ?h0) _ = _ => exists h0
    end.
    apply store_blob_written in Hb; [|exact Hw].
    destruct Hb as (blob & Hf & Hsz & Hc & _ & Hst & _).
    exists blob. cbn zeta in Hf |- *.
    split; [|split; [|split; [|split; [reflexivity|]]]].
    4: { split; [exact Hsz|]. split; [exact Hc|]. split; [exact Hf|exact Hst]. }
    all: cbn [OSMPBF.required_features OSMPBF.HeaderBlock_init app];
      destruct (m_use_dense_format s), (file_type (m_file s)); simpl;
      intuition (try discriminate; auto).
  - intros meta s Hb Hw Hz.
    destruct (init_returns meta s Hb Hw Hz) as (s' & Hs' & _). eauto.
  - intros file generator Hty Hp Hz. unfold session, init, store_header_block.
    simpl. rewrite Hty. simpl.
    match goal with |- context [store_blob ?ty ?msg ?s] =>
      destruct (store_blob_complete ty msg s) as (f & Hb & Hf & _ & Hc);
        [exact Hp | intros _; exact Hz |];
      pose proof (store_blob_written ty msg s _ Hp Hb)
        as (blob & Hwr & Hsz & (Hraw & out & Hout & Hzd) & _)
    end.
    rewrite Hb. cbn zeta in Hwr |- *.
    destruct blob as [raw rsz zd].
    cbn [OSMPBF.raw OSMPBF.raw_size OSMPBF.zlib_data] in Hraw, Hsz, Hzd.
    subst raw rsz zd.
    exists (set_m_file (OSMFile_close f)
              (set_pbf_header_block OSMPBF.HeaderBlock_init
                 (set_stored
                    [("OSMHeader"%string,
                      OSMPBF.HeaderMessage
                        {| OSMPBF.bbox := None;
                           OSMPBF.required_features :=
                             ["OsmSchema-V0.6"%string; "DenseNodes"%string];
                           OSMPBF.optional_features := [];
                           OSMPBF.writingprogram := Some generator |})]
                    (set_m_file f (PBF_new file generator))))), out.
    split; [reflexivity|]. split; [exact Hout|].
    split; [exact Hwr|]. split; reflexivity.
Qed.

(** The empty session of C9 on the sample file and libraries: the file
    holds the four bytes of the length 1, the one byte of the BlobHeader and
    the one byte of the Blob. *)
Lemma init_stores_header_block_sample :
  exists s' out,
    @session sample_protobuf sample_zlib {| OSM.bounds := None |} []
      (PBF_new sample_file "osmium") = Ok s'
    /\ @zlib_deflate sample_zlib [10] = deflated out
    /\ fd_written (m_file s') = [0; 0; 0; 1; 26; 18]
    /\ stored s'
       = [("OSMHeader"%string,
           OSMPBF.HeaderMessage
             {| OSMPBF.bbox := None;
                OSMPBF.required_features :=
                  ["OsmSchema-V0.6"%string; "DenseNodes"%string];
                OSMPBF.optional_features := [];
                OSMPBF.writingprogram := Some "osmium"%string |})]
    /\ file_closed (m_file s') = true.
Proof.
  apply (proj2 (proj2 (@init_stores_header_block sample_protobuf sample_zlib))
           sample_file "osmium"%string).
  - reflexivity.
  - reflexivity.
  - intros data. exists data. reflexivity.
Defined.

(** ** A session of one relation *)

Lemma single_chunk {A} (chunks : list (list A)) (e : A) :
  concat chunks = [e] -> Forall (fun c => c <> []) chunks -> chunks = [[e]].
Proof.
  intros Hc Hne. destruct chunks as [|c chunks]; [done|].
  apply Forall_cons in Hne. destruct Hne as [Hc0 Hne].
  destruct c as [|x c]; [done|]. simpl in Hc. injection Hc as -> Hc.
  apply app_eq_nil in Hc. destruct Hc as [-> Hc].
  destruct chunks as [|c' chunks]; [done|].
  apply Forall_cons in Hne. destruct Hne as [Hc' _].
  simpl in Hc. apply app_eq_nil in Hc. by destruct Hc as [-> _].
Qed.

(** The types of an encoded relation as [write_members] computes them. *)
Lemma relation_reads_types s0 R r x :
  relation_reads s0 R r x ->
  for_each member_type (OSM.type <$> OSM.members r) = Ok (OSMPBF.types x).
Proof.
  intros [_ _ _ _ Ht].
  induction Ht as [|m ty ms tys Hm _ IH]; [done|].
  cbn [fmap list_fmap for_each]. rewrite Hm, bind_Ok_l.
  fold (OSM.type <$> ms). by rewrite IH.
Qed.

Section OneRelation.
Context {PB : Protobuf} {ZL : Zlib}.

(** A session of one relation stores one block, which holds one relation
    that reads as the relation ingested. *)
Lemma single_relation_session meta r s0 :
  block_start s0 -> writes_complete s0 -> compression_works s0 ->
  bounds_convertible meta -> entity_encodable s0 (ERelation r) ->
  exists s' h b x,
    session meta [ERelation r] s0 = Ok s'
    /\ stored s'
       = stored s0
         ++ [("OSMHeader"%string, OSMPBF.HeaderMessage h);
             ("OSMData"%string, OSMPBF.PrimitiveMessage b)]
    /\ block_relations b = [x]
    /\ NoDup (OSMPBF.stringtable b)
    /\ OSMPBF.stringtable b !! 0%nat = Some EmptyString
    /\ relation_reads s0 (string_at (OSMPBF.stringtable b)) r x.
Proof.
  intros Hb Hw Hz Hm He.
  destruct (session_returns s0 meta [ERelation r] Hb Hw Hz Hm)
    as [s' Hs]; [by constructor|].
  destruct (session_blocks s0 meta _ _ Hb Hs)
    as (h & chunks & bs & Hst & Hcat & Hall & _).
  assert (Hch : chunks = [[ERelation r]]).
  { apply single_chunk; [done|].
    clear -Hall. induction Hall as [|c b cs bs Hr _ IH]; constructor;
      [exact (br_some _ _ _ Hr)|done]. }
  subst chunks. apply Forall2_cons_inv_l in Hall.
  destruct Hall as (b & bs' & Hr & Hnil & ->).
  apply Forall2_nil_inv_l in Hnil. subst bs'.
  pose proof (br_relations _ _ _ Hr) as Hrel. simpl in Hrel.
  apply Forall2_cons_inv_l in Hrel.
  destruct Hrel as (x & xs & Hx & Hnil & Ex).
  apply Forall2_nil_inv_l in Hnil. subst xs.
  destruct (br_strings _ _ _ Hr) as [Hnd H0].
  exists s', h, b, x. done.
Qed.

(** What [write_relation] appends to the group of the relations. *)
Lemma write_relation_appends r s s' :
  write_relation r s = Ok s' ->
  exists i g x,
    pbf_relations s = Some i
    /\ pbf_relations s' = Some i
    /\ OSMPBF.primitivegroup (pbf_primitive_block s) !! i = Some g
    /\ OSMPBF.primitivegroup (pbf_primitive_block s') !! i
       = Some {| OSMPBF.nodes := OSMPBF.nodes g; OSMPBF.dense := OSMPBF.dense g;
                 OSMPBF.ways := OSMPBF.ways g;
                 OSMPBF.relations := OSMPBF.relations g ++ [x] |}
    /\ for_each member_type (OSM.type <$> OSM.members r) = Ok (OSMPBF.types x)
    /\ OSMPBF.memids x
       = delta_encode to_int64 Delta_init (OSM.ref <$> OSM.members r).
Proof.
  unfold write_relation. intros H.
  apply bind_Ok in H. destruct H as ([i g] & Hg & H).
  apply group_at_inv in Hg. destruct Hg as [Hp Hg].
  apply bind_Ok in H. destruct H as ([c s1] & Ha & H).
  apply bind_Ok in H. destruct H as ([[[roles memids] tys] t2] & Hm & [= <-]).
  pose proof (apply_common_info_inv _ _ _ _ Ha) as E1.
  exists i, g. eexists. split; [exact Hp|].
  split; [simpl; rewrite E1; exact Hp|].
  split; [exact Hg|]. split.
  { simpl. rewrite E1. simpl. apply list_lookup_insert_eq.
    by eapply lookup_lt_Some. }
  simpl. split; [by eapply write_members_types|].
  clear -Hm. revert Hm. generalize (string_table s1), Delta_init.
  revert roles memids tys t2.
  induction (OSM.members r) as [|m ms IH]; intros roles memids tys t2 t d Hm.
  - simpl in Hm. by injection Hm as <- <- <- <-.
  - cbn [write_members] in Hm.
    destruct (record_string (OSM.role m) t) as [role t1].
    unfold Delta_update in Hm. cbn beta iota zeta in Hm.
    apply bind_Ok in Hm. destruct Hm as (ty & Hty & Hm).
    apply bind_Ok in Hm. destruct Hm as ([[[rs ids] tys'] t3] & Hrec & Hm).
    injection Hm as <- <- <- <-.
    cbn [fmap list_fmap delta_encode]. unfold Delta_update. cbn beta iota.
    f_equal. by eapply IH.
Qed.

End OneRelation.

(** ** C7: relation member kinds *)

(** C7. The switch on a member's kind tag maps 'n', 'w', 'r' to NODE, WAY,
    RELATION and throws "Unknown relation member type" on any other tag.
    Whenever the flush check at its start returns, the relations pointer is
    valid and the timestamp converts, [relation] on a relation whose members
    are of these three kinds returns, and the relation it has appended to
    the group of the relations carries the images of the members' tags, one
    per member and in their order; on a relation with a member of another
    kind it throws that exception, and it never returns on such a relation.
    A session of one relation with members of known kinds stores one block
    whose one relation carries these types. *)
Theorem relation_member_types {PB : Protobuf} {ZL : Zlib} :
  member_type "n" = Ok OSMPBF.NODE
  /\ member_type "w" = Ok OSMPBF.WAY
  /\ member_type "r" = Ok OSMPBF.RELATION
  /\ (forall c, ~ known_member_type c ->
        member_type c = Err (runtime_error "Unknown relation member type"))
  /\ (forall r s s1,
        Forall (fun m => known_member_type (OSM.type m)) (OSM.members r) ->
        check_block_contents_counter s = Ok s1 ->
        (forall i, pbf_relations s = Some i ->
           (i < length (OSMPBF.primitivegroup (pbf_primitive_block s)))%nat) ->
        (m_should_add_metadata s = true ->
           is_ok (timestamp2int s (OSM.timestamp (OSM.relation_object r)))) ->
        exists s' i g x,
          relation r s = Ok s'
          /\ pbf_relations s' = Some i
          /\ OSMPBF.primitivegroup (pbf_primitive_block s') !! i = Some g
          /\ List.last (OSMPBF.relations g) x = x
          /\ OSMPBF.relations g <> []
          /\ for_each member_type (OSM.type <$> OSM.members r)
             = Ok (OSMPBF.types x)
          /\ length (OSMPBF.types x) = length (OSM.members r))
  /\ (forall r s s1,
        Exists (fun m => ~ known_member_type (OSM.type m)) (OSM.members r) ->
        check_block_contents_counter s = Ok s1 ->
        (forall i, pbf_relations s = Some i ->
           (i < length (OSMPBF.primitivegroup (pbf_primitive_block s)))%nat) ->
        (m_should_add_metadata s = true ->
           is_ok (timestamp2int s (OSM.timestamp (OSM.relation_object r)))) ->
        relation r s = Err (runtime_error "Unknown relation member type"))
  /\ (forall r s,
        Exists (fun m => ~ known_member_type (OSM.type m)) (OSM.members r) ->
        forall s', relation r s <> Ok s')
  /\ (forall meta r s0,
        block_start s0 -> writes_complete s0 -> compression_works s0 ->
        bounds_convertible meta ->
        (m_should_add_metadata s0 = true ->
           is_ok (timestamp2int s0 (OSM.timestamp (OSM.relation_object r)))) ->
        Forall (fun m => known_member_type (OSM.type m)) (OSM.members r) ->
        exists s' h b x,
          session meta [ERelation r] s0 = Ok s'
          /\ stored s'
             = stored s0
               ++ [("OSMHeader"%string, OSMPBF.HeaderMessage h);
                   ("OSMData"%string, OSMPBF.PrimitiveMessage b)]
          /\ block_relations b = [x]
          /\ for_each member_type (OSM.type <$> OSM.members r)
             = Ok (OSMPBF.types x)).
Proof.
  split; [done|]. split; [done|]. split; [done|].
  split; [apply member_type_unknown|].
  split; [|split; [|split]].
  - intros r s s1 Hk Hc Hp Hts.
    assert (Hok : is_ok (relation r s)).
    { unfold relation. rewrite Hc, bind_Ok_l.
      assert (Hcfg : m_should_add_metadata s1 = m_should_add_metadata s
                     /\ m_date_granularity s1 = m_date_granularity s).
      { apply check_block_contents_counter_inv in Hc.
        destruct Hc as [[_ ->]|[_ (s' & Hs & ->)]]; [done|].
        apply store_primitive_block_shape in Hs.
        destruct Hs as (? & ? & _ & -> & _). done. }
      destruct Hcfg as [Hm1 Hd1].
      apply check_block_contents_counter_inv in Hc.
      destruct (pbf_relations s1) as [i|] eqn:Ei.
      - apply write_relation_returns; [| |exact Hk].
        + rewrite Ei. unfold group_at.
          destruct Hc as [[_ ->]|[_ (s' & Hs & ->)]].
          * simpl in *. specialize (Hp _ Ei).
            apply lookup_lt_is_Some_2 in Hp. by destruct Hp as [g ->].
          * apply store_primitive_block_shape in Hs.
            destruct Hs as (? & ? & _ & -> & _). done.
        + intros Hm. rewrite (timestamp2int_ext s1 s) by done.
          apply Hts. congruence.
      - apply write_relation_returns; [| |exact Hk].
        + unfold group_at. simpl.
          rewrite lookup_app_r, Nat.sub_diag by done. done.
        + intros Hm. simpl in Hm.
          rewrite (timestamp2int_ext _ s) by done. apply Hts. congruence. }
    apply is_ok_Ok in Hok. destruct Hok as [s' Hs'].
    pose proof Hs' as Hr. unfold relation in Hr. rewrite Hc, bind_Ok_l in Hr.
    apply write_relation_appends in Hr.
    destruct Hr as (i & g & x & _ & Hp' & _ & Hg' & Hty & _).
    exists s', i. eexists. exists x.
    split; [exact Hs'|]. split; [exact Hp'|]. split; [exact Hg'|].
    simpl. split; [by rewrite last_last|].
    split; [by destruct (OSMPBF.relations g)|]. split; [exact Hty|].
    apply for_each_length in Hty. by rewrite Hty, length_fmap.
  - intros r s s1 Hex Hc Hp Hts.
    by apply (relation_unknown_member_error r s s1).
  - intros r s Hex. by apply relation_unknown_member.
  - intros meta r s0 Hb Hw Hz Hm Hts Hk.
    destruct (single_relation_session meta r s0 Hb Hw Hz Hm)
      as (s' & h & b & x & Hs & Hst & Hx & _ & _ & Hr); [by split|].
    exists s', h, b, x. do 3 (split; [done|]).
    by eapply relation_reads_types.
Qed.

(** C7 on the relation of scenario S5, on the sample file and libraries:
    the members 'w', 'n', 'r' are stored as WAY, NODE, RELATION. *)
Lemma relation_member_types_sample :
  exists s' h b x,
    @session sample_protobuf sample_zlib {| OSM.bounds := None |}
      [ERelation turn_restriction] (PBF_new sample_file "osmium") = Ok s'
    /\ stored s'
       = [("OSMHeader"%string, OSMPBF.HeaderMessage h);
          ("OSMData"%string, OSMPBF.PrimitiveMessage b)]
    /\ block_relations b = [x]
    /\ Ok [OSMPBF.WAY; OSMPBF.NODE; OSMPBF.RELATION] = Ok (OSMPBF.types x).
Proof.
  apply (proj2 (proj2 (proj2 (proj2 (proj2 (proj2 (proj2
           (@relation_member_types sample_protobuf sample_zlib)))))))
           {| OSM.bounds := None |} turn_restriction
           (PBF_new sample_file "osmium")).
  - repeat split; reflexivity.
  - reflexivity.
  - intros _ data. exists data. reflexivity.
  - exact I.
  - intros _. vm_compute. exact I.
  - repeat constructor; unfold known_member_type; simpl; tauto.
Defined.

(** ** The relation of scenario S5 *)

Section TurnRestriction.
Context {PB : Protobuf} {ZL : Zlib}.





End TurnRestriction.

(** ** C6: empty relation roles *)



(** ** Sessions, block by block *)

(** A way and a relation for the sample sessions. *)
Definition sample_way : OSM.Way :=
  {| OSM.way_object :=
       {| OSM.id := 7; OSM.tags := [("highway"%string, "service"%string)];
          OSM.version := 2; OSM.timestamp := 1300000000; OSM.changeset := 11;
          OSM.uid := 5; OSM.user := "bob"; OSM.visible := true |};
     OSM.nodes := [100; 98; 105] |}.

Definition sample_relation : OSM.Relation :=
  {| OSM.relation_object :=
       {| OSM.id := 9; OSM.tags := [("type"%string, "route"%string)];
          OSM.version := 1; OSM.timestamp := 1300000001; OSM.changeset := 12;
          OSM.uid := 5; OSM.user := "bob"; OSM.visible := true |};
     OSM.members :=
       [{| OSM.type := "w"; OSM.ref := 7; OSM.role := "forward" |};
        {| OSM.type := "n"; OSM.ref := 42; OSM.role := "stop" |}] |}.

Definition sample_entities : list Entity :=
  [ENode cafe; EWay sample_way; ERelation sample_relation].

(** The sample session with sparse nodes, and with dense nodes. *)
Definition sparse_writer : PBF :=
  use_dense_format false (PBF_new sample_file "osmium").

Definition dense_writer : PBF := PBF_new sample_file "osmium".

Definition sample_final (s : PBF) : PBF :=
  from_ok s
    (@session sample_protobuf sample_zlib {| OSM.bounds := None |}
       sample_entities s).

Lemma sparse_writer_start : block_start sparse_writer.
Proof. by repeat split. Qed.

Lemma dense_writer_start : block_start dense_writer.
Proof. by repeat split. Qed.

Lemma sample_session_sparse :
  @session sample_protobuf sample_zlib {| OSM.bounds := None |}
    sample_entities sparse_writer
  = Ok (sample_final sparse_writer).
Proof. apply is_ok_from_ok. vm_compute. exact I. Qed.

Lemma sample_session_dense :
  @session sample_protobuf sample_zlib {| OSM.bounds := None |}
    sample_entities dense_writer
  = Ok (sample_final dense_writer).
Proof. apply is_ok_from_ok. vm_compute. exact I. Qed.

Global Opaque sample_final.

Lemma block_reads_counts {PB : Protobuf} {ZL : Zlib} s0 chunks bs :
  Forall2 (block_reads s0) chunks bs ->
  sum_list (block_entity_count <$> bs) = length (concat chunks).
Proof.
  induction 1 as [|chunk b chunks bs Hb _ IH]; [done|].
  rewrite fmap_cons. cbn [sum_list_with concat]. rewrite IH, length_app.
  unfold id. by rewrite (br_count _ _ _ Hb).
Qed.

(** X4. A session that returns has stored, after what the writer had stored
    before, the header block and then data blocks only. Every data block
    holds at least one and at most [max_block_contents] = 8000 entities
    (sparse nodes, rows of the dense columns, ways and relations); together
    the blocks hold as many entities as were passed in; no entity is left in
    the writer, and the file is closed. *)
Theorem session_blocks_bounded {PB : Protobuf} {ZL : Zlib} (meta : OSM.Meta) (es : list Entity) (s0 s' : PBF) :
  block_start s0 ->
  session meta es s0 = Ok s' ->
  exists h bs,
    stored s'
    = stored s0 ++ ("OSMHeader"%string, OSMPBF.HeaderMessage h) :: data_frames bs
    /\ Forall (fun b => (1 <= block_entity_count b)%nat
                        /\ Z.of_nat (block_entity_count b) <= 8000) bs
    /\ sum_list (block_entity_count <$> bs) = length es
    /\ block_entity_count (pbf_primitive_block s') = 0%nat
    /\ file_closed (m_file s') = true.
Proof.
  intros Hb Hs.
  destruct (session_blocks s0 _ _ _ Hb Hs)
    as (h & chunks & bs & Hst & Hcat & Hall & Hcl & Hempty).
  exists h, bs. split; [done|]. split; [|split; [|done]].
  - clear -Hall. induction Hall as [|chunk b chunks bs Hb _ IH]; constructor;
      [|done].
    rewrite (br_count _ _ _ Hb). pose proof (br_max _ _ _ Hb) as Hm.
    pose proof (br_some _ _ _ Hb). unfold max_block_contents in Hm.
    split; [destruct chunk; [done|simpl; lia]|done].
  - by rewrite (block_reads_counts _ _ _ Hall), Hcat.
Qed.

Lemma session_blocks_bounded_sample :
  exists h bs,
    stored (sample_final sparse_writer)
    = stored sparse_writer
      ++ ("OSMHeader"%string, OSMPBF.HeaderMessage h) :: data_frames bs
    /\ Forall (fun b => (1 <= block_entity_count b)%nat
                        /\ Z.of_nat (block_entity_count b) <= 8000) bs
    /\ sum_list (block_entity_count <$> bs) = length sample_entities
    /\ block_entity_count (pbf_primitive_block (sample_final sparse_writer))
       = 0%nat
    /\ file_closed (m_file (sample_final sparse_writer)) = true.
Proof.
  exact (@session_blocks_bounded sample_protobuf sample_zlib
           {| OSM.bounds := None |} sample_entities sparse_writer
           (sample_final sparse_writer) sparse_writer_start sample_session_sparse).
Defined.

(** X5. Every data block a session stores has at most three groups; each
    group holds objects of one kind only (sparse nodes, dense nodes, ways or
    relations) and at least one, and no two groups hold the same kind. The
    block carries the granularities the writer is configured with, and a
    string list without repetition whose entry 0 is the empty string. *)
Theorem session_blocks_grouped {PB : Protobuf} {ZL : Zlib} (meta : OSM.Meta) (es : list Entity) (s0 s' : PBF) :
  block_start s0 ->
  session meta es s0 = Ok s' ->
  exists h bs,
    stored s'
    = stored s0 ++ ("OSMHeader"%string, OSMPBF.HeaderMessage h) :: data_frames bs
    /\ Forall (fun b =>
                 block_shape b
                 /\ OSMPBF.granularity b = m_location_granularity s0
                 /\ OSMPBF.date_granularity b = m_date_granularity s0
                 /\ NoDup (OSMPBF.stringtable b)
                 /\ OSMPBF.stringtable b !! 0%nat = Some EmptyString) bs.
Proof.
  intros Hb Hs.
  destruct (session_blocks s0 _ _ _ Hb Hs)
    as (h & chunks & bs & Hst & _ & Hall & _).
  exists h, bs. split; [done|].
  clear -Hall. induction Hall as [|chunk b chunks bs Hb _ IH]; constructor;
    [|done].
  destruct (br_granularity _ _ _ Hb), (br_strings _ _ _ Hb).
  split; [exact (br_shape _ _ _ Hb)|done].
Qed.

Lemma session_blocks_grouped_sample :
  exists h bs,
    stored (sample_final sparse_writer)
    = stored sparse_writer
      ++ ("OSMHeader"%string, OSMPBF.HeaderMessage h) :: data_frames bs
    /\ Forall (fun b =>
                 block_shape b
                 /\ OSMPBF.granularity b = m_location_granularity sparse_writer
                 /\ OSMPBF.date_granularity b = m_date_granularity sparse_writer
                 /\ NoDup (OSMPBF.stringtable b)
                 /\ OSMPBF.stringtable b !! 0%nat = Some EmptyString) bs.
Proof.
  exact (@session_blocks_grouped sample_protobuf sample_zlib
           {| OSM.bounds := None |} sample_entities sparse_writer
           (sample_final sparse_writer) sparse_writer_start sample_session_sparse).
Defined.

(** X6. The ways of a session are found in the data blocks in the order
    they were passed in: the entities are cut into consecutive runs, one per
    stored block, and the ways of a block are the ways of its run. Each
    carries the id of its way; its refs, summed up from zero, are the node
    ids of the way; its keys and vals are the indices, in the string list of
    the block, of the keys and values of the tags; and it has an Info
    exactly when the writer adds metadata, with version, changeset and uid
    as given, the timestamp in units of the date granularity and user_sid
    the index of the user name. *)
Theorem session_ways_read_back {PB : Protobuf} {ZL : Zlib} (meta : OSM.Meta) (es : list Entity) (s0 s' : PBF) :
  block_start s0 ->
  session meta es s0 = Ok s' ->
  exists h chunks bs,
    stored s'
    = stored s0 ++ ("OSMHeader"%string, OSMPBF.HeaderMessage h) :: data_frames bs
    /\ concat chunks = es
    /\ Forall2 (fun chunk b =>
                  Forall2 (way_reads s0 (string_at (OSMPBF.stringtable b)))
                    (ways_of chunk) (block_ways b))
         chunks bs.
Proof.
  intros Hb Hs.
  destruct (session_blocks s0 _ _ _ Hb Hs)
    as (h & chunks & bs & Hst & Hcat & Hall & _).
  exists h, chunks, bs. split; [done|]. split; [done|].
  eapply Forall2_impl; [exact Hall|]. intros chunk b Hr.
  exact (br_ways _ _ _ Hr).
Qed.

Lemma session_ways_read_back_sample :
  exists h chunks bs,
    stored (sample_final sparse_writer)
    = stored sparse_writer
      ++ ("OSMHeader"%string, OSMPBF.HeaderMessage h) :: data_frames bs
    /\ concat chunks = sample_entities
    /\ Forall2 (fun chunk b =>
                  Forall2 (way_reads sparse_writer
                             (string_at (OSMPBF.stringtable b)))
                    (ways_of chunk) (block_ways b))
         chunks bs.
Proof.
  exact (@session_ways_read_back sample_protobuf sample_zlib
           {| OSM.bounds := None |} sample_entities sparse_writer
           (sample_final sparse_writer) sparse_writer_start sample_session_sparse).
Defined.

(** X7. The relations of a session are found in the data blocks in the
    order they were passed in, block by block as the entities were cut.
    Each carries the id, tags and Info as a way does; roles_sid, memids and
    types have one entry per member, in the order of the members: the index
    of the role in the string list of the block, the member ids as
    differences that sum up from zero to the ids, and NODE, WAY or RELATION
    for 'n', 'w' or 'r'. *)
Theorem session_relations_read_back {PB : Protobuf} {ZL : Zlib} (meta : OSM.Meta) (es : list Entity) (s0 s' : PBF) :
  block_start s0 ->
  session meta es s0 = Ok s' ->
  exists h chunks bs,
    stored s'
    = stored s0 ++ ("OSMHeader"%string, OSMPBF.HeaderMessage h) :: data_frames bs
    /\ concat chunks = es
    /\ Forall2 (fun chunk b =>
                  Forall2 (relation_reads s0 (string_at (OSMPBF.stringtable b)))
                    (relations_of chunk) (block_relations b))
         chunks bs.
Proof.
  intros Hb Hs.
  destruct (session_blocks s0 _ _ _ Hb Hs)
    as (h & chunks & bs & Hst & Hcat & Hall & _).
  exists h, chunks, bs. split; [done|]. split; [done|].
  eapply Forall2_impl; [exact Hall|]. intros chunk b Hr.
  exact (br_relations _ _ _ Hr).
Qed.

Lemma session_relations_read_back_sample :
  exists h chunks bs,
    stored (sample_final sparse_writer)
    = stored sparse_writer
      ++ ("OSMHeader"%string, OSMPBF.HeaderMessage h) :: data_frames bs
    /\ concat chunks = sample_entities
    /\ Forall2 (fun chunk b =>
                  Forall2 (relation_reads sparse_writer
                             (string_at (OSMPBF.stringtable b)))
                    (relations_of chunk) (block_relations b))
         chunks bs.
Proof.
  exact (@session_relations_read_back sample_protobuf sample_zlib
           {| OSM.bounds := None |} sample_entities sparse_writer
           (sample_final sparse_writer) sparse_writer_start sample_session_sparse).
Defined.

(** X8. With the dense format off, the nodes of a session are found as
    sparse nodes in the data blocks in the order they were passed in, block
    by block as the entities were cut, and no block has dense data. Each
    node carries id, tags and Info as a way does, and lon and lat as the
    coordinates scaled by [lonlat2int]. *)
Theorem session_sparse_nodes_read_back {PB : Protobuf} {ZL : Zlib} (meta : OSM.Meta) (es : list Entity) (s0 s' : PBF) :
  block_start s0 ->
  m_use_dense_format s0 = false ->
  session meta es s0 = Ok s' ->
  exists h chunks bs,
    stored s'
    = stored s0 ++ ("OSMHeader"%string, OSMPBF.HeaderMessage h) :: data_frames bs
    /\ concat chunks = es
    /\ Forall2 (fun chunk b =>
                  Forall2 (node_reads s0 (string_at (OSMPBF.stringtable b)))
                    (nodes_of chunk) (block_nodes b)
                  /\ block_dense b = [])
         chunks bs.
Proof.
  intros Hb Hdf Hs.
  destruct (session_blocks s0 _ _ _ Hb Hs)
    as (h & chunks & bs & Hst & Hcat & Hall & _).
  exists h, chunks, bs. split; [done|]. split; [done|].
  eapply Forall2_impl; [exact Hall|]. intros chunk b Hr.
  pose proof (br_nodes _ _ _ Hr) as Hn. rewrite Hdf in Hn. split; [done|].
  destruct (block_dense b) as [|d ds] eqn:Ed; [done|].
  destruct (br_dense _ _ _ Hr d) as [Ht _]; [rewrite Ed; left|].
  congruence.
Qed.

Lemma session_sparse_nodes_read_back_sample :
  exists h chunks bs,
    stored (sample_final sparse_writer)
    = stored sparse_writer
      ++ ("OSMHeader"%string, OSMPBF.HeaderMessage h) :: data_frames bs
    /\ concat chunks = sample_entities
    /\ Forall2 (fun chunk b =>
                  Forall2 (node_reads sparse_writer
                             (string_at (OSMPBF.stringtable b)))
                    (nodes_of chunk) (block_nodes b)
                  /\ block_dense b = [])
         chunks bs.
Proof.
  exact (@session_sparse_nodes_read_back sample_protobuf sample_zlib
           {| OSM.bounds := None |} sample_entities sparse_writer
           (sample_final sparse_writer) sparse_writer_start eq_refl sample_session_sparse).
Defined.

(** X9. With the dense format on, the nodes of a session are found in the
    dense data of the data blocks, block by block as the entities were cut:
    no block has sparse nodes, and a block whose run has a node has one
    DenseNodes. Its id column has one row per node of the run and sums up
    from zero to their ids. When the string list of the block has at most
    2^16 entries and no node of the run has a tag with an empty key or
    value, keys_vals is, node after node, the indices in the string list of
    the keys and values of the tags in turn, closed by a 0. *)
Theorem session_dense_tags_read_back {PB : Protobuf} {ZL : Zlib} (meta : OSM.Meta) (es : list Entity) (s0 s' : PBF) :
  block_start s0 ->
  m_use_dense_format s0 = true ->
  session meta es s0 = Ok s' ->
  exists h chunks bs,
    stored s'
    = stored s0 ++ ("OSMHeader"%string, OSMPBF.HeaderMessage h) :: data_frames bs
    /\ concat chunks = es
    /\ Forall2 (fun chunk b =>
                  block_nodes b = []
                  /\ (nodes_of chunk <> [] -> exists d, block_dense b = [d])
                  /\ forall d, d ∈ block_dense b ->
                       length (OSMPBF.dense_id d) = length (nodes_of chunk)
                       /\ undelta to_int64 0 (OSMPBF.dense_id d)
                          = (fun n => to_int64 (node_id n)) <$> nodes_of chunk
                       /\ (Z.of_nat (length (OSMPBF.stringtable b)) <= 2 ^ 16 ->
                           Forall (fun n => tag_strings_nonempty
                                              (OSM.tags (OSM.node_object n)))
                             (nodes_of chunk) ->
                           dense_tags_read (string_at (OSMPBF.stringtable b))
                             (nodes_of chunk) (OSMPBF.keys_vals d)))
         chunks bs.
Proof.
  intros Hb Hdf Hs.
  destruct (session_blocks s0 _ _ _ Hb Hs)
    as (h & chunks & bs & Hst & Hcat & Hall & _).
  exists h, chunks, bs. split; [done|]. split; [done|].
  eapply Forall2_impl; [exact Hall|]. intros chunk b Hr.
  pose proof (br_nodes _ _ _ Hr) as Hn. rewrite Hdf in Hn.
  apply Forall2_nil_inv_l in Hn. split; [done|].
  split; [exact (br_dense_one _ _ _ Hr Hdf)|].
  intros d Hd. destruct (br_dense _ _ _ Hr d Hd) as (_ & Hl & Ht & Hrb).
  split; [done|]. split; [exact (rb_id _ _ _ _ Hrb)|exact Ht].
Qed.

Lemma session_dense_tags_read_back_sample :
  exists h chunks bs,
    stored (sample_final dense_writer)
    = stored dense_writer
      ++ ("OSMHeader"%string, OSMPBF.HeaderMessage h) :: data_frames bs
    /\ concat chunks = sample_entities
    /\ Forall2 (fun chunk b =>
                  block_nodes b = []
                  /\ (nodes_of chunk <> [] -> exists d, block_dense b = [d])
                  /\ forall d, d ∈ block_dense b ->
                       length (OSMPBF.dense_id d) = length (nodes_of chunk)
                       /\ undelta to_int64 0 (OSMPBF.dense_id d)
                          = (fun n => to_int64 (node_id n)) <$> nodes_of chunk
                       /\ (Z.of_nat (length (OSMPBF.stringtable b)) <= 2 ^ 16 ->
                           Forall (fun n => tag_strings_nonempty
                                              (OSM.tags (OSM.node_object n)))
                             (nodes_of chunk) ->
                           dense_tags_read (string_at (OSMPBF.stringtable b))
                             (nodes_of chunk) (OSMPBF.keys_vals d)))
         chunks bs.
Proof.
  exact (@session_dense_tags_read_back sample_protobuf sample_zlib
           {| OSM.bounds := None |} sample_entities dense_writer
           (sample_final dense_writer) dense_writer_start eq_refl sample_session_dense).
Defined.

(** ** Sessions that return *)

(** X3. A session returns, and has closed the file, whenever the writer
    starts between two blocks, every write(2) is complete, zlib works if the
    writer compresses, the bounding box, the coordinates of the nodes and
    the timestamps convert to int64_t, and every relation member is a node,
    a way or a relation. Empty strings (tag keys and values, user names,
    roles) do not make it fail. *)
Theorem session_completes {PB : Protobuf} {ZL : Zlib} (meta : OSM.Meta) (es : list Entity) (s0 : PBF) :
  block_start s0 -> writes_complete s0 -> compression_works s0 ->
  bounds_convertible meta -> Forall (entity_encodable s0) es ->
  exists s', session meta es s0 = Ok s' /\ file_closed (m_file s') = true.
Proof.
  intros Hb Hw Hz Hm He.
  destruct (session_returns s0 meta es Hb Hw Hz Hm He) as [s' Hs].
  exists s'. split; [exact Hs|].
  by destruct (session_blocks s0 _ _ _ Hb Hs) as (? & ? & ? & _ & _ & _ & ? & _).
Qed.

(** A node with an empty tag value and no user name, a way and a relation
    with an empty role. *)
Definition sparse_entities : list Entity :=
  [ENode unnamed_place; EWay sample_way; ERelation turn_restriction].

Lemma session_completes_sample :
  exists s',
    @session sample_protobuf sample_zlib {| OSM.bounds := None |}
      sparse_entities sparse_writer = Ok s'
    /\ file_closed (m_file s') = true.
Proof.
  apply (@session_completes sample_protobuf sample_zlib).
  - exact sparse_writer_start.
  - reflexivity.
  - intros _ data. exists data. reflexivity.
  - exact I.
  - repeat constructor; try (intros _); try (vm_compute; exact I);
      unfold known_member_type; simpl; tauto.
Defined.

(** ** The dense columns, session by session *)

(** Final ids below 2^16 pass the narrowing unchanged. *)
Lemma small_table_finals strings (ns : list OSM.Node) finals :
  Z.of_nat (length strings) <= 2 ^ 16 ->
  Forall2 (fun n f => 0 <= f /\ strings !! Z.to_nat f = Some (node_user n))
    ns finals ->
  to_uint16 <$> finals = finals.
Proof.
  intros Hlen Hfin. induction Hfin as [|n f ns fs [Hf Hs] _ IH]; [done|].
  cbn [fmap list_fmap]. fold (to_uint16 <$> fs). rewrite IH. f_equal.
  apply lookup_lt_Some in Hs. apply to_uint16_id. lia.
Qed.

(** X10. With the dense format on, every column of the dense data of a
    stored block reads, by a running sum from zero, as the values of the
    nodes of the block's run, in their order: the id column as the ids (its
    first entry is the first id itself), lat and lon as the coordinates
    scaled by [lonlat2int], and under DenseInfo, which is there when the
    writer adds metadata, timestamp, changeset and uid as the scaled
    timestamps, the changesets and the uids. The user_sid column sums up to
    the indices of the user names in the string list of the block, each
    taken modulo 2^16: to the indices themselves when the string list has at
    most 2^16 entries. *)
Theorem session_dense_columns_read_back {PB : Protobuf} {ZL : Zlib} (meta : OSM.Meta) (es : list Entity) (s0 s' : PBF) :
  block_start s0 ->
  session meta es s0 = Ok s' ->
  exists h chunks bs,
    stored s'
    = stored s0 ++ ("OSMHeader"%string, OSMPBF.HeaderMessage h) :: data_frames bs
    /\ concat chunks = es
    /\ Forall2 (fun chunk b =>
                  forall d, d ∈ block_dense b ->
                    undelta to_int64 0 (OSMPBF.dense_id d)
                    = (fun n => to_int64 (node_id n)) <$> nodes_of chunk
                    /\ head (OSMPBF.dense_id d)
                       = (fun n => to_int64 (node_id n)) <$> head (nodes_of chunk)
                    /\ for_each (lonlat2int s0) (OSM.lat <$> nodes_of chunk)
                       = Ok (undelta to_int64 0 (OSMPBF.dense_lat d))
                    /\ for_each (lonlat2int s0) (OSM.lon <$> nodes_of chunk)
                       = Ok (undelta to_int64 0 (OSMPBF.dense_lon d))
                    /\ (m_should_add_metadata s0 = true ->
                        nodes_of chunk <> [] ->
                        is_Some (OSMPBF.denseinfo d))
                    /\ forall di,
                         OSMPBF.denseinfo d = Some di ->
                         for_each (timestamp2int s0)
                           (node_timestamp <$> nodes_of chunk)
                         = Ok (undelta to_int64 0 (OSMPBF.di_timestamp di))
                         /\ undelta to_int64 0 (OSMPBF.di_changeset di)
                            = (fun n => to_int64 (node_changeset n))
                                <$> nodes_of chunk
                         /\ undelta to_int64 0 (OSMPBF.di_uid di)
                            = (fun n => to_int64 (node_uid n)) <$> nodes_of chunk
                         /\ exists finals,
                              Forall2
                                (fun n f =>
                                   string_at (OSMPBF.stringtable b)
                                     (node_user n) f)
                                (nodes_of chunk) finals
                              /\ undelta to_int32 0 (OSMPBF.di_user_sid di)
                                 = to_uint16 <$> finals
                              /\ (Z.of_nat (length (OSMPBF.stringtable b))
                                  <= 2 ^ 16 ->
                                  undelta to_int32 0 (OSMPBF.di_user_sid di)
                                  = finals))
         chunks bs.
Proof.
  intros Hb Hs.
  destruct (session_blocks s0 _ _ _ Hb Hs)
    as (h & chunks & bs & Hst & Hcat & Hall & _).
  exists h, chunks, bs. split; [done|]. split; [done|].
  eapply Forall2_impl; [exact Hall|]. intros chunk b Hr d Hd.
  destruct (br_dense _ _ _ Hr d Hd) as (_ & Hl & _ & [Rid Rf Rlat Rlon Rhas Rinfo]).
  do 4 (split; [done|]). split; [exact Rhas|].
  intros di Hdi.
  destruct (Rinfo di Hdi) as (Rts & Rcs & Ruid & finals & Rus & Rfin).
  do 3 (split; [done|]). exists finals. split; [exact Rfin|].
  assert (Hsum : undelta to_int32 0 (OSMPBF.di_user_sid di) = to_uint16 <$> finals).
  { rewrite Rus. by apply (undelta_user_sid finals Delta_init). }
  split; [exact Hsum|]. intros Hlen. rewrite Hsum.
  by eapply small_table_finals.
Qed.

Lemma session_dense_columns_read_back_sample :
  exists h chunks bs,
    stored (sample_final dense_writer)
    = stored dense_writer
      ++ ("OSMHeader"%string, OSMPBF.HeaderMessage h) :: data_frames bs
    /\ concat chunks = sample_entities
    /\ Forall2 (fun chunk b =>
                  forall d, d ∈ block_dense b ->
                    undelta to_int64 0 (OSMPBF.dense_id d)
                    = (fun n => to_int64 (node_id n)) <$> nodes_of chunk
                    /\ head (OSMPBF.dense_id d)
                       = (fun n => to_int64 (node_id n)) <$> head (nodes_of chunk)
                    /\ for_each (lonlat2int dense_writer)
                         (OSM.lat <$> nodes_of chunk)
                       = Ok (undelta to_int64 0 (OSMPBF.dense_lat d))
                    /\ for_each (lonlat2int dense_writer)
                         (OSM.lon <$> nodes_of chunk)
                       = Ok (undelta to_int64 0 (OSMPBF.dense_lon d))
                    /\ (m_should_add_metadata dense_writer = true ->
                        nodes_of chunk <> [] ->
                        is_Some (OSMPBF.denseinfo d))
                    /\ forall di,
                         OSMPBF.denseinfo d = Some di ->
                         for_each (timestamp2int dense_writer)
                           (node_timestamp <$> nodes_of chunk)
                         = Ok (undelta to_int64 0 (OSMPBF.di_timestamp di))
                         /\ undelta to_int64 0 (OSMPBF.di_changeset di)
                            = (fun n => to_int64 (node_changeset n))
                                <$> nodes_of chunk
                         /\ undelta to_int64 0 (OSMPBF.di_uid di)
                            = (fun n => to_int64 (node_uid n)) <$> nodes_of chunk
                         /\ exists finals,
                              Forall2
                                (fun n f =>
                                   string_at (OSMPBF.stringtable b)
                                     (node_user n) f)
                                (nodes_of chunk) finals
                              /\ undelta to_int32 0 (OSMPBF.di_user_sid di)
                                 = to_uint16 <$> finals
                              /\ (Z.of_nat (length (OSMPBF.stringtable b))
                                  <= 2 ^ 16 ->
                                  undelta to_int32 0 (OSMPBF.di_user_sid di)
                                  = finals))
         chunks bs.
Proof.
  exact (@session_dense_columns_read_back sample_protobuf sample_zlib
           {| OSM.bounds := None |} sample_entities dense_writer
           (sample_final dense_writer) dense_writer_start sample_session_dense).
Defined.

(** X11. In the dense data of a stored block, two successive nodes with the
    same user name give the entry 0 in the user_sid column, whatever ids the
    name had while the block was filled. *)
Theorem session_same_user_entry_0 {PB : Protobuf} {ZL : Zlib} (meta : OSM.Meta) (es : list Entity) (s0 s' : PBF) :
  block_start s0 ->
  session meta es s0 = Ok s' ->
  exists h chunks bs,
    stored s'
    = stored s0 ++ ("OSMHeader"%string, OSMPBF.HeaderMessage h) :: data_frames bs
    /\ concat chunks = es
    /\ Forall2 (fun chunk b =>
                  forall d di k n1 n2,
                    d ∈ block_dense b -> OSMPBF.denseinfo d = Some di ->
                    nodes_of chunk !! k = Some n1 ->
                    nodes_of chunk !! S k = Some n2 ->
                    node_user n1 = node_user n2 ->
                    OSMPBF.di_user_sid di !! S k = Some 0)
         chunks bs.
Proof.
  intros Hb Hs.
  destruct (session_blocks s0 _ _ _ Hb Hs)
    as (h & chunks & bs & Hst & Hcat & Hall & _).
  exists h, chunks, bs. split; [done|]. split; [done|].
  eapply Forall2_impl; [exact Hall|].
  intros chunk b Hr d di k n1 n2 Hd Hdi H1 H2 Hu.
  destruct (br_dense _ _ _ Hr d Hd) as (_ & _ & _ & Rb).
  destruct (rb_info _ _ _ _ Rb di Hdi) as (_ & _ & _ & finals & Hus & Hfin).
  destruct (br_strings _ _ _ Hr) as [Hnd _].
  rewrite Hus. by eapply same_user_delta_0.
Qed.

(** Two dense nodes of the same user. *)
Definition same_user_entities : list Entity :=
  [ENode (plain_node 1); ENode (plain_node 2)].

Definition same_user_final : PBF :=
  from_ok dense_writer
    (@session sample_protobuf sample_zlib {| OSM.bounds := None |}
       same_user_entities dense_writer).

Lemma same_user_session :
  @session sample_protobuf sample_zlib {| OSM.bounds := None |}
    same_user_entities dense_writer
  = Ok same_user_final.
Proof. apply is_ok_from_ok. vm_compute. exact I. Qed.

Global Opaque same_user_final.

Lemma session_same_user_entry_0_sample :
  exists h chunks bs,
    stored same_user_final
    = stored dense_writer
      ++ ("OSMHeader"%string, OSMPBF.HeaderMessage h) :: data_frames bs
    /\ concat chunks = same_user_entities
    /\ Forall2 (fun chunk b =>
                  forall d di k n1 n2,
                    d ∈ block_dense b -> OSMPBF.denseinfo d = Some di ->
                    nodes_of chunk !! k = Some n1 ->
                    nodes_of chunk !! S k = Some n2 ->
                    node_user n1 = node_user n2 ->
                    OSMPBF.di_user_sid di !! S k = Some 0)
         chunks bs.
Proof.
  exact (@session_same_user_entry_0 sample_protobuf sample_zlib
           {| OSM.bounds := None |} same_user_entities dense_writer
           same_user_final dense_writer_start same_user_session).
Defined.

(** ** The file of a session *)

Section FileFrames.
Context {PB : Protobuf} {ZL : Zlib}.

(** The bytes of one frame: the length of the BlobHeader as [htonl] lays it
    out, the BlobHeader, which names the type and the length of the Blob,
    and the Blob. *)
Definition frame_bytes (type : string) (blob : OSMPBF.Blob) : list Z :=
  let data := Blob_SerializeToString blob in
  let blobhead :=
    BlobHeader_SerializeToString
      {| OSMPBF.blob_type := type;
         OSMPBF.datasize := Z.of_nat (length data) |} in
  htonl (Z.of_nat (length blobhead)) ++ blobhead ++ data.

(** The Blob of a message: its serialization, raw or deflated, and the
    length of the serialization. *)
Definition blob_holds (compress : bool) (msg : OSMPBF.Message) (blob : OSMPBF.Blob) : Prop :=
  OSMPBF.raw_size blob = Some (Z.of_nat (length (SerializeToString msg)))
  /\ if compress then
       OSMPBF.raw blob = None
       /\ exists out,
            zlib_deflate (SerializeToString msg) = deflated out
            /\ OSMPBF.zlib_data blob = Some out
     else
       OSMPBF.raw blob = Some (SerializeToString msg)
       /\ OSMPBF.zlib_data blob = None.

(** [bytes] is one frame after the other for the messages [l]. *)
Inductive framed (compress : bool) : list (string * OSMPBF.Message) -> list Z -> Prop :=
  | framed_nil : framed compress [] []
  | framed_snoc l bytes type msg blob :
      framed compress l bytes ->
      blob_holds compress msg blob ->
      framed compress (l ++ [(type, msg)]) (bytes ++ frame_bytes type blob).

Variable s0 : PBF.

(** What was stored and written since [s0], with every write complete. *)
Definition logged (s : PBF) : Prop :=
  writes_complete s
  /\ m_use_compression s = m_use_compression s0
  /\ exists l bytes,
       stored s = stored s0 ++ l
       /\ fd_written (m_file s) = fd_written (m_file s0) ++ bytes
       /\ framed (m_use_compression s0) l bytes.

Lemma logged_ext s s' :
  logged s -> m_file s' = m_file s -> stored s' = stored s ->
  m_use_compression s' = m_use_compression s -> logged s'.
Proof.
  intros (Hw & Hc & l & bytes & Hst & Hf & Hfr) Ef Es Ec.
  unfold logged, writes_complete in *. rewrite Ef, Es, Ec. eauto 10.
Qed.

Lemma store_blob_logged type msg s s' :
  logged s -> store_blob type msg s = Ok s' -> logged s'.
Proof.
  intros (Hw & Hc & l & bytes & Hst & Hf & Hfr) Hs.
  pose proof (store_blob_inv _ _ _ _ Hs) as (f & E & _).
  destruct (store_blob_written _ _ _ _ Hw Hs)
    as (blob & Hwr & Hsz & Hcz & Hw' & Hst' & _).
  cbn zeta in Hwr. split; [exact Hw'|]. split.
  { rewrite E. exact Hc. }
  exists (l ++ [(type, msg)]), (bytes ++ frame_bytes type blob).
  split; [by rewrite Hst', Hst, app_assoc|]. split.
  { rewrite Hwr, Hf, <- app_assoc. done. }
  constructor; [exact Hfr|]. split; [exact Hsz|]. by rewrite <- Hc.
Qed.

Lemma store_primitive_block_logged s s' :
  logged s -> store_primitive_block s = Ok s' -> logged s'.
Proof.
  intros Hl Hs. unfold store_primitive_block in Hs.
  apply bind_Ok in Hs. destruct Hs as (s1 & Hm & Hs).
  apply bind_Ok in Hs. destruct Hs as (s2 & Hb & [= <-]).
  pose proof (map_string_ids_frame _ _ Hm) as E.
  assert (Hl1 : logged s1).
  { apply (logged_ext s); [exact Hl| | |]; rewrite E;
      unfold prepare_primitive_block;
      by destruct (store_stringtable (string_table s)). }
  pose proof (store_blob_logged _ _ _ _ Hl1 Hb) as Hl2.
  by apply (logged_ext s2).
Qed.

Lemma encode_compression e s s' :
  encode e s = Ok s' -> m_use_compression s' = m_use_compression s.
Proof.
  assert (Hn : forall n s2, write_node n s2 = Ok s' ->
                            m_use_compression s' = m_use_compression s2).
  { intros n s2 H. unfold write_node in H.
    apply bind_Ok in H. destruct H as ([i g] & _ & H).
    apply bind_Ok in H. destruct H as ([c s1] & Ha & H).
    apply bind_Ok in H. destruct H as (lon & _ & H).
    apply bind_Ok in H. destruct H as (lat & _ & [= <-]).
    apply apply_common_info_inv in Ha. by rewrite Ha. }
  assert (Hd : forall n s2, write_dense_node n s2 = Ok s' ->
                            m_use_compression s' = m_use_compression s2).
  { intros n s2 H. unfold write_dense_node in H.
    apply bind_Ok in H. destruct H as ([i g] & _ & H).
    unfold Delta_update in H. cbn beta iota zeta in H.
    apply bind_Ok in H. destruct H as (lon & _ & H). cbn beta iota zeta in H.
    apply bind_Ok in H. destruct H as (lat & _ & H). cbn beta iota zeta in H.
    destruct (record_keys_vals _ _) as [kv t]. cbn beta iota zeta in H.
    apply bind_Ok in H. destruct H as ([di s3] & Hdi & [= <-]).
    destruct (m_should_add_metadata s2).
    - apply bind_Ok in Hdi. destruct Hdi as (ts & _ & Hdi).
      cbn beta iota zeta in Hdi. destruct (record_string _ _).
      by injection Hdi as <- <-.
    - by injection Hdi as <- <-. }
  assert (Hw : forall w s2, write_way w s2 = Ok s' ->
                            m_use_compression s' = m_use_compression s2).
  { intros w s2 H. unfold write_way in H.
    apply bind_Ok in H. destruct H as ([i g] & _ & H).
    apply bind_Ok in H. destruct H as ([c s1] & Ha & [= <-]).
    apply apply_common_info_inv in Ha. by rewrite Ha. }
  assert (Hr : forall r s2, write_relation r s2 = Ok s' ->
                            m_use_compression s' = m_use_compression s2).
  { intros r s2 H. unfold write_relation in H.
    apply bind_Ok in H. destruct H as ([i g] & _ & H).
    apply bind_Ok in H. destruct H as ([c s1] & Ha & H).
    apply bind_Ok in H. destruct H as ([[[roles memids] tys] t2] & _ & [= <-]).
    apply apply_common_info_inv in Ha. by rewrite Ha. }
  destruct e as [n|w|r]; simpl.
  - unfold node_body. intros H.
    destruct (pbf_nodes s);
      (destruct (m_use_dense_format _);
       [apply Hd in H|apply Hn in H]; by rewrite H).
  - unfold way_body. intros H. apply Hw in H. rewrite H.
    by destruct (pbf_ways s).
  - unfold relation_body. intros H. apply Hr in H. rewrite H.
    by destruct (pbf_relations s).
Qed.

Lemma ingest_logged e s s' : logged s -> ingest e s = Ok s' -> logged s'.
Proof.
  intros Hl Hi. rewrite ingest_unfold in Hi.
  apply bind_Ok in Hi. destruct Hi as (s1 & Hc & He).
  assert (Hl1 : logged s1).
  { apply check_block_contents_counter_inv in Hc.
    destruct Hc as [[_ ->]|[_ (s2 & Hf & ->)]].
    - by apply (logged_ext s).
    - apply (logged_ext s2); [|done|done|done].
      by eapply store_primitive_block_logged. }
  apply (logged_ext s1); [exact Hl1| | |].
  - by eapply encode_file.
  - by eapply encode_stored.
  - by eapply encode_compression.
Qed.

Lemma ingest_all_logged es : forall s s',
  logged s -> ingest_all es s = Ok s' -> logged s'.
Proof.
  induction es as [|e es IH]; intros s s' Hl Hi; simpl in Hi.
  - by injection Hi as <-.
  - apply bind_Ok in Hi. destruct Hi as (s1 & H1 & H2).
    eapply IH; [|exact H2]. by eapply ingest_logged.
Qed.

End FileFrames.

(** X12. With every write(2) complete, what a session has appended to the
    file is one frame for every message it has stored, in the order they
    were stored: four bytes with the length of the BlobHeader in network
    byte order, the BlobHeader, which names the type ("OSMHeader" or
    "OSMData") and the length of the Blob, and the Blob, which holds the
    length of the serialized message and the message itself, raw when the
    writer does not compress and deflated when it does. *)
Theorem session_file_frames {PB : Protobuf} {ZL : Zlib} (meta : OSM.Meta) (es : list Entity) (s0 s' : PBF) :
  writes_complete s0 ->
  session meta es s0 = Ok s' ->
  exists l bytes,
    stored s' = stored s0 ++ l
    /\ fd_written (m_file s') = fd_written (m_file s0) ++ bytes
    /\ framed (m_use_compression s0) l bytes.
Proof.
  intros Hw Hs. unfold session in Hs.
  apply bind_Ok in Hs. destruct Hs as (s1 & Hi & Hs).
  apply bind_Ok in Hs. destruct Hs as (s2 & Ha & Hf).
  assert (H0 : logged s0 s0).
  { split; [exact Hw|]. split; [done|]. exists [], [].
    rewrite !app_nil_r. repeat split. constructor. }
  assert (H1 : logged s0 s1).
  { unfold init, store_header_block in Hi.
    apply bind_Ok in Hi. destruct Hi as (bbox & _ & Hi).
    apply bind_Ok in Hi. destruct Hi as (sx & Hx & [= <-]).
    apply (logged_ext s0 sx); [|done|done|done].
    eapply store_blob_logged; [|exact Hx].
    by apply (logged_ext s0 s0). }
  pose proof (ingest_all_logged s0 es _ _ H1 Ha) as H2.
  unfold final in Hf. apply bind_Ok in Hf. destruct Hf as (s3 & Hfl & [= <-]).
  assert (H3 : logged s0 s3).
  { destruct (0 <? primitive_block_contents s2).
    - by eapply store_primitive_block_logged.
    - by injection Hfl as <-. }
  destruct H3 as (_ & _ & l & bytes & Hst & Hfw & Hfr).
  by exists l, bytes.
Qed.

Lemma session_file_frames_sample :
  exists l bytes,
    stored (sample_final sparse_writer) = stored sparse_writer ++ l
    /\ fd_written (m_file (sample_final sparse_writer))
       = fd_written (m_file sparse_writer) ++ bytes
    /\ @framed sample_protobuf sample_zlib (m_use_compression sparse_writer)
         l bytes.
Proof.
  exact (@session_file_frames sample_protobuf sample_zlib
           {| OSM.bounds := None |} sample_entities sparse_writer
           (sample_final sparse_writer) eq_refl sample_session_sparse).
Defined.
